(** * WSA Terminal: a shallow embedding of the shell core

    The development follows the two front ends of the repository:
    [AmigaTerminal] (src/wsa.py, the web terminal) and [WSAConsoleTerminal]
    (src/wsa_console.py, the console terminal).  Python objects become
    records, dictionaries become insertion-ordered association lists,
    methods become computations in a small state-and-exception monad, and
    the host operating system (platform name, [os.path], [os.listdir], the
    clock) is a record of oracles passed to every method.

    Python [str] values are modelled by [string]; character classes
    (whitespace, letter case) are the ASCII ones, characters above 127 are
    neither whitespace nor cased. *)

From Stdlib Require Import String Ascii List Arith Bool Lia DecimalString.
From Stdlib Require Import Sorted Permutation.
Import ListNotations.
Open Scope list_scope.
Open Scope string_scope.

(** ** Python strings *)

Module PyStr.

Definition is_empty (s : string) : bool :=
  match s with EmptyString => true | String _ _ => false end.

(** [bool(s)] : a string is truthy when it is not empty. *)
Definition truthy (s : string) : bool := negb (is_empty s).

(** [str.isspace] on one ASCII character. *)
Definition is_space (c : ascii) : bool :=
  let n := nat_of_ascii c in
  ((9 <=? n)%nat && (n <=? 13)%nat) || ((28 <=? n)%nat && (n <=? 32)%nat).

Definition upper_char (c : ascii) : ascii :=
  let n := nat_of_ascii c in
  if (97 <=? n)%nat && (n <=? 122)%nat then ascii_of_nat (n - 32) else c.

Definition lower_char (c : ascii) : ascii :=
  let n := nat_of_ascii c in
  if (65 <=? n)%nat && (n <=? 90)%nat then ascii_of_nat (n + 32) else c.

Fixpoint map_chars (f : ascii -> ascii) (s : string) : string :=
  match s with
  | EmptyString => EmptyString
  | String c s' => String (f c) (map_chars f s')
  end.

Definition upper : string -> string := map_chars upper_char.
Definition lower : string -> string := map_chars lower_char.

(** [s.startswith(p)] *)
Definition startswith (p s : string) : bool := String.prefix p s.

(** [s.endswith(p)] *)
Fixpoint endswith (p s : string) : bool :=
  String.eqb s p ||
  match s with
  | EmptyString => false
  | String _ s' => endswith p s'
  end.

(** [p in s] for strings. *)
Fixpoint contains (p s : string) : bool :=
  String.prefix p s ||
  match s with
  | EmptyString => false
  | String _ s' => contains p s'
  end.

(** [s[n:]] *)
Fixpoint drop (n : nat) (s : string) : string :=
  match n, s with
  | O, _ => s
  | S n', String _ s' => drop n' s'
  | S _, EmptyString => EmptyString
  end.

(** [s.split(sep)] for a one-character separator, and its generalisation
    to a class of separator characters. *)
Fixpoint split_by (sep : ascii -> bool) (s : string) : list string :=
  match s with
  | EmptyString => [EmptyString]
  | String c s' =>
      if sep c then EmptyString :: split_by sep s'
      else match split_by sep s' with
           | h :: t => String c h :: t
           | [] => [String c EmptyString]
           end
  end.

Definition split (sep : ascii) (s : string) : list string :=
  split_by (Ascii.eqb sep) s.

(** [s.split()] : split on runs of whitespace, no empty fields. *)
Definition split_ws (s : string) : list string :=
  filter truthy (split_by is_space s).

(** [sep.join(l)] *)
Definition join (sep : string) (l : list string) : string :=
  String.concat sep l.

Fixpoint lstrip (s : string) : string :=
  match s with
  | EmptyString => EmptyString
  | String c s' => if is_space c then lstrip s' else s
  end.

Fixpoint rstrip (s : string) : string :=
  match s with
  | EmptyString => EmptyString
  | String c s' =>
      let r := rstrip s' in
      if is_empty r && is_space c then EmptyString else String c r
  end.

(** [s.strip()] *)
Definition strip (s : string) : string := rstrip (lstrip s).

Fixpoint spaces (n : nat) : string :=
  match n with O => EmptyString | S n' => String " " (spaces n') end.

(** [f"{s:<w}"] and [f"{s:>w}"] *)
Definition ljust (w : nat) (s : string) : string :=
  s ++ spaces (w - String.length s).
Definition rjust (w : nat) (s : string) : string :=
  spaces (w - String.length s) ++ s.

(** [str(n)] for a non-negative integer. *)
Definition of_nat (n : nat) : string :=
  NilZero.string_of_uint (Nat.to_uint n).

(** The double-quote character, for texts that contain it. *)
Definition dq : string := String (ascii_of_nat 34) EmptyString.
(** The backslash, the host separator of the Windows overlay. *)
Definition bs : string := String (ascii_of_nat 92) EmptyString.
(** The newline. *)
Definition nl : string := String (ascii_of_nat 10) EmptyString.

(** [l[:-1]] *)
Definition init {A : Type} (l : list A) : list A := removelast l.

(** [sorted(l, key=str.lower)] : Python's sort is stable; a stable
    insertion sort on the lower-cased key computes the same list. *)
Fixpoint insert_by (key : string -> string) (x : string) (l : list string)
  : list string :=
  match l with
  | [] => [x]
  | y :: l' =>
      if String.ltb (key x) (key y) then x :: l
      else y :: insert_by key x l'
  end.

Definition sort_by (key : string -> string) (l : list string) : list string :=
  fold_left (fun acc x => insert_by key x acc) l [].

End PyStr.

(** ** Python dictionaries: insertion-ordered association lists *)

Module Dict.

Definition t (V : Type) : Type := list (string * V).

Fixpoint get {V : Type} (d : t V) (k : string) : option V :=
  match d with
  | [] => None
  | (k', v) :: d' => if String.eqb k' k then Some v else get d' k
  end.

(** [k in d] *)
Definition mem {V : Type} (k : string) (d : t V) : bool :=
  match get d k with Some _ => true | None => false end.

(** [d[k] = v] : an existing key keeps its position. *)
Fixpoint set {V : Type} (d : t V) (k : string) (v : V) : t V :=
  match d with
  | [] => [(k, v)]
  | (k', v') :: d' =>
      if String.eqb k' k then (k', v) :: d' else (k', v') :: set d' k v
  end.

(** [del d[k]] *)
Fixpoint del {V : Type} (d : t V) (k : string) : t V :=
  match d with
  | [] => []
  | (k', v') :: d' => if String.eqb k' k then d' else (k', v') :: del d' k
  end.

Definition keys {V : Type} (d : t V) : list string := map fst d.

(** [d.get(k, default)] *)
Definition get_default {V : Type} (d : t V) (k : string) (dflt : V) : V :=
  match get d k with Some v => v | None => dflt end.

(** [d.update(d')] *)
Definition update {V : Type} (d d' : t V) : t V :=
  fold_left (fun acc kv => set acc (fst kv) (snd kv)) d' d.

End Dict.

(** [x in l] for a list of strings. *)
Definition mem_str (x : string) (l : list string) : bool :=
  existsb (String.eqb x) l.

(** ** Computations: state plus Python exceptions

    [Exn msg] stands for a raised instance of [Exception] whose [str()] is
    [msg].  As in Python, the mutations made before the exception was
    raised stay in the state. *)

Inductive outcome (A : Type) : Type :=
| Ok (a : A)
| Exn (msg : string).
Arguments Ok {A} a.
Arguments Exn {A} msg.

Definition M (St A : Type) : Type := St -> outcome A * St.

Definition ret {St A : Type} (a : A) : M St A := fun s => (Ok a, s).

Definition bind {St A B : Type} (m : M St A) (k : A -> M St B) : M St B :=
  fun s =>
    match m s with
    | (Ok a, s') => k a s'
    | (Exn e, s') => (Exn e, s')
    end.

Definition raise {St A : Type} (msg : string) : M St A := fun s => (Exn msg, s).

Definition get {St : Type} : M St St := fun s => (Ok s, s).

Definition put {St : Type} (s : St) : M St unit := fun _ => (Ok tt, s).

(** [try: m  except Exception as e: h e] *)
Definition try_catch {St A : Type} (m : M St A) (h : string -> M St A) : M St A :=
  fun s =>
    match m s with
    | (Ok a, s') => (Ok a, s')
    | (Exn e, s') => h e s'
    end.

Declare Scope py_scope.
Delimit Scope py_scope with py.
Notation "x <- m ;; k" := (bind m (fun x => k))
  (at level 61, m at next level, right associativity) : py_scope.
Notation "m ;;; k" := (bind m (fun _ => k))
  (at level 61, right associativity) : py_scope.
Open Scope py_scope.

(** [l[i]] raises IndexError out of range. *)
Definition index {St A : Type} (l : list A) (i : nat) : M St A :=
  match nth_error l i with
  | Some x => ret x
  | None => raise "list index out of range"
  end.

(** [d[k]] raises KeyError on a missing key; [str(KeyError(k))] is [repr k]. *)
Definition getitem {St V : Type} (d : Dict.t V) (k : string) : M St V :=
  match Dict.get d k with
  | Some v => ret v
  | None => raise ("'" ++ k ++ "'")
  end.

(** ** The host

    What the program asks of the operating system and the Python runtime.
    [os.path.exists], [os.path.isdir], [os.path.isfile], [os.path.join] and
    [os.path.normpath] never raise on [str] arguments; [os.listdir],
    [os.path.getsize] and reading a file do. *)

Inductive listdir_result : Type :=
| Listed (items : list string)
| PermissionError (msg : string)
| ListdirError (msg : string).

Inductive psutil_result : Type :=
| PsutilTotal (bytes : nat)
| PsutilImportError
| PsutilError (msg : string).

Record Host : Type := {
  platform_system : string;
  platform_release : string;
  platform_processor : string;
  platform_machine : string;
  platform_node : string;
  platform_python_version : string;
  psutil_virtual_memory : psutil_result;
  datetime_now : string;
  os_path_exists : string -> bool;
  os_path_isdir : string -> bool;
  os_path_isfile : string -> bool;
  os_path_join : string -> string -> string;
  os_path_normpath : string -> string;
  os_sep : ascii;
  os_listdir : string -> listdir_result;
  os_path_getsize : string -> outcome nat;
  (** [open(p, 'r').read()] *)
  read_text : string -> outcome string;
  (** [_format_amiga_day] and [_format_amiga_date] of the console: the
      clock and the modification times, as the text they format to. *)
  format_amiga_day : option string -> string;
  format_amiga_date : option string -> bool -> string
}.

Definition is_windows (h : Host) : bool :=
  String.eqb (platform_system h) "Windows".


(** [s.replace(a, b)] for one-character [a] and [b]. *)
Definition replace_char (a b : ascii) (s : string) : string :=
  PyStr.map_chars (fun c => if Ascii.eqb c a then b else c) s.

(** ** src/wsa.py : class AmigaTerminal *)

Module AmigaTerminal.

Import PyStr.

Record State : Type := {
  current_dir : string;
  directories : Dict.t (list string);
  files : Dict.t string;
  prompt : string;
  command_history : list string
}.

Definition set_current_dir (d : string) : M State unit :=
  fun s => (Ok tt, {| current_dir := d; directories := directories s;
                      files := files s; prompt := prompt s;
                      command_history := command_history s |}).

Definition set_prompt (p : string) : M State unit :=
  fun s => (Ok tt, {| current_dir := current_dir s; directories := directories s;
                      files := files s; prompt := p;
                      command_history := command_history s |}).

Definition set_directories (d : Dict.t (list string)) : M State unit :=
  fun s => (Ok tt, {| current_dir := current_dir s; directories := d;
                      files := files s; prompt := prompt s;
                      command_history := command_history s |}).

Definition set_files (f : Dict.t string) : M State unit :=
  fun s => (Ok tt, {| current_dir := current_dir s; directories := directories s;
                      files := f; prompt := prompt s;
                      command_history := command_history s |}).

(** [self.command_history.append(x)] *)
Definition history_append (x : string) : M State unit :=
  fun s => (Ok tt, {| current_dir := current_dir s; directories := directories s;
                      files := files s; prompt := prompt s;
                      command_history := (command_history s ++ [x])%list |}).

(** The host root of the overlay, the Python literal ["C:\\"]. *)
Definition c_drive : string := "C:" ++ bs.

Definition startup_sequence_text : string :=
  "; AmigaOS-style startup sequence" ++ nl ++
  "; This script runs when the WSA Terminal starts" ++ nl ++ nl ++
  "; Mount additional volumes" ++ nl ++
  "; mount RAM: FROM RAM SIZE=1024" ++ nl ++ nl ++
  "; Set environment variables" ++ nl ++
  "; setenv PATH C: SYS:S" ++ nl ++ nl ++
  "; Run system tools" ++ nl ++
  "; execute SYS:Tools/Shell-Startup" ++ nl.

Definition placeholder_dh0_dirs : list string :=
  ["Windows"; "Program Files"; "Users"; "Documents and Settings"].

Definition placeholder_dh0_files : Dict.t string :=
  [("DH0:/Windows/System32/kernel32.dll", "Windows kernel library");
   ("DH0:/Windows/explorer.exe", "Windows Explorer");
   ("DH0:/Program Files/", "Program Files directory");
   ("DH0:/Users/", "Users directory")].

(** The fields as [__init__] assigns them before it looks at the platform
    (lines 27-54 and 93-94). *)
Definition initial_fields : State := {|
  current_dir := "SYS:";
  directories :=
    [("SYS:", ["Prefs"; "Tools"; "L"; "S"; "C"; "DEVS"; "Fonts"; "WBStartup"]);
     ("RAM:", ["T"]);
     ("C:", ["Info"; "Avail"; "Status"; "Mount"; "Ed"; "Dir"; "Cd"; "Pattern";
             "Date"; "Echo"; "Help"; "Amiga"; "Ping"]);
     ("DH0:", [])];
  files :=
    [("SYS:Prefs/Env-Archive", "Environment variables archive");
     ("SYS:Prefs/Env", "Current environment variables");
     ("SYS:Tools/Shell-Startup", "Shell startup script");
     ("SYS:S/Startup-Sequence", startup_sequence_text);
     ("RAM:T/Temp-File", "Temporary file");
     ("C:Info", "System information utility");
     ("C:Avail", "List available commands");
     ("C:Status", "Show system status");
     ("C:Mount", "Mount volumes");
     ("C:Ed", "Text editor");
     ("C:Dir", "Directory listing");
     ("C:Cd", "Change directory");
     ("C:Pattern", "Pattern matching utility");
     ("C:Date", "Show date and time");
     ("C:Echo", "Echo text to terminal");
     ("C:Help", "Display help information");
     ("C:Amiga", "Amiga easter egg command");
     ("C:Ping", "Network ping utility")];
  prompt := "SYS:> ";
  command_history := []
|}.

(** Lines 56-91 of [__init__]: the content of [DH0:]. *)
Definition init_dh0 (h : Host) : M State unit :=
  if is_windows h then
    if os_path_exists h c_drive then
      s <- get ;;
      let common_dirs := ["Windows"; "Program Files"; "Users";
                          "Documents and Settings"; "Program Files (x86)"] in
      let found := filter (fun d => os_path_exists h (os_path_join h c_drive d))
                          common_dirs in
      set_directories (Dict.set (directories s) "DH0:" found) ;;;
      s <- get ;;
      let common_files := ["pagefile.sys"; "hiberfil.sys"; "swapfile.sys"] in
      set_files
        (fold_left
           (fun fs file_name =>
              if os_path_exists h (os_path_join h c_drive file_name)
              then Dict.set fs ("DH0:/" ++ file_name) ("System file: " ++ file_name)
              else fs)
           common_files (files s))
    else ret tt
  else
    s <- get ;;
    set_directories (Dict.set (directories s) "DH0:" placeholder_dh0_dirs) ;;;
    s <- get ;;
    set_files (Dict.update (files s) placeholder_dh0_files).

Definition get_prompt : M State string :=
  s <- get ;; ret (current_dir s ++ "> ").

(** ** The text-only commands *)

Definition WSA_VERSION : string := "1.0.0".

Definition info_command (h : Host) : M State string :=
  let system_info :=
    "System: " ++ platform_system h ++ " " ++ platform_release h ++ nl ++
    "Processor: " ++ (if truthy (platform_processor h)
                      then platform_processor h else "Unknown") ++ nl ++
    "Machine: " ++ platform_machine h ++ nl ++
    "Node Name: " ++ platform_node h ++ nl ++
    "Python Version: " ++ platform_python_version h ++ nl in
  memory_info <-
    (if is_windows h then
       match psutil_virtual_memory h with
       | PsutilTotal total =>
           ret ("Memory: " ++ of_nat (total / (1024 ^ 3)) ++ "GB RAM" ++ nl)
       | PsutilImportError =>
           ret ("Memory: Unknown (install psutil for detailed info)" ++ nl)
       | PsutilError msg => raise msg
       end
     else ret ("Memory: Unknown" ++ nl)) ;;
  ret ("Amiga 3.1" ++ nl ++
       "Copyright (C) 1985-1995 Commodore-Amiga, Inc." ++ nl ++
       "WSA Terminal - Windows Subsystem for Amiga v" ++ WSA_VERSION ++ nl ++
       nl ++
       "System Information:" ++ nl ++
       "  CPU: Motorola 68020 @ 25MHz" ++ nl ++
       "  RAM: 8MB Chip + 4MB Fast" ++ nl ++
       "  OS: AmigaOS 3.1" ++ nl ++
       "  WB: Workbench 3.1" ++ nl ++
       "  CLI: Amiga Shell 3.1" ++ nl ++
       nl ++
       "Actual System Information:" ++ nl ++
       "  " ++ system_info ++ "  " ++ memory_info).

(** [sorted([...])] of the sixteen command names, written out. *)
Definition avail_command : M State string :=
  let commands := ["amiga"; "avail"; "cd"; "clear"; "cls"; "date"; "dir";
                   "echo"; "ed"; "execute"; "help"; "info"; "mount";
                   "pattern"; "ping"; "status"] in
  ret (fold_left (fun output cmd => output ++ "  " ++ cmd ++ nl) commands
                 ("Available commands:" ++ nl)).

Definition status_command : M State string :=
  ret "System Status:
  CPU: Motorola 68020 @ 25MHz
  Memory: 8MB Chip + 4MB Fast
  Task: Shell Process
  Priority: 0
  Stack: 8000 bytes
  Processors: 1
  Tasks: 12 running

".

Definition mount_command : M State string :=
  s <- get ;;
  ret (fold_left
         (fun output vol =>
            if String.eqb vol "DH0:"
            then output ++ "  " ++ vol ++ " (Windows C: Drive)" ++ nl
            else output ++ "  " ++ vol ++ nl)
         (Dict.keys (directories s)) ("Mounted volumes:" ++ nl)).

Definition help_command : M State string :=
  ret "Available commands:
  INFO     - Display system information
  AVAIL    - List available commands
  STATUS   - Show system status
  MOUNT    - Show mounted volumes
  ED       - Text editor (not implemented)
  DIR      - List directory contents (Amiga format with Name, Size, Protection, Date)
  CD       - Change directory
  PATTERN  - Pattern matching utility
  DATE     - Show current date and time
  ECHO     - Echo text to terminal
  HELP     - Display this help
  AMIGA    - Amiga easter egg
  PING     - Network ping utility
  CLS      - Clear screen

Amiga Features:
  Type a device name (e.g., 'dh0:') to automatically CD to that directory
  Startup sequence execution at terminal startup (SYS:S/Startup-Sequence)
".

Definition amiga_command : M State string :=
  ret "                    /\
                   /  \
                  /    \
                 /      \
                /        \
               /__________\
              /            \
             /              \
            /                \
           /                  \
          /                    \
         /                      \
        /                        \
       /                          \
      /                            \
     /                              \
    /                                \
   /                                  \
  /                                    \
 /______________________________________\

Welcome to the WSA Terminal - Windows Subsystem for Amiga!
This is an emulation of the classic AmigaOS terminal experience.

".

Definition ping_command (args : list string) : M State string :=
  match args with
  | [] => ret ("Usage: PING <host>" ++ nl)
  | host :: _ =>
      ret ("Pinging " ++ host ++ "... (simulated)" ++ nl ++
           "Reply from " ++ host ++ ": bytes=32 time<1ms TTL=64" ++ nl)
  end.

(** ** Directory listing (lines 198-330) *)

Definition dir_line (dir_name : string) : string :=
  ljust 18 (dir_name ++ "/") ++ "DIR   drwx      01-Jan-85" ++ nl.

Definition file_line (file_name : string) (file_size : nat) : string :=
  ljust 18 file_name ++ rjust 5 (of_nat file_size) ++ "  rwed      01-Jan-85" ++ nl.

Definition listing_header (path : string) : string :=
  "Directory " ++ path ++ nl ++ nl ++
  "Name              Size  Protection  Date" ++ nl ++
  "----              ----  ----------  ----" ++ nl.

Definition listing_footer (dir_count file_count : nat) : string :=
  nl ++ of_nat dir_count ++ " DIR(s), " ++ of_nat file_count ++ " FILE(s)" ++ nl.

(** Lines 207-214, 368-371 and 418-421: the host path of an overlay path. *)
Definition sub_path_of (path : string) : string :=
  let sub_path := drop 4 path in
  if startswith "/" sub_path then drop 1 sub_path else sub_path.

Definition host_path_of (h : Host) (path : string) : string :=
  os_path_join h c_drive (replace_char "/" "\" (sub_path_of path)).

(** Lines 216-221, 373-378 and 423-428: "Try with trailing backslash if
    path doesn't exist". *)
Definition retry_trailing_backslash (h : Host) (fs_path : string) : string :=
  if negb (os_path_exists h fs_path) then
    if negb (endswith bs fs_path) && negb (endswith "/" fs_path) then
      let fs_path_alt := fs_path ++ bs in
      if os_path_exists h fs_path_alt then fs_path_alt else fs_path
    else fs_path
  else fs_path.

(** The loop over [self.files] of lines 293-300 and 320-327; the file
    entries of [path] are the keys [path/name] with no further slash. *)
Definition list_file_entries (path : string) (fs : Dict.t string)
    (output : string) : string * nat :=
  fold_left
    (fun (acc : string * nat) (kv : string * string) =>
       let (output, file_count) := acc in
       let (file_path, file_content) := kv in
       if startswith (path ++ "/") file_path then
         let file_name := drop (String.length path + 1) file_path in
         if negb (contains "/" file_name)
         then (output ++ file_line file_name (String.length file_content),
               S file_count)
         else acc
       else acc)
    fs (output, 0).

(** Lines 281-303 and 308-330: the listing from the virtual store. *)
Definition placeholder_listing (s : State) (path : string) : string :=
  let output := listing_header path in
  let dirs := Dict.get_default (directories s) path [] in
  let output := fold_left (fun out dir_name => out ++ dir_line dir_name) dirs output in
  let (output, file_count) := list_file_entries path (files s) output in
  output ++ listing_footer (List.length dirs) file_count.

(** Lines 223-274: the listing from the host directory [fs_path]. *)
Definition real_listing (h : Host) (path fs_path : string) : M State string :=
  if os_path_exists h fs_path && os_path_isdir h fs_path then
    let output := listing_header path in
    match os_listdir h fs_path with
    | PermissionError _ => ret ("Access denied to this directory." ++ nl)
    | ListdirError e => ret ("Error reading directory: " ++ e ++ nl)
    | Listed items =>
        let is_dir item := os_path_isdir h (os_path_join h fs_path item) in
        let dirs := sort_by lower (filter is_dir items) in
        let files := sort_by lower (filter (fun i => negb (is_dir i)) items) in
        let output := fold_left (fun out d => out ++ dir_line d) dirs output in
        let output :=
          fold_left
            (fun out file_name =>
               let file_size :=
                 match os_path_getsize h (os_path_join h fs_path file_name) with
                 | Ok n => n
                 | Exn _ => 0
                 end in
               out ++ file_line file_name file_size)
            files output in
        ret (output ++ listing_footer (List.length dirs) (List.length files))
    end
  else ret ("Directory " ++ path ++ " not found." ++ nl).

Definition list_files (h : Host) (path : option string) : M State string :=
  s <- get ;;
  let path := match path with Some p => p | None => current_dir s end in
  if startswith "DH0:" path then
    (if is_windows h then
       try_catch
         (let fs_path := if String.eqb path "DH0:" then c_drive
                         else host_path_of h path in
          let fs_path := retry_trailing_backslash h fs_path in
          real_listing h path fs_path)
         (fun _ => ret (placeholder_listing s path))
     else ret (placeholder_listing s path))
  else if negb (Dict.mem path (directories s)) then
    ret ("Directory " ++ path ++ " not found." ++ nl)
  else ret (placeholder_listing s path).

(** ** Change directory (lines 332-471) *)

(** [self.current_dir = d; self.prompt = self.get_prompt(); return ""] *)
Definition enter (d : string) : M State string :=
  set_current_dir d ;;;
  p <- get_prompt ;;
  set_prompt p ;;;
  ret "".

Definition not_found (path : string) : string :=
  "Directory " ++ path ++ " not found." ++ nl.

(** Lines 343-360: [cd ..]. *)
Definition change_directory_up : M State string :=
  s <- get ;;
  if String.eqb (current_dir s) "SYS:" then
    ret ("Already at root directory." ++ nl)
  else
    let parts := split ":" (current_dir s) in
    has_sub <- (if (1 <? List.length parts)%nat
                then p1 <- index parts 1 ;; ret (truthy p1)
                else ret false) ;;
    (if has_sub then
       p0 <- index parts 0 ;;
       p1 <- index parts 1 ;;
       let parent_parts := split "/" p1 in
       if (1 <? List.length parent_parts)%nat then
         let new_path := p0 ++ ":" ++ join "/" (init parent_parts) in
         let new_path := if String.eqb new_path (p0 ++ ":")
                         then p0 ++ ":" else new_path in
         set_current_dir new_path
       else set_current_dir (p0 ++ ":")
     else set_current_dir "SYS:") ;;;
    p <- get_prompt ;;
    set_prompt p ;;;
    ret "".

(** Lines 367-397 and 410-447: the overlay probe of a candidate directory
    [new_path]; [Some ""] is the [return ""] inside the [try], [None] is
    falling out of it. *)
Definition probe_overlay (h : Host) (new_path : string) : M State (option string) :=
  let fs_path := retry_trailing_backslash h (host_path_of h new_path) in
  if os_path_exists h fs_path && os_path_isdir h fs_path then
    r <- enter new_path ;; ret (Some r)
  else if negb (endswith "/" new_path) then
    let new_path_alt := new_path ++ "/" in
    let fs_path_alt := host_path_of h new_path_alt in
    if os_path_exists h fs_path_alt && os_path_isdir h fs_path_alt then
      r <- enter new_path_alt ;; ret (Some r)
    else ret None
  else ret None.

Definition change_directory (h : Host) (path : string) : M State string :=
  if String.eqb (upper path) "DH0:" then enter "DH0:"
  else if negb (truthy path) then ret ("Usage: CD <directory>" ++ nl)
  else if String.eqb path ".." then change_directory_up
  else if contains ":" path then
    if startswith "DH0:" (upper path) && is_windows h then
      r <- try_catch (probe_overlay h path) (fun _ => ret None) ;;
      match r with
      | Some out => ret out
      | None => ret (not_found path)
      end
    else
      s <- get ;;
      if Dict.mem path (directories s) then enter path
      else ret (not_found path)
  else
    s <- get ;;
    if startswith "DH0:" (current_dir s) && is_windows h then
      r <- try_catch
             (let new_path := if String.eqb (current_dir s) "DH0:"
                              then "DH0:" ++ path
                              else current_dir s ++ "/" ++ path in
              probe_overlay h new_path)
             (fun _ => ret None) ;;
      match r with
      | Some out => ret out
      | None => ret (not_found path)
      end
    else
      let new_path := if String.eqb (current_dir s) "SYS:"
                      then "SYS:" ++ path
                      else current_dir s ++ "/" ++ path in
      if Dict.mem new_path (directories s) then enter new_path
      else
        is_child <- (if Dict.mem (current_dir s) (directories s)
                     then children <- getitem (directories s) (current_dir s) ;;
                          ret (mem_str path children)
                     else ret false) ;;
        if is_child then
          let new_path := if String.eqb (current_dir s) "SYS:"
                          then "SYS:" ++ path
                          else current_dir s ++ "/" ++ path in
          enter new_path
        else ret (not_found path).

(** ** PATTERN (lines 777-849) *)

Definition pattern_usage : string :=
  "Usage: PATTERN <pattern>" ++ nl ++
  "Examples:" ++ nl ++
  "  PATTERN #?        (matches single character files)" ++ nl ++
  "  PATTERN ~pattern  (matches files starting with pattern)" ++ nl ++
  "  PATTERN *         (matches all files)" ++ nl.

(** One of the four loops over [self.files] of lines 812-844; [accept]
    is the test on the file name that differs between them. *)
Definition pattern_scan (s : State) (accept : string -> bool)
    (output : string) : string * bool :=
  fold_left
    (fun (acc : string * bool) (kv : string * string) =>
       let (output, found) := acc in
       let file_path := fst kv in
       if startswith (current_dir s) file_path then
         let file_name := drop (String.length (current_dir s) + 1) file_path in
         if truthy file_name && negb (contains "/" file_name) && accept file_name
         then (output ++ "  " ++ file_name ++ " (rwed)" ++ nl, true)
         else acc
       else acc)
    (files s) (output, false).

Definition pattern_command (h : Host) (args : list string) : M State string :=
  match args with
  | [] => ret pattern_usage
  | pattern :: _ =>
      s <- get ;;
      let output := "Files matching pattern " ++ dq ++ pattern ++ dq ++
                    " in " ++ current_dir s ++ ":" ++ nl in
      early <-
        (if String.eqb (current_dir s) "DH0:" && is_windows h then
           try_catch
             (if os_path_exists h c_drive then
                match os_listdir h c_drive with
                | Listed items =>
                    let (out, found) :=
                      fold_left
                        (fun (acc : string * bool) item =>
                           let (out, found) := acc in
                           if String.eqb pattern "*" || startswith pattern item
                              || (startswith "~" pattern
                                  && startswith (drop 1 pattern) item)
                           then
                             if os_path_isdir h (os_path_join h c_drive item)
                             then (out ++ "  " ++ item ++ "/ (drwx)" ++ nl, true)
                             else (out ++ "  " ++ item ++ " (rwed)" ++ nl, true)
                           else acc)
                        items (output, false) in
                    if found then ret (Some out) else ret None
                | PermissionError e => raise e
                | ListdirError e => raise e
                end
              else ret None)
             (fun _ => ret None)
         else ret None) ;;
      match early with
      | Some out => ret out
      | None =>
          let (out, found) :=
            if String.eqb pattern "#?" then
              pattern_scan s (fun n => Nat.eqb (String.length n) 1) output
            else if startswith "~" pattern then
              pattern_scan s (fun n => startswith (drop 1 pattern) n) output
            else if String.eqb pattern "*" then
              pattern_scan s (fun _ => true) output
            else
              pattern_scan s (fun n => String.eqb n pattern) output in
          if found then ret out
          else ret (out ++ "  No files match the pattern." ++ nl)
      end
  end.

(** ** The interpreter (lines 473-517) *)

(** What [execute_command] returns: text, or the dictionary
    [{"action": "clear"}]. *)
Inductive reply : Type :=
| Text (text : string)
| Action (action : string).

(** [cmd.upper() in [d.upper() for d in self.directories]] *)
Definition is_device (s : State) (cmd : string) : bool :=
  mem_str (upper cmd) (map upper (Dict.keys (directories s))).

Definition text_of (m : M State string) : M State reply :=
  t <- m ;; ret (Text t).

(** The [if]/[elif] chain on the verb (lines 489-517). *)
Definition dispatch (h : Host) (cmd : string) (args : list string) : M State reply :=
  if String.eqb cmd "dir" then text_of (list_files h None)
  else if String.eqb cmd "cd" then text_of (change_directory h (join " " args))
  else if String.eqb cmd "info" then text_of (info_command h)
  else if String.eqb cmd "avail" then text_of avail_command
  else if String.eqb cmd "status" then text_of status_command
  else if String.eqb cmd "mount" then text_of mount_command
  else if String.eqb cmd "echo" then ret (Text (join " " args ++ nl))
  else if String.eqb cmd "date" then ret (Text (datetime_now h ++ nl))
  else if String.eqb cmd "help" then text_of help_command
  else if String.eqb cmd "amiga" then text_of amiga_command
  else if String.eqb cmd "ping" then text_of (ping_command args)
  else if String.eqb cmd "pattern" then text_of (pattern_command h args)
  else if String.eqb cmd "cls" || String.eqb cmd "clear" then ret (Action "clear")
  else ret (Text ("Command '" ++ cmd ++
                  "' not found. Type 'help' for available commands." ++ nl)).

Definition execute_command (h : Host) (command_text : string) : M State reply :=
  let parts := split_ws (strip command_text) in
  if negb (0 <? List.length parts)%nat then ret (Text "")
  else
    p0 <- index parts 0 ;;
    let cmd := lower p0 in
    let args := if (1 <? List.length parts)%nat then tl parts else [] in
    s <- get ;;
    if endswith ":" cmd && is_device s cmd then
      text_of (change_directory h cmd)
    else
      history_append command_text ;;;
      dispatch h cmd args.

(** ** The startup script runner (lines 135-193) *)

(** The body of the [try] for one stripped line: the text it adds to
    [output]. *)
Definition run_line (h : Host) (line : string) : M State string :=
  if startswith "echo " (lower line) then ret (drop 5 line ++ nl)
  else
    let parts := split_ws line in
    if negb (0 <? List.length parts)%nat then ret ""
    else
      p0 <- index parts 0 ;;
      let cmd := lower p0 in
      let args := if (1 <? List.length parts)%nat then join " " (tl parts) else "" in
      if String.eqb cmd "info" then t <- info_command h ;; ret (t ++ nl)
      else if String.eqb cmd "avail" then t <- avail_command ;; ret (t ++ nl)
      else if String.eqb cmd "status" then t <- status_command ;; ret (t ++ nl)
      else if String.eqb cmd "mount" then t <- mount_command ;; ret (t ++ nl)
      else if String.eqb cmd "dir" then t <- list_files h None ;; ret (t ++ nl)
      else if String.eqb cmd "date" then ret (datetime_now h ++ nl)
      else if String.eqb cmd "echo" then ret (args ++ nl)
      else if String.eqb cmd "help" then t <- help_command ;; ret (t ++ nl)
      else if String.eqb cmd "amiga" then t <- amiga_command ;; ret (t ++ nl)
      else if String.eqb cmd "ping" && truthy args then
        t <- ping_command [args] ;; ret (t ++ nl)
      else if String.eqb cmd "pattern" && truthy args then
        t <- pattern_command h [args] ;; ret (t ++ nl)
      else if String.eqb cmd "cd" then
        result <- change_directory h args ;;
        if truthy result then ret (result ++ nl) else ret ""
      else ret ("Startup command not recognized: " ++ line ++ nl).

(** The text the [except Exception as e] clause adds to [output]. *)
Definition startup_error (line e : string) : string :=
  "Error executing startup command '" ++ line ++ "': " ++ e ++ nl.

(** A line the loop skips: empty after [strip], or a [;] comment. *)
Definition skipped (line : string) : bool :=
  negb (truthy line) || startswith ";" line.

(** One iteration of the [for] loop, from the raw line. *)
Definition script_step (h : Host) (output raw : string) : M State string :=
  let line := strip raw in
  if skipped line then ret output
  else
    try_catch
      (t <- run_line h line ;; ret (output ++ t))
      (fun e => ret (output ++ startup_error line e)).

Fixpoint script_loop (h : Host) (lines : list string) (output : string)
  : M State string :=
  match lines with
  | [] => ret output
  | raw :: rest =>
      output' <- script_step h output raw ;;
      script_loop h rest output'
  end.

Definition _run_startup_script (h : Host) (script_name content : string)
  : M State string :=
  script_loop h (split "010" content) ("Executing " ++ script_name ++ "..." ++ nl).

(** ** The startup sequence (lines 99-133) and the constructor *)

Definition _execute_startup_sequence (h : Host) : M State string :=
  let output := "Executing startup sequence..." ++ nl in
  let startup_file := "SYS:S/Startup-Sequence" in
  s <- get ;;
  if Dict.mem startup_file (files s) then
    content <- getitem (files s) startup_file ;;
    startup_output <- _run_startup_script h startup_file content ;;
    ret (output ++ startup_output)
  else
    early <-
      (if is_windows h then
         try_catch
           (let fs_path :=
              os_path_join h (os_path_join h c_drive "S") "Startup-Sequence" in
            if os_path_exists h fs_path then
              match read_text h fs_path with
              | Ok content =>
                  startup_output <- _run_startup_script h startup_file content ;;
                  ret (Some (output ++ startup_output))
              | Exn e => raise e
              end
            else ret None)
           (fun _ => ret None)
       else ret None) ;;
    match early with
    | Some out => ret out
    | None =>
        s <- get ;;
        let startup_locations :=
          ["SYS:S/startup-sequence"; "S:Startup-Sequence"; "S:startup-sequence"] in
        match find (fun location => Dict.mem location (files s)) startup_locations with
        | Some location =>
            content <- getitem (files s) location ;;
            startup_output <- _run_startup_script h location content ;;
            ret (output ++ startup_output)
        | None => ret output
        end
    end.

Definition __init__ (h : Host) : outcome unit * State :=
  (init_dh0 h ;;; _execute_startup_sequence h ;;; ret tt) initial_fields.

End AmigaTerminal.

(** ** src/wsa_console.py : class WSAConsoleTerminal *)

Module WSAConsoleTerminal.

Import PyStr.

(** An entry of [EmulatorSharedFolder.mounted_shared_folders]. *)
Record SharedInfo : Type := {
  emulator : string;
  config : string;
  label : string;
  path : string;
  access : string
}.

(** The terminal object; [stdout] is the list of the texts handed to
    [print], oldest first. *)
Record State : Type := {
  current_dir : string;
  prompt : string;
  directories : Dict.t (list string);
  files : Dict.t string;
  mounted_shared_folders : Dict.t SharedInfo;
  stdout : list string
}.

Definition set_current_dir (d : string) : M State unit :=
  fun s => (Ok tt, {| current_dir := d; prompt := prompt s;
                      directories := directories s; files := files s;
                      mounted_shared_folders := mounted_shared_folders s;
                      stdout := stdout s |}).

Definition set_prompt (p : string) : M State unit :=
  fun s => (Ok tt, {| current_dir := current_dir s; prompt := p;
                      directories := directories s; files := files s;
                      mounted_shared_folders := mounted_shared_folders s;
                      stdout := stdout s |}).

Definition set_stdout (o : list string) : M State unit :=
  fun s => (Ok tt, {| current_dir := current_dir s; prompt := prompt s;
                      directories := directories s; files := files s;
                      mounted_shared_folders := mounted_shared_folders s;
                      stdout := o |}).

(** [print(text)] *)
Definition print (text : string) : M State unit :=
  s <- get ;; set_stdout (stdout s ++ [text])%list.

Fixpoint print_all (lines : list string) : M State unit :=
  match lines with
  | [] => ret tt
  | l :: rest => print l ;;; print_all rest
  end.

(** [with contextlib.redirect_stdout(f): m] followed by [f.getvalue()]:
    the prints of [m] go to a fresh buffer, the old stream is put back
    also when [m] raises, and every print ends its text with a newline. *)
Definition redirect_stdout {A : Type} (m : M State A) : M State (A * string) :=
  fun s =>
    let saved := stdout s in
    match m {| current_dir := current_dir s; prompt := prompt s;
               directories := directories s; files := files s;
               mounted_shared_folders := mounted_shared_folders s;
               stdout := [] |} with
    | (Ok a, s') =>
        (Ok (a, String.concat "" (map (fun l => l ++ nl) (stdout s'))),
         snd (set_stdout saved s'))
    | (Exn e, s') => (Exn e, snd (set_stdout saved s'))
    end.

Definition c_drive : string := "C:" ++ bs.

Definition startup_sequence_text : string :=
  "; AmigaOS-style startup sequence" ++ nl ++
  "; This script runs when the WSA Terminal starts" ++ nl ++ nl ++
  "; Mount additional volumes" ++ nl ++
  "; mount RAM: FROM RAM SIZE=1024" ++ nl ++ nl ++
  "; Set environment variables" ++ nl ++
  "; setenv PATH C: SYS:S" ++ nl ++ nl ++
  "; Run system tools" ++ nl ++
  "; execute SYS:Tools/Shell-Startup" ++ nl.

Definition placeholder_dh0_dirs : list string :=
  ["Windows"; "Program Files"; "Users"; "Documents and Settings"].

Definition placeholder_dh0_files : Dict.t string :=
  [("DH0:/Windows/System32/kernel32.dll", "Windows kernel library");
   ("DH0:/Windows/explorer.exe", "Windows Explorer");
   ("DH0:/Program Files/", "Program Files directory");
   ("DH0:/Users/", "Users directory")].

(** The fields as [__init__] assigns them before it looks at the platform
    (lines 339-384). *)
Definition initial_fields : State := {|
  current_dir := "SYS:";
  prompt := "SYS:> ";
  directories :=
    [("SYS:", ["Prefs"; "Tools"; "L"; "S"; "C"; "DEVS"; "Fonts"; "WBStartup"]);
     ("SYS:S", []);
     ("SYS:L", []);
     ("SYS:DEVS", []);
     ("SYS:Fonts", []);
     ("SYS:Prefs", ["Env-Archive"; "Env"]);
     ("SYS:Prefs/Env-Archive", []);
     ("SYS:Prefs/Env", []);
     ("RAM:", ["T"]);
     ("RAM:T", []);
     ("C:", ["Info"; "Avail"; "Status"; "Mount"; "Ed"; "Dir"; "Cd"; "Pattern";
             "Date"; "Echo"; "Help"; "Amiga"; "Ping"; "WinUAE"; "Say"; "Guru"]);
     ("DH0:", [])];
  files :=
    [("SYS:Prefs/Env-Archive/PATH", "C: SYS:S SYS:C");
     ("SYS:Prefs/Env-Archive/SHELL", "WSA Terminal");
     ("SYS:Prefs/Env/PATH", "C: SYS:S SYS:C");
     ("SYS:Prefs/Env/SHELL", "WSA Terminal");
     ("SYS:Tools/Shell-Startup", "Shell startup script");
     ("SYS:S/Startup-Sequence", startup_sequence_text);
     ("RAM:T/Temp-File", "Temporary file");
     ("C:Info", "System information utility");
     ("C:Avail", "List available commands");
     ("C:Status", "Show system status");
     ("C:Mount", "Mount volumes");
     ("C:Ed", "Text editor");
     ("C:Dir", "Directory listing");
     ("C:Cd", "Change directory");
     ("C:Pattern", "Pattern matching utility");
     ("C:Date", "Show date and time");
     ("C:Echo", "Echo text to terminal");
     ("C:Help", "Display help information");
     ("C:Amiga", "Amiga easter egg command");
     ("C:Ping", "Network ping utility");
     ("C:WinUAE", "Launch WinUAE Amiga emulator");
     ("C:Say", "Text-to-speech synthesis");
     ("C:Guru", "Guru Meditation error demo")];
  mounted_shared_folders := [];
  stdout := []
|}.

(** Lines 386-421 of [__init__]: the content of [DH0:]. *)
Definition init_dh0 (h : Host) : State -> State :=
  fun s =>
    if is_windows h then
      if os_path_exists h c_drive then
        let common_dirs := ["Windows"; "Program Files"; "Users";
                            "Documents and Settings"; "Program Files (x86)"] in
        let found := filter (fun d => os_path_exists h (os_path_join h c_drive d))
                            common_dirs in
        let common_files := ["pagefile.sys"; "hiberfil.sys"; "swapfile.sys"] in
        {| current_dir := current_dir s; prompt := prompt s;
           directories := Dict.set (directories s) "DH0:" found;
           files :=
             fold_left
               (fun fs file_name =>
                  if os_path_exists h (os_path_join h c_drive file_name)
                  then Dict.set fs ("DH0:/" ++ file_name)
                                ("System file: " ++ file_name)
                  else fs)
               common_files (files s);
           mounted_shared_folders := mounted_shared_folders s;
           stdout := stdout s |}
      else s
    else
      {| current_dir := current_dir s; prompt := prompt s;
         directories := Dict.set (directories s) "DH0:" placeholder_dh0_dirs;
         files := Dict.update (files s) placeholder_dh0_files;
         mounted_shared_folders := mounted_shared_folders s;
         stdout := stdout s |}.

(** ** Logical assignments and path resolution (lines 526-551, 2128-2165) *)

Definition logical_assignments : Dict.t string :=
  [("S:", "SYS:S"); ("L:", "SYS:L"); ("DEVS:", "SYS:DEVS");
   ("FONTS:", "SYS:Fonts"); ("T:", "RAM:T")].

Definition precmd (line : string) : M State string :=
  s <- get ;;
  if truthy line && endswith ":" (upper line) && contains ":" line then
    let device := upper line in
    if Dict.mem device logical_assignments then
      target <- getitem logical_assignments device ;;
      ret ("cd " ++ target)
    else if mem_str device (map upper (Dict.keys (directories s))) then
      match find (fun actual_device => String.eqb (upper actual_device) device)
                 (Dict.keys (directories s)) with
      | Some actual_device => ret ("cd " ++ actual_device)
      | None => ret line
      end
    else ret line
  else ret line.

Definition _resolve_path (path : string) : M State string :=
  s <- get ;;
  if negb (truthy path) then ret (current_dir s)
  else if contains ":" path then
    let path_upper := upper path in
    match find (fun la => startswith (fst la) path_upper) logical_assignments with
    | Some (logical, actual) =>
        let remaining_path := drop (String.length logical) path in
        if truthy remaining_path then ret (actual ++ "/" ++ remaining_path)
        else ret actual
    | None => ret path
    end
  else if String.eqb (upper (current_dir s)) "DH0:" then ret ("DH0:/" ++ path)
  else if startswith "DH0:" (upper (current_dir s)) then
    ret (current_dir s ++ "/" ++ path)
  else if endswith ":" (current_dir s) then ret (current_dir s ++ path)
  else ret (current_dir s ++ "/" ++ path).

Definition _resolve_file_path (filename : string) : M State string :=
  s <- get ;;
  if contains ":" filename then ret filename
  else if endswith ":" (current_dir s) then ret (current_dir s ++ filename)
  else ret (current_dir s ++ "/" ++ filename).

(** ** Loops and small helpers *)

Definition lift_outcome {A : Type} (o : outcome A) : M State A :=
  match o with Ok a => ret a | Exn e => raise e end.

Fixpoint for_each {A : Type} (l : list A) (body : A -> M State unit) : M State unit :=
  match l with
  | [] => ret tt
  | x :: rest => body x ;;; for_each rest body
  end.

Fixpoint for_fold {A B : Type} (l : list A) (acc : B) (body : B -> A -> M State B)
  : M State B :=
  match l with
  | [] => ret acc
  | x :: rest => acc' <- body acc x ;; for_fold rest acc' body
  end.

(** [s.split(sep, 1)] when [sep] occurs in [s]: the text before and after
    the first occurrence. *)
Fixpoint split_once (sep : ascii) (s : string) : string * string :=
  match s with
  | EmptyString => (EmptyString, EmptyString)
  | String c s' =>
      if Ascii.eqb c sep then (EmptyString, s')
      else let (a, b) := split_once sep s' in (String c a, b)
  end.

Definition is_wsl (h : Host) : bool := os_path_exists h "/mnt/c".

(** Lines 2176-2179 and 2451-2454: the device token of a path. *)
Definition device_of (path : string) : M State string :=
  device <- (if contains "/" path then index (split "/" path) 0 else ret path) ;;
  let device := upper device in
  if negb (endswith ":" device) then ret (device ++ ":") else ret device.

(** ** Directory listing (lines 1784-1867 and 2167-2446) *)

Definition header_line (path day_name header_date : string) : string :=
  "Directory " ++ dq ++ path ++ dq ++ " on " ++ day_name ++ " " ++ header_date.

Definition dir_line (dir_name date_str : string) : string :=
  " " ++ ljust 22 dir_name ++ " (dir)    ----rwed     " ++ date_str.

Definition file_line (file_name : string) (file_size : nat) (date_str : string)
  : string :=
  " " ++ ljust 22 file_name ++ " " ++ rjust 7 (of_nat file_size) ++
  "  ----rwed     " ++ date_str.

Definition command_line (cmd_name : string) (file_size : nat) (date_str : string)
  : string :=
  " " ++ ljust 22 cmd_name ++ " " ++ rjust 7 (of_nat file_size) ++
  "  ---xrwed     " ++ date_str.

Definition footer_line (total_files dir_count total_bytes : nat) : string :=
  of_nat total_files ++ " files - " ++ of_nat dir_count ++ " directories - " ++
  of_nat total_bytes ++ " bytes used".

(** The host path of the [DH0:] overlay path [path] (lines 2193-2210,
    2530-2540, 2573-2583 and 1711-1722). *)
Definition sub_path_of (path : string) : string :=
  let sub_path := drop 4 path in
  if startswith "/" sub_path then drop 1 sub_path else sub_path.

Definition host_path_of (h : Host) (path : string) : string :=
  os_path_normpath h
    (if is_wsl h
     then os_path_join h "/mnt/c" (replace_char "\" "/" (sub_path_of path))
     else os_path_join h c_drive (replace_char "/" "\" (sub_path_of path))).

(** Lines 2228-2245 and 1820-1837: the items of a host directory,
    directories and others apart, each sorted on the lower-cased name. *)
Definition host_dirs (h : Host) (fs_path : string) (items : list string)
  : list string :=
  sort_by lower (filter (fun i => os_path_isdir h (os_path_join h fs_path i)) items).

Definition host_files (h : Host) (fs_path : string) (items : list string)
  : list string :=
  sort_by lower
    (filter (fun i => negb (os_path_isdir h (os_path_join h fs_path i))) items).

Definition size_or_zero (h : Host) (file_path : string) : nat :=
  match os_path_getsize h file_path with Ok n => n | Exn _ => 0 end.

Definition print_host_dirs (h : Host) (fs_path : string) (dirs : list string)
  : M State unit :=
  for_each dirs
    (fun dir_name =>
       let dir_path := os_path_join h fs_path dir_name in
       print (dir_line dir_name (format_amiga_date h (Some dir_path) true))).

(** [sum(getsize(join(fs_path, f)) for f in files if isfile(join(fs_path, f)))] *)
Fixpoint sum_file_sizes (h : Host) (fs_path : string) (files : list string)
  : M State nat :=
  match files with
  | [] => ret 0
  | f :: rest =>
      n <- (if os_path_isfile h (os_path_join h fs_path f)
            then lift_outcome (os_path_getsize h (os_path_join h fs_path f))
            else ret 0) ;;
      m <- sum_file_sizes h fs_path rest ;;
      ret (n + m)
  end.

(** Lines 2212-2272: the body of the [try] once [fs_path] is known. *)
Definition real_listing (h : Host) (path fs_path : string) : M State unit :=
  if os_path_exists h fs_path && os_path_isdir h fs_path then
    print (header_line path (format_amiga_day h (Some fs_path))
                       (format_amiga_date h (Some fs_path) false)) ;;;
    match os_listdir h fs_path with
    | PermissionError _ => print "Access denied to this directory."
    | ListdirError e => print ("Error reading directory: " ++ e)
    | Listed items =>
        let dirs := host_dirs h fs_path items in
        let files := host_files h fs_path items in
        print_host_dirs h fs_path dirs ;;;
        for_each files
          (fun file_name =>
             let file_path := os_path_join h fs_path file_name in
             print (file_line file_name (size_or_zero h file_path)
                              (format_amiga_date h (Some file_path) true))) ;;;
        let dir_count := List.length dirs in
        let file_count := List.length files in
        total_bytes <- sum_file_sizes h fs_path files ;;
        print (footer_line (dir_count + file_count) dir_count total_bytes)
    end
  else print ("Directory " ++ path ++ " not found.").

(** The test of lines 2292-2294, 2302 and 2435-2437: [file_path] is a
    direct child of [path]. *)
Definition direct_child (path file_path : string) : bool :=
  startswith (path ++ "/") file_path
  && negb (contains "/" (drop (String.length path + 1) file_path)).

(** The loop over [self.files] of a virtual listing (lines 2289-2299,
    2404-2413 and 2431-2443): prints the direct children of [path], counts
    them and adds their sizes up. *)
Definition print_virtual_files (h : Host) (path : string) (fs : Dict.t string)
  : M State (nat * nat) :=
  for_fold fs (0, 0)
    (fun (acc : nat * nat) (kv : string * string) =>
       let (file_count, total_bytes) := acc in
       let (file_path, file_content) := kv in
       if startswith (path ++ "/") file_path then
         let file_name := drop (String.length path + 1) file_path in
         if negb (contains "/" file_name) then
           let file_size := String.length file_content in
           print (file_line file_name file_size (format_amiga_date h None true)) ;;;
           ret (S file_count, total_bytes + file_size)
         else ret acc
       else ret acc).

Definition print_virtual_dirs (h : Host) (dirs : list string) : M State unit :=
  for_each dirs
    (fun dir_name => print (dir_line dir_name (format_amiga_date h None true))).

(** Lines 2278-2304: the placeholder listing of a [DH0:] path. *)
Definition placeholder_listing (h : Host) (path : string) : M State unit :=
  s <- get ;;
  print (header_line path (format_amiga_day h None) (format_amiga_date h None false)) ;;;
  let dirs := Dict.get_default (directories s) path [] in
  print_virtual_dirs h dirs ;;;
  counts <- print_virtual_files h path (files s) ;;
  let total_files := List.length dirs + fst counts in
  let total_bytes :=
    list_sum (map (fun kv => String.length (snd kv))
                  (filter (fun kv => direct_child path (fst kv)) (files s))) in
  print (footer_line total_files (List.length dirs) total_bytes).

(** Lines 2312-2342 and 2362-2392: the commands of [C:] shown as files;
    [own] tells the listing of [C:] itself from that of [SYS:C]. *)
Definition command_listing (h : Host) (path : string) (own : bool) : M State unit :=
  s <- get ;;
  print (header_line path (format_amiga_day h None) (format_amiga_date h None false)) ;;;
  let command_names := Dict.get_default (directories s) "C:" [] in
  counts <-
    for_fold command_names (0, 0)
      (fun (acc : nat * nat) cmd_name =>
         let (file_count, total_bytes) := acc in
         let cmd_file_path := "C:" ++ cmd_name in
         file_size <- (if Dict.mem cmd_file_path (files s)
                       then c <- getitem (files s) cmd_file_path ;;
                            ret (String.length c)
                       else ret 1024) ;;
         let date_str := format_amiga_date h None true in
         print (if own then command_line cmd_name file_size date_str
                else file_line cmd_name file_size date_str) ;;;
         ret (S file_count, total_bytes + file_size)) ;;
  counts <-
    for_fold (files s) counts
      (fun (acc : nat * nat) (kv : string * string) =>
         let (file_count, total_bytes) := acc in
         let (file_path, file_content) := kv in
         if (if own then startswith "C:" file_path && negb (String.eqb file_path "C:")
             else startswith "C:" file_path) then
           let file_name := drop 2 file_path in
           if (if own
               then negb (contains "/" file_name)
                    && negb (mem_str file_name command_names)
               else negb (contains "/" file_name) && truthy file_name
                    && negb (mem_str file_name command_names)) then
             let file_size := String.length file_content in
             print (file_line file_name file_size (format_amiga_date h None true)) ;;;
             ret (S file_count, total_bytes + file_size)
           else ret acc
         else ret acc) ;;
  print (footer_line (fst counts) 0 (snd counts)).

(** Lines 2396-2416: a subdirectory of [SYS:] that has no entry of its
    own in [self.directories]. *)
Definition sys_subdir_listing (h : Host) (path : string) : M State unit :=
  s <- get ;;
  print (header_line path (format_amiga_day h None) (format_amiga_date h None false)) ;;;
  counts <- print_virtual_files h path (files s) ;;
  print (footer_line (fst counts) 0 (snd counts)).

(** Lines 2421-2446: the listing of a directory of the virtual store. *)
Definition virtual_listing (h : Host) (path : string) : M State unit :=
  s <- get ;;
  print (header_line path (format_amiga_day h None) (format_amiga_date h None false)) ;;;
  let dirs := Dict.get_default (directories s) path [] in
  print_virtual_dirs h dirs ;;;
  counts <- print_virtual_files h path (files s) ;;
  let total_files := List.length dirs + fst counts in
  print (footer_line total_files (List.length dirs) (snd counts)).

(** Lines 1784-1867. *)
Definition _list_shared_folder_files (h : Host) (path device : string)
  : M State unit :=
  s <- get ;;
  shared_info <- getitem (mounted_shared_folders s) device ;;
  let base_path := WSAConsoleTerminal.path shared_info in
  let fs_path :=
    if String.eqb path device then base_path
    else
      let sub_path := drop (String.length device) path in
      let sub_path := if startswith "/" sub_path then drop 1 sub_path else sub_path in
      os_path_join h base_path (replace_char "/" (os_sep h) sub_path) in
  let fs_path := os_path_normpath h fs_path in
  if negb (os_path_exists h fs_path) || negb (os_path_isdir h fs_path) then
    print ("Directory " ++ path ++ " not found.")
  else
    try_catch
      (print (header_line path (format_amiga_day h (Some fs_path))
                          (format_amiga_date h (Some fs_path) false)) ;;;
       print ("(" ++ upper (emulator shared_info) ++ " Shared Folder: " ++ dq ++
              label shared_info ++ dq ++ " from " ++ config shared_info ++ ")") ;;;
       match os_listdir h fs_path with
       | PermissionError _ => print "Access denied to this directory."
       | ListdirError e => print ("Error reading directory: " ++ e)
       | Listed items =>
           let dirs := host_dirs h fs_path items in
           let files := host_files h fs_path items in
           print_host_dirs h fs_path dirs ;;;
           total_bytes <-
             for_fold files 0
               (fun total_bytes file_name =>
                  let file_path := os_path_join h fs_path file_name in
                  let date_str := format_amiga_date h (Some file_path) true in
                  match os_path_getsize h file_path with
                  | Ok file_size =>
                      print (file_line file_name file_size date_str) ;;;
                      ret (total_bytes + file_size)
                  | Exn _ =>
                      print (file_line file_name 0 date_str) ;;;
                      ret total_bytes
                  end) ;;
           let dir_count := List.length dirs in
           let file_count := List.length files in
           let access_note :=
             if String.eqb (access shared_info) "ro" then " (Read-Only)" else "" in
           print (footer_line (dir_count + file_count) dir_count total_bytes
                  ++ access_note)
       end)
      (fun e => print ("Error accessing shared folder " ++ path ++ ": " ++ e)).

Definition _list_files (h : Host) (path : option string) : M State unit :=
  s <- get ;;
  path <- (match path with
           | None => ret (current_dir s)
           | Some p => _resolve_path p
           end) ;;
  device <- device_of path ;;
  if Dict.mem device (mounted_shared_folders s) then
    _list_shared_folder_files h path device
  else if startswith "DH0:" (upper path) then
    if is_wsl h || is_windows h then
      try_catch
        (let fs_path :=
           if String.eqb (upper path) "DH0:"
           then os_path_normpath h (if is_wsl h then "/mnt/c" else c_drive)
           else host_path_of h path in
         real_listing h path fs_path)
        (fun e =>
           print ("Error accessing directory " ++ path ++ ": " ++ e) ;;;
           placeholder_listing h path)
    else placeholder_listing h path
  else if String.eqb path "C:" then command_listing h path true
  else if negb (Dict.mem path (directories s)) then
    handled <-
      (if contains ":" path then
         let (device_part, sub_part) := split_once ":" path in
         let device := device_part ++ ":" in
         if String.eqb device "SYS:"
            && mem_str sub_part (Dict.get_default (directories s) "SYS:" []) then
           (if String.eqb sub_part "C" then command_listing h path false
            else sys_subdir_listing h path) ;;;
           ret true
         else ret false
       else ret false) ;;
    if (handled : bool) then ret tt
    else print ("Directory " ++ path ++ " not found.")
  else virtual_listing h path.

(** ** Change directory (lines 2448-2614 and 2853-2877) *)

(** [self.current_dir = d; self.prompt = f"{self.current_dir}> "; return ""] *)
Definition enter (d : string) : M State string :=
  set_current_dir d ;;;
  s <- get ;;
  set_prompt (current_dir s ++ "> ") ;;;
  ret "".

Definition not_found (path : string) : string :=
  "Directory " ++ path ++ " not found.".

Definition _change_shared_folder_directory (h : Host) (path device : string)
  : M State string :=
  s <- get ;;
  shared_info <- getitem (mounted_shared_folders s) device ;;
  let base_path := WSAConsoleTerminal.path shared_info in
  if String.eqb path device then enter device
  else
    let sub_path := drop (String.length device) path in
    let sub_path := if startswith "/" sub_path then drop 1 sub_path else sub_path in
    let fs_path := os_path_join h base_path (replace_char "/" (os_sep h) sub_path) in
    let fs_path := os_path_normpath h fs_path in
    if negb (os_path_exists h fs_path) || negb (os_path_isdir h fs_path)
    then ret (not_found path)
    else enter path.

(** Lines 2475-2483 and 2505-2516: the directory one level up.  The two
    copies differ in a no-op only ([new_path = parts[0] + ":"] when it
    already has that value). *)
Definition parent_of (cur : string) : M State string :=
  let parts := split ":" cur in
  has_sub <- (if (1 <? List.length parts)%nat
              then p1 <- index parts 1 ;; ret (truthy p1)
              else ret false) ;;
  if has_sub then
    p0 <- index parts 0 ;;
    p1 <- index parts 1 ;;
    let parent_parts := split "/" p1 in
    if (1 <? List.length parent_parts)%nat
    then ret (p0 ++ ":" ++ join "/" (init parent_parts))
    else ret (p0 ++ ":")
  else ret "SYS:".

(** Lines 2465-2518: [..] and [../target]. *)
Definition change_directory_up (path : string) : M State string :=
  s <- get ;;
  if String.eqb (current_dir s) "SYS:" then ret "Already at root directory."
  else if startswith "../" path then
    let target_path := drop 3 path in
    parent_dir <- parent_of (current_dir s) ;;
    if truthy target_path then
      let new_path := if endswith ":" parent_dir
                      then parent_dir ++ target_path
                      else parent_dir ++ "/" ++ target_path in
      if Dict.mem new_path (directories s) then enter new_path
      else ret (not_found target_path)
    else enter parent_dir
  else
    new_path <- parent_of (current_dir s) ;;
    enter new_path.

(** Lines 2528-2547 and 2564-2590: the overlay probe of [new_path];
    [Some ""] is the [return ""] inside the [try]. *)
Definition probe_overlay (h : Host) (new_path : string) : M State (option string) :=
  if is_wsl h || is_windows h then
    try_catch
      (let fs_path := host_path_of h new_path in
       if os_path_exists h fs_path && os_path_isdir h fs_path
       then r <- enter new_path ;; ret (Some r)
       else ret None)
      (fun _ => ret None)
  else ret None.

Definition _change_directory (h : Host) (path : string) : M State string :=
  s <- get ;;
  device <- device_of path ;;
  if Dict.mem device (mounted_shared_folders s) then
    _change_shared_folder_directory h path device
  else if String.eqb (upper path) "DH0:" then enter "DH0:"
  else if String.eqb path ".." || startswith "../" path then
    change_directory_up path
  else if contains ":" path then
    if startswith "DH0:" (upper path) then
      r <- probe_overlay h path ;;
      match r with
      | Some out => ret out
      | None => ret (not_found path)
      end
    else if Dict.mem path (directories s) then enter path
    else ret (not_found path)
  else if startswith "DH0:" (upper (current_dir s)) then
    r <- probe_overlay h (if String.eqb (upper (current_dir s)) "DH0:"
                          then "DH0:/" ++ path
                          else current_dir s ++ "/" ++ path) ;;
    match r with
    | Some out => ret out
    | None => ret (not_found path)
    end
  else
    let new_path := if String.eqb (current_dir s) "SYS:"
                    then "SYS:" ++ path
                    else current_dir s ++ "/" ++ path in
    if Dict.mem new_path (directories s) then enter new_path
    else
      is_child <- (if Dict.mem (current_dir s) (directories s)
                   then children <- getitem (directories s) (current_dir s) ;;
                        ret (mem_str path children)
                   else ret false) ;;
      if is_child then enter new_path
      else ret (not_found path).

(** ** The commands built on them (lines 709-727) and the existence
    check of the overlay (lines 1699-1726) *)

Definition do_dir (h : Host) (arg : string) : M State unit :=
  if truthy (strip arg) then
    resolved_path <- _resolve_path (strip arg) ;;
    _list_files h (Some resolved_path)
  else _list_files h None.

Definition do_cd (h : Host) (arg : string) : M State unit :=
  if negb (truthy arg) then
    s <- get ;; print ("Current directory: " ++ current_dir s)
  else
    result <- _change_directory h arg ;;
    if truthy result then print result else ret tt.

Definition _real_file_exists (h : Host) (amiga_path : string) : M State bool :=
  if negb (startswith "DH0:" amiga_path) then ret false
  else if negb (is_wsl h || is_windows h) then ret false
  else
    try_catch
      (let fs_path := host_path_of h amiga_path in
       ret (os_path_exists h fs_path && os_path_isfile h fs_path))
      (fun _ => ret false).

Definition do_echo (arg : string) : M State unit := print arg.

Definition do_date (h : Host) (arg : string) : M State unit :=
  print (datetime_now h).

(** Lines 2952-2971. *)
Definition _mount_command : M State string :=
  s <- get ;;
  for_fold (Dict.keys (directories s)) ("Mounted volumes:" ++ nl)
    (fun output vol =>
       if String.eqb (upper vol) "DH0:" then
         ret (output ++ "  " ++ vol ++ " (Windows C: Drive)" ++ nl)
       else if Dict.mem vol (mounted_shared_folders s) then
         shared_info <- getitem (mounted_shared_folders s) vol ;;
         let access_note :=
           if String.eqb (access shared_info) "ro" then " (Read-Only)" else "" in
         ret (output ++ "  " ++ vol ++ " (" ++ upper (emulator shared_info) ++
              " Shared: " ++ dq ++ label shared_info ++ dq ++ " from " ++
              config shared_info ++ ")" ++ access_note ++ nl)
       else ret (output ++ "  " ++ vol ++ nl)).

(** ** The startup script runner (lines 461-524)

    The runner finds the command of a line among the [do_*] methods of
    the object.  [do_dir], [do_cd], [do_echo] and [do_date] are the ones
    above; the others (the information screens, the editor, the file
    commands, the emulator and speech launchers, [do_execute]) are the
    table [other_do], about which nothing is assumed: a method may print,
    change the state and raise. *)

Section Runner.

Variable h : Host.
Variable other_do : string -> option (string -> M State unit).

(** [getattr(self, "do_" + cmd)] when [hasattr] says it exists. *)
Definition do_method (cmd : string) : option (string -> M State unit) :=
  if String.eqb cmd "dir" then Some (do_dir h)
  else if String.eqb cmd "cd" then Some (do_cd h)
  else if String.eqb cmd "echo" then Some do_echo
  else if String.eqb cmd "date" then Some (do_date h)
  else other_do cmd.

(** The body of the [try] for one stripped line. *)
Definition run_line (line : string) : M State unit :=
  if startswith "echo " (lower line) then print (drop 5 line)
  else
    let parts := split_ws line in
    if negb (0 <? List.length parts)%nat then ret tt
    else
      p0 <- index parts 0 ;;
      let cmd := lower p0 in
      let args := if (1 <? List.length parts)%nat then join " " (tl parts) else "" in
      match do_method cmd with
      | Some method =>
          r <- redirect_stdout (method args) ;;
          let output := snd r in
          if truthy (strip output) then print (strip output) else ret tt
      | None =>
          if String.eqb cmd "cd" then
            result <- _change_directory h args ;;
            if truthy result then print result else ret tt
          else if String.eqb cmd "dir" then
            r <- redirect_stdout (_list_files h None) ;;
            print (strip (snd r))
          else if String.eqb cmd "mount" then
            r <- redirect_stdout _mount_command ;;
            print (strip (snd r))
          else if String.eqb cmd "date" then print (datetime_now h)
          else print ("Startup command not recognized: " ++ line)
      end.

(** The text the [except Exception as e] clause prints. *)
Definition startup_error (line e : string) : string :=
  "Error executing startup command '" ++ line ++ "': " ++ e.

Definition skipped (line : string) : bool :=
  negb (truthy line) || startswith ";" line.

(** One iteration of the [for] loop, from the raw line. *)
Definition script_step (raw : string) : M State unit :=
  let line := strip raw in
  if skipped line then ret tt
  else try_catch (run_line line) (fun e => print (startup_error line e)).

Definition _run_startup_script (script_name content : string) : M State unit :=
  print ("Executing " ++ script_name ++ "...") ;;;
  for_each (split "010" content) script_step.

(** Lines 426-459. *)
Definition _execute_startup_sequence : M State unit :=
  print "Executing startup sequence..." ;;;
  let startup_file := "SYS:S/Startup-Sequence" in
  s <- get ;;
  if Dict.mem startup_file (files s) then
    content <- getitem (files s) startup_file ;;
    _run_startup_script startup_file content
  else
    done <-
      (if is_windows h then
         try_catch
           (let fs_path :=
              os_path_join h (os_path_join h c_drive "S") "Startup-Sequence" in
            if os_path_exists h fs_path then
              content <- lift_outcome (read_text h fs_path) ;;
              _run_startup_script startup_file content ;;;
              ret true
            else ret false)
           (fun _ => ret false)
       else ret false) ;;
    if (done : bool) then ret tt
    else
      s <- get ;;
      match find (fun location => Dict.mem location (files s))
                 ["SYS:S/startup-sequence"; "S:Startup-Sequence";
                  "S:startup-sequence"] with
      | Some location =>
          content <- getitem (files s) location ;;
          _run_startup_script location content
      | None => ret tt
      end.

Definition __init__ : outcome unit * State :=
  _execute_startup_sequence (init_dh0 h initial_fields).

End Runner.

End WSAConsoleTerminal.

(** ** Two concrete hosts, for the examples

    [posix_host] is a machine that is neither Windows nor WSL: the overlay
    is off and every listing comes from the virtual store.
    [windows_host] is a Windows machine on which the only thing the file
    system answers for is the directory ["C:\foo\"], spelled with its
    trailing separator, and on which [psutil] fails. *)

Definition posix_host : Host := {|
  platform_system := "Linux";
  platform_release := "6.1";
  platform_processor := "";
  platform_machine := "x86_64";
  platform_node := "host";
  platform_python_version := "3.12.0";
  psutil_virtual_memory := PsutilImportError;
  datetime_now := "2025-01-01 00:00:00";
  os_path_exists := fun _ => false;
  os_path_isdir := fun _ => false;
  os_path_isfile := fun _ => false;
  os_path_join := fun a b => a ++ "/" ++ b;
  os_path_normpath := fun p => p;
  os_sep := "/"%char;
  os_listdir := fun p => ListdirError ("No such file or directory: " ++ p);
  os_path_getsize := fun p => Exn ("No such file or directory: " ++ p);
  read_text := fun p => Exn ("No such file or directory: " ++ p);
  format_amiga_day := fun _ => "Wednesday";
  format_amiga_date := fun _ full =>
    if full then "01-Jan-25 00:00:00" else "01-Jan-25"
|}.

Definition windows_host : Host := {|
  platform_system := "Windows";
  platform_release := "10";
  platform_processor := "";
  platform_machine := "AMD64";
  platform_node := "host";
  platform_python_version := "3.12.0";
  psutil_virtual_memory := PsutilError "psutil: access denied";
  datetime_now := "2025-01-01 00:00:00";
  os_path_exists := fun p => String.eqb p ("C:" ++ PyStr.bs ++ "foo" ++ PyStr.bs);
  os_path_isdir := fun p => String.eqb p ("C:" ++ PyStr.bs ++ "foo" ++ PyStr.bs);
  os_path_isfile := fun _ => false;
  os_path_join := fun a b => a ++ b;
  os_path_normpath := fun p => p;
  os_sep := "\"%char;
  os_listdir := fun p => Listed [];
  os_path_getsize := fun p => Exn ("No such file or directory: " ++ p);
  read_text := fun p => Exn ("No such file or directory: " ++ p);
  format_amiga_day := fun _ => "Wednesday";
  format_amiga_date := fun _ full =>
    if full then "01-Jan-25 00:00:00" else "01-Jan-25"
|}.

(** The web terminal with another current directory. *)
Definition web_at (d : string) (s : AmigaTerminal.State) : AmigaTerminal.State :=
  snd (AmigaTerminal.set_current_dir d s).

(** The console terminal with another current directory. *)
Definition console_at (d : string) (s : WSAConsoleTerminal.State)
  : WSAConsoleTerminal.State :=
  snd (WSAConsoleTerminal.set_current_dir d s).

(** The terminals of a fresh session on [posix_host]. *)
Definition web_fresh : AmigaTerminal.State :=
  snd (AmigaTerminal.__init__ posix_host).

Definition console_fresh : WSAConsoleTerminal.State :=
  snd (WSAConsoleTerminal.__init__ posix_host (fun _ => None)).


(** ** What change-directory may answer

    The texts the two [change_directory] methods return besides the empty
    one, and the shape of their result: either the empty text (the
    directory was entered), or one of these texts with the terminal left
    exactly as it was. *)

Definition web_cd_message (path msg : string) : Prop :=
  msg = "Usage: CD <directory>" ++ PyStr.nl \/
  msg = "Already at root directory." ++ PyStr.nl \/
  msg = AmigaTerminal.not_found path.

Definition web_cd_outcome (path : string) (s : AmigaTerminal.State)
    (r : outcome string * AmigaTerminal.State) : Prop :=
  (exists s', r = (Ok "", s')) \/
  (exists msg, r = (Ok msg, s) /\ msg <> "" /\ web_cd_message path msg).

Definition console_cd_message (path msg : string) : Prop :=
  msg = "Already at root directory." \/
  msg = WSAConsoleTerminal.not_found path \/
  msg = WSAConsoleTerminal.not_found (PyStr.drop 3 path).

Definition console_cd_outcome (path : string) (s : WSAConsoleTerminal.State)
    (r : outcome string * WSAConsoleTerminal.State) : Prop :=
  (exists s', r = (Ok "", s')) \/
  (exists msg, r = (Ok msg, s) /\ msg <> "" /\ console_cd_message path msg).

(** ** Canonical paths

    A path is alias-prefixed when its upper-cased text starts with one of
    the logical assignments.  A canonical path, in the words of the
    specification, is of the form [DEVICE:segment/segment...] with no
    alias as its device, no [..] segment and no trailing slash. *)

Definition alias_prefixed (p : string) : bool :=
  existsb (fun la => PyStr.startswith (fst la) (PyStr.upper p))
          WSAConsoleTerminal.logical_assignments.

Definition segments (p : string) : list string :=
  PyStr.split "/" (snd (WSAConsoleTerminal.split_once ":" p)).

Definition is_canonical (p : string) : bool :=
  PyStr.contains ":" p
  && negb (alias_prefixed p)
  && negb (mem_str ".." (segments p))
  && negb (PyStr.endswith "/" p).

(** ** The command history of the web terminal

    [recorded s line] tells whether [execute_command] appends [line] to
    the history: the line has a first token, and that token is not a
    device shorthand.  A session is the sequence of the command lines the
    socket handler passes to [execute_command] one after the other (an
    exception of one command is reported to the client and the loop goes
    on with the state the command left).  A method frames the history when
    it leaves the history, the directories and the files as they are. *)

Definition recorded (s : AmigaTerminal.State) (line : string) : bool :=
  match PyStr.split_ws (PyStr.strip line) with
  | [] => false
  | p0 :: _ =>
      negb (PyStr.endswith ":" (PyStr.lower p0)
            && AmigaTerminal.is_device s (PyStr.lower p0))
  end.

Fixpoint session (h : Host) (lines : list string) (s : AmigaTerminal.State)
  : AmigaTerminal.State :=
  match lines with
  | [] => s
  | line :: rest => session h rest (snd (AmigaTerminal.execute_command h line s))
  end.

Definition frames_history {A : Type} (m : M AmigaTerminal.State A) : Prop :=
  forall s,
    AmigaTerminal.command_history (snd (m s)) = AmigaTerminal.command_history s /\
    AmigaTerminal.directories (snd (m s)) = AmigaTerminal.directories s /\
    AmigaTerminal.files (snd (m s)) = AmigaTerminal.files s.

(** ** A method table for the examples of the console runner

    The only method besides the embedded ones is [do_info], and it
    raises. *)

Definition failing_do (cmd : string)
  : option (string -> M WSAConsoleTerminal.State unit) :=
  if String.eqb cmd "info" then Some (fun _ => raise "no terminal") else None.

(** ** Listings

    [emit lines s] is the console after it printed [lines].
    [direct_files path fs] are the entries of the file dictionary that the
    listings count as the files of [path]: the key is [path/name] with no
    further slash. *)

Definition emit (lines : list string) (s : WSAConsoleTerminal.State)
  : WSAConsoleTerminal.State :=
  {| WSAConsoleTerminal.current_dir := WSAConsoleTerminal.current_dir s;
     WSAConsoleTerminal.prompt := WSAConsoleTerminal.prompt s;
     WSAConsoleTerminal.directories := WSAConsoleTerminal.directories s;
     WSAConsoleTerminal.files := WSAConsoleTerminal.files s;
     WSAConsoleTerminal.mounted_shared_folders :=
       WSAConsoleTerminal.mounted_shared_folders s;
     WSAConsoleTerminal.stdout := (WSAConsoleTerminal.stdout s ++ lines)%list |}.




(** The host path the console's overlay listing probes (lines
    2193-2210), and the entries of a host directory that are regular
    files, the ones whose sizes the footer adds up. *)



(** ** Case-insensitive order

    [ci_le a b]: the lower-cased [b] is not smaller than the lower-cased
    [a], the order [sort(key=str.lower)] sorts by. *)

Definition ci_le (a b : string) : Prop :=
  String.ltb (PyStr.lower b) (PyStr.lower a) = false.

(** ** Navigation by name

    The directory a relative name leads to from [cur] (lines 450-453 of
    wsa.py, 2593-2596 of wsa_console.py): the name is put right after the
    colon of [SYS:], and after a slash everywhere else. *)

Definition child_path (cur name : string) : string :=
  if String.eqb cur "SYS:" then "SYS:" ++ name else cur ++ "/" ++ name.

(** ** Invariants of the web terminal

    [prompt_follows s]: the stored prompt is the one [get_prompt] computes
    from the current directory.  [web_preserves I m]: the method [m] keeps
    the state property [I], also when it raises. *)

Definition prompt_follows (s : AmigaTerminal.State) : Prop :=
  AmigaTerminal.prompt s = AmigaTerminal.current_dir s ++ "> ".

Definition web_preserves (I : AmigaTerminal.State -> Prop) {A : Type}
    (m : M AmigaTerminal.State A) : Prop :=
  forall s, I s -> I (snd (m s)).

(** * src/wsa_console.py : class EmulatorSharedFolder (lines 81-305)

    The object keeps three dictionaries.  [winuae_configs] and
    [fsuae_configs] are filled by [__init__] from the configuration files
    it finds and are only read afterwards: they are the parameters of the
    section.  [mounted_shared_folders] is the state of the methods. *)

Module EmulatorSharedFolder.

Import PyStr.

(** An entry of the ['shared_folders'] of a configuration. *)
Record Folder : Type := {
  label : string;
  path : string;
  access : string
}.

(** A value of [winuae_configs] or [fsuae_configs]. *)
Record Config : Type := {
  config_path : string;
  shared_folders : Dict.t Folder
}.

Definition Mounted : Type := Dict.t WSAConsoleTerminal.SharedInfo.

(** [device = device.upper(); if not device.endswith(':'): device += ':'] *)
Definition device_name (device : string) : string :=
  let device := upper device in
  if negb (endswith ":" device) then device ++ ":" else device.

(** ** Reading the configuration files (lines 139-218)

    Iterating over a file yields its lines one by one, and opening the
    file or reading on may raise at any point: [yielded] are the lines
    the loop got before that, and [failed] the message of the exception,
    if there was one.  The loop has handled the lines it got when the
    exception arrives, so the [except] clause prints the warning and the
    parser returns the dictionary as filled so far (the empty one when
    the file could not be opened).  The result is the pair of the lines
    printed and the dictionary returned. *)

Record reading : Type := {
  yielded : list string;
  failed : option string
}.

(** [s.split(sep, n)] *)
Fixpoint splitn (sep : ascii) (n : nat) (s : string) : list string :=
  match n with
  | O => [s]
  | S n' =>
      if contains (String sep EmptyString) s then
        let (a, b) := WSAConsoleTerminal.split_once sep s in
        a :: splitn sep n' b
      else [s]
  end.

Section Parsers.

Variable h : Host.
(** [open(config_file, 'r', encoding='utf-8', errors='ignore')], read
    line by line. *)
Variable read_config_lines : string -> reading.

(** Lines 146-170: one line of a [.uae] file.  The body of the inner
    [try] raises only where [None] stands here, and the [except] clause
    goes on with the next line. *)
Definition parse_winuae_line (shared_folders : Dict.t Folder) (raw : string)
  : Dict.t Folder :=
  let line := strip raw in
  if startswith "filesystem2=" line then
    match nth_error (splitn "=" 1 line) 1 with
    | None => shared_folders
    | Some fields =>
        let parts := split "," fields in
        if (3 <=? List.length parts)%nat then
          match parts with
          | access_mode :: device_info :: _ =>
              if contains ":" device_info then
                let device_parts := splitn ":" 2 device_info in
                if (3 <=? List.length device_parts)%nat then
                  match device_parts with
                  | d0 :: label1 :: path1 :: _ =>
                      let device := d0 ++ ":" in
                      if os_path_exists h path1 then
                        Dict.set shared_folders device
                          {| label := label1; path := path1; access := access_mode |}
                      else shared_folders
                  | _ => shared_folders
                  end
                else shared_folders
              else shared_folders
          | _ => shared_folders
          end
        else shared_folders
    end
  else shared_folders.

Definition _parse_winuae_config (config_file : string)
  : list string * Dict.t Folder :=
  let r := read_config_lines config_file in
  (match failed r with
   | Some e => ["Warning: Could not parse WinUAE config " ++ config_file ++ ": " ++ e]
   | None => []
   end,
   fold_left parse_winuae_line (yielded r) []).

(** Lines 183-214: one line of a [.fs-uae] file. *)
Definition parse_fsuae_line (shared_folders : Dict.t Folder) (raw : string)
  : Dict.t Folder :=
  let line := strip raw in
  if startswith "hard_drive_" line && contains "=" line then
    match splitn "=" 1 line with
    | [key; value] =>
        let key := strip key in
        let value := strip value in
        if contains "_" key then
          let drive_num := List.last (split "_" key) EmptyString in
          if endswith "_label" key then shared_folders
          else if os_path_isdir h value then
            let device := "DH" ++ drive_num ++ ":" in
            let label1 := "Drive" ++ drive_num in
            Dict.set shared_folders device
              {| label := label1; path := value; access := "rw" |}
          else shared_folders
        else shared_folders
    | _ => shared_folders
    end
  else shared_folders.

Definition _parse_fsuae_config (config_file : string)
  : list string * Dict.t Folder :=
  let r := read_config_lines config_file in
  (match failed r with
   | Some e => ["Warning: Could not parse FS-UAE config " ++ config_file ++ ": " ++ e]
   | None => []
   end,
   fold_left parse_fsuae_line (yielded r) []).

End Parsers.

Section Configs.

Variable winuae_configs : Dict.t Config.
Variable fsuae_configs : Dict.t Config.

(** Lines 227-242 and 245-260: the two branches of [mount_shared_folder]
    are the same text up to the dictionary, the stored emulator name
    [emulator] and the name [title] the messages use. *)
Definition mount_from (configs : Dict.t Config) (emulator title : string)
    (device config_name : string) : M Mounted (bool * string) :=
  if Dict.mem config_name configs then
    config <- getitem configs config_name ;;
    if Dict.mem device (shared_folders config) then
      folder_info <- getitem (shared_folders config) device ;;
      mounted <- get ;;
      put (Dict.set mounted device
             {| WSAConsoleTerminal.emulator := emulator;
                WSAConsoleTerminal.config := config_name;
                WSAConsoleTerminal.label := label folder_info;
                WSAConsoleTerminal.path := path folder_info;
                WSAConsoleTerminal.access := access folder_info |}) ;;;
      ret (true, device ++ " mounted from " ++ title ++ " config '" ++
                 config_name ++ "' (" ++ label folder_info ++ ")")
    else
      ret (false, "Device " ++ device ++ " not found in " ++ title ++
                  " config '" ++ config_name ++ "'")
  else ret (false, title ++ " config '" ++ config_name ++ "' not found").

Definition mount_shared_folder (device emulator_type config_name : string)
  : M Mounted (bool * string) :=
  let device := device_name device in
  if String.eqb (lower emulator_type) "winuae" then
    mount_from winuae_configs "winuae" "WinUAE" device config_name
  else if String.eqb (lower emulator_type) "fs-uae" then
    mount_from fsuae_configs "fs-uae" "FS-UAE" device config_name
  else ret (false, "Unknown emulator type: " ++ emulator_type).

Definition unmount_shared_folder (device : string) : M Mounted (bool * string) :=
  let device := device_name device in
  mounted <- get ;;
  if Dict.mem device mounted then
    put (Dict.del mounted device) ;;;
    ret (true, device ++ " unmounted")
  else ret (false, "Device " ++ device ++ " is not mounted").

(** [None] is Python's [None]. *)
Definition get_shared_folder_path (device : string) : M Mounted (option string) :=
  let device := device_name device in
  mounted <- get ;;
  if Dict.mem device mounted then
    shared_info <- getitem mounted device ;;
    ret (Some (WSAConsoleTerminal.path shared_info))
  else ret None.

(** An entry of the list [list_available_configs] returns. *)
Record Available : Type := {
  available_emulator : string;
  available_name : string;
  available_shared_folders : list string
}.

Definition list_available_configs : list Available :=
  (map (fun kv => {| available_emulator := "WinUAE";
                     available_name := fst kv;
                     available_shared_folders := Dict.keys (shared_folders (snd kv)) |})
       winuae_configs
   ++
   map (fun kv => {| available_emulator := "FS-UAE";
                     available_name := fst kv;
                     available_shared_folders := Dict.keys (shared_folders (snd kv)) |})
       fsuae_configs)%list.

End Configs.

End EmulatorSharedFolder.

(** * src/wsa_console.py : the file commands of WSAConsoleTerminal

    [MAKEDIR], [TYPE], [COPY] and [DELETE] (lines 1389-1758) and the
    completion of path names (lines 553-707), on the terminal object of
    [WSAConsoleTerminal]. *)

(** What these methods ask of the operating system besides [Host].  The
    host is the one the command finds: what a command itself writes to
    the disk is not followed. *)

Inductive read_result : Type :=
| Content (text : string)
| UnicodeDecodeError
| ReadError (msg : string).

(** [KeyboardInterrupt] is no [Exception]; [InputError] is any exception
    [input] raises that is one ([EOFError]). *)
Inductive input_result : Type :=
| Answer (text : string)
| KeyboardInterrupt
| InputError (msg : string).

Record Disk : Type := {
  (** [open(p, 'r', encoding='utf-8').read()] *)
  read_utf8 : string -> read_result;
  (** [open(p, 'r', encoding='latin-1').read()] *)
  read_latin1 : string -> outcome string;
  (** [open(p, 'w', encoding='utf-8').write(content)] *)
  write_utf8 : string -> string -> outcome unit;
  (** [os.makedirs(p, exist_ok=True)] *)
  os_makedirs : string -> outcome unit;
  os_path_dirname : string -> string;
  os_remove : string -> outcome unit;
  (** [input(prompt)]: the line typed.  [input] writes the prompt itself;
      it is not among the texts handed to [print]. *)
  input : string -> input_result
}.

Module ConsoleCommands.

Import PyStr.
Import WSAConsoleTerminal.

Definition set_directories (d : Dict.t (list string)) : M State unit :=
  fun s => (Ok tt, {| current_dir := current_dir s; prompt := prompt s;
                      directories := d; files := files s;
                      mounted_shared_folders := mounted_shared_folders s;
                      stdout := stdout s |}).

Definition set_files (f : Dict.t string) : M State unit :=
  fun s => (Ok tt, {| current_dir := current_dir s; prompt := prompt s;
                      directories := directories s; files := f;
                      mounted_shared_folders := mounted_shared_folders s;
                      stdout := stdout s |}).

(** [s.startswith((p1, p2, ...))] *)
Definition startswith_any (ps : list string) (s : string) : bool :=
  existsb (fun p => startswith p s) ps.

(** [s.rsplit(sep, 1)[0]]: the text before the last [sep], all of [s]
    when it has none. *)
Fixpoint rsplit_head (sep : ascii) (s : string) : string :=
  match s with
  | EmptyString => EmptyString
  | String c s' =>
      if contains (String sep EmptyString) s' then String c (rsplit_head sep s')
      else if Ascii.eqb c sep then EmptyString
      else s
  end.

Section Commands.

Variable h : Host.
Variable d : Disk.

(** ** MAKEDIR (lines 1548-1626) *)

Definition _create_real_directory (amiga_path : string) : M State bool :=
  if negb (startswith "DH0:" amiga_path) then ret false
  else if negb (is_wsl h || is_windows h) then ret false
  else
    try_catch
      (let sub_path := sub_path_of amiga_path in
       let fs_path := if is_wsl h then "/mnt/c/" ++ sub_path
                      else c_drive ++ sub_path in
       let fs_path := if is_wsl h then replace_char "\" "/" fs_path
                      else replace_char "/" "\" fs_path in
       lift_outcome (os_makedirs d fs_path) ;;;
       ret true)
      (fun e =>
         print ("MAKEDIR: Error creating directory - " ++ e) ;;;
         ret false).

Definition do_makedir (arg : string) : M State unit :=
  if negb (truthy (strip arg)) then
    print "MAKEDIR: No directory name specified" ;;;
    print "Usage: MAKEDIR <directory_name>"
  else
    let dir_name := strip arg in
    if startswith "DH0:" dir_name then
      created <- _create_real_directory dir_name ;;
      if (created : bool)
      then print ("MAKEDIR: Directory '" ++ dir_name ++ "' created")
      else print ("MAKEDIR: Failed to create directory '" ++ dir_name ++ "'")
    else
      s <- get ;;
      let current_dir := current_dir s in
      let dir_path :=
        if negb (startswith_any ["SYS:"; "RAM:"; "C:"; "DH0:"] dir_name) then
          if endswith ":" current_dir then current_dir ++ dir_name
          else current_dir ++ "/" ++ dir_name
        else dir_name in
      if negb (Dict.mem dir_path (directories s)) then
        set_directories (Dict.set (directories s) dir_path []) ;;;
        print ("MAKEDIR: Directory '" ++ dir_name ++ "' created") ;;;
        let parent_dir := current_dir in
        s <- get ;;
        if Dict.mem parent_dir (directories s) then
          children <- getitem (directories s) parent_dir ;;
          if negb (mem_str dir_name children) then
            set_directories
              (Dict.set (directories s) parent_dir (children ++ [dir_name])%list)
          else ret tt
        else ret tt
      else print ("MAKEDIR: Directory '" ++ dir_name ++ "' already exists").

(** ** The files of the [DH0:] overlay (lines 1628-1758) *)

(** [None] is Python's [None].  The first [try] raises only from reading
    the file; its [except] clause then reads the same path as latin-1. *)
Definition _read_real_file (amiga_path : string) : M State (option string) :=
  if negb (startswith "DH0:" amiga_path) then ret None
  else if negb (is_wsl h || is_windows h) then ret None
  else
    let fs_path := host_path_of h amiga_path in
    if os_path_exists h fs_path && os_path_isfile h fs_path then
      match read_utf8 d fs_path with
      | Content text => ret (Some text)
      | UnicodeDecodeError | ReadError _ =>
          match read_latin1 d fs_path with
          | Ok text => ret (Some text)
          | Exn _ => ret None
          end
      end
    else ret None.

Definition _write_real_file (amiga_path content : string) : M State bool :=
  if negb (startswith "DH0:" amiga_path) then ret false
  else if negb (is_wsl h || is_windows h) then ret false
  else
    try_catch
      (let fs_path := host_path_of h amiga_path in
       lift_outcome (os_makedirs d (os_path_dirname d fs_path)) ;;;
       lift_outcome (write_utf8 d fs_path content) ;;;
       ret true)
      (fun _ => ret false).

Definition _delete_real_file (amiga_path : string) : M State bool :=
  if negb (startswith "DH0:" amiga_path) then ret false
  else if negb (is_wsl h || is_windows h) then ret false
  else
    try_catch
      (let fs_path := host_path_of h amiga_path in
       if os_path_exists h fs_path && os_path_isfile h fs_path then
         lift_outcome (os_remove d fs_path) ;;;
         ret true
       else ret false)
      (fun _ => ret false).

(** ** TYPE (lines 1389-1451) *)

Definition do_type (arg : string) : M State unit :=
  if negb (truthy arg) then
    print "TYPE: No file specified" ;;;
    print "Usage: TYPE <file>"
  else
    file_path <- _resolve_file_path arg ;;
    s <- get ;;
    if Dict.mem file_path (files s) then
      content <- getitem (files s) file_path ;;
      print content
    else if startswith "DH0:" file_path && (is_wsl h || is_windows h) then
      try_catch
        (let fs_path := host_path_of h file_path in
         if os_path_exists h fs_path && os_path_isfile h fs_path then
           match read_utf8 d fs_path with
           | Content content => print content
           | UnicodeDecodeError =>
               match read_latin1 d fs_path with
               | Ok content => print content
               | Exn _ =>
                   print ("TYPE: Cannot read file '" ++ arg ++
                          "' - binary file or encoding error")
               end
           | ReadError e =>
               print ("TYPE: Error reading file '" ++ arg ++ "': " ++ e)
           end
         else print ("TYPE: File '" ++ arg ++ "' not found"))
        (fun e => print ("TYPE: Error accessing file '" ++ arg ++ "': " ++ e))
    else print ("TYPE: File '" ++ arg ++ "' not found").

(** ** COPY (lines 1453-1499) *)

Definition copied (source_file dest_file : string) : string :=
  "COPY: '" ++ source_file ++ "' copied to '" ++ dest_file ++ "'".

(** Lines 1489-1499. *)
Definition copy_write (source_file dest_file dest_path source_content : string)
  : M State unit :=
  if startswith "DH0:" dest_path then
    written <- _write_real_file dest_path source_content ;;
    if (written : bool) then print (copied source_file dest_file)
    else print ("COPY: Failed to copy to '" ++ dest_file ++ "'")
  else
    s <- get ;;
    set_files (Dict.set (files s) dest_path source_content) ;;;
    print (copied source_file dest_file).

Definition do_copy (arg : string) : M State unit :=
  if negb (truthy arg) then
    print "COPY: No arguments specified" ;;;
    print "Usage: COPY <source> <destination>"
  else
    let args := split_ws arg in
    if (List.length args <? 2)%nat then
      print "COPY: Missing destination" ;;;
      print "Usage: COPY <source> <destination>"
    else
      source_file <- index args 0 ;;
      dest_file <- index args 1 ;;
      source_path <- _resolve_file_path source_file ;;
      dest_path <- _resolve_file_path dest_file ;;
      s <- get ;;
      if Dict.mem source_path (files s) then
        source_content <- getitem (files s) source_path ;;
        copy_write source_file dest_file dest_path source_content
      else if startswith "DH0:" source_path then
        r <- _read_real_file source_path ;;
        match r with
        | None => print ("COPY: Cannot read source file '" ++ source_file ++ "'")
        | Some source_content =>
            copy_write source_file dest_file dest_path source_content
        end
      else print ("COPY: Source file '" ++ source_file ++ "' not found").

(** ** DELETE (lines 1501-1546) *)

(** Lines 1529-1536: [true] when the answer is [y] or [yes]; the texts
    printed on the other answers are printed here. *)
Definition confirm_deletion (arg : string) : M State bool :=
  match input d ("Delete '" ++ arg ++ "' (y/N)? ") with
  | Answer text =>
      let response := lower (strip text) in
      if negb (mem_str response ["y"; "yes"]) then
        print "DELETE: Operation cancelled" ;;; ret false
      else ret true
  | KeyboardInterrupt =>
      print (nl ++ "DELETE: Operation cancelled") ;;; ret false
  | InputError e => raise e
  end.

Definition do_delete (arg : string) : M State unit :=
  if negb (truthy arg) then
    print "DELETE: No file specified" ;;;
    print "Usage: DELETE <file>"
  else
    file_path <- _resolve_file_path arg ;;
    s <- get ;;
    found <-
      (if Dict.mem file_path (files s) then ret (true, false)
       else if startswith "DH0:" file_path then
         e <- _real_file_exists h file_path ;;
         if (e : bool) then ret (true, true) else ret (false, false)
       else ret (false, false)) ;;
    let (file_exists, is_real_file) := (found : bool * bool) in
    if negb file_exists then print ("DELETE: File '" ++ arg ++ "' not found")
    else
      confirmed <- confirm_deletion arg ;;
      if negb confirmed then ret tt
      else if is_real_file then
        deleted <- _delete_real_file file_path ;;
        if (deleted : bool) then print ("DELETE: File '" ++ arg ++ "' deleted")
        else print ("DELETE: Failed to delete '" ++ arg ++ "'")
      else
        s <- get ;;
        (if Dict.mem file_path (files s)
         then set_files (Dict.del (files s) file_path)
         else raise ("'" ++ file_path ++ "'")) ;;;
        print ("DELETE: File '" ++ arg ++ "' deleted").

(** ** Completion of path names (lines 553-707) *)

(** Lines 599-620: the candidates from the items of a host directory. *)
Definition overlay_candidates (device path_part fs_parent_path : string)
    (directories_only : bool) (items : list string) : list string :=
  flat_map
    (fun item =>
       let item_path := os_path_join h fs_parent_path item in
       let full_path :=
         if truthy path_part
         then device ++ rsplit_head "/" path_part ++ "/" ++ item
         else device ++ item in
       if os_path_isdir h item_path then [full_path ++ "/"]
       else if negb directories_only then [full_path]
       else [])
    items.

(** Lines 625-643. *)
Definition device_candidates (s : State) (text device : string)
    (directories_only : bool) : M State (list string) :=
  children <- getitem (directories s) device ;;
  let dirs :=
    filter (startswith text) (map (fun dir_name => device ++ dir_name ++ "/") children) in
  let files :=
    if negb directories_only then
      filter (startswith text)
        (map (fun file_name => device ++ file_name)
           (filter (fun file_name => negb (contains "/" file_name))
              (map (drop (String.length device))
                 (filter (startswith device) (Dict.keys (files s))))))
    else [] in
  ret (dirs ++ files)%list.

(** Lines 692-705. *)
Definition current_candidates (s : State) (text : string)
    (directories_only : bool) : M State (list string) :=
  dirs <-
    (if Dict.mem (current_dir s) (directories s) then
       children <- getitem (directories s) (current_dir s) ;;
       ret (map (fun dir_name => dir_name ++ "/") (filter (startswith text) children))
     else ret []) ;;
  let files :=
    if negb directories_only then
      filter (fun file_name => negb (contains "/" file_name) && startswith text file_name)
        (map (drop (String.length (current_dir s) + 1))
           (filter (startswith (current_dir s ++ "/")) (Dict.keys (files s))))
    else [] in
  ret (dirs ++ files)%list.

Definition _get_matching_paths (text : string) (directories_only : bool)
  : M State (list string) :=
  s <- get ;;
  if contains ":" text then
    let (device_part, path_part) := split_once ":" text in
    let device := device_part ++ ":" in
    found <-
      (if String.eqb (upper device) "DH0:" && (is_wsl h || is_windows h) then
         let fs_base_path := if is_wsl h then "/mnt/c" else c_drive in
         let fs_search_path :=
           if truthy path_part then
             if is_wsl h
             then os_path_join h fs_base_path (replace_char "\" "/" path_part)
             else os_path_join h fs_base_path (replace_char "/" "\" path_part)
           else fs_base_path in
         let fs_search_path := os_path_normpath h fs_search_path in
         let fs_parent_path :=
           if truthy path_part && negb (endswith "/" path_part)
              && negb (endswith "\" path_part)
           then os_path_dirname d fs_search_path
           else fs_search_path in
         if os_path_exists h fs_parent_path && os_path_isdir h fs_parent_path then
           match os_listdir h fs_parent_path with
           | Listed items =>
               ret (Some (filter (startswith text)
                            (overlay_candidates device path_part fs_parent_path
                               directories_only items)))
           | PermissionError _ | ListdirError _ => ret None
           end
         else ret None
       else ret None) ;;
    match found with
    | Some matches => ret matches
    | None =>
        if Dict.mem device (directories s)
        then device_candidates s text device directories_only
        else ret []
    end
  else
    found <-
      (if startswith "DH0:" (upper (current_dir s)) && (is_wsl h || is_windows h) then
         let fs_path :=
           if String.eqb (upper (current_dir s)) "DH0:"
           then (if is_wsl h then "/mnt/c" else c_drive)
           else (if is_wsl h
                 then os_path_join h "/mnt/c"
                        (replace_char "\" "/" (sub_path_of (current_dir s)))
                 else os_path_join h c_drive
                        (replace_char "/" "\" (sub_path_of (current_dir s)))) in
         let fs_path := os_path_normpath h fs_path in
         if os_path_exists h fs_path && os_path_isdir h fs_path then
           match os_listdir h fs_path with
           | Listed items =>
               ret (Some
                      (flat_map
                         (fun item =>
                            if startswith text item then
                              if os_path_isdir h (os_path_join h fs_path item)
                              then [item ++ "/"]
                              else if negb directories_only then [item]
                              else []
                            else [])
                         items))
           | PermissionError _ | ListdirError _ => ret None
           end
         else ret None
       else ret None) ;;
    match found with
    | Some matches => ret matches
    | None => current_candidates s text directories_only
    end.

Definition complete_cd (text : string) : M State (list string) :=
  _get_matching_paths text true.

Definition complete_dir (text : string) : M State (list string) :=
  _get_matching_paths text false.

End Commands.

(** ** EXECUTE (lines 1915-1922 and 2098-2126)

    The script runs in the runner of the startup scripts, with the same
    table [other_do] of further commands. *)

Section Scripts.

Variable h : Host.
Variable other_do : string -> option (string -> M State unit).

(** [None] is Python's [None]. *)
Definition _get_fs_path (amiga_path : string) : option string :=
  if startswith "DH0:" amiga_path
  then Some (os_path_join h c_drive (replace_char "/" "\" (sub_path_of amiga_path)))
  else None.

Definition do_execute (arg : string) : M State unit :=
  if negb (truthy arg) then
    print "EXECUTE: No script specified" ;;;
    print "Usage: EXECUTE <script>"
  else
    script_path <- _resolve_file_path arg ;;
    s <- get ;;
    if Dict.mem script_path (files s) then
      content <- getitem (files s) script_path ;;
      _run_startup_script h other_do script_path content
    else
      done <-
        (if startswith "DH0:" script_path && is_windows h then
           try_catch
             (match _get_fs_path script_path with
              | Some fs_path =>
                  if truthy fs_path && os_path_exists h fs_path then
                    content <- lift_outcome (read_text h fs_path) ;;
                    _run_startup_script h other_do script_path content ;;;
                    ret true
                  else ret false
              | None => ret false
              end)
             (fun e => print ("Error reading script: " ++ e) ;;; ret false)
         else ret false) ;;
      if (done : bool) then ret tt
      else print ("Script '" ++ arg ++ "' not found").

End Scripts.

(** ** ED (lines 1354-1387, 1882-1901 and 1924-2061)

    The editor reads lines until it is told to stop.  What the user does
    at its prompts is the list [keys], first prompt first; the editor
    that has used them all up and still waits is the result [None]. *)

Inductive keystroke : Type :=
| Typed (line : string)
| CtrlC
| EndOfInput.

Definition ed_help_text : string :=
  "WSA Terminal ED Text Editor Commands:" ++ nl ++
  "  " ++ nl ++
  "  Just type text and press ENTER to add lines to the file." ++ nl ++
  "  " ++ nl ++
  "  Special Commands:" ++ nl ++
  "    LIST    - Show all lines in the file" ++ nl ++
  "    SAVE    - Save the file" ++ nl ++
  "    QUIT    - Exit without saving" ++ nl ++
  "    " ++ nl ++
  "  To exit the editor:" ++ nl ++
  "    Press Ctrl+C and choose whether to save" ++ nl ++
  "    " ++ nl ++
  "  Examples:" ++ nl ++
  "    1> echo " ++ dq ++ "This is line 1" ++ dq ++ "    (adds text to the file)" ++ nl ++
  "    2> LIST                     (shows all lines)" ++ nl ++
  "    3> SAVE                     (saves the file)" ++ nl ++
  "    4> QUIT                     (exits without saving)" ++ nl.

Definition _ed_help : M State unit := print ed_help_text.

(** [for i, line in enumerate(lines, 1): print(f"{i:3}: {line}")] *)
Fixpoint print_numbered (i : nat) (lines : list string) : M State unit :=
  match lines with
  | [] => ret tt
  | line :: rest =>
      print (rjust 3 (of_nat i) ++ ": " ++ line) ;;;
      print_numbered (S i) rest
  end.

Section Editor.

Variable h : Host.
Variable d : Disk.
(** [open(p, 'r').read().splitlines()] *)
Variable read_lines : string -> outcome (list string).

(** Lines 1966-1997 and 2021-2050: the file goes to the host.  The copy
    under [SAVE] says so when the overlay is not available, the copy
    under Ctrl+C says nothing then ([silent]).  [os.makedirs] is called
    for a directory that does not exist. *)
Definition save_real_file (silent : bool) (file_path content_str : string)
  : M State unit :=
  try_catch
    (if is_wsl h || is_windows h then
       let fs_path := host_path_of h file_path in
       let fs_dir := os_path_dirname d fs_path in
       (if truthy fs_dir && negb (os_path_exists h fs_dir)
        then lift_outcome (os_makedirs d fs_dir)
        else ret tt) ;;;
       lift_outcome (write_utf8 d fs_path content_str) ;;;
       print ("File saved to " ++ fs_path)
     else if silent then ret tt
     else print "DH0: access not available on this system")
    (fun e => print ("Error saving file: " ++ e)).

(** Lines 1963-2001 and 2019-2054: [saved] is the text printed when the
    file went to the virtual file system. *)
Definition save_file (silent : bool) (saved : string)
    (file_path : string) (lines : list string) : M State unit :=
  let content_str := join nl lines in
  if startswith "DH0:" file_path then save_real_file silent file_path content_str
  else
    s <- get ;;
    set_files (Dict.set (files s) file_path content_str) ;;;
    print saved.

(** Lines 2012-2058: Ctrl+C at the prompt of the editor. *)
Definition interrupted (file_path : string) (lines : list string)
    (keys : list keystroke) : M State (option unit) :=
  print nl ;;;
  match keys with
  | [] => ret None
  | Typed answer :: _ =>
      let save_choice := lower (strip answer) in
      (if mem_str save_choice ["y"; "yes"]
       then save_file true "File saved." file_path lines
       else ret tt) ;;;
      print "Editor exited." ;;;
      ret (Some tt)
  | CtrlC :: _ =>
      print (nl ++ "Editor exited without saving.") ;;;
      ret (Some tt)
  | EndOfInput :: _ => raise "EOF when reading a line"
  end.

(** Lines 1947-2061: the [while True] loop. *)
Fixpoint editor_loop (file_path : string) (keys : list keystroke)
    (lines : list string) : M State (option unit) :=
  match keys with
  | [] => ret None
  | Typed line_input :: keys' =>
      let cmd := strip (upper line_input) in
      if String.eqb cmd "LIST" then
        (match lines with
         | [] => print "File is empty."
         | _ =>
             print (nl ++ "Current contents:") ;;;
             print_numbered 1 lines ;;;
             print EmptyString
         end) ;;;
        editor_loop file_path keys' lines
      else if String.eqb cmd "SAVE" then
        save_file false "File saved to virtual filesystem." file_path lines ;;;
        editor_loop file_path keys' lines
      else if String.eqb cmd "QUIT" then
        print "Editor exited without saving." ;;;
        ret (Some tt)
      else if String.eqb cmd EmptyString then
        editor_loop file_path keys' (lines ++ [EmptyString])%list
      else editor_loop file_path keys' (lines ++ [line_input])%list
  | CtrlC :: keys' => interrupted file_path lines keys'
  | EndOfInput :: _ =>
      print (nl ++ "Editor exited.") ;;;
      ret (Some tt)
  end.

Definition _ed_editor (file_path : string) (content : list string)
    (keys : list keystroke) : M State (option unit) :=
  print ("Editing '" ++ file_path ++ "'") ;;;
  print "Enter lines of text. Press Ctrl+C to exit editor." ;;;
  print "Commands: LIST (show lines), SAVE (save file), QUIT (exit without saving)" ;;;
  print EmptyString ;;;
  let lines := content in
  (match lines with
   | [] =>
       print "Empty file - start typing to add content." ;;;
       print EmptyString
   | _ =>
       print "Current file contents:" ;;;
       print_numbered 1 lines ;;;
       print EmptyString
   end) ;;;
  editor_loop file_path keys lines.

Definition do_ed (arg : string) (keys : list keystroke) : M State (option unit) :=
  if negb (truthy arg) then
    print "ED: No filename specified" ;;;
    print "Usage: ED <filename>" ;;;
    print "Type 'ED HELP' for editor commands" ;;;
    ret (Some tt)
  else if String.eqb (upper arg) "HELP" then
    _ed_help ;;;
    ret (Some tt)
  else
    file_path <- _resolve_file_path arg ;;
    if negb (truthy file_path) then
      print ("ED: Cannot create file '" ++ arg ++ "'") ;;;
      ret (Some tt)
    else
      s <- get ;;
      content <-
        (if Dict.mem file_path (files s) then
           text <- getitem (files s) file_path ;;
           ret (split "010" text)
         else if startswith "DH0:" file_path && is_windows h then
           try_catch
             (match _get_fs_path h file_path with
              | Some fs_path =>
                  if truthy fs_path && os_path_exists h fs_path
                  then lift_outcome (read_lines fs_path)
                  else ret []
              | None => ret []
              end)
             (fun _ => ret [])
         else ret []) ;;
      _ed_editor file_path content keys.

End Editor.

(** ** MOUNT (lines 741-836 and 2879-2950) *)

(** [s * n] *)
Fixpoint times (n : nat) (s : string) : string :=
  match n with
  | O => EmptyString
  | S n' => s ++ times n' s
  end.

Fixpoint lstrip_char (c : ascii) (s : string) : string :=
  match s with
  | EmptyString => EmptyString
  | String a s' => if Ascii.eqb a c then lstrip_char c s' else s
  end.

Fixpoint rstrip_char (c : ascii) (s : string) : string :=
  match s with
  | EmptyString => EmptyString
  | String a s' =>
      let r := rstrip_char c s' in
      if is_empty r && Ascii.eqb a c then EmptyString else String a r
  end.

(** [s.strip(c)] for a one-character [c]. *)
Definition strip_char (c : ascii) (s : string) : string :=
  rstrip_char c (lstrip_char c s).

Definition set_mounted_shared_folders (m : EmulatorSharedFolder.Mounted)
  : M State unit :=
  fun s => (Ok tt, {| current_dir := current_dir s; prompt := prompt s;
                      directories := directories s; files := files s;
                      mounted_shared_folders := m;
                      stdout := stdout s |}).

(** A method of [self.emulator_integration], run on the dictionary of
    the mounted folders that the terminal holds. *)
Definition emulator_integration {A : Type} (m : M EmulatorSharedFolder.Mounted A)
  : M State A :=
  fun s =>
    let (r, mounted) := m (mounted_shared_folders s) in
    (r, snd (set_mounted_shared_folders mounted s)).

Section Mount.

Variable h : Host.
Variable winuae_configs : Dict.t EmulatorSharedFolder.Config.
Variable fsuae_configs : Dict.t EmulatorSharedFolder.Config.
(** [WINUAE_CONFIG['config_dir']] *)
Variable winuae_config_dir : string.

Definition print_winuae_folder (kv : string * EmulatorSharedFolder.Folder)
  : M State unit :=
  let (device, folder_info) := kv in
  let access_str :=
    if String.eqb (EmulatorSharedFolder.access folder_info) "rw"
    then "(Read-Write)" else "(Read-Only)" in
  print ("    " ++ device ++ " " ++ dq ++ EmulatorSharedFolder.label folder_info ++
         dq ++ " -> " ++ EmulatorSharedFolder.path folder_info ++ " " ++ access_str).

Definition print_fsuae_folder (kv : string * EmulatorSharedFolder.Folder)
  : M State unit :=
  let (device, folder_info) := kv in
  print ("    " ++ device ++ " " ++ dq ++ EmulatorSharedFolder.label folder_info ++
         dq ++ " -> " ++ EmulatorSharedFolder.path folder_info).

(** Lines 2889-2898 and 2911-2919: the loop over the configurations. *)
Definition print_configs (configs : Dict.t EmulatorSharedFolder.Config)
    (print_folder : string * EmulatorSharedFolder.Folder -> M State unit)
  : M State unit :=
  for_each configs
    (fun kv =>
       let (config_name, config_info) := (kv : string * EmulatorSharedFolder.Config) in
       print (nl ++ "  Config: " ++ config_name) ;;;
       print ("  Path:   " ++ EmulatorSharedFolder.config_path config_info) ;;;
       match EmulatorSharedFolder.shared_folders config_info with
       | [] => print "  No shared folders configured"
       | folders =>
           print "  Shared Folders:" ;;;
           for_each folders print_folder
       end).

Definition _list_winuae_configs : M State unit :=
  match winuae_configs with
  | [] =>
      print "No WinUAE configurations found." ;;;
      print "Make sure WinUAE is installed and configurations exist in:" ;;;
      print ("  " ++ winuae_config_dir)
  | _ =>
      print "Available WinUAE Configurations:" ;;;
      print (times 40 "=") ;;;
      print_configs winuae_configs print_winuae_folder
  end.

Definition _list_fsuae_configs : M State unit :=
  match fsuae_configs with
  | [] =>
      print "No FS-UAE configurations found." ;;;
      print "Make sure FS-UAE is installed and configurations exist in:" ;;;
      print "  ~/.config/fs-uae/" ;;;
      print "  ~/Documents/FS-UAE/Configurations/"
  | _ =>
      print "Available FS-UAE Configurations:" ;;;
      print (times 40 "=") ;;;
      print_configs fsuae_configs print_fsuae_folder
  end.

(** Lines 2936-2946: the configurations of one emulator. *)
Definition print_available (title : string)
    (configs : list EmulatorSharedFolder.Available) : M State unit :=
  match configs with
  | [] => ret tt
  | _ =>
      print (nl ++ title) ;;;
      for_each configs
        (fun config =>
           let shared_devices :=
             match EmulatorSharedFolder.available_shared_folders config with
             | [] => "None"
             | devices => join ", " devices
             end in
           print ("  " ++ EmulatorSharedFolder.available_name config ++
                  " (Devices: " ++ shared_devices ++ ")"))
  end.

Definition _list_all_emulator_configs : M State unit :=
  let configs :=
    EmulatorSharedFolder.list_available_configs winuae_configs fsuae_configs in
  match configs with
  | [] =>
      print "No emulator configurations found." ;;;
      print "Make sure WinUAE and/or FS-UAE are installed with valid configurations."
  | _ =>
      print "Available Emulator Configurations:" ;;;
      print (times 50 "=") ;;;
      print_available "WinUAE Configurations:"
        (filter (fun c => String.eqb (EmulatorSharedFolder.available_emulator c) "WinUAE")
                configs) ;;;
      print_available "FS-UAE Configurations:"
        (filter (fun c => String.eqb (EmulatorSharedFolder.available_emulator c) "FS-UAE")
                configs) ;;;
      print (nl ++ "Usage:") ;;;
      print ("  MOUNT <device> FROM WINUAE " ++ dq ++ "<config_name>" ++ dq) ;;;
      print ("  MOUNT <device> FROM FS-UAE " ++ dq ++ "<config_name>" ++ dq)
  end.

Definition mount_usage : list string :=
  ["Usage:";
   "  MOUNT                                    - Show mounted volumes";
   "  MOUNT <device> FROM WINUAE <config>     - Mount WinUAE shared folder";
   "  MOUNT <device> FROM FS-UAE <config>     - Mount FS-UAE shared folder";
   "  MOUNT LIST WINUAE                       - List WinUAE configurations";
   "  MOUNT LIST FS-UAE                       - List FS-UAE configurations";
   "  MOUNT UNMOUNT <device>                  - Unmount shared folder";
   "";
   "Examples:";
   "  MOUNT SHARED: FROM WINUAE " ++ dq ++ "My A1200 Config" ++ dq;
   "  MOUNT UAE0: FROM FS-UAE " ++ dq ++ "Workbench31.fs-uae" ++ dq;
   "  MOUNT LIST WINUAE";
   "  MOUNT UNMOUNT SHARED:"].

(** [len(args) > i and args[i].upper() == word] *)
Definition word_is (args : list string) (i : nat) (word : string) : bool :=
  match nth_error args i with
  | Some a => String.eqb (upper a) word
  | None => false
  end.

(** Lines 781-795. *)
Definition mount_unmount (args : list string) : M State unit :=
  if (1 <? List.length args)%nat then
    device <- index args 1 ;;
    r <- emulator_integration (EmulatorSharedFolder.unmount_shared_folder device) ;;
    let (success, message) := (r : bool * string) in
    print message ;;;
    if success then
      let device := EmulatorSharedFolder.device_name device in
      s <- get ;;
      if Dict.mem device (directories s)
      then set_directories (Dict.del (directories s) device)
      else ret tt
    else ret tt
  else print "Usage: MOUNT UNMOUNT <device>".

(** Lines 798-821. *)
Definition mount_from_config (args : list string) : M State unit :=
  device <- index args 0 ;;
  emulator_type <- index args 2 ;;
  let config_name := strip_char (ascii_of_nat 34) (join " " (skipn 3 args)) in
  r <- emulator_integration
         (EmulatorSharedFolder.mount_shared_folder winuae_configs fsuae_configs
            device emulator_type config_name) ;;
  let (success, message) := (r : bool * string) in
  print message ;;;
  if success then
    let device := EmulatorSharedFolder.device_name device in
    shared_path <-
      emulator_integration (EmulatorSharedFolder.get_shared_folder_path device) ;;
    match shared_path with
    | Some shared_path =>
        if truthy shared_path && os_path_exists h shared_path then
          try_catch
            (contents <-
               match os_listdir h shared_path with
               | Listed items => ret items
               | PermissionError e | ListdirError e => raise e
               end ;;
             s <- get ;;
             set_directories
               (Dict.set (directories s) device
                  (filter (fun item => os_path_isdir h (os_path_join h shared_path item))
                          contents)))
            (fun e =>
               print ("Warning: Could not read shared folder contents: " ++ e) ;;;
               s <- get ;;
               set_directories (Dict.set (directories s) device []))
        else ret tt
    | None => ret tt
    end
  else ret tt.

Definition do_mount (arg : string) : M State unit :=
  if negb (truthy arg) then
    output <- _mount_command ;; print output
  else
    let args := split_ws arg in
    if Nat.eqb (List.length args) 0 then
      output <- _mount_command ;; print output
    else if word_is args 0 "LIST" then
      if word_is args 1 "WINUAE" then _list_winuae_configs
      else if word_is args 1 "FS-UAE" then _list_fsuae_configs
      else _list_all_emulator_configs
    else if word_is args 0 "UNMOUNT" then mount_unmount args
    else if (4 <=? List.length args)%nat && word_is args 1 "FROM" then
      mount_from_config args
    else print_all mount_usage.

End Mount.

End ConsoleCommands.

(** * src/wsa.py : completion of path names (lines 524-656)

    [get_directory_contents] of [AmigaTerminal].  [os.path.dirname] and
    [os.path.basename] are asked of the host besides [Host]. *)

Module AmigaCompletion.

Import PyStr.
Import AmigaTerminal.

Section Completion.

Variable h : Host.
Variable os_path_dirname : string -> string.
Variable os_path_basename : string -> string.

(** Lines 553-578: the proposals from the items of a host directory. *)
Definition overlay_matches (search_prefix partial_name parent_path : string)
    (items : list string) : list string :=
  flat_map
    (fun item =>
       if negb (truthy partial_name) || startswith partial_name item then
         let item_path := os_path_join h parent_path item in
         let full_path :=
           if truthy search_prefix then
             if truthy partial_name then
               let base_prefix := ConsoleCommands.rsplit_head "/" search_prefix in
               if String.eqb base_prefix "DH0:" then "DH0:" ++ item
               else base_prefix ++ "/" ++ item
             else if endswith "/" search_prefix || endswith ":" search_prefix
                  then search_prefix ++ item
                  else search_prefix ++ "/" ++ item
           else "DH0:" ++ item in
         if os_path_isdir h item_path then [full_path ++ "/"] else [full_path]
       else [])
    items.

(** Lines 584-599 and 604-619: the proposals from the virtual file
    system under [device], whose directories are [children]. *)
Definition device_matches (s : State) (path_prefix device : string)
    (children : list string) : list string :=
  let dirs :=
    filter (startswith path_prefix)
      (map (fun dir_name => device ++ dir_name ++ "/") children) in
  let files :=
    filter (startswith path_prefix)
      (map (fun file_name => device ++ file_name)
         (filter (fun file_name => negb (contains "/" file_name))
            (map (drop (String.length device))
               (filter (startswith device) (Dict.keys (files s)))))) in
  (dirs ++ files)%list.

(** Lines 644-654. *)
Definition current_matches (s : State) (path_prefix : string) : M State (list string) :=
  dirs <-
    (if Dict.mem (current_dir s) (directories s) then
       children <- getitem (directories s) (current_dir s) ;;
       ret (map (fun dir_name => dir_name ++ "/")
              (filter (startswith path_prefix) children))
     else ret []) ;;
  let files :=
    filter (fun file_name =>
              negb (contains "/" file_name) && startswith path_prefix file_name)
      (map (drop (String.length (current_dir s) + 1))
         (filter (startswith (current_dir s ++ "/")) (Dict.keys (files s)))) in
  ret (dirs ++ files)%list.

Definition get_directory_contents (path_prefix : string) : M State (list string) :=
  s <- get ;;
  if startswith "DH0:" path_prefix then
    found <-
      (if is_windows h then
         let fs_path :=
           if String.eqb path_prefix "DH0:" then c_drive
           else host_path_of h path_prefix in
         let search_prefix :=
           if String.eqb path_prefix "DH0:" then "" else path_prefix in
         if os_path_exists h fs_path && os_path_isdir h fs_path then
           let narrowing :=
             truthy search_prefix && negb (endswith "/" search_prefix)
             && negb (endswith "\" search_prefix) in
           let parent_path := if narrowing then os_path_dirname fs_path else fs_path in
           let partial_name := if narrowing then os_path_basename fs_path else "" in
           match os_listdir h parent_path with
           | Listed items =>
               ret (Some (overlay_matches search_prefix partial_name parent_path items))
           | PermissionError _ | ListdirError _ => ret None
           end
         else ret None
       else ret None) ;;
    match found with
    | Some matches => ret matches
    | None =>
        ret (device_matches s path_prefix "DH0:"
               (Dict.get_default (directories s) "DH0:" []))
    end
  else
    match find (fun device => startswith device path_prefix)
               (Dict.keys (directories s)) with
    | Some device =>
        children <- getitem (directories s) device ;;
        ret (device_matches s path_prefix device children)
    | None =>
        found <-
          (if String.eqb (current_dir s) "DH0:" && is_windows h then
             let fs_path := c_drive in
             if os_path_exists h fs_path && os_path_isdir h fs_path then
               match os_listdir h fs_path with
               | Listed items =>
                   ret (Some
                          (flat_map
                             (fun item =>
                                if startswith path_prefix item then
                                  if os_path_isdir h (os_path_join h fs_path item)
                                  then [item ++ "/"]
                                  else [item]
                                else [])
                             items))
               | PermissionError _ | ListdirError _ => ret None
               end
             else ret None
           else ret None) ;;
        match found with
        | Some matches => ret matches
        | None => current_matches s path_prefix
        end
    end.

End Completion.

End AmigaCompletion.

(** ** Vocabulary of the file commands *)

(** The part of a path before its first slash: the token in which
    [_change_directory] and [_list_files] look for a device. *)
Definition first_segment (path : string) : string :=
  hd "" (PyStr.split "/" path).

(** The texts [MAKEDIR] reports with. *)
Definition makedir_created (name : string) : string :=
  "MAKEDIR: Directory '" ++ name ++ "' created".

Definition makedir_exists (name : string) : string :=
  "MAKEDIR: Directory '" ++ name ++ "' already exists".

(** The terminal with another directory table, another file table. *)
Definition with_directories (dirs : Dict.t (list string))
    (s : WSAConsoleTerminal.State) : WSAConsoleTerminal.State :=
  {| WSAConsoleTerminal.current_dir := WSAConsoleTerminal.current_dir s;
     WSAConsoleTerminal.prompt := WSAConsoleTerminal.prompt s;
     WSAConsoleTerminal.directories := dirs;
     WSAConsoleTerminal.files := WSAConsoleTerminal.files s;
     WSAConsoleTerminal.mounted_shared_folders :=
       WSAConsoleTerminal.mounted_shared_folders s;
     WSAConsoleTerminal.stdout := WSAConsoleTerminal.stdout s |}.

Definition with_files (fs : Dict.t string)
    (s : WSAConsoleTerminal.State) : WSAConsoleTerminal.State :=
  {| WSAConsoleTerminal.current_dir := WSAConsoleTerminal.current_dir s;
     WSAConsoleTerminal.prompt := WSAConsoleTerminal.prompt s;
     WSAConsoleTerminal.directories := WSAConsoleTerminal.directories s;
     WSAConsoleTerminal.files := fs;
     WSAConsoleTerminal.mounted_shared_folders :=
       WSAConsoleTerminal.mounted_shared_folders s;
     WSAConsoleTerminal.stdout := WSAConsoleTerminal.stdout s |}.

(** A host disk on which nothing can be read or written, and a user who
    answers every question with [answer]. *)
Definition closed_disk (answer : string) : Disk := {|
  read_utf8 := fun p => ReadError ("No such file or directory: " ++ p);
  read_latin1 := fun p => Exn ("No such file or directory: " ++ p);
  write_utf8 := fun p _ => Exn ("Read-only file system: " ++ p);
  os_makedirs := fun p => Exn ("Read-only file system: " ++ p);
  os_path_dirname := fun p => p;
  os_remove := fun p => Exn ("Read-only file system: " ++ p);
  input := fun _ => Answer answer
|}.

(** The directory table after [MAKEDIR name] created [dir_path] from the
    directory [cur]. *)
Definition made_directories (dirs : Dict.t (list string)) (cur name dir_path : string)
  : Dict.t (list string) :=
  let d1 := Dict.set dirs dir_path [] in
  match Dict.get d1 cur with
  | Some children =>
      if mem_str name children then d1
      else Dict.set d1 cur (children ++ [name])%list
  | None => d1
  end.

(** A proposal of the completion: it extends the text typed; it names a
    directory. *)
Definition extends (text m : string) : Prop := PyStr.startswith text m = true.

Definition names_directory (m : string) : Prop := PyStr.endswith "/" m = true.

(** ** Methods that only print

    [prints m]: whatever the terminal, [m] returns and has changed
    nothing but the output, to which it added some lines.  [may_raise m]
    allows [m] to raise as well. *)

Definition prints {A : Type} (m : M WSAConsoleTerminal.State A) : Prop :=
  forall s, exists a lines, m s = (Ok a, emit lines s).

Definition may_raise {A : Type} (m : M WSAConsoleTerminal.State A) : Prop :=
  forall s, exists r lines, m s = (r, emit lines s).

(** ** A configuration for the instances

    One WinUAE configuration with one shared folder, and the console
    after that folder was mounted. *)

Definition sample_configs : Dict.t EmulatorSharedFolder.Config :=
  [("A1200.uae",
    {| EmulatorSharedFolder.config_path := "/home/amiga/A1200.uae";
       EmulatorSharedFolder.shared_folders :=
         [("SHARED:",
           {| EmulatorSharedFolder.label := "Work";
              EmulatorSharedFolder.path := "/srv/amiga";
              EmulatorSharedFolder.access := "rw" |})] |})].

Definition console_mounted : WSAConsoleTerminal.State :=
  snd (ConsoleCommands.do_mount posix_host sample_configs [] "/home/amiga"
         "shared FROM WinUAE A1200.uae" console_fresh).

(** ** Vocabulary of the editor

    A line typed at the prompt of the editor is a command when, upper-cased
    and stripped, it is [LIST], [SAVE] or [QUIT]; any other line is text,
    and [entered] is what it adds to the file: a blank line adds the
    empty line, another line itself. *)

Definition editor_command (line : string) : bool :=
  mem_str (PyStr.strip (PyStr.upper line)) ["LIST"; "SAVE"; "QUIT"].

Definition entered (line : string) : string :=
  if String.eqb (PyStr.strip (PyStr.upper line)) "" then "" else line.

(** The lines the editor starts with for the file [file_path] of the
    virtual file system. *)
Definition lines_of (s : WSAConsoleTerminal.State) (file_path : string)
  : list string :=
  match Dict.get (WSAConsoleTerminal.files s) file_path with
  | Some text => PyStr.split "010" text
  | None => []
  end.

(** The ways to leave the editor that throw away what was typed: [QUIT],
    Ctrl+C followed by an answer other than [y] or [yes], and Ctrl+C
    twice. *)
Definition discards (ending : list ConsoleCommands.keystroke) : Prop :=
  (exists quit,
     ending = [ConsoleCommands.Typed quit] /\
     PyStr.strip (PyStr.upper quit) = "QUIT") \/
  (exists answer,
     ending = [ConsoleCommands.CtrlC; ConsoleCommands.Typed answer] /\
     mem_str (PyStr.lower (PyStr.strip answer)) ["y"; "yes"] = false) \/
  ending = [ConsoleCommands.CtrlC; ConsoleCommands.CtrlC].

(** ** What a script does, line by line

    The specification describes a script runner by what it does with each
    line of the script text: a line that is empty after stripping, or
    begins with [;], is skipped; any other line is executed, and when
    executing it raises an exception with message [e] the runner emits
    [Error executing startup command '<line>': e] and goes on with the
    next line.  [web_line_effect] and [console_line_effect] are that
    description for one line, written as a pure function of the output and
    state reached so far; the effect of a script is their fold over the
    lines, after the [Executing <name>...] header.  The runners of the
    source are compared with these. *)

Definition web_line_effect (h : Host)
    (reached : string * AmigaTerminal.State) (raw : string)
  : string * AmigaTerminal.State :=
  let line := PyStr.strip raw in
  if String.eqb line "" || PyStr.startswith ";" line then reached
  else
    match AmigaTerminal.run_line h line (snd reached) with
    | (Ok text, s) => (fst reached ++ text, s)
    | (Exn e, s) =>
        (fst reached ++ "Error executing startup command '" ++ line ++ "': " ++ e
         ++ PyStr.nl, s)
    end.

Definition web_script_effect (h : Host) (script_name content : string)
    (s : AmigaTerminal.State) : string * AmigaTerminal.State :=
  fold_left (web_line_effect h) (PyStr.split "010" content)
            ("Executing " ++ script_name ++ "..." ++ PyStr.nl, s).

Definition console_line_effect (h : Host)
    (other_do : string -> option (string -> M WSAConsoleTerminal.State unit))
    (reached : WSAConsoleTerminal.State) (raw : string)
  : WSAConsoleTerminal.State :=
  let line := PyStr.strip raw in
  if String.eqb line "" || PyStr.startswith ";" line then reached
  else
    match WSAConsoleTerminal.run_line h other_do line reached with
    | (Ok _, s) => s
    | (Exn e, s) =>
        emit ["Error executing startup command '" ++ line ++ "': " ++ e] s
    end.

Definition console_script_effect (h : Host)
    (other_do : string -> option (string -> M WSAConsoleTerminal.State unit))
    (script_name content : string) (s : WSAConsoleTerminal.State)
  : WSAConsoleTerminal.State :=
  fold_left (console_line_effect h other_do) (PyStr.split "010" content)
            (emit ["Executing " ++ script_name ++ "..."] s).

(** ** Directories of the overlay

    [web_overlay_target h new_path] is the directory of the [DH0:] overlay
    the web terminal enters for [new_path], if the host has one: the path
    itself when its host path (tried as mapped, then with a trailing
    backslash) is a directory, else the path with a slash added when that
    one maps to a directory.  [console_overlay_has h new_path] says
    whether the console finds the directory: the host is Windows or WSL
    and the mapped host path is a directory. *)

Definition web_overlay_target (h : Host) (new_path : string) : option string :=
  let fs_path :=
    AmigaTerminal.retry_trailing_backslash h (AmigaTerminal.host_path_of h new_path) in
  if os_path_exists h fs_path && os_path_isdir h fs_path then Some new_path
  else if negb (PyStr.endswith "/" new_path)
          && (os_path_exists h (AmigaTerminal.host_path_of h (new_path ++ "/"))
              && os_path_isdir h (AmigaTerminal.host_path_of h (new_path ++ "/")))
  then Some (new_path ++ "/")
  else None.

Definition console_overlay_has (h : Host) (new_path : string) : bool :=
  (WSAConsoleTerminal.is_wsl h || is_windows h)
  && (os_path_exists h (WSAConsoleTerminal.host_path_of h new_path)
      && os_path_isdir h (WSAConsoleTerminal.host_path_of h new_path)).

(** The directory a relative name leads to inside the overlay: the web
    terminal puts the name right after [DH0:] (lines 411-414 of wsa.py),
    the console puts a slash between them (lines 2568-2571 of
    wsa_console.py). *)

Definition web_overlay_child (cur name : string) : string :=
  if String.eqb cur "DH0:" then "DH0:" ++ name else cur ++ "/" ++ name.

Definition console_overlay_child (cur name : string) : string :=
  if String.eqb (PyStr.upper cur) "DH0:" then "DH0:/" ++ name
  else cur ++ "/" ++ name.

(** [listed_in dirs cur name]: [name] is among the children stored for the
    directory [cur]. *)
Definition listed_in (dirs : Dict.t (list string)) (cur name : string) : bool :=
  match Dict.get dirs cur with
  | Some children => mem_str name children
  | None => false
  end.
(** * Properties *)

(** ** The monad *)

Lemma bind_ok {St A B : Type} (m : M St A) (k : A -> M St B) s a s' :
  m s = (Ok a, s') -> bind m k s = k a s'.
Proof. intros H. unfold bind. now rewrite H. Qed.

Lemma bind_exn {St A B : Type} (m : M St A) (k : A -> M St B) s e s' :
  m s = (Exn e, s') -> bind m k s = (Exn e, s').
Proof. intros H. unfold bind. now rewrite H. Qed.

Lemma index_ok {St A : Type} (l : list A) i (s : St) :
  i < List.length l -> exists x, nth_error l i = Some x /\ index l i s = (Ok x, s).
Proof.
  intros H. destruct (nth_error l i) as [x|] eqn:E.
  - exists x. split; [reflexivity|]. unfold index. now rewrite E.
  - apply nth_error_None in E. lia.
Qed.

(** ** Strings *)

Lemma prefix_refl s : String.prefix s s = true.
Proof.
  induction s as [|c s IH]; simpl; [reflexivity|].
  destruct (ascii_dec c c); [assumption|congruence].
Qed.

Lemma prefix_app p s : String.prefix p (p ++ s) = true.
Proof.
  induction p as [|c p IH]; simpl.
  - now destruct s.
  - destruct (ascii_dec c c); [assumption|congruence].
Qed.

(** Two prefixes of one string are comparable. *)
Lemma prefix_comparable a b s :
  String.prefix a s = true -> String.prefix b s = true ->
  String.prefix a b = true \/ String.prefix b a = true.
Proof.
  revert b s. induction a as [|x a IH]; intros b s Ha Hb.
  - left. now destruct b.
  - destruct b as [|y b]; [right; reflexivity|].
    destruct s as [|z s]; [discriminate|]. simpl in *.
    destruct (ascii_dec x z); [subst|discriminate].
    destruct (ascii_dec y z); [subst|discriminate].
    destruct (ascii_dec z z); [|congruence].
    eauto.
Qed.

Lemma contains_char_cons c a s :
  PyStr.contains (String c EmptyString) (String a s) = false ->
  a <> c /\ PyStr.contains (String c EmptyString) s = false.
Proof.
  simpl. destruct (ascii_dec c a) as [->|N].
  - destruct s; discriminate.
  - simpl. intros H. split; [congruence|assumption].
Qed.

Lemma contains_char_app c d rest :
  PyStr.contains (String c EmptyString) (d ++ String c rest) = true.
Proof.
  induction d as [|a d IH]; simpl.
  - destruct (ascii_dec c c); [|congruence]. now destruct rest.
  - rewrite IH. apply orb_true_r.
Qed.

(** Splitting at the first separator. *)
Lemma split_first c d rest :
  PyStr.contains (String c EmptyString) d = false ->
  PyStr.split c (d ++ String c rest) = d :: PyStr.split c rest.
Proof.
  unfold PyStr.split. induction d as [|a d IH]; intros H; simpl.
  - now rewrite Ascii.eqb_refl.
  - apply contains_char_cons in H. destruct H as [N H].
    destruct (Ascii.eqb c a) eqn:E.
    + apply Ascii.eqb_eq in E. congruence.
    + now rewrite (IH H).
Qed.

(** A device root [DEV:] splits into the device name and an empty rest. *)
Lemma split_device_root d :
  PyStr.contains ":" d = false ->
  PyStr.split ":" (d ++ ":") = [d; ""].
Proof. intros H. now rewrite (split_first _ _ _ H). Qed.

(** ** [cd ..] at a device root *)

Lemma device_root_is_SYS d : d ++ ":" = "SYS:" -> d = "SYS".
Proof.
  destruct d as [|a [|b [|c [|e d]]]]; simpl; intros H; inversion H; subst;
    try reflexivity.
  destruct d; discriminate.
Qed.

Lemma web_cd_parent_at_root h d s :
  PyStr.contains ":" d = false ->
  AmigaTerminal.current_dir s = d ++ ":" ->
  (d = "SYS" ->
   AmigaTerminal.change_directory h ".." s
   = (Ok ("Already at root directory." ++ PyStr.nl), s)) /\
  (d <> "SYS" ->
   AmigaTerminal.change_directory h ".." s
   = (Ok "", snd (AmigaTerminal.set_prompt "SYS:> " (web_at "SYS:" s)))).
Proof.
  intros Hd Hcur.
  change (AmigaTerminal.change_directory h ".." s)
    with (AmigaTerminal.change_directory_up s).
  unfold AmigaTerminal.change_directory_up.
  split; intros Hsys.
  - subst d. cbv [bind get]. rewrite Hcur. reflexivity.
  - cbv [bind get]. rewrite Hcur.
    destruct (String.eqb (d ++ ":") "SYS:") eqn:E.
    + apply String.eqb_eq in E. apply device_root_is_SYS in E. contradiction.
    + rewrite (split_device_root d Hd). reflexivity.
Qed.

Lemma console_cd_parent_at_root h d s :
  PyStr.contains ":" d = false ->
  WSAConsoleTerminal.current_dir s = d ++ ":" ->
  Dict.mem "..:" (WSAConsoleTerminal.mounted_shared_folders s) = false ->
  (d = "SYS" ->
   WSAConsoleTerminal._change_directory h ".." s
   = (Ok "Already at root directory.", s)) /\
  (d <> "SYS" ->
   WSAConsoleTerminal._change_directory h ".." s
   = (Ok "", snd (WSAConsoleTerminal.set_prompt "SYS:> " (console_at "SYS:" s)))).
Proof.
  intros Hd Hcur Hm.
  assert (E0 : WSAConsoleTerminal._change_directory h ".." s
               = WSAConsoleTerminal.change_directory_up ".." s).
  { unfold WSAConsoleTerminal._change_directory. cbv [bind get].
    change (WSAConsoleTerminal.device_of ".." s) with (Ok "..:", s).
    cbv iota beta. rewrite Hm. reflexivity. }
  rewrite E0. unfold WSAConsoleTerminal.change_directory_up.
  split; intros Hsys.
  - subst d. cbv [bind get]. rewrite Hcur. reflexivity.
  - cbv [bind get]. rewrite Hcur.
    destruct (String.eqb (d ++ ":") "SYS:") eqn:E.
    + apply String.eqb_eq in E. apply device_root_is_SYS in E. contradiction.
    + change (PyStr.startswith "../" "..") with false. cbv iota.
      unfold WSAConsoleTerminal.parent_of.
      rewrite (split_device_root d Hd). reflexivity.
Qed.

(** C1, as the claim states it, fails: with [RAM:] as the current
    directory, [cd ..] answers with the empty text, not with "already at
    root", and the current directory becomes [SYS:]. *)
Lemma cd_parent_at_RAM_leaves_the_device :
  let web := AmigaTerminal.change_directory posix_host ".."
               (web_at "RAM:" web_fresh) in
  let console := WSAConsoleTerminal._change_directory posix_host ".."
                   (console_at "RAM:" console_fresh) in
  AmigaTerminal.current_dir (web_at "RAM:" web_fresh) = "RAM:" /\
  fst web = Ok "" /\
  AmigaTerminal.current_dir (snd web) = "SYS:" /\
  WSAConsoleTerminal.current_dir (console_at "RAM:" console_fresh) = "RAM:" /\
  fst console = Ok "" /\
  WSAConsoleTerminal.current_dir (snd console) = "SYS:" /\
  "SYS:" <> "RAM:".
Proof. vm_compute. repeat split; discriminate. Qed.

(** C1 (amended): with the device root [SYS:] as the current directory,
    [cd ..] returns the "already at root" text and changes nothing; with
    any other device root [DEV:] as the current directory, it returns the
    empty text and makes [SYS:] the current directory.  Both front ends
    agree (the console, as long as no shared folder is mounted under the
    name [..:]). *)
Theorem cd_parent_at_device_root
    (h : Host) (d : string)
    (ws : AmigaTerminal.State) (cs : WSAConsoleTerminal.State) :
  PyStr.contains ":" d = false ->
  AmigaTerminal.current_dir ws = d ++ ":" ->
  WSAConsoleTerminal.current_dir cs = d ++ ":" ->
  Dict.mem "..:" (WSAConsoleTerminal.mounted_shared_folders cs) = false ->
  (d = "SYS" ->
   AmigaTerminal.change_directory h ".." ws
   = (Ok ("Already at root directory." ++ PyStr.nl), ws) /\
   WSAConsoleTerminal._change_directory h ".." cs
   = (Ok "Already at root directory.", cs)) /\
  (d <> "SYS" ->
   AmigaTerminal.change_directory h ".." ws
   = (Ok "", snd (AmigaTerminal.set_prompt "SYS:> " (web_at "SYS:" ws))) /\
   WSAConsoleTerminal._change_directory h ".." cs
   = (Ok "", snd (WSAConsoleTerminal.set_prompt "SYS:> " (console_at "SYS:" cs)))).
Proof.
  intros Hd Hw Hc Hm.
  destruct (web_cd_parent_at_root h d ws Hd Hw) as [W1 W2].
  destruct (console_cd_parent_at_root h d cs Hd Hc Hm) as [C1 C2].
  split; intros Hs; split; auto.
Qed.

Lemma cd_parent_at_device_root_witness :
  (PyStr.contains ":" "DH0" = false /\
   AmigaTerminal.current_dir (web_at "DH0:" web_fresh) = "DH0" ++ ":" /\
   WSAConsoleTerminal.current_dir (console_at "DH0:" console_fresh) = "DH0" ++ ":" /\
   Dict.mem "..:" (WSAConsoleTerminal.mounted_shared_folders
                     (console_at "DH0:" console_fresh)) = false /\
   "DH0" <> "SYS") /\
  AmigaTerminal.current_dir
    (snd (AmigaTerminal.change_directory posix_host ".."
            (web_at "DH0:" web_fresh))) = "SYS:" /\
  WSAConsoleTerminal.current_dir
    (snd (WSAConsoleTerminal._change_directory posix_host ".."
            (console_at "DH0:" console_fresh))) = "SYS:".
Proof.
  assert (N : "DH0" <> "SYS") by discriminate.
  split.
  - repeat split; try reflexivity. exact N.
  - destruct (cd_parent_at_device_root posix_host "DH0"
                (web_at "DH0:" web_fresh) (console_at "DH0:" console_fresh)
                eq_refl eq_refl eq_refl eq_refl) as [_ H].
    destruct (H N) as [Hw Hc]. rewrite Hw, Hc. split; reflexivity.
Defined.

(** ** Change-directory failures *)

Lemma not_found_nonempty p : AmigaTerminal.not_found p <> "".
Proof. discriminate. Qed.

Ltac break_if :=
  match goal with
  | |- context [if ?c then _ else _] => destruct c eqn:?
  end.

Lemma web_enter_ok d s : exists s', AmigaTerminal.enter d s = (Ok "", s').
Proof. eexists. reflexivity. Qed.

Lemma web_cd_up_outcome s :
  web_cd_outcome ".." s (AmigaTerminal.change_directory_up s).
Proof.
  unfold AmigaTerminal.change_directory_up. cbv [bind get].
  destruct (String.eqb (AmigaTerminal.current_dir s) "SYS:").
  - right. eexists. split; [reflexivity|]. split; [discriminate|].
    right; left; reflexivity.
  - left.
    destruct (PyStr.split ":" (AmigaTerminal.current_dir s)) as [|p0 [|p1 ps]];
      try (eexists; reflexivity).
    cbn. destruct (PyStr.truthy p1); cbn; [|eexists; reflexivity].
    destruct (PyStr.split "/" p1) as [|q0 [|q1 qs]]; cbn; eexists; reflexivity.
Qed.

Lemma web_probe_outcome h p s :
  (exists s', AmigaTerminal.probe_overlay h p s = (Ok (Some ""), s')) \/
  AmigaTerminal.probe_overlay h p s = (Ok None, s).
Proof.
  unfold AmigaTerminal.probe_overlay.
  repeat break_if; try (right; reflexivity); left; eexists; reflexivity.
Qed.

Lemma web_cd_outcome_holds h path s :
  web_cd_outcome path s (AmigaTerminal.change_directory h path s).
Proof.
  unfold AmigaTerminal.change_directory.
  destruct (String.eqb (PyStr.upper path) "DH0:"); [left; apply web_enter_ok|].
  destruct (PyStr.truthy path); cbn [negb];
    [|right; eexists; split; [reflexivity|split; [discriminate|left; reflexivity]]].
  destruct (String.eqb path "..") eqn:E.
  { apply String.eqb_eq in E. subst. apply web_cd_up_outcome. }
  assert (NF : web_cd_outcome path s (Ok (AmigaTerminal.not_found path), s)).
  { right. eexists. split; [reflexivity|]. split; [apply not_found_nonempty|].
    right; right; reflexivity. }
  destruct (PyStr.contains ":" path).
  - destruct (PyStr.startswith "DH0:" (PyStr.upper path) && is_windows h).
    + unfold bind, try_catch.
      destruct (web_probe_outcome h path s) as [[s' H]|H]; rewrite H; cbn.
      * left. eexists; reflexivity.
      * exact NF.
    + cbv [bind get]. break_if; [left; apply web_enter_ok|exact NF].
  - cbv [bind get].
    destruct (PyStr.startswith "DH0:" (AmigaTerminal.current_dir s) && is_windows h).
    + unfold try_catch.
      match goal with |- context [AmigaTerminal.probe_overlay h ?p s] =>
        destruct (web_probe_outcome h p s) as [[s' H]|H]; rewrite H; cbn end.
      * left. eexists; reflexivity.
      * exact NF.
    + break_if; [left; apply web_enter_ok|].
      destruct (Dict.mem (AmigaTerminal.current_dir s) (AmigaTerminal.directories s)) eqn:Em.
      * unfold Dict.mem in Em. unfold getitem.
        destruct (Dict.get (AmigaTerminal.directories s) (AmigaTerminal.current_dir s));
          [|discriminate].
        cbn. break_if; [left; apply web_enter_ok|exact NF].
      * cbn. exact NF.
Qed.

Lemma console_enter_ok d s : exists s', WSAConsoleTerminal.enter d s = (Ok "", s').
Proof. eexists. reflexivity. Qed.

Lemma console_not_found_outcome path p s :
  p = path \/ p = PyStr.drop 3 path ->
  console_cd_outcome path s (Ok (WSAConsoleTerminal.not_found p), s).
Proof.
  intros H. right. eexists. split; [reflexivity|]. split; [discriminate|].
  destruct H as [->| ->]; [right; left|right; right]; reflexivity.
Qed.

Lemma split_by_nonempty sep s :
  exists x rest, PyStr.split_by sep s = x :: rest.
Proof.
  destruct s as [|c p]; cbn [PyStr.split_by]; [do 2 eexists; reflexivity|].
  destruct (sep c); [do 2 eexists; reflexivity|].
  destruct (PyStr.split_by sep p); do 2 eexists; reflexivity.
Qed.

Lemma console_device_of_ok path s :
  exists d, WSAConsoleTerminal.device_of path s = (Ok d, s).
Proof.
  unfold WSAConsoleTerminal.device_of.
  destruct (PyStr.contains "/" path).
  - unfold bind. 
    assert (H : exists x rest, PyStr.split "/" path = x :: rest).
    { apply split_by_nonempty. }
    destruct H as (x & rest & ->). cbn.
    break_if; eexists; reflexivity.
  - cbn. break_if; eexists; reflexivity.
Qed.

Lemma console_parent_of_ok cur s :
  exists p, WSAConsoleTerminal.parent_of cur s = (Ok p, s).
Proof.
  unfold WSAConsoleTerminal.parent_of.
  destruct (PyStr.split ":" cur) as [|p0 [|p1 ps]]; try (eexists; reflexivity).
  cbn. destruct (PyStr.truthy p1); cbn; [|eexists; reflexivity].
  break_if; eexists; reflexivity.
Qed.

Lemma console_cd_up_outcome path s :
  console_cd_outcome path s (WSAConsoleTerminal.change_directory_up path s).
Proof.
  unfold WSAConsoleTerminal.change_directory_up. cbv [bind get].
  destruct (String.eqb (WSAConsoleTerminal.current_dir s) "SYS:").
  { right. eexists. split; [reflexivity|]. split; [discriminate|].
    left; reflexivity. }
  destruct (console_parent_of_ok (WSAConsoleTerminal.current_dir s) s) as [p Hp].
  destruct (PyStr.startswith "../" path); rewrite Hp.
  - destruct (PyStr.truthy (PyStr.drop 3 path)).
    + break_if; [left; apply console_enter_ok|].
      apply console_not_found_outcome; auto.
    + left; apply console_enter_ok.
  - left; apply console_enter_ok.
Qed.

Lemma console_probe_outcome h p s :
  (exists s', WSAConsoleTerminal.probe_overlay h p s = (Ok (Some ""), s')) \/
  WSAConsoleTerminal.probe_overlay h p s = (Ok None, s).
Proof.
  unfold WSAConsoleTerminal.probe_overlay, try_catch.
  repeat break_if; try (right; reflexivity); left; eexists; reflexivity.
Qed.

Lemma console_shared_outcome h path device s :
  Dict.mem device (WSAConsoleTerminal.mounted_shared_folders s) = true ->
  console_cd_outcome path s
    (WSAConsoleTerminal._change_shared_folder_directory h path device s).
Proof.
  intros Hm. unfold WSAConsoleTerminal._change_shared_folder_directory.
  cbv [bind get]. unfold Dict.mem in Hm. unfold getitem.
  destruct (Dict.get (WSAConsoleTerminal.mounted_shared_folders s) device);
    [|discriminate].
  cbn.
  break_if; [left; apply console_enter_ok|].
  break_if; [apply console_not_found_outcome; auto|left; apply console_enter_ok].
Qed.

Lemma console_cd_outcome_holds h path s :
  console_cd_outcome path s (WSAConsoleTerminal._change_directory h path s).
Proof.
  unfold WSAConsoleTerminal._change_directory. cbv [bind get].
  destruct (console_device_of_ok path s) as [device Hd]. rewrite Hd.
  destruct (Dict.mem device (WSAConsoleTerminal.mounted_shared_folders s)) eqn:Em.
  { now apply console_shared_outcome. }
  destruct (String.eqb (PyStr.upper path) "DH0:"); [left; apply console_enter_ok|].
  destruct (String.eqb path ".." || PyStr.startswith "../" path).
  { apply console_cd_up_outcome. }
  assert (NF : console_cd_outcome path s (Ok (WSAConsoleTerminal.not_found path), s)).
  { apply console_not_found_outcome; auto. }
  destruct (PyStr.contains ":" path).
  - destruct (PyStr.startswith "DH0:" (PyStr.upper path)).
    + destruct (console_probe_outcome h path s) as [[s' H]|H]; rewrite H.
      * left. eexists; reflexivity.
      * exact NF.
    + break_if; [left; apply console_enter_ok|exact NF].
  - destruct (PyStr.startswith "DH0:" (PyStr.upper (WSAConsoleTerminal.current_dir s))).
    + match goal with |- context [WSAConsoleTerminal.probe_overlay h ?p s] =>
        destruct (console_probe_outcome h p s) as [[s' H]|H]; rewrite H end.
      * left. eexists; reflexivity.
      * exact NF.
    + break_if; [left; apply console_enter_ok|].
      destruct (Dict.mem (WSAConsoleTerminal.current_dir s)
                  (WSAConsoleTerminal.directories s)) eqn:Ed.
      * unfold Dict.mem in Ed. unfold getitem.
        destruct (Dict.get (WSAConsoleTerminal.directories s)
                    (WSAConsoleTerminal.current_dir s)); [|discriminate].
        cbn. break_if; [left; apply console_enter_ok|exact NF].
      * cbn. exact NF.
Qed.


(** ** Path resolution and logical assignments *)

Lemma existsb_false_find {A} (f : A -> bool) l :
  existsb f l = false -> find f l = None.
Proof.
  induction l as [|x l IH]; simpl; [reflexivity|].
  destruct (f x); simpl; [discriminate|exact IH].
Qed.

Lemma contains_nonempty p s :
  PyStr.contains (String p EmptyString) s = true -> PyStr.truthy s = true.
Proof. destruct s; [discriminate|reflexivity]. Qed.

Lemma resolve_path_without_alias p s :
  PyStr.contains ":" p = true -> alias_prefixed p = false ->
  WSAConsoleTerminal._resolve_path p s = (Ok p, s).
Proof.
  intros Hc Ha. unfold WSAConsoleTerminal._resolve_path. cbv [bind get].
  rewrite (contains_nonempty _ _ Hc), Hc. cbn [negb].
  unfold alias_prefixed in Ha. rewrite (existsb_false_find _ _ Ha). reflexivity.
Qed.

(** C6: path resolution is idempotent: a path that is already canonical
    (a device separator, no alias as device, no [..] segment, no trailing
    slash) is returned unchanged, whatever the current directory and the
    rest of the state are. *)
Theorem resolve_path_idempotent_on_canonical
    (p : string) (s : WSAConsoleTerminal.State) :
  is_canonical p = true ->
  WSAConsoleTerminal._resolve_path p s = (Ok p, s).
Proof.
  unfold is_canonical. intros H.
  apply andb_prop in H. destruct H as [H _].
  apply andb_prop in H. destruct H as [H _].
  apply andb_prop in H. destruct H as [Hc Ha].
  apply negb_true_iff in Ha.
  now apply resolve_path_without_alias.
Qed.

Lemma upper_app a b : PyStr.upper (a ++ b) = PyStr.upper a ++ PyStr.upper b.
Proof.
  unfold PyStr.upper. induction a as [|c a IH]; simpl; [reflexivity|].
  now rewrite IH.
Qed.

Lemma prefix_app_l p a b :
  String.prefix p a = true -> String.prefix p (a ++ b) = true.
Proof.
  revert a. induction p as [|c p IH]; intros a H.
  - now destruct (a ++ b).
  - destruct a as [|x a]; [discriminate|]. simpl in *.
    destruct (ascii_dec c x); [auto|discriminate].
Qed.

Lemma find_alias logical actual u :
  In (logical, actual) WSAConsoleTerminal.logical_assignments ->
  PyStr.startswith logical u = true ->
  find (fun la => PyStr.startswith (fst la) u) WSAConsoleTerminal.logical_assignments
  = Some (logical, actual).
Proof.
  unfold PyStr.startswith. intros Hin Hp.
  assert (D : forall other, String.prefix other u = true ->
                String.prefix logical other = false ->
                String.prefix other logical = false -> False).
  { intros other Ho H1 H2.
    destruct (prefix_comparable _ _ _ Hp Ho); congruence. }
  simpl in Hin.
  repeat (destruct Hin as [Hin|Hin]; [inversion Hin; subst; clear Hin|]);
    try contradiction;
    cbn [find fst WSAConsoleTerminal.logical_assignments];
    repeat match goal with
    | |- context [String.prefix ?a u] =>
        destruct (String.prefix a u) eqn:?; 
        [first [reflexivity | exfalso; eapply D; [eassumption|reflexivity|reflexivity]]|]
    end; try congruence.
Qed.

Lemma contains_char_unfold c a s :
  PyStr.contains (String c EmptyString) (String a s)
  = Ascii.eqb a c || PyStr.contains (String c EmptyString) s.
Proof.
  simpl. destruct (ascii_dec c a) as [->|N].
  - rewrite Ascii.eqb_refl. now destruct s.
  - destruct (Ascii.eqb a c) eqn:E; [|reflexivity].
    apply Ascii.eqb_eq in E. congruence.
Qed.

Lemma upper_char_colon c :
  Ascii.eqb (PyStr.upper_char c) ":" = Ascii.eqb c ":".
Proof.
  destruct c as [b0 b1 b2 b3 b4 b5 b6 b7].
  destruct b0, b1, b2, b3, b4, b5, b6, b7; vm_compute; reflexivity.
Qed.

Lemma contains_colon_upper s :
  PyStr.contains ":" (PyStr.upper s) = PyStr.contains ":" s.
Proof.
  induction s as [|a s IH]; [reflexivity|].
  change (PyStr.upper (String a s)) with (String (PyStr.upper_char a) (PyStr.upper s)).
  rewrite !contains_char_unfold, IH, upper_char_colon. reflexivity.
Qed.

Lemma contains_prefix_app c a b :
  PyStr.contains (String c EmptyString) a = true ->
  PyStr.contains (String c EmptyString) (a ++ b) = true.
Proof.
  induction a as [|x a IH]; [discriminate|].
  change (String x a ++ b) with (String x (a ++ b)).
  rewrite !contains_char_unfold. intros H.
  apply orb_true_iff in H. destruct H as [H|H].
  - now rewrite H.
  - rewrite (IH H). apply orb_true_r.
Qed.

Lemma target_not_alias logical actual x :
  In (logical, actual) WSAConsoleTerminal.logical_assignments ->
  alias_prefixed (actual ++ x) = false /\
  PyStr.contains ":" (actual ++ x) = true /\
  PyStr.startswith actual (actual ++ x) = true.
Proof.
  intros Hin. split; [|split].
  - unfold alias_prefixed. rewrite upper_app. simpl in Hin.
    repeat (destruct Hin as [Hin|Hin]; [inversion Hin; subst; clear Hin|]);
      try contradiction.
    + change (PyStr.upper "SYS:S") with "SYS:S". reflexivity.
    + change (PyStr.upper "SYS:L") with "SYS:L". reflexivity.
    + change (PyStr.upper "SYS:DEVS") with "SYS:DEVS". reflexivity.
    + change (PyStr.upper "SYS:Fonts") with "SYS:FONTS". reflexivity.
    + change (PyStr.upper "RAM:T") with "RAM:T". reflexivity.
  - apply contains_prefix_app. simpl in Hin.
    repeat (destruct Hin as [Hin|Hin]; [inversion Hin; subst; clear Hin|]);
      try contradiction; reflexivity.
  - apply prefix_app.
Qed.

Lemma string_app_empty s : s ++ "" = s.
Proof. induction s as [|c s IH]; simpl; [reflexivity|now rewrite IH]. Qed.

Lemma upper_nonempty s : PyStr.truthy (PyStr.upper s) = PyStr.truthy s.
Proof. now destruct s. Qed.

Lemma prefix_truthy p s :
  PyStr.truthy p = true -> String.prefix p s = true -> PyStr.truthy s = true.
Proof. destruct p; [discriminate|]. destruct s; [discriminate|reflexivity]. Qed.

Lemma alias_truthy logical actual :
  In (logical, actual) WSAConsoleTerminal.logical_assignments ->
  PyStr.truthy logical = true /\ PyStr.contains ":" logical = true /\
  PyStr.endswith ":" logical = true /\
  Dict.get WSAConsoleTerminal.logical_assignments logical = Some actual.
Proof.
  simpl. intros Hin.
  repeat (destruct Hin as [Hin|Hin]; [inversion Hin; subst; clear Hin|]);
    try contradiction; repeat split; reflexivity.
Qed.

Lemma prefix_split p u :
  String.prefix p u = true -> exists rest, u = p ++ rest.
Proof.
  revert u. induction p as [|c p IH]; intros u H.
  - exists u. reflexivity.
  - destruct u as [|x u]; [discriminate|]. simpl in H.
    destruct (ascii_dec c x) as [->|]; [|discriminate].
    destruct (IH u H) as [rest ->]. exists rest. reflexivity.
Qed.

Lemma resolve_path_alias p logical actual s :
  In (logical, actual) WSAConsoleTerminal.logical_assignments ->
  PyStr.startswith logical (PyStr.upper p) = true ->
  WSAConsoleTerminal._resolve_path p s
  = (Ok (if PyStr.truthy (PyStr.drop (String.length logical) p)
         then actual ++ "/" ++ PyStr.drop (String.length logical) p
         else actual), s).
Proof.
  intros Hin Hp. destruct (alias_truthy _ _ Hin) as (Ht & Hc & _ & _).
  unfold WSAConsoleTerminal._resolve_path. cbv [bind get].
  assert (Tp : PyStr.truthy p = true).
  { rewrite <- upper_nonempty. eapply prefix_truthy; eassumption. }
  assert (Cp : PyStr.contains ":" p = true).
  { rewrite <- contains_colon_upper.
    destruct (prefix_split _ _ Hp) as [rest ->].
    now apply contains_prefix_app. }
  rewrite Tp, Cp. cbn [negb].
  rewrite (find_alias _ _ _ Hin Hp).
  destruct (PyStr.truthy (PyStr.drop (String.length logical) p)); reflexivity.
Qed.

Lemma precmd_alias line logical actual s :
  In (logical, actual) WSAConsoleTerminal.logical_assignments ->
  PyStr.upper line = logical ->
  WSAConsoleTerminal.precmd line s = (Ok ("cd " ++ actual), s).
Proof.
  intros Hin Hu. destruct (alias_truthy _ _ Hin) as (Ht & Hc & He & Hg).
  unfold WSAConsoleTerminal.precmd. cbv [bind get].
  rewrite <- upper_nonempty, <- contains_colon_upper, Hu, Ht, He, Hc.
  cbn [andb]. unfold Dict.mem, getitem. rewrite Hg. reflexivity.
Qed.

Lemma resolve_path_idempotent_on_canonical_witness :
  is_canonical "SYS:Prefs/Env" = true /\
  WSAConsoleTerminal._resolve_path "SYS:Prefs/Env" (console_at "RAM:T" console_fresh)
  = (Ok "SYS:Prefs/Env", console_at "RAM:T" console_fresh).
Proof.
  split; [reflexivity|].
  apply (resolve_path_idempotent_on_canonical "SYS:Prefs/Env"). reflexivity.
Defined.

(** ** The command history *)

Section WebHistory.

Import AmigaTerminal.

Lemma frames_ret {A} (a : A) : frames_history (ret a).
Proof. intros s. cbn. auto. Qed.

Lemma frames_raise {A} e : frames_history (@raise State A e).
Proof. intros s. cbn. auto. Qed.

Lemma frames_get : frames_history (@get State).
Proof. intros s. cbn. auto. Qed.

Lemma frames_bind {A B} (m : M State A) (k : A -> M State B) :
  frames_history m -> (forall a, frames_history (k a)) -> frames_history (bind m k).
Proof.
  intros Hm Hk s. unfold bind. specialize (Hm s).
  destruct (m s) as [[a|e] s1]; cbn in *.
  - destruct (Hk a s1) as (K1 & K2 & K3). destruct Hm as (H1 & H2 & H3).
    rewrite K1, K2, K3. auto.
  - exact Hm.
Qed.

Lemma frames_try_catch {A} (m : M State A) (k : string -> M State A) :
  frames_history m -> (forall e, frames_history (k e)) ->
  frames_history (try_catch m k).
Proof.
  intros Hm Hk s. unfold try_catch. specialize (Hm s).
  destruct (m s) as [[a|e] s1]; cbn in *.
  - exact Hm.
  - destruct (Hk e s1) as (K1 & K2 & K3). destruct Hm as (H1 & H2 & H3).
    rewrite K1, K2, K3. auto.
Qed.

Lemma frames_set_current_dir d : frames_history (set_current_dir d).
Proof. intros s. cbn. auto. Qed.

Lemma frames_set_prompt p : frames_history (set_prompt p).
Proof. intros s. cbn. auto. Qed.

Lemma frames_index {A} (l : list A) i : frames_history (@index State A l i).
Proof. unfold index. destruct (nth_error l i); [apply frames_ret|apply frames_raise]. Qed.

Lemma frames_getitem {V} (d : Dict.t V) k : frames_history (@getitem State V d k).
Proof. unfold getitem. destruct (Dict.get d k); [apply frames_ret|apply frames_raise]. Qed.

Create HintDb frames.
#[local] Hint Resolve frames_ret frames_raise frames_get frames_set_current_dir
  frames_set_prompt frames_index frames_getitem : frames.

Ltac frames :=
  repeat first
    [ solve [auto 1 with frames nocore]
    | apply frames_bind; [|intro]
    | apply frames_try_catch; [|intro]
    | match goal with
      | |- frames_history (if ?c then _ else _) => destruct c
      | |- frames_history (match ?x with _ => _ end) => destruct x
      | |- frames_history (let (_, _) := ?x in _) => destruct x
      end ].

Lemma frames_get_prompt : frames_history get_prompt.
Proof. unfold get_prompt. frames. Qed.
#[local] Hint Resolve frames_get_prompt : frames.

Lemma frames_enter d : frames_history (enter d).
Proof. unfold enter, get_prompt. frames. Qed.
#[local] Hint Resolve frames_enter : frames.

Lemma frames_info h : frames_history (info_command h).
Proof. unfold info_command. frames. Qed.
#[local] Hint Resolve frames_info : frames.

Lemma frames_avail : frames_history avail_command.
Proof. unfold avail_command. frames. Qed.
#[local] Hint Resolve frames_avail : frames.

Lemma frames_status : frames_history status_command.
Proof. unfold status_command. frames. Qed.
#[local] Hint Resolve frames_status : frames.

Lemma frames_mount : frames_history mount_command.
Proof. unfold mount_command. frames. Qed.
#[local] Hint Resolve frames_mount : frames.

Lemma frames_help : frames_history help_command.
Proof. unfold help_command. frames. Qed.
#[local] Hint Resolve frames_help : frames.

Lemma frames_amiga : frames_history amiga_command.
Proof. unfold amiga_command. frames. Qed.
#[local] Hint Resolve frames_amiga : frames.

Lemma frames_ping args : frames_history (ping_command args).
Proof. unfold ping_command. frames. Qed.
#[local] Hint Resolve frames_ping : frames.

Lemma frames_pattern h args : frames_history (pattern_command h args).
Proof. unfold pattern_command. frames. Qed.
#[local] Hint Resolve frames_pattern : frames.

Lemma frames_real_listing h p f : frames_history (real_listing h p f).
Proof. unfold real_listing. frames. Qed.
#[local] Hint Resolve frames_real_listing : frames.

Lemma frames_list_files h p : frames_history (list_files h p).
Proof. unfold list_files. frames. Qed.
#[local] Hint Resolve frames_list_files : frames.

Lemma frames_change_directory_up : frames_history change_directory_up.
Proof. unfold change_directory_up, get_prompt. frames. Qed.
#[local] Hint Resolve frames_change_directory_up : frames.

Lemma frames_probe_overlay h p : frames_history (probe_overlay h p).
Proof. unfold probe_overlay. frames. Qed.
#[local] Hint Resolve frames_probe_overlay : frames.

Lemma frames_change_directory h p : frames_history (change_directory h p).
Proof.
  unfold change_directory.
  frames.
Qed.
#[local] Hint Resolve frames_change_directory : frames.

Lemma frames_text_of m : frames_history m -> frames_history (text_of m).
Proof. intros H. unfold text_of. frames. Qed.


Lemma frames_dispatch h cmd args : frames_history (dispatch h cmd args).
Proof. unfold dispatch, text_of. frames. Qed.

Lemma execute_command_history h line s :
  let s' := snd (execute_command h line s) in
  command_history s'
  = (command_history s ++ (if recorded s line then [line] else []))%list /\
  directories s' = directories s /\
  files s' = files s.
Proof.
  unfold execute_command, recorded.
  destruct (PyStr.split_ws (PyStr.strip line)) as [|p0 rest].
  - cbn. rewrite app_nil_r. auto.
  - cbn [List.length Nat.ltb Nat.leb negb].
    change (index (p0 :: rest) 0) with (@ret State _ p0).
    cbv [bind ret get].
    destruct (PyStr.endswith ":" (PyStr.lower p0) && is_device s (PyStr.lower p0)).
    + cbn [negb]. rewrite app_nil_r.
      apply (frames_text_of _ (frames_change_directory h (PyStr.lower p0)) s).
    + cbn [negb]. cbn [history_append].
      match goal with
      | |- context [dispatch h ?c ?a ?st] =>
          destruct (frames_dispatch h c a st) as (H1 & H2 & H3)
      end.
      rewrite H1, H2, H3. cbn. auto.
Qed.

Lemma frames_run_line h line : frames_history (run_line h line).
Proof. unfold run_line. frames. Qed.
#[local] Hint Resolve frames_run_line : frames.

Lemma frames_script_step h output raw : frames_history (script_step h output raw).
Proof. unfold script_step. frames. Qed.
#[local] Hint Resolve frames_script_step : frames.

Lemma frames_script_loop h lines : forall output,
  frames_history (script_loop h lines output).
Proof.
  induction lines as [|raw rest IH]; intros output; cbn [script_loop]; frames.
Qed.
#[local] Hint Resolve frames_script_loop : frames.

Lemma frames_run_startup_script h name content :
  frames_history (_run_startup_script h name content).
Proof. unfold _run_startup_script. frames. Qed.
#[local] Hint Resolve frames_run_startup_script : frames.

Lemma frames_execute_startup_sequence h :
  frames_history (_execute_startup_sequence h).
Proof. unfold _execute_startup_sequence. frames. Qed.

(** C10: the command history is append-only.  One call of
    [execute_command] leaves the history as it is (a blank line, or a
    line whose first token is a device shorthand) or appends the raw
    command line at its end, and nothing else; over a whole session the
    history is the old history followed by the recorded lines in the
    order they were entered.  Change-directory, the listing and the
    startup sequence leave the history untouched. *)
Theorem command_history_is_append_only (h : Host) :
  (forall line s,
     command_history (snd (execute_command h line s))
     = (command_history s ++ (if recorded s line then [line] else []))%list) /\
  (forall lines s,
     command_history (session h lines s)
     = (command_history s ++ filter (recorded s) lines)%list) /\
  (forall path s,
     command_history (snd (change_directory h path s)) = command_history s) /\
  (forall path s,
     command_history (snd (list_files h path s)) = command_history s) /\
  (forall s,
     command_history (snd (_execute_startup_sequence h s)) = command_history s).
Proof.
  split; [|split; [|split; [|split]]].
  - intros line s. apply execute_command_history.
  - induction lines as [|line rest IH]; intros s; cbn [session filter].
    + now rewrite app_nil_r.
    + destruct (execute_command_history h line s) as (H1 & H2 & _).
      rewrite IH, H1.
      assert (R : forall l, recorded (snd (execute_command h line s)) l = recorded s l).
      { intros l. unfold recorded, is_device. now rewrite H2. }
      rewrite (filter_ext _ _ R).
      destruct (recorded s line); cbn; now rewrite <- app_assoc.
  - intros path s. apply frames_change_directory.
  - intros path s. apply frames_list_files.
  - intros s. apply frames_execute_startup_sequence.
Qed.


Lemma upper_lower_char c : PyStr.upper_char (PyStr.lower_char c) = PyStr.upper_char c.
Proof.
  destruct c as [b0 b1 b2 b3 b4 b5 b6 b7].
  destruct b0, b1, b2, b3, b4, b5, b6, b7; vm_compute; reflexivity.
Qed.

Lemma upper_lower s : PyStr.upper (PyStr.lower s) = PyStr.upper s.
Proof.
  unfold PyStr.upper, PyStr.lower.
  induction s as [|c s IH]; simpl; [reflexivity|].
  now rewrite IH, upper_lower_char.
Qed.

Lemma execute_command_shorthand h line p0 rest s :
  PyStr.split_ws (PyStr.strip line) = p0 :: rest ->
  PyStr.endswith ":" (PyStr.lower p0) && is_device s (PyStr.lower p0) = true ->
  execute_command h line s = text_of (change_directory h (PyStr.lower p0)) s.
Proof.
  intros Hp Hd. unfold execute_command. rewrite Hp.
  cbn [List.length Nat.ltb Nat.leb negb].
  change (index (p0 :: rest) 0) with (@ret State _ p0).
  cbv [bind ret get]. rewrite Hd. reflexivity.
Qed.

Lemma execute_command_ordinary h line p0 rest s :
  PyStr.split_ws (PyStr.strip line) = p0 :: rest ->
  PyStr.endswith ":" (PyStr.lower p0) && is_device s (PyStr.lower p0) = false ->
  execute_command h line s
  = dispatch h (PyStr.lower p0) rest (snd (history_append line s)).
Proof.
  intros Hp Hd. unfold execute_command. rewrite Hp.
  cbn [List.length Nat.ltb Nat.leb negb].
  change (index (p0 :: rest) 0) with (@ret State _ p0).
  cbv [bind ret get]. rewrite Hd. cbn [history_append].
  destruct rest; reflexivity.
Qed.

End WebHistory.

Lemma endswith_char_contains c s :
  PyStr.endswith (String c EmptyString) s = true ->
  PyStr.contains (String c EmptyString) s = true.
Proof.
  induction s as [|a s IH]; [discriminate|].
  cbn [PyStr.endswith]. rewrite contains_char_unfold. intros H.
  apply orb_true_iff in H. destruct H as [H|H].
  - apply String.eqb_eq in H. inversion H; subst.
    now rewrite Ascii.eqb_refl.
  - rewrite (IH H). apply orb_true_r.
Qed.

Lemma mem_str_map_find (f : string -> string) x l :
  mem_str x (map f l) = true ->
  exists a, find (fun a => String.eqb (f a) x) l = Some a /\ In a l /\ f a = x.
Proof.
  unfold mem_str. induction l as [|b l IH]; [discriminate|].
  cbn [map existsb find]. intros H.
  destruct (String.eqb (f b) x) eqn:E.
  - exists b. apply String.eqb_eq in E. repeat split; [now left|exact E].
  - rewrite String.eqb_sym, E in H. cbn in H.
    destruct (IH H) as (a & Ha & Hin & Hf).
    exists a. repeat split; [exact Ha|now right|exact Hf].
Qed.

Lemma precmd_device line s :
  PyStr.endswith ":" (PyStr.upper line) = true ->
  Dict.mem (PyStr.upper line) WSAConsoleTerminal.logical_assignments = false ->
  mem_str (PyStr.upper line)
    (map PyStr.upper (Dict.keys (WSAConsoleTerminal.directories s))) = true ->
  exists actual_device,
    In actual_device (Dict.keys (WSAConsoleTerminal.directories s)) /\
    PyStr.upper actual_device = PyStr.upper line /\
    WSAConsoleTerminal.precmd line s = (Ok ("cd " ++ actual_device), s).
Proof.
  intros He Ha Hm.
  destruct (mem_str_map_find _ _ _ Hm) as (a & Hf & Hin & Hu).
  exists a. repeat split; [exact Hin|exact Hu|].
  unfold WSAConsoleTerminal.precmd. cbv [bind get].
  pose proof (endswith_char_contains _ _ He) as Hc.
  rewrite contains_colon_upper in Hc.
  assert (Ht : PyStr.truthy line = true).
  { destruct line; [discriminate|reflexivity]. }
  rewrite Ht, He, Hc, Ha, Hm. cbn [andb]. rewrite Hf. reflexivity.
Qed.

(** C5, as the claim states it, fails: the web terminal, the interpreter
    that keeps the history, knows no logical assignment.  The line [S:] is
    dispatched as a verb, answered with "command not found", and recorded
    in the history. *)
Lemma alias_shorthand_is_recorded_by_the_web_terminal :
  let r := AmigaTerminal.execute_command posix_host "S:" web_fresh in
  AmigaTerminal.command_history web_fresh = [] /\
  fst r = Ok (AmigaTerminal.Text
                ("Command 's:' not found. Type 'help' for available commands."
                 ++ PyStr.nl)) /\
  AmigaTerminal.command_history (snd r) = ["S:"] /\
  AmigaTerminal.current_dir (snd r) = "SYS:".
Proof. vm_compute. repeat split; reflexivity. Qed.

(** The shorthand hands the lower-cased token to change-directory, which
    compares device keys as they are spelled: of the devices of a fresh
    session only [DH0:], which change-directory treats apart, is entered
    this way.  Either way the line is not recorded. *)
Example device_shorthand_passes_the_folded_token :
  AmigaTerminal.execute_command posix_host "RAM:" web_fresh
  = (Ok (AmigaTerminal.Text ("Directory ram: not found." ++ PyStr.nl)), web_fresh) /\
  AmigaTerminal.current_dir
    (snd (AmigaTerminal.execute_command posix_host "dh0:" web_fresh)) = "DH0:" /\
  AmigaTerminal.command_history
    (snd (AmigaTerminal.execute_command posix_host "dh0:" web_fresh)) = [].
Proof. vm_compute. repeat split; reflexivity. Qed.

(** C5 (amended): in the web terminal a line whose first token ends in
    [:] and is, compared case-insensitively, one of the device keys is
    handed to change-directory in place of the verb dispatch and before
    the append to the history, so it is never recorded; every other line
    that has a token, a line that errors included, is appended to the
    history as typed and then dispatched.  Logical assignments are known
    to the console front end only: there a line that is just an
    assignment becomes [cd] to its target, and a line that is just a
    device key (in any letter case) becomes [cd] to that key. *)
Theorem device_shorthand_bypasses_history
    (h : Host) (line p0 : string) (rest : list string)
    (s : AmigaTerminal.State) :
  PyStr.split_ws (PyStr.strip line) = p0 :: rest ->
  (PyStr.endswith ":" (PyStr.lower p0)
   && AmigaTerminal.is_device s (PyStr.lower p0) = true ->
   (exists p, PyStr.upper p = PyStr.upper p0 /\
      AmigaTerminal.execute_command h line s
      = AmigaTerminal.text_of (AmigaTerminal.change_directory h p) s) /\
   AmigaTerminal.command_history (snd (AmigaTerminal.execute_command h line s))
   = AmigaTerminal.command_history s) /\
  (PyStr.endswith ":" (PyStr.lower p0)
   && AmigaTerminal.is_device s (PyStr.lower p0) = false ->
   AmigaTerminal.execute_command h line s
   = AmigaTerminal.dispatch h (PyStr.lower p0) rest
       (snd (AmigaTerminal.history_append line s)) /\
   AmigaTerminal.command_history (snd (AmigaTerminal.execute_command h line s))
   = (AmigaTerminal.command_history s ++ [line])%list) /\
  (forall (cs : WSAConsoleTerminal.State) (cline : string),
     (forall logical actual,
        In (logical, actual) WSAConsoleTerminal.logical_assignments ->
        PyStr.upper cline = logical ->
        WSAConsoleTerminal.precmd cline cs = (Ok ("cd " ++ actual), cs)) /\
     (PyStr.endswith ":" (PyStr.upper cline) = true ->
      Dict.mem (PyStr.upper cline) WSAConsoleTerminal.logical_assignments = false ->
      mem_str (PyStr.upper cline)
        (map PyStr.upper (Dict.keys (WSAConsoleTerminal.directories cs))) = true ->
      exists actual_device,
        In actual_device (Dict.keys (WSAConsoleTerminal.directories cs)) /\
        PyStr.upper actual_device = PyStr.upper cline /\
        WSAConsoleTerminal.precmd cline cs = (Ok ("cd " ++ actual_device), cs))).
Proof.
  intros Hp.
  pose proof (execute_command_history h line s) as (Hh & _).
  unfold recorded in Hh. rewrite Hp in Hh.
  split; [|split].
  - intros Hd. rewrite Hd in Hh. cbn [negb] in Hh. rewrite app_nil_r in Hh.
    split; [|exact Hh].
    exists (PyStr.lower p0). split; [apply upper_lower|].
    now apply execute_command_shorthand with (rest := rest).
  - intros Hd. rewrite Hd in Hh. cbn [negb] in Hh.
    split; [|exact Hh].
    now apply execute_command_ordinary.
  - intros cs cline. split.
    + intros logical actual Hin Hu. now apply precmd_alias with (logical := logical).
    + apply precmd_device.
Qed.

Lemma device_shorthand_bypasses_history_witness :
  (PyStr.split_ws (PyStr.strip " dh0: ") = ["dh0:"] /\
   PyStr.endswith ":" (PyStr.lower "dh0:")
   && AmigaTerminal.is_device web_fresh (PyStr.lower "dh0:") = true) /\
  AmigaTerminal.command_history
    (snd (AmigaTerminal.execute_command posix_host " dh0: " web_fresh))
  = AmigaTerminal.command_history web_fresh.
Proof.
  split; [split; reflexivity|].
  destruct (device_shorthand_bypasses_history posix_host " dh0: " "dh0:" []
              web_fresh eq_refl) as (H & _ & _).
  destruct (H eq_refl) as (_ & Hh). exact Hh.
Defined.

(** ** The startup script runner *)

Lemma web_script_step_cases h output raw s :
  let line := PyStr.strip raw in
  (AmigaTerminal.skipped line = true /\
   AmigaTerminal.script_step h output raw s = (Ok output, s)) \/
  (AmigaTerminal.skipped line = false /\
   exists t s1, AmigaTerminal.run_line h line s = (Ok t, s1) /\
     AmigaTerminal.script_step h output raw s = (Ok (output ++ t), s1)) \/
  (AmigaTerminal.skipped line = false /\
   exists e s1, AmigaTerminal.run_line h line s = (Exn e, s1) /\
     AmigaTerminal.script_step h output raw s
     = (Ok (output ++ AmigaTerminal.startup_error line e), s1)).
Proof.
  intros line. unfold AmigaTerminal.script_step. fold line.
  destruct (AmigaTerminal.skipped line); [left; split; reflexivity|right].
  unfold try_catch, bind.
  destruct (AmigaTerminal.run_line h line s) as [[t|e] s1].
  - left. split; [reflexivity|]. exists t, s1. split; reflexivity.
  - right. split; [reflexivity|]. exists e, s1. split; reflexivity.
Qed.

Lemma web_script_step_ok h output raw s :
  exists out s', AmigaTerminal.script_step h output raw s = (Ok out, s').
Proof.
  destruct (web_script_step_cases h output raw s)
    as [(_ & H)|[(_ & t & s1 & _ & H)|(_ & e & s1 & _ & H)]];
    rewrite H; do 2 eexists; reflexivity.
Qed.

Lemma web_script_loop_ok h lines : forall output s,
  exists out s', AmigaTerminal.script_loop h lines output s = (Ok out, s').
Proof.
  induction lines as [|raw rest IH]; intros output s; cbn [AmigaTerminal.script_loop].
  - do 2 eexists; reflexivity.
  - destruct (web_script_step_ok h output raw s) as (out & s1 & H).
    unfold bind. rewrite H. apply IH.
Qed.

Lemma web_script_loop_skip h raw rest output s :
  AmigaTerminal.skipped (PyStr.strip raw) = true ->
  AmigaTerminal.script_loop h (raw :: rest) output s
  = AmigaTerminal.script_loop h rest output s.
Proof.
  intros Hs. cbn [AmigaTerminal.script_loop]. unfold bind, AmigaTerminal.script_step.
  rewrite Hs. reflexivity.
Qed.

Lemma web_script_loop_catch h raw rest output s e s1 :
  AmigaTerminal.skipped (PyStr.strip raw) = false ->
  AmigaTerminal.run_line h (PyStr.strip raw) s = (Exn e, s1) ->
  AmigaTerminal.script_loop h (raw :: rest) output s
  = AmigaTerminal.script_loop h rest
      (output ++ "Error executing startup command '" ++ PyStr.strip raw ++ "': "
       ++ e ++ PyStr.nl) s1.
Proof.
  intros Hs He. cbn [AmigaTerminal.script_loop].
  unfold bind at 1. unfold AmigaTerminal.script_step. rewrite Hs.
  unfold try_catch, bind. rewrite He. reflexivity.
Qed.

Section ConsoleRunner.

Variable h : Host.
Variable other_do : string -> option (string -> M WSAConsoleTerminal.State unit).

Lemma console_print_ok text s :
  WSAConsoleTerminal.print text s = (Ok tt, snd (WSAConsoleTerminal.print text s)).
Proof. reflexivity. Qed.

Lemma console_script_step_ok raw s :
  exists s', WSAConsoleTerminal.script_step h other_do raw s = (Ok tt, s').
Proof.
  unfold WSAConsoleTerminal.script_step.
  destruct (WSAConsoleTerminal.skipped (PyStr.strip raw)); [eexists; reflexivity|].
  unfold try_catch.
  destruct (WSAConsoleTerminal.run_line h other_do (PyStr.strip raw) s) as [[[]|e] s1];
    eexists; reflexivity.
Qed.

Lemma console_for_each_ok lines : forall s,
  exists s',
    WSAConsoleTerminal.for_each lines (WSAConsoleTerminal.script_step h other_do) s
    = (Ok tt, s').
Proof.
  induction lines as [|raw rest IH]; intros s; cbn [WSAConsoleTerminal.for_each].
  - eexists; reflexivity.
  - destruct (console_script_step_ok raw s) as (s1 & H).
    unfold bind. rewrite H. apply IH.
Qed.

Lemma console_run_startup_script_ok name content s :
  exists s', WSAConsoleTerminal._run_startup_script h other_do name content s
             = (Ok tt, s').
Proof.
  unfold WSAConsoleTerminal._run_startup_script.
  unfold bind at 1. rewrite console_print_ok. apply console_for_each_ok.
Qed.

Lemma console_for_each_skip raw rest s :
  WSAConsoleTerminal.skipped (PyStr.strip raw) = true ->
  WSAConsoleTerminal.for_each (raw :: rest) (WSAConsoleTerminal.script_step h other_do) s
  = WSAConsoleTerminal.for_each rest (WSAConsoleTerminal.script_step h other_do) s.
Proof.
  intros Hs. cbn [WSAConsoleTerminal.for_each].
  unfold bind, WSAConsoleTerminal.script_step. rewrite Hs. reflexivity.
Qed.

Lemma console_for_each_catch raw rest s e s1 :
  WSAConsoleTerminal.skipped (PyStr.strip raw) = false ->
  WSAConsoleTerminal.run_line h other_do (PyStr.strip raw) s = (Exn e, s1) ->
  WSAConsoleTerminal.for_each (raw :: rest) (WSAConsoleTerminal.script_step h other_do) s
  = WSAConsoleTerminal.for_each rest (WSAConsoleTerminal.script_step h other_do)
      (snd (WSAConsoleTerminal.print
              ("Error executing startup command '" ++ PyStr.strip raw ++ "': " ++ e)
              s1)).
Proof.
  intros Hs He. cbn [WSAConsoleTerminal.for_each].
  unfold bind at 1. unfold WSAConsoleTerminal.script_step at 1. rewrite Hs.
  unfold try_catch. rewrite He. reflexivity.
Qed.

End ConsoleRunner.

Example console_runner_goes_on_after_a_failure :
  WSAConsoleTerminal.stdout
    (snd (WSAConsoleTerminal._run_startup_script posix_host failing_do "S"
            ("; setup" ++ PyStr.nl ++ "info" ++ PyStr.nl ++ PyStr.nl ++ "echo ok")
            WSAConsoleTerminal.initial_fields))
  = ["Executing S...";
     "Error executing startup command 'info': no terminal";
     "ok"].
Proof. reflexivity. Qed.

(** ** Listings and their footer *)

Lemma emit_nil s : emit [] s = s.
Proof. destruct s. unfold emit. cbn. now rewrite app_nil_r. Qed.

Lemma emit_emit a b s : emit b (emit a s) = emit (a ++ b) s.
Proof. unfold emit. cbn. now rewrite app_assoc. Qed.

Lemma print_emit text s : WSAConsoleTerminal.print text s = (Ok tt, emit [text] s).
Proof. reflexivity. Qed.








Lemma device_of_unmounted path s :
  WSAConsoleTerminal.mounted_shared_folders s = [] ->
  exists d, WSAConsoleTerminal.device_of path s = (Ok d, s) /\
            Dict.mem d (WSAConsoleTerminal.mounted_shared_folders s) = false.
Proof.
  intros Hm. destruct (console_device_of_ok path s) as [d Hd].
  exists d. split; [exact Hd|]. now rewrite Hm.
Qed.





Lemma string_app_assoc (a b c : string) : (a ++ b) ++ c = a ++ (b ++ c).
Proof. induction a as [|x a IH]; simpl; [reflexivity|now rewrite IH]. Qed.








(** ** The order of the entries of a listing *)

Lemma ltb_asym a b : String.ltb a b = true -> String.ltb b a = false.
Proof.
  unfold String.ltb. rewrite (String.compare_antisym b a).
  destruct (String.compare a b); cbn; congruence.
Qed.

Lemma insert_by_lower_hd x y l :
  ci_le y x -> HdRel ci_le y l -> HdRel ci_le y (PyStr.insert_by PyStr.lower x l).
Proof.
  intros Hyx Hl. destruct l as [|z l]; cbn [PyStr.insert_by].
  - now constructor.
  - destruct (String.ltb (PyStr.lower x) (PyStr.lower z)).
    + now constructor.
    + inversion Hl; subst. now constructor.
Qed.

Lemma insert_by_lower_sorted x l :
  Sorted ci_le l -> Sorted ci_le (PyStr.insert_by PyStr.lower x l).
Proof.
  induction l as [|y l IH]; intros Hs; cbn [PyStr.insert_by].
  - repeat constructor.
  - inversion Hs as [|? ? Hs' Hh]; subst.
    destruct (String.ltb (PyStr.lower x) (PyStr.lower y)) eqn:E.
    + constructor; [exact Hs|]. constructor. unfold ci_le. now apply ltb_asym.
    + constructor; [now apply IH|]. apply insert_by_lower_hd; assumption.
Qed.

Lemma sort_by_lower_sorted l : Sorted ci_le (PyStr.sort_by PyStr.lower l).
Proof.
  unfold PyStr.sort_by.
  assert (G : forall acc, Sorted ci_le acc ->
                Sorted ci_le (fold_left (fun acc x => PyStr.insert_by PyStr.lower x acc) l acc)).
  { induction l as [|x l IH]; intros acc Ha; cbn [fold_left]; [exact Ha|].
    apply IH. now apply insert_by_lower_sorted. }
  apply G. constructor.
Qed.

Lemma insert_by_perm key x l : Permutation (x :: l) (PyStr.insert_by key x l).
Proof.
  induction l as [|y l IH]; cbn [PyStr.insert_by]; [reflexivity|].
  destruct (String.ltb (key x) (key y)); [reflexivity|].
  rewrite perm_swap. now constructor.
Qed.

Lemma sort_by_perm key l : Permutation l (PyStr.sort_by key l).
Proof.
  unfold PyStr.sort_by.
  assert (G : forall acc, Permutation (acc ++ l)
                (fold_left (fun acc x => PyStr.insert_by key x acc) l acc)).
  { induction l as [|x l IH]; intros acc; cbn [fold_left].
    - now rewrite app_nil_r.
    - etransitivity; [|apply IH].
      etransitivity; [symmetry; apply Permutation_middle|].
      apply (Permutation_app_tail l (insert_by_perm key x acc)). }
  apply (G []).
Qed.

(** The overlay listing does sort: the directory names and the file
    names it prints are each in case-insensitive order, and each is a
    rearrangement of the corresponding entries of the host directory. *)
Lemma overlay_listing_is_sorted h fs_path items :
  Sorted ci_le (WSAConsoleTerminal.host_dirs h fs_path items) /\
  Sorted ci_le (WSAConsoleTerminal.host_files h fs_path items) /\
  Permutation
    (filter (fun i => os_path_isdir h (os_path_join h fs_path i)) items)
    (WSAConsoleTerminal.host_dirs h fs_path items) /\
  Permutation
    (filter (fun i => negb (os_path_isdir h (os_path_join h fs_path i))) items)
    (WSAConsoleTerminal.host_files h fs_path items).
Proof.
  unfold WSAConsoleTerminal.host_dirs, WSAConsoleTerminal.host_files.
  repeat split; first [apply sort_by_lower_sorted|apply sort_by_perm].
Qed.

(** C8 (the code departs from the claim): evaluated on a fresh session,
    [dir] at [SYS:] prints the eight subdirectories in the order in which
    they are stored, [Prefs, Tools, L, S, C, DEVS, Fonts, WBStartup];
    this is not the case-insensitive order, which the overlay listing
    would produce with its sort: [C, DEVS, Fonts, L, Prefs, S, Tools,
    WBStartup].  The web terminal prints the same stored order. *)
Theorem virtual_listing_keeps_stored_order :
  let stored := ["Prefs"; "Tools"; "L"; "S"; "C"; "DEVS"; "Fonts"; "WBStartup"] in
  let date := format_amiga_date posix_host None true in
  WSAConsoleTerminal._list_files posix_host None console_fresh
  = (Ok tt,
     emit ([WSAConsoleTerminal.header_line "SYS:" (format_amiga_day posix_host None)
              (format_amiga_date posix_host None false)]
           ++ map (fun d => WSAConsoleTerminal.dir_line d date) stored
           ++ ["8 files - 8 directories - 0 bytes used"]) console_fresh) /\
  fst (AmigaTerminal.list_files posix_host None web_fresh)
  = Ok (AmigaTerminal.listing_header "SYS:"
        ++ String.concat "" (map AmigaTerminal.dir_line stored)
        ++ AmigaTerminal.listing_footer 8 0) /\
  PyStr.sort_by PyStr.lower stored
  = ["C"; "DEVS"; "Fonts"; "L"; "Prefs"; "S"; "Tools"; "WBStartup"] /\
  ~ Sorted ci_le stored.
Proof.
  intros stored date. split; [|split; [|split]].
  - vm_compute. reflexivity.
  - vm_compute. reflexivity.
  - vm_compute. reflexivity.
  - intros H. inversion H as [|? ? H1 _]; subst.
    inversion H1 as [|? ? _ H2]; subst.
    inversion H2 as [|? ? H3]; subst. vm_compute in H3. discriminate.
Qed.

(** ** Probing the host path of an overlay directory *)









(** ** Change-directory failures, from the interpreters *)

(** The same, seen from the interpreters: a [cd] command line of the web
    terminal, and [do_cd] of the console, which prints the message. *)
Lemma execute_cd_failure_is_reported h line p0 rest s :
  PyStr.split_ws (PyStr.strip line) = p0 :: rest ->
  PyStr.lower p0 = "cd" ->
  exists out s',
    AmigaTerminal.execute_command h line s = (Ok (AmigaTerminal.Text out), s') /\
    (out = "" \/
     (AmigaTerminal.current_dir s' = AmigaTerminal.current_dir s /\
      web_cd_message (PyStr.join " " rest) out)).
Proof.
  intros Hp Hc.
  rewrite (execute_command_ordinary h line p0 rest s Hp) by (now rewrite Hc).
  rewrite Hc. change (AmigaTerminal.dispatch h "cd" rest)
    with (AmigaTerminal.text_of (AmigaTerminal.change_directory h (PyStr.join " " rest))).
  unfold AmigaTerminal.text_of, bind.
  destruct (web_cd_outcome_holds h (PyStr.join " " rest)
              (snd (AmigaTerminal.history_append line s)))
    as [[s' H]|(msg & H & _ & Hm)]; rewrite H.
  - exists "", s'. split; [reflexivity|now left].
  - exists msg, (snd (AmigaTerminal.history_append line s)).
    split; [reflexivity|]. right. split; [reflexivity|exact Hm].
Qed.

Lemma do_cd_failure_is_reported h arg s :
  arg <> "" ->
  exists s',
    WSAConsoleTerminal.do_cd h arg s = (Ok tt, s') /\
    (WSAConsoleTerminal._change_directory h arg s = (Ok "", s') \/
     (WSAConsoleTerminal.current_dir s' = WSAConsoleTerminal.current_dir s /\
      exists msg, console_cd_message arg msg /\ s' = emit [msg] s)).
Proof.
  intros Ha. unfold WSAConsoleTerminal.do_cd.
  destruct arg as [|c arg]; [congruence|]. cbn [PyStr.truthy PyStr.is_empty negb].
  unfold bind.
  destruct (console_cd_outcome_holds h (String c arg) s)
    as [[s' H]|(msg & H & Hn & Hm)]; rewrite H.
  - exists s'. split; [reflexivity|]. now left.
  - exists (emit [msg] s). split.
    + destruct msg; [congruence|]. reflexivity.
    + right. split; [reflexivity|]. exists msg. split; [exact Hm|reflexivity].
Qed.


(** ** The runners and the effect of a script *)

Lemma skipped_spec line :
  AmigaTerminal.skipped line = String.eqb line "" || PyStr.startswith ";" line.
Proof. destruct line; reflexivity. Qed.

Lemma web_script_loop_effect h lines : forall output s,
  AmigaTerminal.script_loop h lines output s
  = (Ok (fst (fold_left (web_line_effect h) lines (output, s))),
     snd (fold_left (web_line_effect h) lines (output, s))).
Proof.
  induction lines as [|raw rest IH]; intros output s;
    cbn [AmigaTerminal.script_loop fold_left].
  - reflexivity.
  - unfold bind at 1. unfold AmigaTerminal.script_step, web_line_effect at 2 4.
    cbv zeta. rewrite <- skipped_spec.
    destruct (AmigaTerminal.skipped (PyStr.strip raw)).
    + apply IH.
    + unfold try_catch, bind. cbn [fst snd].
      destruct (AmigaTerminal.run_line h (PyStr.strip raw) s) as [[t|e] s1];
        apply IH.
Qed.

Lemma web_run_startup_script_effect h name content s :
  AmigaTerminal._run_startup_script h name content s
  = (Ok (fst (web_script_effect h name content s)),
     snd (web_script_effect h name content s)).
Proof. apply web_script_loop_effect. Qed.

Section ConsoleRunnerEffect.

Variable h : Host.
Variable other_do : string -> option (string -> M WSAConsoleTerminal.State unit).

Lemma console_for_each_effect lines : forall s,
  WSAConsoleTerminal.for_each lines (WSAConsoleTerminal.script_step h other_do) s
  = (Ok tt, fold_left (console_line_effect h other_do) lines s).
Proof.
  induction lines as [|raw rest IH]; intros s;
    cbn [WSAConsoleTerminal.for_each fold_left].
  - reflexivity.
  - unfold bind at 1. unfold WSAConsoleTerminal.script_step, console_line_effect at 2.
    cbv zeta.
    change (WSAConsoleTerminal.skipped (PyStr.strip raw))
      with (AmigaTerminal.skipped (PyStr.strip raw)).
    rewrite <- skipped_spec.
    destruct (AmigaTerminal.skipped (PyStr.strip raw)).
    + apply IH.
    + unfold try_catch.
      destruct (WSAConsoleTerminal.run_line h other_do (PyStr.strip raw) s)
        as [[[]|e] s1].
      * apply IH.
      * unfold WSAConsoleTerminal.startup_error. rewrite print_emit. apply IH.
Qed.

Lemma console_run_startup_script_effect name content s :
  WSAConsoleTerminal._run_startup_script h other_do name content s
  = (Ok tt, console_script_effect h other_do name content s).
Proof.
  unfold WSAConsoleTerminal._run_startup_script, console_script_effect.
  unfold bind at 1. rewrite print_emit. apply console_for_each_effect.
Qed.

End ConsoleRunnerEffect.

(** * Further properties *)

(** ** Splitting and joining *)

Lemma split_app_sep c p q :
  PyStr.split c (p ++ String c q) = (PyStr.split c p ++ PyStr.split c q)%list.
Proof.
  unfold PyStr.split. induction p as [|a p IH]; cbn [append PyStr.split_by].
  - now rewrite Ascii.eqb_refl.
  - destruct (Ascii.eqb c a); [now rewrite IH|].
    rewrite IH.
    destruct (split_by_nonempty (Ascii.eqb c) p) as (x & rest & ->). reflexivity.
Qed.

Lemma split_without_sep c s :
  PyStr.contains (String c EmptyString) s = false -> PyStr.split c s = [s].
Proof.
  unfold PyStr.split. induction s as [|a s IH]; intros H; [reflexivity|].
  apply contains_char_cons in H. destruct H as [N H].
  cbn [PyStr.split_by]. destruct (Ascii.eqb c a) eqn:E.
  - apply Ascii.eqb_eq in E. congruence.
  - now rewrite (IH H).
Qed.

Lemma concat_cons_char sep a x l :
  String.concat sep (String a x :: l) = String a (String.concat sep (x :: l)).
Proof. destruct l; reflexivity. Qed.

Lemma join_split c s :
  PyStr.join (String c EmptyString) (PyStr.split c s) = s.
Proof.
  unfold PyStr.join, PyStr.split. induction s as [|a s IH]; [reflexivity|].
  cbn [PyStr.split_by].
  destruct (split_by_nonempty (Ascii.eqb c) s) as (x & rest & E).
  rewrite E in IH |- *.
  destruct (Ascii.eqb c a) eqn:Ea.
  - apply Ascii.eqb_eq in Ea. subst a.
    change (String.concat (String c "") ("" :: x :: rest))
      with ("" ++ String c "" ++ String.concat (String c "") (x :: rest)).
    now rewrite IH.
  - now rewrite concat_cons_char, IH.
Qed.

Lemma init_app_last {A} (l : list A) x : PyStr.init (l ++ [x]) = l.
Proof. unfold PyStr.init. apply removelast_last. Qed.

(** The segments of [p/seg] are those of [p] followed by [seg]. *)
Lemma split_last_segment p seg :
  PyStr.contains "/" seg = false ->
  PyStr.split "/" (p ++ "/" ++ seg) = (PyStr.split "/" p ++ [seg])%list.
Proof.
  intros H. change (p ++ "/" ++ seg) with (p ++ String "/" seg).
  now rewrite split_app_sep, (split_without_sep _ _ H).
Qed.

Lemma split_device d r :
  PyStr.contains ":" d = false -> PyStr.contains ":" r = false ->
  PyStr.split ":" (d ++ ":" ++ r) = [d; r].
Proof.
  intros Hd Hr. change (d ++ ":" ++ r) with (d ++ String ":" r).
  now rewrite split_app_sep, (split_without_sep _ _ Hd), (split_without_sep _ _ Hr).
Qed.

Lemma length_split_app p seg :
  PyStr.contains "/" seg = false ->
  (1 <? List.length (PyStr.split "/" (p ++ "/" ++ seg)))%nat = true.
Proof.
  intros H. rewrite (split_last_segment _ _ H), length_app.
  destruct (split_by_nonempty (Ascii.eqb "/") p) as (x & rest & E).
  unfold PyStr.split. rewrite E. cbn [List.length]. apply Nat.ltb_lt. lia.
Qed.

(** The parent of [d:r], as both front ends compute it. *)
Lemma web_parent_step d r s :
  PyStr.contains ":" d = false -> PyStr.contains ":" r = false ->
  AmigaTerminal.current_dir s = d ++ ":" ++ r -> r <> "" ->
  forall parent,
    (if (1 <? List.length (PyStr.split "/" r))%nat
     then d ++ ":" ++ PyStr.join "/" (PyStr.init (PyStr.split "/" r))
     else d ++ ":") = parent ->
    AmigaTerminal.change_directory_up s = AmigaTerminal.enter parent s.
Proof.
  intros Hd Hr Hc Hn parent Hp.
  unfold AmigaTerminal.change_directory_up, AmigaTerminal.enter.
  unfold bind at 1. cbn [get]. cbv beta iota. rewrite Hc.
  destruct (String.eqb (d ++ ":" ++ r) "SYS:") eqn:E.
  { apply String.eqb_eq in E.
    assert (S1 : PyStr.split ":" (d ++ ":" ++ r) = PyStr.split ":" "SYS:") by now rewrite E.
    rewrite (split_device _ _ Hd Hr) in S1. inversion S1. congruence. }
  rewrite (split_device _ _ Hd Hr).
  destruct r as [|c r]; [congruence|].
  change ((1 <? List.length [d; String c r])%nat) with true.
  change (@index AmigaTerminal.State _ [d; String c r] 1) with (@ret AmigaTerminal.State _ (String c r)).
  change (@index AmigaTerminal.State _ [d; String c r] 0) with (@ret AmigaTerminal.State _ d).
  cbv [bind ret].
  cbn [PyStr.truthy PyStr.is_empty negb].
  destruct (1 <? List.length (PyStr.split "/" (String c r)))%nat.
  - subst parent.
    destruct (String.eqb _ (d ++ ":")) eqn:E2.
    + apply String.eqb_eq in E2. rewrite E2. reflexivity.
    + reflexivity.
  - subst parent. reflexivity.
Qed.

Lemma contains_char_app_split c a b :
  PyStr.contains (String c EmptyString) (a ++ b)
  = PyStr.contains (String c EmptyString) a || PyStr.contains (String c EmptyString) b.
Proof.
  induction a as [|x a IH]; [reflexivity|].
  change (String x a ++ b) with (String x (a ++ b)).
  now rewrite !contains_char_unfold, IH, orb_assoc.
Qed.

Lemma console_cd_dotdot h s :
  Dict.mem "..:" (WSAConsoleTerminal.mounted_shared_folders s) = false ->
  WSAConsoleTerminal._change_directory h ".." s
  = WSAConsoleTerminal.change_directory_up ".." s.
Proof.
  intros Hm. unfold WSAConsoleTerminal._change_directory. cbv [bind get].
  change (WSAConsoleTerminal.device_of ".." s) with (Ok "..:", s).
  cbv iota beta. rewrite Hm. reflexivity.
Qed.

Lemma console_parent_step d r s :
  PyStr.contains ":" d = false -> PyStr.contains ":" r = false ->
  WSAConsoleTerminal.current_dir s = d ++ ":" ++ r -> r <> "" ->
  forall parent,
    (if (1 <? List.length (PyStr.split "/" r))%nat
     then d ++ ":" ++ PyStr.join "/" (PyStr.init (PyStr.split "/" r))
     else d ++ ":") = parent ->
    WSAConsoleTerminal.change_directory_up ".." s = WSAConsoleTerminal.enter parent s.
Proof.
  intros Hd Hr Hc Hn parent Hp.
  unfold WSAConsoleTerminal.change_directory_up.
  unfold bind at 1. cbn [get]. cbv beta iota. rewrite Hc.
  destruct (String.eqb (d ++ ":" ++ r) "SYS:") eqn:E.
  { apply String.eqb_eq in E.
    assert (S1 : PyStr.split ":" (d ++ ":" ++ r) = PyStr.split ":" "SYS:") by now rewrite E.
    rewrite (split_device _ _ Hd Hr) in S1. inversion S1. congruence. }
  change (PyStr.startswith "../" "..") with false. cbv iota.
  unfold WSAConsoleTerminal.parent_of.
  rewrite (split_device _ _ Hd Hr).
  destruct r as [|c r]; [congruence|].
  change ((1 <? List.length [d; String c r])%nat) with true.
  change (@index WSAConsoleTerminal.State _ [d; String c r] 1)
    with (@ret WSAConsoleTerminal.State _ (String c r)).
  change (@index WSAConsoleTerminal.State _ [d; String c r] 0)
    with (@ret WSAConsoleTerminal.State _ d).
  cbv [bind ret]. cbn [PyStr.truthy PyStr.is_empty negb].
  destruct (1 <? List.length (PyStr.split "/" (String c r)))%nat;
    subst parent; reflexivity.
Qed.

Lemma parent_of_nested p seg d :
  PyStr.contains "/" seg = false ->
  (if (1 <? List.length (PyStr.split "/" (p ++ "/" ++ seg)))%nat
   then d ++ ":" ++ PyStr.join "/" (PyStr.init (PyStr.split "/" (p ++ "/" ++ seg)))
   else d ++ ":") = d ++ ":" ++ p.
Proof.
  intros H. rewrite (length_split_app _ _ H), (split_last_segment _ _ H).
  now rewrite init_app_last, join_split.
Qed.

Lemma parent_of_single seg d :
  PyStr.contains "/" seg = false ->
  (if (1 <? List.length (PyStr.split "/" seg))%nat
   then d ++ ":" ++ PyStr.join "/" (PyStr.init (PyStr.split "/" seg))
   else d ++ ":") = d ++ ":".
Proof. intros H. now rewrite (split_without_sep _ _ H). Qed.

(** X1: from [d:p/seg], [cd ..] leads to [d:p], and from [d:seg] to the
    device root [d:]: exactly the last segment is dropped, whatever the
    other segments are, and the prompt follows.  Both front ends (the
    console, as long as no shared folder is mounted as [..:]). *)
Theorem cd_parent_pops_last_segment
    (h : Host) (d p seg : string)
    (ws : AmigaTerminal.State) (cs : WSAConsoleTerminal.State) :
  PyStr.contains ":" d = false ->
  PyStr.contains ":" p = false ->
  PyStr.contains ":" seg = false ->
  PyStr.contains "/" seg = false ->
  Dict.mem "..:" (WSAConsoleTerminal.mounted_shared_folders cs) = false ->
  (AmigaTerminal.current_dir ws = d ++ ":" ++ p ++ "/" ++ seg ->
   AmigaTerminal.change_directory h ".." ws
   = AmigaTerminal.enter (d ++ ":" ++ p) ws) /\
  (WSAConsoleTerminal.current_dir cs = d ++ ":" ++ p ++ "/" ++ seg ->
   WSAConsoleTerminal._change_directory h ".." cs
   = WSAConsoleTerminal.enter (d ++ ":" ++ p) cs) /\
  (seg <> "" -> AmigaTerminal.current_dir ws = d ++ ":" ++ seg ->
   AmigaTerminal.change_directory h ".." ws
   = AmigaTerminal.enter (d ++ ":") ws) /\
  (seg <> "" -> WSAConsoleTerminal.current_dir cs = d ++ ":" ++ seg ->
   WSAConsoleTerminal._change_directory h ".." cs
   = WSAConsoleTerminal.enter (d ++ ":") cs).
Proof.
  intros Hd Hp Hs Hn Hm.
  assert (Hr : PyStr.contains ":" (p ++ "/" ++ seg) = false).
  { rewrite contains_char_app_split, Hp.
    change ("/" ++ seg) with (String "/" seg).
    now rewrite contains_char_unfold, Hs. }
  assert (Ne : p ++ "/" ++ seg <> "") by (destruct p; discriminate).
  change (AmigaTerminal.change_directory h ".." ws)
    with (AmigaTerminal.change_directory_up ws).
  rewrite (console_cd_dotdot h cs Hm).
  repeat split.
  - intros Hc. apply (web_parent_step d (p ++ "/" ++ seg) ws Hd Hr Hc Ne).
    now apply parent_of_nested.
  - intros Hc. apply (console_parent_step d (p ++ "/" ++ seg) cs Hd Hr Hc Ne).
    now apply parent_of_nested.
  - intros Hne Hc. apply (web_parent_step d seg ws Hd Hs Hc Hne).
    now apply parent_of_single.
  - intros Hne Hc. apply (console_parent_step d seg cs Hd Hs Hc Hne).
    now apply parent_of_single.
Qed.

Lemma upper_without_colon_not_DH0 name :
  PyStr.contains ":" name = false -> String.eqb (PyStr.upper name) "DH0:" = false.
Proof.
  intros H. destruct (String.eqb (PyStr.upper name) "DH0:") eqn:E; [|reflexivity].
  apply String.eqb_eq in E. rewrite <- contains_colon_upper, E in H. discriminate.
Qed.

Lemma web_cd_relative_success h name s s1 :
  PyStr.contains ":" name = false -> name <> "" -> name <> ".." ->
  PyStr.startswith "DH0:" (AmigaTerminal.current_dir s) && is_windows h = false ->
  AmigaTerminal.change_directory h name s = (Ok "", s1) ->
  (Ok "", s1) = AmigaTerminal.enter (child_path (AmigaTerminal.current_dir s) name) s.
Proof.
  intros Hc Hn Hd Hw. unfold AmigaTerminal.change_directory, child_path.
  rewrite (upper_without_colon_not_DH0 _ Hc).
  destruct name as [|c name]; [congruence|]. cbn [PyStr.truthy PyStr.is_empty negb].
  destruct (String.eqb (String c name) "..") eqn:E;
    [apply String.eqb_eq in E; congruence|].
  rewrite Hc. unfold bind at 1. cbn [get]. cbv beta iota. rewrite Hw.
  destruct (Dict.mem _ (AmigaTerminal.directories s)) eqn:M1; [intros <-; reflexivity|].
  destruct (Dict.mem (AmigaTerminal.current_dir s) (AmigaTerminal.directories s)) eqn:M2.
  - unfold Dict.mem in M2. unfold getitem.
    destruct (Dict.get (AmigaTerminal.directories s) (AmigaTerminal.current_dir s));
      [|discriminate].
    cbv [bind ret].
    destruct (mem_str (String c name) l); [intros <-; reflexivity|].
    intros H. inversion H.
  - cbv [bind ret]. intros H. inversion H.
Qed.

Lemma startswith_dotdotslash_has_slash name :
  PyStr.contains "/" name = false -> PyStr.startswith "../" name = false.
Proof.
  intros H. destruct (PyStr.startswith "../" name) eqn:E; [|reflexivity].
  destruct (prefix_split _ _ E) as [rest ->].
  change ("../" ++ rest) with (String "." (String "." (String "/" rest))) in H.
  rewrite !contains_char_unfold in H. cbn in H. discriminate.
Qed.

Lemma console_cd_relative_success h name s s1 :
  PyStr.contains ":" name = false -> PyStr.contains "/" name = false ->
  name <> "" -> name <> ".." ->
  WSAConsoleTerminal.mounted_shared_folders s = [] ->
  PyStr.startswith "DH0:" (PyStr.upper (WSAConsoleTerminal.current_dir s)) = false ->
  WSAConsoleTerminal._change_directory h name s = (Ok "", s1) ->
  (Ok "", s1)
  = WSAConsoleTerminal.enter (child_path (WSAConsoleTerminal.current_dir s) name) s.
Proof.
  intros Hc Hs Hn Hd Hm Hw. unfold WSAConsoleTerminal._change_directory, child_path.
  unfold bind at 1. cbn [get]. cbv beta iota.
  destruct (device_of_unmounted name s Hm) as (dev & Hdev & Hmem).
  unfold bind at 1. rewrite Hdev. cbv beta iota. rewrite Hmem.
  rewrite (upper_without_colon_not_DH0 _ Hc).
  destruct (String.eqb name "..") eqn:E; [apply String.eqb_eq in E; congruence|].
  rewrite (startswith_dotdotslash_has_slash _ Hs). cbn [orb].
  rewrite Hc, Hw.
  destruct (Dict.mem _ (WSAConsoleTerminal.directories s)) eqn:M1;
    [intros <-; reflexivity|].
  destruct (Dict.mem (WSAConsoleTerminal.current_dir s)
              (WSAConsoleTerminal.directories s)) eqn:M2.
  - unfold Dict.mem in M2. unfold getitem.
    destruct (Dict.get (WSAConsoleTerminal.directories s)
                (WSAConsoleTerminal.current_dir s)); [|discriminate].
    cbv [bind ret].
    destruct (mem_str name l); [intros <-; reflexivity|].
    intros H. inversion H.
  - cbv [bind ret]. intros H. inversion H.
Qed.

Lemma child_path_shape d r name :
  PyStr.contains ":" d = false -> PyStr.contains ":" r = false ->
  PyStr.contains ":" name = false -> PyStr.contains "/" name = false ->
  name <> "" ->
  exists p, child_path (d ++ ":" ++ r) name = d ++ ":" ++ p /\
    PyStr.contains ":" p = false /\ p <> "" /\
    (if (1 <? List.length (PyStr.split "/" p))%nat
     then d ++ ":" ++ PyStr.join "/" (PyStr.init (PyStr.split "/" p))
     else d ++ ":") = d ++ ":" ++ r.
Proof.
  intros Hd Hr Hc Hs Hn. unfold child_path.
  destruct (String.eqb (d ++ ":" ++ r) "SYS:") eqn:E.
  - apply String.eqb_eq in E.
    assert (S1 : PyStr.split ":" (d ++ ":" ++ r) = PyStr.split ":" "SYS:") by now rewrite E.
    rewrite (split_device _ _ Hd Hr) in S1. inversion S1; subst.
    exists name. repeat split; try assumption.
    now apply parent_of_single.
  - exists (r ++ "/" ++ name). repeat split.
    + now rewrite !string_app_assoc.
    + rewrite contains_char_app_split, Hr.
      change ("/" ++ name) with (String "/" name).
      now rewrite contains_char_unfold.
    + destruct r; discriminate.
    + now apply parent_of_nested.
Qed.

(** X2: when change-directory to a plain name (no colon, no slash)
    succeeds, the current directory becomes [child_path] of the old one,
    and a following [cd ..] leads back to the directory the terminal was
    in.  Both front ends, outside the host overlay. *)
Theorem cd_child_then_parent_returns
    (h : Host) (d r name : string)
    (ws ws1 : AmigaTerminal.State) (cs cs1 : WSAConsoleTerminal.State) :
  PyStr.contains ":" d = false ->
  PyStr.contains ":" r = false ->
  PyStr.contains ":" name = false ->
  PyStr.contains "/" name = false ->
  name <> "" -> name <> ".." ->
  (AmigaTerminal.current_dir ws = d ++ ":" ++ r ->
   PyStr.startswith "DH0:" (d ++ ":" ++ r) && is_windows h = false ->
   AmigaTerminal.change_directory h name ws = (Ok "", ws1) ->
   AmigaTerminal.current_dir ws1 = child_path (d ++ ":" ++ r) name /\
   AmigaTerminal.change_directory h ".." ws1
   = AmigaTerminal.enter (d ++ ":" ++ r) ws1) /\
  (WSAConsoleTerminal.current_dir cs = d ++ ":" ++ r ->
   WSAConsoleTerminal.mounted_shared_folders cs = [] ->
   PyStr.startswith "DH0:" (PyStr.upper (d ++ ":" ++ r)) = false ->
   WSAConsoleTerminal._change_directory h name cs = (Ok "", cs1) ->
   WSAConsoleTerminal.current_dir cs1 = child_path (d ++ ":" ++ r) name /\
   WSAConsoleTerminal._change_directory h ".." cs1
   = WSAConsoleTerminal.enter (d ++ ":" ++ r) cs1).
Proof.
  intros Hd Hr Hc Hs Hn Hdd.
  destruct (child_path_shape d r name Hd Hr Hc Hs Hn) as (p & Ep & Hp & Np & Par).
  split.
  - intros Hcur Hw Hcd. rewrite <- Hcur in Hw.
    pose proof (web_cd_relative_success h name ws ws1 Hc Hn Hdd Hw Hcd) as E.
    rewrite Hcur in E. injection E as E. subst ws1.
    split; [reflexivity|].
    change (AmigaTerminal.change_directory h ".." ?s)
      with (AmigaTerminal.change_directory_up s).
    apply (web_parent_step d p _ Hd Hp); [exact Ep|exact Np|exact Par].
  - intros Hcur Hm Hw Hcd. rewrite <- Hcur in Hw.
    pose proof (console_cd_relative_success h name cs cs1 Hc Hs Hn Hdd Hm Hw Hcd) as E.
    rewrite Hcur in E. injection E as E. subst cs1.
    split; [reflexivity|].
    rewrite console_cd_dotdot by (cbn; now rewrite Hm).
    apply (console_parent_step d p _ Hd Hp); [exact Ep|exact Np|exact Par].
Qed.

(** ** Invariants of the web terminal *)

Section WebInvariants.

Import AmigaTerminal.

Variable I : State -> Prop.

Lemma preserves_ret {A} (a : A) : web_preserves I (ret a).
Proof. intros s H. exact H. Qed.

Lemma preserves_raise {A} e : web_preserves I (@raise State A e).
Proof. intros s H. exact H. Qed.

Lemma preserves_get : web_preserves I (@get State).
Proof. intros s H. exact H. Qed.

Lemma preserves_bind {A B} (m : M State A) (k : A -> M State B) :
  web_preserves I m -> (forall a, web_preserves I (k a)) -> web_preserves I (bind m k).
Proof.
  intros Hm Hk s H. unfold bind. specialize (Hm s H).
  destruct (m s) as [[a|e] s1]; cbn in *; [now apply Hk|exact Hm].
Qed.

Lemma preserves_try_catch {A} (m : M State A) (k : string -> M State A) :
  web_preserves I m -> (forall e, web_preserves I (k e)) ->
  web_preserves I (try_catch m k).
Proof.
  intros Hm Hk s H. unfold try_catch. specialize (Hm s H).
  destruct (m s) as [[a|e] s1]; cbn in *; [exact Hm|now apply Hk].
Qed.

Lemma preserves_index {A} (l : list A) i : web_preserves I (@index State A l i).
Proof. unfold index. destruct (nth_error l i); [apply preserves_ret|apply preserves_raise]. Qed.

Lemma preserves_getitem {V} (d : Dict.t V) k : web_preserves I (@getitem State V d k).
Proof. unfold getitem. destruct (Dict.get d k); [apply preserves_ret|apply preserves_raise]. Qed.

End WebInvariants.

Create HintDb preserves.
#[local] Hint Resolve preserves_ret preserves_raise preserves_get preserves_index
  preserves_getitem : preserves.

Ltac preserves :=
  repeat first
    [ solve [auto 1 with preserves nocore]
    | apply preserves_bind; [|intro]
    | apply preserves_try_catch; [|intro]
    | match goal with
      | |- web_preserves _ (if ?c then _ else _) => destruct c
      | |- web_preserves _ (match ?x with _ => _ end) => destruct x
      | |- web_preserves _ (let (_, _) := ?x in _) => destruct x
      end ].

Lemma web_enter_intro d p s :
  p = d ++ "> " ->
  (Ok "",
   {| AmigaTerminal.current_dir := d;
      AmigaTerminal.directories := AmigaTerminal.directories s;
      AmigaTerminal.files := AmigaTerminal.files s;
      AmigaTerminal.prompt := p;
      AmigaTerminal.command_history := AmigaTerminal.command_history s |})
  = AmigaTerminal.enter d s.
Proof. intros ->. reflexivity. Qed.

Ltac web_enters :=
  left; cbn -[AmigaTerminal.enter]; eexists; apply web_enter_intro; reflexivity.

Ltac web_stays := right; eexists; reflexivity.

(** Change-directory either enters a directory or returns a text and
    leaves the terminal as it is. *)
Lemma web_cd_enters h path s :
  (exists d, AmigaTerminal.change_directory h path s = AmigaTerminal.enter d s) \/
  (exists msg, AmigaTerminal.change_directory h path s = (Ok msg, s)).
Proof.
  unfold AmigaTerminal.change_directory.
  destruct (String.eqb (PyStr.upper path) "DH0:"); [left; eexists; reflexivity|].
  destruct (PyStr.truthy path); cbn [negb]; [|web_stays].
  destruct (String.eqb path "..").
  { unfold AmigaTerminal.change_directory_up. cbv [bind get].
    destruct (String.eqb (AmigaTerminal.current_dir s) "SYS:"); [web_stays|].
    destruct (PyStr.split ":" (AmigaTerminal.current_dir s)) as [|p0 [|p1 ps]];
      try web_enters.
    cbn -[AmigaTerminal.enter]. destruct (PyStr.truthy p1); [|web_enters].
    destruct (PyStr.split "/" p1) as [|q0 [|q1 qs]]; web_enters. }
  destruct (PyStr.contains ":" path).
  - destruct (PyStr.startswith "DH0:" (PyStr.upper path) && is_windows h).
    + unfold bind, try_catch, AmigaTerminal.probe_overlay.
      repeat break_if; try web_stays; left; eexists; reflexivity.
    + cbv [bind get]. break_if; [left|right]; eexists; reflexivity.
  - cbv [bind get].
    destruct (PyStr.startswith "DH0:" (AmigaTerminal.current_dir s) && is_windows h).
    + unfold try_catch, AmigaTerminal.probe_overlay.
      repeat break_if; try web_stays; left; eexists; reflexivity.
    + break_if; [left; eexists; reflexivity|].
      destruct (Dict.mem (AmigaTerminal.current_dir s) (AmigaTerminal.directories s)) eqn:Em.
      * unfold Dict.mem in Em. unfold getitem.
        destruct (Dict.get (AmigaTerminal.directories s) (AmigaTerminal.current_dir s));
          [|discriminate].
        cbn -[AmigaTerminal.enter]. break_if; [left|right]; eexists; reflexivity.
      * cbn. web_stays.
Qed.

Lemma prompt_follows_enter d s : prompt_follows (snd (AmigaTerminal.enter d s)).
Proof. reflexivity. Qed.

Lemma preserves_prompt_change_directory h path :
  web_preserves prompt_follows (AmigaTerminal.change_directory h path).
Proof.
  intros s H. destruct (web_cd_enters h path s) as [[d E]|[msg E]]; rewrite E.
  - apply prompt_follows_enter.
  - exact H.
Qed.
#[local] Hint Resolve preserves_prompt_change_directory : preserves.

Lemma preserves_prompt_history_append x :
  web_preserves prompt_follows (AmigaTerminal.history_append x).
Proof. intros s H. exact H. Qed.
#[local] Hint Resolve preserves_prompt_history_append : preserves.

Lemma preserves_list_files I h p : web_preserves I (AmigaTerminal.list_files h p).
Proof. unfold AmigaTerminal.list_files, AmigaTerminal.real_listing. preserves. Qed.
#[local] Hint Resolve preserves_list_files : preserves.

Lemma preserves_pattern I h args : web_preserves I (AmigaTerminal.pattern_command h args).
Proof. unfold AmigaTerminal.pattern_command. preserves. Qed.
#[local] Hint Resolve preserves_pattern : preserves.

Lemma preserves_prompt_dispatch h cmd args :
  web_preserves prompt_follows (AmigaTerminal.dispatch h cmd args).
Proof.
  unfold AmigaTerminal.dispatch, AmigaTerminal.text_of, AmigaTerminal.info_command,
    AmigaTerminal.avail_command, AmigaTerminal.status_command,
    AmigaTerminal.mount_command, AmigaTerminal.help_command,
    AmigaTerminal.amiga_command, AmigaTerminal.ping_command.
  preserves.
Qed.
#[local] Hint Resolve preserves_prompt_dispatch : preserves.

Lemma preserves_prompt_execute_command h line :
  web_preserves prompt_follows (AmigaTerminal.execute_command h line).
Proof.
  unfold AmigaTerminal.execute_command, AmigaTerminal.text_of. preserves.
Qed.

Lemma preserves_prompt_run_line h line :
  web_preserves prompt_follows (AmigaTerminal.run_line h line).
Proof.
  unfold AmigaTerminal.run_line, AmigaTerminal.info_command,
    AmigaTerminal.avail_command, AmigaTerminal.status_command,
    AmigaTerminal.mount_command, AmigaTerminal.help_command,
    AmigaTerminal.amiga_command, AmigaTerminal.ping_command.
  preserves.
Qed.
#[local] Hint Resolve preserves_prompt_run_line : preserves.

Lemma preserves_prompt_script_loop h lines : forall output,
  web_preserves prompt_follows (AmigaTerminal.script_loop h lines output).
Proof.
  induction lines as [|raw rest IH]; intros output; cbn [AmigaTerminal.script_loop];
    unfold AmigaTerminal.script_step; preserves.
Qed.
#[local] Hint Resolve preserves_prompt_script_loop : preserves.

Lemma preserves_prompt_startup h :
  web_preserves prompt_follows (AmigaTerminal._execute_startup_sequence h).
Proof.
  unfold AmigaTerminal._execute_startup_sequence, AmigaTerminal._run_startup_script.
  preserves.
Qed.

(** X3: in the web terminal the prompt is always the current directory
    followed by ["> "].  This holds after [__init__] (startup scripts
    included), and every command line and every startup sequence keeps
    it: [change_directory] is the only place that assigns either field,
    and it assigns both together. *)
Theorem prompt_follows_current_directory (h : Host) :
  (forall lines s, prompt_follows s -> prompt_follows (session h lines s)) /\
  (forall s, prompt_follows s ->
     prompt_follows (snd (AmigaTerminal._execute_startup_sequence h s))) /\
  prompt_follows (snd (AmigaTerminal.__init__ h)).
Proof.
  split; [|split].
  - induction lines as [|line rest IH]; intros s H; cbn [session]; [exact H|].
    apply IH. now apply preserves_prompt_execute_command.
  - intros s. apply preserves_prompt_startup.
  - unfold AmigaTerminal.__init__.
    assert (P : web_preserves prompt_follows
                  (AmigaTerminal.init_dh0 h ;;; AmigaTerminal._execute_startup_sequence h ;;; ret tt)%py).
    { pose proof (preserves_prompt_startup h).
      unfold AmigaTerminal.init_dh0. preserves;
        intros s Hs; exact Hs. }
    apply P. reflexivity.
Qed.

(** X4: the web terminal never changes its virtual file system.  Whatever
    command lines a session runs, and whatever the startup scripts
    contain, the directory table and the file table are the ones the
    terminal started with. *)
Theorem web_store_is_read_only (h : Host) :
  (forall lines s,
     AmigaTerminal.directories (session h lines s) = AmigaTerminal.directories s /\
     AmigaTerminal.files (session h lines s) = AmigaTerminal.files s) /\
  (forall s,
     AmigaTerminal.directories (snd (AmigaTerminal._execute_startup_sequence h s))
     = AmigaTerminal.directories s /\
     AmigaTerminal.files (snd (AmigaTerminal._execute_startup_sequence h s))
     = AmigaTerminal.files s).
Proof.
  split.
  - induction lines as [|line rest IH]; intros s; cbn [session]; [auto|].
    destruct (execute_command_history h line s) as (_ & H2 & H3).
    destruct (IH (snd (AmigaTerminal.execute_command h line s))) as (I2 & I3).
    rewrite I2, I3, H2, H3. auto.
  - intros s. apply frames_execute_startup_sequence.
Qed.

(** ** Scripts of comments, and [echo] *)

Lemma web_script_loop_all_skipped h lines : forall output s,
  Forall (fun raw => AmigaTerminal.skipped (PyStr.strip raw) = true) lines ->
  AmigaTerminal.script_loop h lines output s = (Ok output, s).
Proof.
  induction lines as [|raw rest IH]; intros output s H; [reflexivity|].
  inversion H as [|? ? H1 H2]; subst.
  rewrite (web_script_loop_skip h raw rest output s H1). now apply IH.
Qed.

Lemma console_for_each_all_skipped h other_do lines : forall s,
  Forall (fun raw => WSAConsoleTerminal.skipped (PyStr.strip raw) = true) lines ->
  WSAConsoleTerminal.for_each lines (WSAConsoleTerminal.script_step h other_do) s
  = (Ok tt, s).
Proof.
  induction lines as [|raw rest IH]; intros s H; [reflexivity|].
  inversion H as [|? ? H1 H2]; subst.
  rewrite (console_for_each_skip h other_do raw rest s H1). now apply IH.
Qed.

(** X5: a startup script that holds only blank lines and comments (lines
    whose first non-blank character is [;]) does nothing but announce
    itself: the web runner returns the one line [Executing <name>...] and
    leaves the terminal as it was, the console runner prints that line
    and nothing else. *)
Theorem comment_only_script_is_a_no_op
    (h : Host)
    (other_do : string -> option (string -> M WSAConsoleTerminal.State unit))
    (name content : string)
    (ws : AmigaTerminal.State) (cs : WSAConsoleTerminal.State) :
  Forall (fun raw => PyStr.strip raw = "" \/ PyStr.startswith ";" (PyStr.strip raw) = true)
         (PyStr.split "010" content) ->
  AmigaTerminal._run_startup_script h name content ws
  = (Ok ("Executing " ++ name ++ "..." ++ PyStr.nl), ws) /\
  WSAConsoleTerminal._run_startup_script h other_do name content cs
  = (Ok tt, emit ["Executing " ++ name ++ "..."] cs).
Proof.
  intros H.
  assert (Hs : Forall (fun raw => AmigaTerminal.skipped (PyStr.strip raw) = true)
                 (PyStr.split "010" content)).
  { eapply Forall_impl; [|exact H]. intros raw [E|E]; unfold AmigaTerminal.skipped.
    - now rewrite E.
    - rewrite E. apply orb_true_r. }
  split.
  - unfold AmigaTerminal._run_startup_script. now apply web_script_loop_all_skipped.
  - unfold WSAConsoleTerminal._run_startup_script.
    unfold bind at 1. rewrite print_emit.
    now apply console_for_each_all_skipped.
Qed.

Lemma lower_char_not_semicolon c :
  PyStr.lower_char c = "e"%char -> Ascii.eqb c ";" = false.
Proof.
  destruct c as [b0 b1 b2 b3 b4 b5 b6 b7].
  destruct b0, b1, b2, b3, b4, b5, b6, b7; vm_compute; intros H;
    first [reflexivity | discriminate].
Qed.

Lemma echo_line_not_skipped line :
  PyStr.startswith "echo " (PyStr.lower line) = true ->
  AmigaTerminal.skipped line = false.
Proof.
  intros H. destruct line as [|c line]; [discriminate|].
  unfold AmigaTerminal.skipped. cbn [PyStr.truthy PyStr.is_empty negb orb].
  change (PyStr.lower (String c line))
    with (String (PyStr.lower_char c) (PyStr.lower line)) in H.
  unfold PyStr.startswith in *.
  change (String.prefix "echo " (String (PyStr.lower_char c) (PyStr.lower line)))
    with (if ascii_dec "e" (PyStr.lower_char c)
          then String.prefix "cho " (PyStr.lower line) else false) in H.
  change (String.prefix ";" (String c line))
    with (if ascii_dec ";" c then String.prefix "" line else false).
  destruct (ascii_dec "e" (PyStr.lower_char c)) as [E|]; [|discriminate].
  symmetry in E. apply lower_char_not_semicolon in E.
  destruct (ascii_dec ";" c) as [E2|]; [subst c; discriminate|].
  reflexivity.
Qed.

(** X6: [echo] in a startup script and [echo] at the web prompt differ.
    When a line of a script starts with [echo ] (in any letter case),
    both startup runners output the stripped line from its sixth
    character on, verbatim, after what the lines before it gave, and go
    on with the lines after it.  At the web prompt the arguments are the
    whitespace-separated words of the line, joined again with single
    spaces. *)
Theorem echo_in_scripts_and_at_the_prompt
    (h : Host)
    (other_do : string -> option (string -> M WSAConsoleTerminal.State unit))
    (name content : string) (before : list string) (raw : string)
    (rest : list string)
    (ws : AmigaTerminal.State) (cs : WSAConsoleTerminal.State) :
  (PyStr.split "010" content = (before ++ raw :: rest)%list ->
   PyStr.startswith "echo " (PyStr.lower (PyStr.strip raw)) = true ->
   let text := PyStr.drop 5 (PyStr.strip raw) in
   let web_reached :=
     fold_left (web_line_effect h) before
               ("Executing " ++ name ++ "..." ++ PyStr.nl, ws) in
   let web_end :=
     fold_left (web_line_effect h) rest
               (fst web_reached ++ text ++ PyStr.nl, snd web_reached) in
   let console_reached :=
     fold_left (console_line_effect h other_do) before
               (emit ["Executing " ++ name ++ "..."] cs) in
   AmigaTerminal._run_startup_script h name content ws
   = (Ok (fst web_end), snd web_end) /\
   WSAConsoleTerminal._run_startup_script h other_do name content cs
   = (Ok tt,
      fold_left (console_line_effect h other_do) rest (emit [text] console_reached))) /\
  (forall p0 args,
     PyStr.split_ws (PyStr.strip raw) = p0 :: args ->
     PyStr.lower p0 = "echo" ->
     AmigaTerminal.execute_command h raw ws
     = (Ok (AmigaTerminal.Text (PyStr.join " " args ++ PyStr.nl)),
        snd (AmigaTerminal.history_append raw ws))).
Proof.
  split.
  - intros Hl He text web_reached web_end console_reached.
    pose proof (echo_line_not_skipped _ He) as Hs. rewrite skipped_spec in Hs.
    split.
    + assert (E : web_line_effect h web_reached raw
                  = (fst web_reached ++ text ++ PyStr.nl, snd web_reached)).
      { unfold web_line_effect. cbv zeta. rewrite Hs.
        unfold AmigaTerminal.run_line. rewrite He. reflexivity. }
      rewrite web_run_startup_script_effect. unfold web_script_effect.
      rewrite Hl, fold_left_app. cbn [fold_left]. fold web_reached.
      rewrite E. reflexivity.
    + assert (E : console_line_effect h other_do console_reached raw
                  = emit [text] console_reached).
      { unfold console_line_effect. cbv zeta. rewrite Hs.
        unfold WSAConsoleTerminal.run_line. rewrite He. rewrite print_emit.
        reflexivity. }
      rewrite console_run_startup_script_effect. unfold console_script_effect.
      rewrite Hl, fold_left_app. cbn [fold_left]. fold console_reached.
      rewrite E. reflexivity.
  - intros p0 args Hp Hl.
    rewrite (execute_command_ordinary h raw p0 args ws Hp) by (now rewrite Hl).
    rewrite Hl. reflexivity.
Qed.

(** * The commands of the console that change the terminal *)

(** ** Dictionaries *)

Lemma dict_get_set_same {V} (d : Dict.t V) k v :
  Dict.get (Dict.set d k v) k = Some v.
Proof.
  induction d as [|[k' v'] d IH]; cbn.
  - now rewrite String.eqb_refl.
  - destruct (String.eqb k' k) eqn:E; cbn; rewrite E; [reflexivity|exact IH].
Qed.

Lemma dict_get_set_other {V} (d : Dict.t V) k k' v :
  k <> k' -> Dict.get (Dict.set d k v) k' = Dict.get d k'.
Proof.
  intros N. induction d as [|[k0 v0] d IH]; cbn.
  - destruct (String.eqb k k') eqn:E; [apply String.eqb_eq in E; congruence|reflexivity].
  - destruct (String.eqb k0 k) eqn:E; cbn.
    + apply String.eqb_eq in E. subst k0.
      destruct (String.eqb k k') eqn:E'; [apply String.eqb_eq in E'; congruence|reflexivity].
    + now rewrite IH.
Qed.

Lemma dict_get_none {V} (d : Dict.t V) k :
  Dict.get d k = None <-> ~ In k (Dict.keys d).
Proof.
  induction d as [|[k0 v0] d IH]; cbn; [tauto|].
  destruct (String.eqb k0 k) eqn:E.
  - apply String.eqb_eq in E. split; [discriminate|]. intros N. exfalso. auto.
  - apply String.eqb_neq in E. rewrite IH. unfold Dict.keys. tauto.
Qed.

Lemma dict_get_del_same {V} (d : Dict.t V) k :
  NoDup (Dict.keys d) -> Dict.get (Dict.del d k) k = None.
Proof.
  induction d as [|[k0 v0] d IH]; cbn; [reflexivity|].
  intros N. inversion N as [|? ? Hn Hd]; subst.
  destruct (String.eqb k0 k) eqn:E.
  - apply String.eqb_eq in E. subst k0. now apply dict_get_none.
  - cbn. rewrite E. now apply IH.
Qed.

Lemma dict_get_del_other {V} (d : Dict.t V) k k' :
  k <> k' -> Dict.get (Dict.del d k) k' = Dict.get d k'.
Proof.
  intros N. induction d as [|[k0 v0] d IH]; cbn; [reflexivity|].
  destruct (String.eqb k0 k) eqn:E; cbn.
  - apply String.eqb_eq in E. subst k0.
    destruct (String.eqb k k') eqn:E'; [apply String.eqb_eq in E'; congruence|reflexivity].
  - now rewrite IH.
Qed.

Lemma dict_keys_del_incl {V} (d : Dict.t V) k x :
  In x (Dict.keys (Dict.del d k)) -> In x (Dict.keys d).
Proof.
  induction d as [|[k0 v0] d IH]; cbn; [tauto|].
  destruct (String.eqb k0 k); cbn; [tauto|]. intros [H|H]; [now left|right; now apply IH].
Qed.

Lemma dict_nodup_del {V} (d : Dict.t V) k :
  NoDup (Dict.keys d) -> NoDup (Dict.keys (Dict.del d k)).
Proof.
  induction d as [|[k0 v0] d IH]; cbn; [auto|].
  intros N. inversion N as [|? ? Hn Hd]; subst.
  destruct (String.eqb k0 k); [exact Hd|].
  cbn. constructor; [|now apply IH].
  intros H. apply Hn. eapply dict_keys_del_incl. exact H.
Qed.

Lemma dict_keys_set {V} (d : Dict.t V) k v :
  Dict.keys (Dict.set d k v)
  = if Dict.mem k d then Dict.keys d else (Dict.keys d ++ [k])%list.
Proof.
  unfold Dict.mem, Dict.keys. induction d as [|[k0 v0] d IH]; cbn; [reflexivity|].
  destruct (String.eqb k0 k) eqn:E; cbn; [reflexivity|].
  rewrite IH. now destruct (Dict.get d k).
Qed.

Lemma dict_nodup_set {V} (d : Dict.t V) k v :
  NoDup (Dict.keys d) -> NoDup (Dict.keys (Dict.set d k v)).
Proof.
  intros N. rewrite dict_keys_set. unfold Dict.mem.
  destruct (Dict.get d k) eqn:E; [exact N|].
  apply dict_get_none in E.
  apply NoDup_rev in N. rewrite <- (rev_involutive (_ ++ _)%list).
  apply NoDup_rev. rewrite rev_app_distr. cbn. constructor; [|exact N].
  now rewrite <- in_rev.
Qed.

Lemma dict_mem_get {V} (d : Dict.t V) k :
  Dict.mem k d = true -> exists v, Dict.get d k = Some v.
Proof. unfold Dict.mem. destruct (Dict.get d k); [eauto|discriminate]. Qed.

(** ** Mounting and unmounting shared folders *)

Section Mounting.

Import EmulatorSharedFolder.

Variables winuae_configs fsuae_configs : Dict.t Config.

Lemma mount_from_spec configs emulator title device config_name m :
  exists ok msg m',
    mount_from configs emulator title device config_name m = (Ok (ok, msg), m') /\
    (ok = false -> m' = m) /\
    (ok = true ->
       exists config folder,
         Dict.get configs config_name = Some config /\
         Dict.get (shared_folders config) device = Some folder /\
         m' = Dict.set m device
                {| WSAConsoleTerminal.emulator := emulator;
                   WSAConsoleTerminal.config := config_name;
                   WSAConsoleTerminal.label := label folder;
                   WSAConsoleTerminal.path := path folder;
                   WSAConsoleTerminal.access := access folder |}).
Proof.
  unfold mount_from.
  destruct (Dict.mem config_name configs) eqn:M1.
  - destruct (dict_mem_get _ _ M1) as [config Hc].
    unfold getitem at 1. rewrite Hc. unfold bind at 1. cbn [ret]. cbv beta iota.
    destruct (Dict.mem device (shared_folders config)) eqn:M2.
    + destruct (dict_mem_get _ _ M2) as [folder Hf].
      unfold getitem. rewrite Hf. cbn.
      do 3 eexists. split; [reflexivity|]. split; [discriminate|].
      intros _. exists config, folder. auto.
    + do 3 eexists. split; [reflexivity|]. split; [reflexivity|discriminate].
  - do 3 eexists. split; [reflexivity|]. split; [reflexivity|discriminate].
Qed.

Lemma get_shared_folder_path_spec dev m :
  get_shared_folder_path dev m
  = (Ok (option_map WSAConsoleTerminal.path (Dict.get m (device_name dev))), m).
Proof.
  unfold get_shared_folder_path, Dict.mem, getitem. cbn.
  now destruct (Dict.get m (device_name dev)).
Qed.

(** X7: mounting a shared folder never raises.  When it answers [True],
    the configuration named holds the device, and from then on the path
    of the folder is found under every spelling of the device name (any
    letter case, with or without the colon), while the other devices are
    as before.  When it answers [False], nothing is mounted or
    unmounted. *)
Theorem mounted_folder_is_found dev emulator_type config_name m :
  exists ok msg m',
    mount_shared_folder winuae_configs fsuae_configs dev emulator_type config_name m
    = (Ok (ok, msg), m') /\
    (ok = false -> m' = m) /\
    (ok = true ->
       exists configs config folder,
         (configs = winuae_configs /\ PyStr.lower emulator_type = "winuae" \/
          configs = fsuae_configs /\ PyStr.lower emulator_type = "fs-uae") /\
         Dict.get configs config_name = Some config /\
         Dict.get (shared_folders config) (device_name dev) = Some folder /\
         (forall dev', device_name dev' = device_name dev ->
            get_shared_folder_path dev' m' = (Ok (Some (path folder)), m')) /\
         (forall dev', device_name dev' <> device_name dev ->
            fst (get_shared_folder_path dev' m')
            = fst (get_shared_folder_path dev' m))).
Proof.
  unfold mount_shared_folder.
  assert (K : forall configs emulator title,
            (configs = winuae_configs /\ PyStr.lower emulator_type = "winuae" \/
             configs = fsuae_configs /\ PyStr.lower emulator_type = "fs-uae") ->
            exists ok msg m',
              mount_from configs emulator title (device_name dev) config_name m
              = (Ok (ok, msg), m') /\
              (ok = false -> m' = m) /\
              (ok = true ->
               exists configs config folder,
                 (configs = winuae_configs /\ PyStr.lower emulator_type = "winuae" \/
                  configs = fsuae_configs /\ PyStr.lower emulator_type = "fs-uae") /\
                 Dict.get configs config_name = Some config /\
                 Dict.get (shared_folders config) (device_name dev) = Some folder /\
                 (forall dev', device_name dev' = device_name dev ->
                    get_shared_folder_path dev' m' = (Ok (Some (path folder)), m')) /\
                 (forall dev', device_name dev' <> device_name dev ->
                    fst (get_shared_folder_path dev' m')
                    = fst (get_shared_folder_path dev' m)))).
  { intros configs emulator title Hc.
    destruct (mount_from_spec configs emulator title (device_name dev) config_name m)
      as (ok & msg & m' & E & Hf & Ht).
    exists ok, msg, m'. split; [exact E|]. split; [exact Hf|].
    intros Hok. destruct (Ht Hok) as (config & folder & G1 & G2 & ->).
    exists configs, config, folder. repeat split; try assumption.
    - intros dev' Hd. rewrite get_shared_folder_path_spec, Hd, dict_get_set_same.
      reflexivity.
    - intros dev' Hd. rewrite !get_shared_folder_path_spec. cbn [fst].
      rewrite dict_get_set_other by congruence. reflexivity. }
  destruct (String.eqb (PyStr.lower emulator_type) "winuae") eqn:E1.
  - apply String.eqb_eq in E1. apply K. now left.
  - destruct (String.eqb (PyStr.lower emulator_type) "fs-uae") eqn:E2.
    + apply String.eqb_eq in E2. apply K. now right.
    + do 3 eexists. split; [reflexivity|]. split; [reflexivity|discriminate].
Qed.

Lemma unmount_shared_folder_spec dev m :
  unmount_shared_folder dev m
  = if Dict.mem (device_name dev) m
    then (Ok (true, device_name dev ++ " unmounted"), Dict.del m (device_name dev))
    else (Ok (false, "Device " ++ device_name dev ++ " is not mounted"), m).
Proof.
  unfold unmount_shared_folder. cbn.
  now destruct (Dict.mem (device_name dev) m).
Qed.

(** X8: unmounting never raises and answers [True] exactly when the
    device was mounted.  Afterwards the device has no path under any
    spelling of its name, the other devices are as before, and
    unmounting it again answers [False] with the text that it is not
    mounted. *)
Theorem unmounted_folder_is_gone dev m :
  NoDup (Dict.keys m) ->
  exists ok msg m',
    unmount_shared_folder dev m = (Ok (ok, msg), m') /\
    ok = Dict.mem (device_name dev) m /\
    (ok = false -> m' = m) /\
    NoDup (Dict.keys m') /\
    (forall dev', device_name dev' = device_name dev ->
       get_shared_folder_path dev' m' = (Ok None, m')) /\
    (forall dev', device_name dev' <> device_name dev ->
       fst (get_shared_folder_path dev' m') = fst (get_shared_folder_path dev' m)) /\
    unmount_shared_folder dev m'
    = (Ok (false, "Device " ++ device_name dev ++ " is not mounted"), m').
Proof.
  intros N. rewrite unmount_shared_folder_spec.
  destruct (Dict.mem (device_name dev) m) eqn:Hm.
  - do 3 eexists. split; [reflexivity|]. split; [reflexivity|].
    split; [discriminate|]. split; [now apply dict_nodup_del|].
    pose proof (dict_get_del_same m (device_name dev) N) as G.
    repeat split.
    + intros dev' Hd. rewrite get_shared_folder_path_spec, Hd, G. reflexivity.
    + intros dev' Hd. rewrite !get_shared_folder_path_spec. cbn [fst].
      rewrite dict_get_del_other by congruence. reflexivity.
    + rewrite unmount_shared_folder_spec. unfold Dict.mem. rewrite G. reflexivity.
  - do 3 eexists. split; [reflexivity|]. split; [reflexivity|].
    split; [reflexivity|]. split; [exact N|].
    pose proof Hm as Hm'. unfold Dict.mem in Hm'.
    destruct (Dict.get m (device_name dev)) eqn:G; [discriminate|].
    repeat split.
    + intros dev' Hd. rewrite get_shared_folder_path_spec, Hd, G. reflexivity.
    + rewrite unmount_shared_folder_spec, Hm. reflexivity.
Qed.

End Mounting.

(** ** MAKEDIR *)


Lemma string_app_length (a b : string) :
  String.length (a ++ b) = String.length a + String.length b.
Proof. induction a as [|x a IH]; cbn; [reflexivity|now rewrite IH]. Qed.

Lemma string_app_neq_self (a b : string) : b <> "" -> a ++ b <> a.
Proof.
  intros N H. apply (f_equal String.length) in H. rewrite string_app_length in H.
  destruct b; [congruence|]. cbn in H. lia.
Qed.

Lemma dict_mem_set_same {V} (d : Dict.t V) k v : Dict.mem k (Dict.set d k v) = true.
Proof. unfold Dict.mem. now rewrite dict_get_set_same. Qed.

Lemma dict_mem_set_keep {V} (d : Dict.t V) k k' v :
  Dict.mem k' d = true -> Dict.mem k' (Dict.set d k v) = true.
Proof.
  unfold Dict.mem. intros H.
  destruct (string_dec k k') as [->|N]; [now rewrite dict_get_set_same|].
  now rewrite dict_get_set_other.
Qed.


Lemma do_makedir_virtual h d arg name s :
  PyStr.strip arg = name -> name <> "" ->
  PyStr.startswith "DH0:" name = false ->
  let cur := WSAConsoleTerminal.current_dir s in
  let dir_path :=
    if negb (ConsoleCommands.startswith_any ["SYS:"; "RAM:"; "C:"; "DH0:"] name)
    then if PyStr.endswith ":" cur then cur ++ name else cur ++ "/" ++ name
    else name in
  ConsoleCommands.do_makedir h d arg s
  = if Dict.mem dir_path (WSAConsoleTerminal.directories s)
    then (Ok tt, emit [makedir_exists name] s)
    else (Ok tt,
          emit [makedir_created name]
            (with_directories
               (made_directories (WSAConsoleTerminal.directories s) cur name dir_path)
               s)).
Proof.
  intros Hs Hn Hd cur dir_path.
  unfold ConsoleCommands.do_makedir. rewrite Hs.
  replace (PyStr.truthy name) with true by (destruct name; [congruence|reflexivity]).
  cbn [negb]. rewrite Hd.
  unfold bind at 1. cbn [get]. cbv beta iota zeta. fold cur. fold dir_path.
  destruct (Dict.mem dir_path (WSAConsoleTerminal.directories s)) eqn:M; cbn [negb].
  - reflexivity.
  - unfold made_directories. cbn -[Dict.mem Dict.set Dict.get dir_path].
    fold cur. unfold Dict.mem at 1. unfold getitem.
    destruct (Dict.get (Dict.set (WSAConsoleTerminal.directories s) dir_path []) cur)
      as [children|] eqn:G.
    + cbn -[Dict.set]. destruct (mem_str name children); reflexivity.
    + reflexivity.
Qed.

Lemma console_device_of_spec path s :
  WSAConsoleTerminal.device_of path s
  = (Ok (EmulatorSharedFolder.device_name (first_segment path)), s).
Proof.
  unfold WSAConsoleTerminal.device_of, EmulatorSharedFolder.device_name, first_segment.
  destruct (PyStr.contains "/" path) eqn:C.
  - destruct (split_by_nonempty (Ascii.eqb "/") path) as (x & rest & E).
    unfold PyStr.split. rewrite E. cbn.
    now destruct (PyStr.endswith ":" (PyStr.upper x)).
  - rewrite (split_without_sep "/" path C). cbn.
    now destruct (PyStr.endswith ":" (PyStr.upper path)).
Qed.

Lemma endswith_SYS : PyStr.endswith ":" "SYS:" = true.
Proof. reflexivity. Qed.

Lemma console_enter_spec p s :
  WSAConsoleTerminal.enter p s
  = (Ok "", {| WSAConsoleTerminal.current_dir := p;
               WSAConsoleTerminal.prompt := p ++ "> ";
               WSAConsoleTerminal.directories := WSAConsoleTerminal.directories s;
               WSAConsoleTerminal.files := WSAConsoleTerminal.files s;
               WSAConsoleTerminal.mounted_shared_folders :=
                 WSAConsoleTerminal.mounted_shared_folders s;
               WSAConsoleTerminal.stdout := WSAConsoleTerminal.stdout s |}).
Proof. reflexivity. Qed.

(** Change-directory by a relative name, outside the overlay. *)
Lemma console_cd_relative h name s :
  PyStr.contains ":" name = false ->
  name <> ".." -> PyStr.startswith "../" name = false ->
  Dict.mem (EmulatorSharedFolder.device_name (first_segment name))
           (WSAConsoleTerminal.mounted_shared_folders s) = false ->
  PyStr.startswith "DH0:" (PyStr.upper (WSAConsoleTerminal.current_dir s)) = false ->
  let cur := WSAConsoleTerminal.current_dir s in
  WSAConsoleTerminal._change_directory h name s
  = if Dict.mem (child_path cur name) (WSAConsoleTerminal.directories s)
       || match Dict.get (WSAConsoleTerminal.directories s) cur with
          | Some children => mem_str name children
          | None => false
          end
    then WSAConsoleTerminal.enter (child_path cur name) s
    else (Ok (WSAConsoleTerminal.not_found name), s).
Proof.
  intros Hc Hdd Hds Hm Hw cur.
  unfold WSAConsoleTerminal._change_directory.
  unfold bind at 1. cbn [get]. cbv beta iota.
  unfold bind at 1. rewrite console_device_of_spec. cbv beta iota. rewrite Hm.
  rewrite (upper_without_colon_not_DH0 _ Hc).
  destruct (String.eqb name "..") eqn:E; [apply String.eqb_eq in E; congruence|].
  rewrite Hds. cbn [orb]. rewrite Hc, Hw. fold cur. unfold child_path.
  destruct (Dict.mem (if String.eqb cur "SYS:" then "SYS:" ++ name else cur ++ "/" ++ name)
              (WSAConsoleTerminal.directories s)); [reflexivity|].
  cbn [orb]. unfold Dict.mem, getitem.
  destruct (Dict.get (WSAConsoleTerminal.directories s) cur) as [children|];
    cbn; [|reflexivity].
  now destruct (mem_str name children).
Qed.




Lemma made_directories_has_path dirs cur name dir_path :
  Dict.mem dir_path (made_directories dirs cur name dir_path) = true.
Proof.
  unfold made_directories. cbv zeta.
  destruct (Dict.get (Dict.set dirs dir_path []) cur) as [children|];
    [|apply dict_mem_set_same].
  destruct (mem_str name children); [apply dict_mem_set_same|].
  apply dict_mem_set_keep, dict_mem_set_same.
Qed.


Lemma made_directories_grows dirs cur name dir_path k children :
  Dict.mem dir_path dirs = false ->
  Dict.get dirs k = Some children ->
  exists more,
    Dict.get (made_directories dirs cur name dir_path) k = Some (children ++ more)%list.
Proof.
  intros Hf Hk.
  assert (N : dir_path <> k).
  { intros ->. unfold Dict.mem in Hf. now rewrite Hk in Hf. }
  assert (G1 : Dict.get (Dict.set dirs dir_path []) k = Some children)
    by (now rewrite dict_get_set_other).
  unfold made_directories. cbv zeta.
  destruct (Dict.get (Dict.set dirs dir_path []) cur) as [ch|] eqn:G;
    [|exists []; now rewrite app_nil_r].
  destruct (mem_str name ch); [exists []; now rewrite app_nil_r|].
  destruct (string_dec cur k) as [->|Nk].
  - rewrite G1 in G. injection G as ->. exists [name]. apply dict_get_set_same.
  - exists []. rewrite app_nil_r. now rewrite dict_get_set_other.
Qed.

Lemma do_makedir_empty h d arg s :
  PyStr.strip arg = "" ->
  ConsoleCommands.do_makedir h d arg s
  = (Ok tt, emit ["MAKEDIR: No directory name specified";
                  "Usage: MAKEDIR <directory_name>"] s).
Proof.
  intros E. unfold ConsoleCommands.do_makedir. rewrite E.
  cbn. unfold emit. cbn. now rewrite <- app_assoc.
Qed.


(** X10: [MAKEDIR] never raises and only adds.  It leaves the current
    directory, the prompt, the files and the mounted folders alone; every
    directory that was in the table is still there, with its list of
    children extended at the end at most.  Repeating the command for a
    name outside [DH0:] reports that the directory already exists and
    changes nothing but the output. *)
Theorem makedir_only_adds h d arg s :
  exists s1,
    ConsoleCommands.do_makedir h d arg s = (Ok tt, s1) /\
    WSAConsoleTerminal.current_dir s1 = WSAConsoleTerminal.current_dir s /\
    WSAConsoleTerminal.prompt s1 = WSAConsoleTerminal.prompt s /\
    WSAConsoleTerminal.files s1 = WSAConsoleTerminal.files s /\
    WSAConsoleTerminal.mounted_shared_folders s1
    = WSAConsoleTerminal.mounted_shared_folders s /\
    (forall k children,
       Dict.get (WSAConsoleTerminal.directories s) k = Some children ->
       exists more,
         Dict.get (WSAConsoleTerminal.directories s1) k = Some (children ++ more)%list) /\
    (PyStr.strip arg <> "" -> PyStr.startswith "DH0:" (PyStr.strip arg) = false ->
     ConsoleCommands.do_makedir h d arg s1
     = (Ok tt, emit [makedir_exists (PyStr.strip arg)] s1)).
Proof.
  assert (Same : forall lines,
            forall k children,
              Dict.get (WSAConsoleTerminal.directories s) k = Some children ->
              exists more,
                Dict.get (WSAConsoleTerminal.directories (emit lines s)) k
                = Some (children ++ more)%list).
  { intros lines k children G. exists []. rewrite app_nil_r. exact G. }
  destruct (string_dec (PyStr.strip arg) "") as [E|Hn].
  { rewrite (do_makedir_empty h d arg s E). eexists. split; [reflexivity|].
    repeat split; try apply Same. congruence. }
  destruct (PyStr.startswith "DH0:" (PyStr.strip arg)) eqn:Hd.
  { unfold ConsoleCommands.do_makedir.
    replace (PyStr.truthy (PyStr.strip arg)) with true
      by (destruct (PyStr.strip arg); [congruence|reflexivity]).
    cbn [negb]. rewrite Hd.
    unfold ConsoleCommands._create_real_directory. rewrite Hd. cbn [negb].
    destruct (WSAConsoleTerminal.is_wsl h || is_windows h); cbn [negb].
    - unfold try_catch, bind, WSAConsoleTerminal.lift_outcome.
      destruct (os_makedirs d _); cbn;
        (eexists; split; [reflexivity|]; repeat split; try apply Same; discriminate).
    - cbn. eexists. split; [reflexivity|]. repeat split; try apply Same. discriminate. }
  pose proof (do_makedir_virtual h d arg _ s eq_refl Hn Hd) as E. cbv zeta in E.
  set (cur := WSAConsoleTerminal.current_dir s) in *.
  set (name := PyStr.strip arg) in *.
  set (dir_path :=
         if negb (ConsoleCommands.startswith_any ["SYS:"; "RAM:"; "C:"; "DH0:"] name)
         then if PyStr.endswith ":" cur then cur ++ name else cur ++ "/" ++ name
         else name) in *.
  destruct (Dict.mem dir_path (WSAConsoleTerminal.directories s)) eqn:M.
  - eexists. split; [exact E|]. repeat split; try apply Same.
    intros _ _.
    pose proof (do_makedir_virtual h d arg _ (emit [makedir_exists name] s)
                  eq_refl Hn Hd) as E2.
    cbv zeta in E2. fold name in E2.
    change (WSAConsoleTerminal.current_dir (emit [makedir_exists name] s)) with cur in E2.
    change (WSAConsoleTerminal.directories (emit [makedir_exists name] s))
      with (WSAConsoleTerminal.directories s) in E2.
    fold dir_path in E2. rewrite M in E2. exact E2.
  - eexists. split; [exact E|]. repeat split.
    + intros k children G. cbn.
      now apply made_directories_grows.
    + intros _ _.
      set (D := made_directories (WSAConsoleTerminal.directories s) cur name dir_path).
      pose proof (do_makedir_virtual h d arg _
                    (emit [makedir_created name] (with_directories D s))
                    eq_refl Hn Hd) as E2.
      cbv zeta in E2. fold name in E2.
      change (WSAConsoleTerminal.current_dir
                (emit [makedir_created name] (with_directories D s))) with cur in E2.
      change (WSAConsoleTerminal.directories
                (emit [makedir_created name] (with_directories D s))) with D in E2.
      fold dir_path in E2. subst D.
      rewrite made_directories_has_path in E2. exact E2.
Qed.

(** ** TYPE, COPY and DELETE *)

Lemma resolve_file_path_ok filename s :
  exists p, WSAConsoleTerminal._resolve_file_path filename s = (Ok p, s).
Proof.
  unfold WSAConsoleTerminal._resolve_file_path. cbn.
  destruct (PyStr.contains ":" filename); [eexists; reflexivity|].
  destruct (PyStr.endswith ":" (WSAConsoleTerminal.current_dir s)); eexists; reflexivity.
Qed.

Lemma split_ws_truthy s x : In x (PyStr.split_ws s) -> PyStr.truthy x = true.
Proof. unfold PyStr.split_ws. intros H. now apply filter_In in H. Qed.

Lemma split_ws_nonempty_arg s x rest :
  PyStr.split_ws s = x :: rest -> PyStr.truthy s = true.
Proof. destruct s; [discriminate|reflexivity]. Qed.

(** [TYPE] of a file of the virtual file system prints its content. *)
Lemma do_type_virtual h d arg file_path content s :
  PyStr.truthy arg = true ->
  WSAConsoleTerminal._resolve_file_path arg s = (Ok file_path, s) ->
  Dict.get (WSAConsoleTerminal.files s) file_path = Some content ->
  ConsoleCommands.do_type h d arg s = (Ok tt, emit [content] s).
Proof.
  intros Ha Hr Hg. unfold ConsoleCommands.do_type. rewrite Ha. cbn [negb].
  unfold bind at 1. rewrite Hr. cbv beta iota.
  unfold bind at 1. cbn [get]. cbv beta iota.
  unfold Dict.mem, getitem. rewrite Hg. reflexivity.
Qed.

Lemma do_type_missing h d arg file_path s :
  PyStr.truthy arg = true ->
  WSAConsoleTerminal._resolve_file_path arg s = (Ok file_path, s) ->
  Dict.get (WSAConsoleTerminal.files s) file_path = None ->
  PyStr.startswith "DH0:" file_path = false ->
  ConsoleCommands.do_type h d arg s
  = (Ok tt, emit ["TYPE: File '" ++ arg ++ "' not found"] s).
Proof.
  intros Ha Hr Hg Hd. unfold ConsoleCommands.do_type. rewrite Ha. cbn [negb].
  unfold bind at 1. rewrite Hr. cbv beta iota.
  unfold bind at 1. cbn [get]. cbv beta iota.
  unfold Dict.mem. rewrite Hg, Hd. reflexivity.
Qed.

(** The resolved path depends on the current directory only. *)
Lemma resolve_file_path_same_dir filename s s' p :
  WSAConsoleTerminal.current_dir s' = WSAConsoleTerminal.current_dir s ->
  WSAConsoleTerminal._resolve_file_path filename s = (Ok p, s) ->
  WSAConsoleTerminal._resolve_file_path filename s' = (Ok p, s').
Proof.
  unfold WSAConsoleTerminal._resolve_file_path. cbn. intros ->.
  destruct (PyStr.contains ":" filename); [intros [= ->]; reflexivity|].
  destruct (PyStr.endswith ":" (WSAConsoleTerminal.current_dir s));
    intros [= ->]; reflexivity.
Qed.

Lemma do_copy_virtual h d arg src dst rest source_path dest_path content s :
  PyStr.split_ws arg = src :: dst :: rest ->
  WSAConsoleTerminal._resolve_file_path src s = (Ok source_path, s) ->
  WSAConsoleTerminal._resolve_file_path dst s = (Ok dest_path, s) ->
  Dict.get (WSAConsoleTerminal.files s) source_path = Some content ->
  PyStr.startswith "DH0:" dest_path = false ->
  ConsoleCommands.do_copy h d arg s
  = (Ok tt,
     emit [ConsoleCommands.copied src dst]
       (with_files (Dict.set (WSAConsoleTerminal.files s) dest_path content) s)).
Proof.
  intros Hs Hrs Hrd Hg Hd. unfold ConsoleCommands.do_copy.
  rewrite (split_ws_nonempty_arg _ _ _ Hs). cbn [negb]. rewrite Hs.
  cbn [List.length Nat.ltb Nat.leb]. cbv beta iota.
  unfold bind at 1. cbn [index nth_error ret]. cbv beta iota.
  unfold bind at 1. cbn [index nth_error ret]. cbv beta iota.
  unfold bind at 1. rewrite Hrs. cbv beta iota.
  unfold bind at 1. rewrite Hrd. cbv beta iota.
  unfold bind at 1. cbn [get]. cbv beta iota.
  unfold Dict.mem, getitem. rewrite Hg.
  unfold bind at 1. cbn [ret]. cbv beta iota.
  unfold ConsoleCommands.copy_write. rewrite Hd. reflexivity.
Qed.

(** X11: what [COPY] wrote, [TYPE] shows.  When the first word of the
    arguments names a file of the virtual file system and the second
    resolves to a path outside [DH0:], [COPY] reports the copy, and
    afterwards [TYPE] prints the same content for the destination and
    for the source.  No other file changes, and neither do the
    directories or the current directory. *)
Theorem copy_then_type h d arg src dst rest source_path dest_path content s :
  PyStr.split_ws arg = src :: dst :: rest ->
  WSAConsoleTerminal._resolve_file_path src s = (Ok source_path, s) ->
  WSAConsoleTerminal._resolve_file_path dst s = (Ok dest_path, s) ->
  Dict.get (WSAConsoleTerminal.files s) source_path = Some content ->
  PyStr.startswith "DH0:" dest_path = false ->
  exists s1,
    ConsoleCommands.do_copy h d arg s = (Ok tt, s1) /\
    WSAConsoleTerminal.stdout s1
    = (WSAConsoleTerminal.stdout s ++ [ConsoleCommands.copied src dst])%list /\
    ConsoleCommands.do_type h d dst s1 = (Ok tt, emit [content] s1) /\
    ConsoleCommands.do_type h d src s1 = (Ok tt, emit [content] s1) /\
    (forall p, p <> dest_path ->
       Dict.get (WSAConsoleTerminal.files s1) p
       = Dict.get (WSAConsoleTerminal.files s) p) /\
    WSAConsoleTerminal.directories s1 = WSAConsoleTerminal.directories s /\
    WSAConsoleTerminal.current_dir s1 = WSAConsoleTerminal.current_dir s.
Proof.
  intros Hs Hrs Hrd Hg Hd.
  eexists. split; [exact (do_copy_virtual h d arg src dst rest _ _ _ s Hs Hrs Hrd Hg Hd)|].
  set (s1 := emit _ _).
  assert (Tsrc : PyStr.truthy src = true)
    by (apply (split_ws_truthy arg); rewrite Hs; now left).
  assert (Tdst : PyStr.truthy dst = true)
    by (apply (split_ws_truthy arg); rewrite Hs; right; now left).
  split; [reflexivity|]. split; [|split; [|split; [|split; reflexivity]]].
  - apply (do_type_virtual h d dst dest_path content s1 Tdst).
    + now apply (resolve_file_path_same_dir dst s s1).
    + apply dict_get_set_same.
  - apply (do_type_virtual h d src source_path content s1 Tsrc).
    + now apply (resolve_file_path_same_dir src s s1).
    + cbn. destruct (string_dec dest_path source_path) as [->|N].
      * apply dict_get_set_same.
      * now rewrite dict_get_set_other.
  - intros p N. cbn. now rewrite dict_get_set_other by congruence.
Qed.

Lemma do_delete_virtual h d arg file_path s :
  PyStr.truthy arg = true ->
  WSAConsoleTerminal._resolve_file_path arg s = (Ok file_path, s) ->
  Dict.mem file_path (WSAConsoleTerminal.files s) = true ->
  ConsoleCommands.do_delete h d arg s
  = match input d ("Delete '" ++ arg ++ "' (y/N)? ") with
    | Answer text =>
        if mem_str (PyStr.lower (PyStr.strip text)) ["y"; "yes"]
        then (Ok tt,
              emit ["DELETE: File '" ++ arg ++ "' deleted"]
                (with_files (Dict.del (WSAConsoleTerminal.files s) file_path) s))
        else (Ok tt, emit ["DELETE: Operation cancelled"] s)
    | KeyboardInterrupt =>
        (Ok tt, emit [PyStr.nl ++ "DELETE: Operation cancelled"] s)
    | InputError e => (Exn e, s)
    end.
Proof.
  intros Ha Hr Hm. unfold ConsoleCommands.do_delete. rewrite Ha. cbn [negb].
  unfold bind at 1. rewrite Hr. cbv beta iota.
  unfold bind at 1. cbn [get]. cbv beta iota. rewrite Hm.
  unfold bind at 1. cbn [ret]. cbv beta iota. cbn [negb].
  unfold ConsoleCommands.confirm_deletion.
  destruct (input d _) as [text| |e].
  - destruct (mem_str (PyStr.lower (PyStr.strip text)) ["y"; "yes"]); cbn [negb].
    + unfold bind at 1. cbn [ret]. cbv beta iota. cbn [negb].
      unfold bind at 1. cbn [get]. cbv beta iota. rewrite Hm. reflexivity.
    + reflexivity.
  - reflexivity.
  - reflexivity.
Qed.

(** X12: [DELETE] of a file of the virtual file system asks first and
    removes the file only on the answer [y] or [yes] (surrounding blanks
    and letter case aside).  Then the file is gone, [TYPE] no longer
    finds it (outside [DH0:]), and every other file is as before.  On any
    other answer nothing changes but the output, which says that the
    operation was cancelled.  The file table is taken with each path in
    it once, as a dictionary has it. *)
Theorem delete_asks_first h d arg file_path text s :
  arg <> "" ->
  WSAConsoleTerminal._resolve_file_path arg s = (Ok file_path, s) ->
  Dict.mem file_path (WSAConsoleTerminal.files s) = true ->
  NoDup (Dict.keys (WSAConsoleTerminal.files s)) ->
  input d ("Delete '" ++ arg ++ "' (y/N)? ") = Answer text ->
  exists s1,
    ConsoleCommands.do_delete h d arg s = (Ok tt, s1) /\
    WSAConsoleTerminal.directories s1 = WSAConsoleTerminal.directories s /\
    WSAConsoleTerminal.current_dir s1 = WSAConsoleTerminal.current_dir s /\
    (forall p, p <> file_path ->
       Dict.get (WSAConsoleTerminal.files s1) p
       = Dict.get (WSAConsoleTerminal.files s) p) /\
    if mem_str (PyStr.lower (PyStr.strip text)) ["y"; "yes"] then
      WSAConsoleTerminal.stdout s1
      = (WSAConsoleTerminal.stdout s
         ++ [("DELETE: File '" ++ arg ++ "' deleted")%string])%list /\
      Dict.mem file_path (WSAConsoleTerminal.files s1) = false /\
      NoDup (Dict.keys (WSAConsoleTerminal.files s1)) /\
      (PyStr.startswith "DH0:" file_path = false ->
       ConsoleCommands.do_type h d arg s1
       = (Ok tt, emit ["TYPE: File '" ++ arg ++ "' not found"] s1))
    else
      s1 = emit ["DELETE: Operation cancelled"] s.
Proof.
  intros Hn Hr Hm Hnd Hin.
  assert (Ha : PyStr.truthy arg = true) by (destruct arg; [congruence|reflexivity]).
  rewrite (do_delete_virtual h d arg file_path s Ha Hr Hm), Hin.
  destruct (mem_str (PyStr.lower (PyStr.strip text)) ["y"; "yes"]).
  - eexists. split; [reflexivity|]. set (s1 := emit _ _).
    split; [reflexivity|]. split; [reflexivity|]. split.
    { intros p N. cbn. now rewrite dict_get_del_other by congruence. }
    pose proof (dict_get_del_same (WSAConsoleTerminal.files s) file_path Hnd) as G.
    split; [reflexivity|]. split; [cbn; unfold Dict.mem; now rewrite G|].
    split; [cbn; now apply dict_nodup_del|].
    intros Hd. apply (do_type_missing h d arg file_path s1 Ha); [|exact G|exact Hd].
    now apply (resolve_file_path_same_dir arg s s1).
  - eexists. split; [reflexivity|]. repeat split.
Qed.

(** X13: [TYPE] never raises and does nothing but print, whatever the
    argument, the host and the disk: not finding or not being able to
    read a file ends in a printed line. *)
Theorem type_only_prints h d arg s :
  exists lines, ConsoleCommands.do_type h d arg s = (Ok tt, emit lines s).
Proof.
  unfold ConsoleCommands.do_type.
  destruct (PyStr.truthy arg); cbn [negb].
  2:{ exists ["TYPE: No file specified"; "Usage: TYPE <file>"].
      cbn. unfold emit. cbn. now rewrite <- app_assoc. }
  destruct (resolve_file_path_ok arg s) as [p Hp].
  unfold bind at 1. rewrite Hp. cbv beta iota.
  unfold bind at 1. cbn [get]. cbv beta iota.
  unfold Dict.mem, getitem.
  destruct (Dict.get (WSAConsoleTerminal.files s) p) as [content|].
  { eexists [_]. reflexivity. }
  destruct (PyStr.startswith "DH0:" p && (WSAConsoleTerminal.is_wsl h || is_windows h)).
  2:{ eexists [_]. reflexivity. }
  unfold try_catch.
  destruct (os_path_exists h _ && os_path_isfile h _).
  2:{ eexists [_]. reflexivity. }
  destruct (read_utf8 d _) as [c| |e].
  - eexists [_]. reflexivity.
  - destruct (read_latin1 d _); eexists [_]; reflexivity.
  - eexists [_]. reflexivity.
Qed.

(** ** Completion of path names *)

Lemma endswith_app a p : PyStr.endswith p (a ++ p) = true.
Proof.
  induction a as [|c a IH].
  - destruct p; cbn; [reflexivity|]. now rewrite Ascii.eqb_refl, String.eqb_refl.
  - cbn [append PyStr.endswith]. rewrite IH. apply orb_true_r.
Qed.

Lemma endswith_slash_app3 a b : PyStr.endswith "/" (a ++ b ++ "/") = true.
Proof. rewrite <- string_app_assoc. apply endswith_app. Qed.

Lemma Forall_filter_self {A} (f : A -> bool) l :
  Forall (fun x => f x = true) (filter f l).
Proof. apply Forall_forall. intros x H. now apply filter_In in H. Qed.

Lemma Forall_flat_map {A B} (P : B -> Prop) (f : A -> list B) l :
  (forall x, Forall P (f x)) -> Forall P (flat_map f l).
Proof.
  intros H. induction l as [|x l IH]; cbn; [constructor|].
  apply Forall_app. auto.
Qed.

Section Completion.

Variable h : Host.
Variable d : Disk.
Variable text : string.

Lemma overlay_candidates_dirs device path_part fs_parent_path items :
  Forall names_directory
    (ConsoleCommands.overlay_candidates h device path_part fs_parent_path true items).
Proof.
  unfold ConsoleCommands.overlay_candidates. apply Forall_flat_map. intros item.
  cbv zeta. destruct (os_path_isdir h _); [|constructor].
  constructor; [|constructor]. apply endswith_app.
Qed.

Lemma device_candidates_spec s device directories_only :
  Dict.mem device (WSAConsoleTerminal.directories s) = true ->
  exists matches,
    ConsoleCommands.device_candidates s text device directories_only s
    = (Ok matches, s) /\
    Forall (extends text) matches /\
    (directories_only = true -> Forall names_directory matches).
Proof.
  intros Hm. destruct (dict_mem_get _ _ Hm) as [children G].
  unfold ConsoleCommands.device_candidates, getitem. rewrite G.
  eexists. split; [reflexivity|]. split.
  - apply Forall_app. split.
    + apply Forall_filter_self.
    + destruct directories_only; cbn [negb]; [constructor|apply Forall_filter_self].
  - intros ->. cbn [negb]. rewrite app_nil_r.
    apply Forall_forall. intros x Hx. apply filter_In in Hx. destruct Hx as [Hx _].
    apply in_map_iff in Hx. destruct Hx as (c & <- & _). apply endswith_slash_app3.
Qed.

Lemma current_candidates_spec s directories_only :
  exists matches,
    ConsoleCommands.current_candidates s text directories_only s = (Ok matches, s) /\
    Forall (extends text) matches /\
    (directories_only = true -> Forall names_directory matches).
Proof.
  unfold ConsoleCommands.current_candidates.
  assert (K : exists dirs,
            (if Dict.mem (WSAConsoleTerminal.current_dir s)
                         (WSAConsoleTerminal.directories s)
             then children <- getitem (WSAConsoleTerminal.directories s)
                                      (WSAConsoleTerminal.current_dir s) ;;
                  ret (map (fun dir_name => dir_name ++ "/")
                         (filter (PyStr.startswith text) children))
             else ret []) s = (Ok dirs, s) /\
            Forall (extends text) dirs /\ Forall names_directory dirs).
  { destruct (Dict.mem _ _) eqn:Hm.
    - destruct (dict_mem_get _ _ Hm) as [children G].
      unfold getitem. rewrite G. eexists. split; [reflexivity|]. split.
      + apply Forall_forall. intros x Hx. apply in_map_iff in Hx.
        destruct Hx as (c & <- & Hc). apply filter_In in Hc.
        apply prefix_app_l. apply Hc.
      + apply Forall_forall. intros x Hx. apply in_map_iff in Hx.
        destruct Hx as (c & <- & _). apply endswith_app.
    - exists []. split; [reflexivity|]. split; constructor. }
  destruct K as (dirs & E & H1 & H2).
  unfold bind at 1. rewrite E. cbv beta iota.
  eexists. split; [reflexivity|]. split.
  - apply Forall_app. split; [exact H1|].
    destruct directories_only; cbn [negb]; [constructor|].
    apply Forall_forall. intros x Hx. apply filter_In in Hx.
    destruct Hx as [_ Hx]. apply andb_prop in Hx. apply Hx.
  - intros ->. cbn [negb]. now rewrite app_nil_r.
Qed.

(** X14: completion of path names never raises and leaves the terminal
    as it is; every name it proposes starts with the text typed; and for
    [CD] (directories only) every proposal ends with a slash.  This
    holds on every host, whether the names come from the [DH0:] overlay
    or from the virtual file system. *)
Theorem completions_extend_the_text directories_only s :
  exists matches,
    ConsoleCommands._get_matching_paths h d text directories_only s
    = (Ok matches, s) /\
    Forall (fun m => PyStr.startswith text m = true) matches /\
    (directories_only = true ->
     Forall (fun m => PyStr.endswith "/" m = true) matches).
Proof.
  unfold ConsoleCommands._get_matching_paths.
  unfold bind at 1. cbn [get]. cbv beta iota.
  destruct (PyStr.contains ":" text).
  - destruct (WSAConsoleTerminal.split_once ":" text) as [device_part path_part].
    cbv zeta.
    set (device := device_part ++ ":").
    assert (Fallback : exists matches,
              (if Dict.mem device (WSAConsoleTerminal.directories s)
               then ConsoleCommands.device_candidates s text device directories_only
               else ret []) s = (Ok matches, s) /\
              Forall (extends text) matches /\
              (directories_only = true -> Forall names_directory matches)).
    { destruct (Dict.mem device (WSAConsoleTerminal.directories s)) eqn:Hm.
      - now apply device_candidates_spec.
      - exists []. split; [reflexivity|]. split; [constructor|]. intros _. constructor. }
    destruct (String.eqb (PyStr.upper device) "DH0:"
              && (WSAConsoleTerminal.is_wsl h || is_windows h));
      [|unfold bind at 1; cbn [ret]; cbv beta iota; exact Fallback].
    match goal with
    | |- context [os_path_exists h ?p && os_path_isdir h ?p] =>
        destruct (os_path_exists h p && os_path_isdir h p);
          [|unfold bind at 1; cbn [ret]; cbv beta iota; exact Fallback];
          destruct (os_listdir h p) as [items|e|e];
          try (unfold bind at 1; cbn [ret]; cbv beta iota; exact Fallback)
    end.
    unfold bind at 1. cbn [ret]. cbv beta iota.
    eexists. split; [reflexivity|]. split; [apply Forall_filter_self|].
    intros ->. apply Forall_forall. intros x Hx. apply filter_In in Hx.
    destruct Hx as [Hx _]. revert x Hx. apply Forall_forall.
    apply overlay_candidates_dirs.
  - pose proof (current_candidates_spec s directories_only) as Fallback.
    destruct (PyStr.startswith "DH0:" (PyStr.upper (WSAConsoleTerminal.current_dir s))
              && (WSAConsoleTerminal.is_wsl h || is_windows h));
      [|unfold bind at 1; cbn [ret]; cbv beta iota; exact Fallback].
    cbv zeta.
    match goal with
    | |- context [os_path_exists h ?p && os_path_isdir h ?p] =>
        destruct (os_path_exists h p && os_path_isdir h p);
          [|unfold bind at 1; cbn [ret]; cbv beta iota; exact Fallback];
          destruct (os_listdir h p) as [items|e|e];
          try (unfold bind at 1; cbn [ret]; cbv beta iota; exact Fallback)
    end.
    unfold bind at 1. cbn [ret]. cbv beta iota.
    eexists. split; [reflexivity|]. split.
    + apply Forall_flat_map. intros item.
      destruct (PyStr.startswith text item) eqn:Hi; [|constructor].
      destruct (os_path_isdir h _).
      * constructor; [|constructor]. now apply prefix_app_l.
      * destruct directories_only; cbn [negb]; [constructor|].
        constructor; [exact Hi|constructor].
    + intros ->. apply Forall_flat_map. intros item.
      destruct (PyStr.startswith text item); [|constructor].
      destruct (os_path_isdir h _); [|constructor].
      constructor; [apply endswith_app|constructor].
Qed.

End Completion.

(** ** EXECUTE *)

Section Execute.

Variable h : Host.
Variable other_do : string -> option (string -> M WSAConsoleTerminal.State unit).

Lemma do_execute_ok arg s :
  exists s', ConsoleCommands.do_execute h other_do arg s = (Ok tt, s').
Proof.
  unfold ConsoleCommands.do_execute.
  destruct (PyStr.truthy arg); cbn [negb]; [|eexists; reflexivity].
  destruct (resolve_file_path_ok arg s) as [p Hp].
  unfold bind at 1. rewrite Hp. cbv beta iota.
  unfold bind at 1. cbn [get]. cbv beta iota.
  unfold Dict.mem, getitem.
  destruct (Dict.get (WSAConsoleTerminal.files s) p) as [content|].
  { unfold bind at 1. cbn [ret]. cbv beta iota.
    apply console_run_startup_script_ok. }
  destruct (PyStr.startswith "DH0:" p && is_windows h);
    [|eexists; reflexivity].
  unfold try_catch.
  destruct (ConsoleCommands._get_fs_path h p) as [fs_path|]; [|eexists; reflexivity].
  destruct (PyStr.truthy fs_path && os_path_exists h fs_path); [|eexists; reflexivity].
  unfold WSAConsoleTerminal.lift_outcome.
  destruct (read_text h fs_path) as [content|e].
  - destruct (console_run_startup_script_ok h other_do p content s) as [s' E].
    unfold bind. cbn [ret]. rewrite E. eexists. reflexivity.
  - eexists. reflexivity.
Qed.

Lemma do_execute_virtual arg script_path content s :
  PyStr.truthy arg = true ->
  WSAConsoleTerminal._resolve_file_path arg s = (Ok script_path, s) ->
  Dict.get (WSAConsoleTerminal.files s) script_path = Some content ->
  ConsoleCommands.do_execute h other_do arg s
  = WSAConsoleTerminal._run_startup_script h other_do script_path content s.
Proof.
  intros Ha Hp G. unfold ConsoleCommands.do_execute. rewrite Ha. cbn [negb].
  unfold bind at 1. rewrite Hp. cbv beta iota.
  unfold bind at 1. cbn [get]. cbv beta iota.
  unfold Dict.mem, getitem. rewrite G. reflexivity.
Qed.

Lemma do_execute_overlay arg script_path fs_path content s :
  PyStr.truthy arg = true ->
  WSAConsoleTerminal._resolve_file_path arg s = (Ok script_path, s) ->
  Dict.get (WSAConsoleTerminal.files s) script_path = None ->
  PyStr.startswith "DH0:" script_path && is_windows h = true ->
  ConsoleCommands._get_fs_path h script_path = Some fs_path ->
  PyStr.truthy fs_path && os_path_exists h fs_path = true ->
  read_text h fs_path = Ok content ->
  ConsoleCommands.do_execute h other_do arg s
  = WSAConsoleTerminal._run_startup_script h other_do script_path content s.
Proof.
  intros Ha Hp G Hd Hf He Hr. unfold ConsoleCommands.do_execute. rewrite Ha. cbn [negb].
  unfold bind at 1. rewrite Hp. cbv beta iota.
  unfold bind at 1. cbn [get]. cbv beta iota.
  unfold Dict.mem. rewrite G, Hd, Hf, He.
  unfold try_catch, WSAConsoleTerminal.lift_outcome. rewrite Hr.
  rewrite console_run_startup_script_effect.
  unfold bind. cbn [ret]. rewrite console_run_startup_script_effect. reflexivity.
Qed.

(** X15: [EXECUTE] never raises, whatever the commands of the script do.
    For a script of the virtual file system, and on Windows for a script
    file of the overlay that can be read, the command is the startup
    runner on the content of the file, and what it does is the effect of
    the script line by line: after the [Executing <path>...] header, a
    line that is empty or begins with [;] is skipped, a line that fails
    with message [e] is reported as
    [Error executing startup command '<line>': e], and the script goes on
    with the next line from the state the failed line left. *)
Theorem execute_isolates_failures arg s :
  (exists s', ConsoleCommands.do_execute h other_do arg s = (Ok tt, s')) /\
  (forall script_path content,
     PyStr.truthy arg = true ->
     WSAConsoleTerminal._resolve_file_path arg s = (Ok script_path, s) ->
     Dict.get (WSAConsoleTerminal.files s) script_path = Some content ->
     ConsoleCommands.do_execute h other_do arg s
     = WSAConsoleTerminal._run_startup_script h other_do script_path content s /\
     ConsoleCommands.do_execute h other_do arg s
     = (Ok tt, console_script_effect h other_do script_path content s)) /\
  (forall script_path fs_path content,
     PyStr.truthy arg = true ->
     WSAConsoleTerminal._resolve_file_path arg s = (Ok script_path, s) ->
     Dict.get (WSAConsoleTerminal.files s) script_path = None ->
     PyStr.startswith "DH0:" script_path && is_windows h = true ->
     ConsoleCommands._get_fs_path h script_path = Some fs_path ->
     PyStr.truthy fs_path && os_path_exists h fs_path = true ->
     read_text h fs_path = Ok content ->
     ConsoleCommands.do_execute h other_do arg s
     = (Ok tt, console_script_effect h other_do script_path content s)).
Proof.
  split; [apply do_execute_ok|]. split.
  - intros p c Ha Hp G. rewrite (do_execute_virtual arg p c s Ha Hp G).
    split; [reflexivity|apply console_run_startup_script_effect].
  - intros p f c Ha Hp G Hd Hf He Hr.
    rewrite (do_execute_overlay arg p f c s Ha Hp G Hd Hf He Hr).
    apply console_run_startup_script_effect.
Qed.

End Execute.

(** ** MOUNT *)

Lemma upper_char_idem c : PyStr.upper_char (PyStr.upper_char c) = PyStr.upper_char c.
Proof.
  destruct c as [b0 b1 b2 b3 b4 b5 b6 b7].
  destruct b0, b1, b2, b3, b4, b5, b6, b7; reflexivity.
Qed.

Lemma upper_idem s : PyStr.upper (PyStr.upper s) = PyStr.upper s.
Proof.
  unfold PyStr.upper. induction s as [|c s IH]; cbn; [reflexivity|].
  now rewrite IH, upper_char_idem.
Qed.

Lemma device_name_idem dev :
  EmulatorSharedFolder.device_name (EmulatorSharedFolder.device_name dev)
  = EmulatorSharedFolder.device_name dev.
Proof.
  unfold EmulatorSharedFolder.device_name.
  destruct (PyStr.endswith ":" (PyStr.upper dev)) eqn:E; cbn [negb].
  - now rewrite upper_idem, E.
  - rewrite upper_app, upper_idem.
    change (PyStr.upper ":") with ":". now rewrite endswith_app.
Qed.

Lemma device_name_has_colon dev :
  PyStr.contains ":" (EmulatorSharedFolder.device_name dev) = true.
Proof.
  unfold EmulatorSharedFolder.device_name.
  destruct (PyStr.endswith ":" (PyStr.upper dev)) eqn:E; cbn [negb].
  - now apply endswith_char_contains.
  - apply endswith_char_contains, endswith_app.
Qed.

Lemma contains_slash_upper_char c :
  Ascii.eqb (PyStr.upper_char c) "/" = Ascii.eqb c "/".
Proof.
  destruct c as [b0 b1 b2 b3 b4 b5 b6 b7].
  destruct b0, b1, b2, b3, b4, b5, b6, b7; reflexivity.
Qed.

Lemma contains_slash_upper s :
  PyStr.contains "/" (PyStr.upper s) = PyStr.contains "/" s.
Proof.
  induction s as [|a s IH]; [reflexivity|].
  change (PyStr.upper (String a s)) with (String (PyStr.upper_char a) (PyStr.upper s)).
  rewrite !contains_char_unfold, IH. now rewrite contains_slash_upper_char.
Qed.

Lemma device_name_no_slash dev :
  PyStr.contains "/" dev = false ->
  PyStr.contains "/" (EmulatorSharedFolder.device_name dev) = false.
Proof.
  intros H. unfold EmulatorSharedFolder.device_name.
  destruct (PyStr.endswith ":" (PyStr.upper dev)); cbn [negb].
  - now rewrite contains_slash_upper.
  - rewrite contains_char_app_split, contains_slash_upper, H. reflexivity.
Qed.

Lemma first_segment_no_slash path :
  PyStr.contains "/" path = false -> first_segment path = path.
Proof. intros H. unfold first_segment. now rewrite (split_without_sep "/" path H). Qed.

(** Change-directory to a mounted device, by its name. *)
Lemma console_cd_mounted_device h dev info s :
  PyStr.contains "/" dev = false ->
  Dict.get (WSAConsoleTerminal.mounted_shared_folders s)
           (EmulatorSharedFolder.device_name dev) = Some info ->
  WSAConsoleTerminal._change_directory h (EmulatorSharedFolder.device_name dev) s
  = WSAConsoleTerminal.enter (EmulatorSharedFolder.device_name dev) s.
Proof.
  intros Hs G. unfold WSAConsoleTerminal._change_directory.
  unfold bind at 1. cbn [get]. cbv beta iota.
  unfold bind at 1. rewrite console_device_of_spec. cbv beta iota.
  rewrite (first_segment_no_slash _ (device_name_no_slash dev Hs)), device_name_idem.
  unfold Dict.mem. rewrite G.
  unfold WSAConsoleTerminal._change_shared_folder_directory.
  unfold bind at 1. cbn [get]. cbv beta iota.
  unfold getitem. rewrite G.
  unfold bind at 1. cbn [ret]. cbv beta iota.
  now rewrite String.eqb_refl.
Qed.

Lemma device_name_upper dev :
  PyStr.upper (EmulatorSharedFolder.device_name dev)
  = EmulatorSharedFolder.device_name dev.
Proof.
  unfold EmulatorSharedFolder.device_name.
  destruct (PyStr.endswith ":" (PyStr.upper dev)); cbn [negb].
  - apply upper_idem.
  - now rewrite upper_app, upper_idem.
Qed.

Section MountCommand.

Variable h : Host.
Variable winuae_configs : Dict.t EmulatorSharedFolder.Config.
Variable fsuae_configs : Dict.t EmulatorSharedFolder.Config.
Variable winuae_config_dir : string.

Lemma mount_shared_folder_true dev emulator_type config_name m msg m' :
  EmulatorSharedFolder.mount_shared_folder winuae_configs fsuae_configs
    dev emulator_type config_name m = (Ok (true, msg), m') ->
  exists info, m' = Dict.set m (EmulatorSharedFolder.device_name dev) info.
Proof.
  unfold EmulatorSharedFolder.mount_shared_folder.
  assert (K : forall configs emulator title,
            EmulatorSharedFolder.mount_from configs emulator title
              (EmulatorSharedFolder.device_name dev) config_name m
            = (Ok (true, msg), m') ->
            exists info, m' = Dict.set m (EmulatorSharedFolder.device_name dev) info).
  { intros configs emulator title E.
    destruct (mount_from_spec configs emulator title
                (EmulatorSharedFolder.device_name dev) config_name m)
      as (ok & msg0 & m0 & E0 & _ & Ht).
    rewrite E in E0. injection E0 as <- <- <-.
    destruct (Ht eq_refl) as (config & folder & _ & _ & ->). eexists. reflexivity. }
  destruct (String.eqb (PyStr.lower emulator_type) "winuae"); [apply K|].
  destruct (String.eqb (PyStr.lower emulator_type) "fs-uae"); [apply K|].
  discriminate.
Qed.

(** The terminal after a mount that succeeded: the folders [m'], some
    directory table, and the message followed by a warning at most. *)
Lemma mount_from_config_true dev from emu cfg_words msg m' s :
  EmulatorSharedFolder.mount_shared_folder winuae_configs fsuae_configs dev emu
    (ConsoleCommands.strip_char (ascii_of_nat 34) (PyStr.join " " cfg_words))
    (WSAConsoleTerminal.mounted_shared_folders s) = (Ok (true, msg), m') ->
  exists dirs warning,
    ConsoleCommands.mount_from_config h winuae_configs fsuae_configs
      (dev :: from :: emu :: cfg_words) s
    = (Ok tt,
       {| WSAConsoleTerminal.current_dir := WSAConsoleTerminal.current_dir s;
          WSAConsoleTerminal.prompt := WSAConsoleTerminal.prompt s;
          WSAConsoleTerminal.directories := dirs;
          WSAConsoleTerminal.files := WSAConsoleTerminal.files s;
          WSAConsoleTerminal.mounted_shared_folders := m';
          WSAConsoleTerminal.stdout :=
            (WSAConsoleTerminal.stdout s ++ msg :: warning)%list |}).
Proof.
  intros E. destruct (mount_shared_folder_true _ _ _ _ _ _ E) as [info Hm'].
  unfold ConsoleCommands.mount_from_config.
  unfold bind at 1. cbn [index nth_error ret]. cbv beta iota.
  unfold bind at 1. cbn [index nth_error ret]. cbv beta iota.
  cbn [skipn].
  unfold bind at 1. unfold ConsoleCommands.emulator_integration at 1.
  rewrite E. cbv beta iota.
  unfold bind at 1. cbn [WSAConsoleTerminal.print bind get ret snd
                         ConsoleCommands.set_mounted_shared_folders
                         WSAConsoleTerminal.set_stdout
                         WSAConsoleTerminal.stdout
                         WSAConsoleTerminal.current_dir WSAConsoleTerminal.prompt
                         WSAConsoleTerminal.directories WSAConsoleTerminal.files
                         WSAConsoleTerminal.mounted_shared_folders].
  cbv beta iota.
  unfold bind at 1. unfold ConsoleCommands.emulator_integration at 1.
  rewrite get_shared_folder_path_spec.
  cbn [WSAConsoleTerminal.mounted_shared_folders]. 
  rewrite device_name_idem, Hm', dict_get_set_same. cbn [option_map].
  cbv beta iota.
  destruct (PyStr.truthy (WSAConsoleTerminal.path info)
            && os_path_exists h (WSAConsoleTerminal.path info)).
  - unfold try_catch.
    destruct (os_listdir h (WSAConsoleTerminal.path info)) as [items|e|e]; cbn.
    + exists (Dict.set (WSAConsoleTerminal.directories s)
                (EmulatorSharedFolder.device_name dev)
                (filter (fun item => os_path_isdir h
                           (os_path_join h (WSAConsoleTerminal.path info) item)) items)), [].
      reflexivity.
    + eexists _, [_]. rewrite <- app_assoc. reflexivity.
    + eexists _, [_]. rewrite <- app_assoc. reflexivity.
  - cbn. exists (WSAConsoleTerminal.directories s), []. reflexivity.
Qed.

Lemma do_mount_from arg dev from emu c0 cfg_words s :
  PyStr.split_ws arg = dev :: from :: emu :: c0 :: cfg_words ->
  PyStr.upper from = "FROM" ->
  PyStr.upper dev <> "LIST" -> PyStr.upper dev <> "UNMOUNT" ->
  ConsoleCommands.do_mount h winuae_configs fsuae_configs winuae_config_dir arg s
  = ConsoleCommands.mount_from_config h winuae_configs fsuae_configs
      (dev :: from :: emu :: c0 :: cfg_words) s.
Proof.
  intros Hs Hf Hl Hu. unfold ConsoleCommands.do_mount.
  rewrite (split_ws_nonempty_arg _ _ _ Hs). cbn [negb]. rewrite Hs.
  cbn [List.length Nat.eqb]. unfold ConsoleCommands.word_is. cbn [nth_error].
  destruct (String.eqb (PyStr.upper dev) "LIST") eqn:E1;
    [apply String.eqb_eq in E1; congruence|].
  destruct (String.eqb (PyStr.upper dev) "UNMOUNT") eqn:E2;
    [apply String.eqb_eq in E2; congruence|].
  rewrite Hf. reflexivity.
Qed.

(** X16: a shared folder that [MOUNT <device> FROM <emulator> <config>]
    mounted can be entered at once.  When the configuration holds the
    device, the command prints the message of the mount (and a warning
    at most, when the folder cannot be read), leaves the current
    directory alone, and [CD] to the device name then answers with the
    empty text, with the device as the current directory and in the
    prompt. *)
Theorem mount_then_cd arg dev from emu c0 cfg_words msg s :
  PyStr.split_ws arg = dev :: from :: emu :: c0 :: cfg_words ->
  PyStr.upper from = "FROM" ->
  PyStr.upper dev <> "LIST" -> PyStr.upper dev <> "UNMOUNT" ->
  PyStr.contains "/" dev = false ->
  fst (EmulatorSharedFolder.mount_shared_folder winuae_configs fsuae_configs dev emu
         (ConsoleCommands.strip_char (ascii_of_nat 34)
            (PyStr.join " " (c0 :: cfg_words)))
         (WSAConsoleTerminal.mounted_shared_folders s)) = Ok (true, msg) ->
  exists s1 warning,
    ConsoleCommands.do_mount h winuae_configs fsuae_configs winuae_config_dir arg s
    = (Ok tt, s1) /\
    WSAConsoleTerminal.stdout s1 = (WSAConsoleTerminal.stdout s ++ msg :: warning)%list /\
    WSAConsoleTerminal.current_dir s1 = WSAConsoleTerminal.current_dir s /\
    fst (WSAConsoleTerminal._change_directory h
           (EmulatorSharedFolder.device_name dev) s1) = Ok "" /\
    WSAConsoleTerminal.current_dir
      (snd (WSAConsoleTerminal._change_directory h
              (EmulatorSharedFolder.device_name dev) s1))
    = EmulatorSharedFolder.device_name dev /\
    WSAConsoleTerminal.prompt
      (snd (WSAConsoleTerminal._change_directory h
              (EmulatorSharedFolder.device_name dev) s1))
    = EmulatorSharedFolder.device_name dev ++ "> ".
Proof.
  intros Hs Hf Hl Hu Hsl Hm.
  destruct (EmulatorSharedFolder.mount_shared_folder winuae_configs fsuae_configs dev emu
              (ConsoleCommands.strip_char (ascii_of_nat 34)
                 (PyStr.join " " (c0 :: cfg_words)))
              (WSAConsoleTerminal.mounted_shared_folders s)) as [r m'] eqn:E.
  cbn [fst] in Hm. subst r.
  destruct (mount_shared_folder_true _ _ _ _ _ _ E) as [info Hm'].
  destruct (mount_from_config_true dev from emu (c0 :: cfg_words) msg m' s E)
    as (dirs & warning & R).
  rewrite (do_mount_from arg dev from emu c0 cfg_words s Hs Hf Hl Hu), R.
  eexists _, warning. split; [reflexivity|].
  split; [reflexivity|]. split; [reflexivity|].
  rewrite (console_cd_mounted_device h dev info _ Hsl)
    by (cbn; rewrite Hm'; apply dict_get_set_same).
  rewrite console_enter_spec. cbn. auto.
Qed.

Lemma do_mount_unmount arg word dev rest s :
  PyStr.split_ws arg = word :: dev :: rest ->
  PyStr.upper word = "UNMOUNT" ->
  ConsoleCommands.do_mount h winuae_configs fsuae_configs winuae_config_dir arg s
  = ConsoleCommands.mount_unmount (word :: dev :: rest) s.
Proof.
  intros Hs Hw. unfold ConsoleCommands.do_mount.
  rewrite (split_ws_nonempty_arg _ _ _ Hs). cbn [negb]. rewrite Hs.
  cbn [List.length Nat.eqb]. unfold ConsoleCommands.word_is. cbn [nth_error].
  rewrite Hw. reflexivity.
Qed.

(** X17: [MOUNT UNMOUNT <device>] of a mounted device reports
    [<DEVICE> unmounted], and the device is then neither among the
    mounted folders nor in the directory table, so that [CD] to it
    answers that the directory is not found.  The two tables are taken
    with each name in them once, as a dictionary has it; the device is
    not one in the [DH0:] overlay. *)
Theorem unmount_then_cd arg word dev rest s :
  PyStr.split_ws arg = word :: dev :: rest ->
  PyStr.upper word = "UNMOUNT" ->
  PyStr.contains "/" dev = false ->
  PyStr.startswith "DH0:" (EmulatorSharedFolder.device_name dev) = false ->
  Dict.mem (EmulatorSharedFolder.device_name dev)
           (WSAConsoleTerminal.mounted_shared_folders s) = true ->
  NoDup (Dict.keys (WSAConsoleTerminal.mounted_shared_folders s)) ->
  NoDup (Dict.keys (WSAConsoleTerminal.directories s)) ->
  exists s1,
    ConsoleCommands.do_mount h winuae_configs fsuae_configs winuae_config_dir arg s
    = (Ok tt, s1) /\
    WSAConsoleTerminal.stdout s1
    = (WSAConsoleTerminal.stdout s
       ++ [(EmulatorSharedFolder.device_name dev ++ " unmounted")%string])%list /\
    Dict.mem (EmulatorSharedFolder.device_name dev)
             (WSAConsoleTerminal.mounted_shared_folders s1) = false /\
    Dict.mem (EmulatorSharedFolder.device_name dev)
             (WSAConsoleTerminal.directories s1) = false /\
    WSAConsoleTerminal._change_directory h (EmulatorSharedFolder.device_name dev) s1
    = (Ok (WSAConsoleTerminal.not_found (EmulatorSharedFolder.device_name dev)), s1).
Proof.
  intros Hs Hw Hsl Hdh Hm Nm Nd.
  rewrite (do_mount_unmount arg word dev rest s Hs Hw).
  unfold ConsoleCommands.mount_unmount. cbn [List.length Nat.ltb Nat.leb].
  unfold bind at 1. cbn [index nth_error ret]. cbv beta iota.
  unfold bind at 1. unfold ConsoleCommands.emulator_integration at 1.
  rewrite unmount_shared_folder_spec, Hm. cbv beta iota.
  set (D := EmulatorSharedFolder.device_name dev) in *.
  assert (Gm : Dict.get (Dict.del (WSAConsoleTerminal.mounted_shared_folders s) D) D = None)
    by (now apply dict_get_del_same).
  assert (Cd : forall s1,
            Dict.get (WSAConsoleTerminal.mounted_shared_folders s1) D = None ->
            Dict.get (WSAConsoleTerminal.directories s1) D = None ->
            WSAConsoleTerminal._change_directory h D s1
            = (Ok (WSAConsoleTerminal.not_found D), s1)).
  { intros s1 G1 G2. unfold WSAConsoleTerminal._change_directory.
    unfold bind at 1. cbn [get]. cbv beta iota.
    unfold bind at 1. rewrite console_device_of_spec. cbv beta iota.
    unfold D at 1 2.
    rewrite (first_segment_no_slash _ (device_name_no_slash dev Hsl)), device_name_idem.
    fold D. unfold Dict.mem. rewrite G1, G2.
    assert (Hup : PyStr.upper D = D) by (unfold D; apply device_name_upper).
    rewrite Hup.
    destruct (String.eqb D "DH0:") eqn:E0;
      [apply String.eqb_eq in E0; rewrite E0 in Hdh; discriminate|].
    destruct (String.eqb D "..") eqn:E1.
    { apply String.eqb_eq in E1. pose proof (device_name_has_colon dev) as C.
      fold D in C. rewrite E1 in C. discriminate. }
    destruct (PyStr.startswith "../" D) eqn:E2.
    { destruct (prefix_split _ _ E2) as [r Hr].
      pose proof (device_name_no_slash dev Hsl) as C. fold D in C. rewrite Hr in C.
      change ("../" ++ r) with (String "." (String "." (String "/" r))) in C.
      rewrite !contains_char_unfold in C. cbn in C. discriminate. }
    cbn [orb]. unfold D at 1. rewrite device_name_has_colon. fold D.
    rewrite Hdh. reflexivity. }
  destruct (Dict.mem D (WSAConsoleTerminal.directories s)) eqn:Md.
  - cbn -[Dict.mem Dict.del Dict.get WSAConsoleTerminal._change_directory D].
    rewrite Md.
    cbn -[Dict.mem Dict.del Dict.get WSAConsoleTerminal._change_directory D].
    eexists. split; [reflexivity|]. split; [reflexivity|].
    assert (Gd : Dict.get (Dict.del (WSAConsoleTerminal.directories s) D) D = None)
      by (now apply dict_get_del_same).
    split; [cbn; unfold Dict.mem; now rewrite Gm|].
    split; [cbn; unfold Dict.mem; now rewrite Gd|].
    apply Cd; assumption.
  - cbn -[Dict.mem Dict.del Dict.get WSAConsoleTerminal._change_directory D].
    rewrite Md.
    cbn -[Dict.mem Dict.del Dict.get WSAConsoleTerminal._change_directory D].
    eexists. split; [reflexivity|]. split; [reflexivity|].
    split; [cbn; unfold Dict.mem; now rewrite Gm|].
    split; [exact Md|].
    apply Cd; [assumption|]. cbn. unfold Dict.mem in Md.
    now destruct (Dict.get (WSAConsoleTerminal.directories s) D).
Qed.

End MountCommand.

(** ** Completion of path names in the web terminal *)

Section WebCompletion.

Variable h : Host.
Variable os_path_dirname : string -> string.
Variable os_path_basename : string -> string.

Lemma web_device_matches_extend s path_prefix device children :
  Forall (extends path_prefix)
    (AmigaCompletion.device_matches s path_prefix device children).
Proof.
  unfold AmigaCompletion.device_matches. apply Forall_app.
  split; apply Forall_filter_self.
Qed.

Lemma web_current_matches_spec s path_prefix :
  exists matches,
    AmigaCompletion.current_matches s path_prefix s = (Ok matches, s) /\
    Forall (extends path_prefix) matches.
Proof.
  unfold AmigaCompletion.current_matches.
  assert (K : exists dirs,
            (if Dict.mem (AmigaTerminal.current_dir s) (AmigaTerminal.directories s)
             then children <- getitem (AmigaTerminal.directories s)
                                      (AmigaTerminal.current_dir s) ;;
                  ret (map (fun dir_name => dir_name ++ "/")
                         (filter (PyStr.startswith path_prefix) children))
             else ret []) s = (Ok dirs, s) /\
            Forall (extends path_prefix) dirs).
  { destruct (Dict.mem _ _) eqn:Hm.
    - destruct (dict_mem_get _ _ Hm) as [children G].
      unfold getitem. rewrite G. eexists. split; [reflexivity|].
      apply Forall_forall. intros x Hx. apply in_map_iff in Hx.
      destruct Hx as (c & <- & Hc). apply filter_In in Hc.
      apply prefix_app_l. apply Hc.
    - exists []. split; [reflexivity|constructor]. }
  destruct K as (dirs & E & H1).
  unfold bind at 1. rewrite E. cbv beta iota.
  eexists. split; [reflexivity|].
  apply Forall_app. split; [exact H1|].
  apply Forall_forall. intros x Hx. apply filter_In in Hx.
  destruct Hx as [_ Hx]. apply andb_prop in Hx. apply Hx.
Qed.

(** X18: completion of path names in the web terminal never raises and
    leaves the terminal as it is.  Every name it proposes starts with
    the text typed, except possibly when the text starts with [DH0:] on
    Windows, where the names are put together from the items of the
    host directory. *)
Theorem web_completions_extend_the_text path_prefix s :
  exists matches,
    AmigaCompletion.get_directory_contents h os_path_dirname os_path_basename
      path_prefix s = (Ok matches, s) /\
    (PyStr.startswith "DH0:" path_prefix && is_windows h = false ->
     Forall (fun m => PyStr.startswith path_prefix m = true) matches).
Proof.
  unfold AmigaCompletion.get_directory_contents.
  unfold bind at 1. cbn [get]. cbv beta iota.
  destruct (PyStr.startswith "DH0:" path_prefix) eqn:Hd.
  - destruct (is_windows h) eqn:Hw.
    + cbv zeta.
      match goal with
      | |- context [os_path_exists h ?p && os_path_isdir h ?p] =>
          destruct (os_path_exists h p && os_path_isdir h p)
      end.
      * match goal with
        | |- context [os_listdir h ?p] => destruct (os_listdir h p) as [items|e|e]
        end; unfold bind at 1; cbn [ret]; cbv beta iota;
          (eexists; split; [reflexivity|discriminate]).
      * unfold bind at 1. cbn [ret]. cbv beta iota.
        eexists. split; [reflexivity|discriminate].
    + unfold bind at 1. cbn [ret]. cbv beta iota.
      eexists. split; [reflexivity|]. intros _. apply web_device_matches_extend.
  - cbn [andb].
    destruct (find _ (Dict.keys (AmigaTerminal.directories s))) as [device|] eqn:F.
    + apply find_some in F. destruct F as [Hin _].
      assert (G : exists children,
                Dict.get (AmigaTerminal.directories s) device = Some children).
      { destruct (Dict.get (AmigaTerminal.directories s) device) eqn:G; [eauto|].
        apply dict_get_none in G. contradiction. }
      destruct G as [children G]. unfold getitem. rewrite G.
      unfold bind at 1. cbn [ret]. cbv beta iota.
      eexists. split; [reflexivity|]. intros _. apply web_device_matches_extend.
    + pose proof (web_current_matches_spec s path_prefix) as Fallback.
      assert (Fb : exists matches,
                AmigaCompletion.current_matches s path_prefix s = (Ok matches, s) /\
                (false = false ->
                 Forall (fun m => PyStr.startswith path_prefix m = true) matches)).
      { destruct Fallback as (m & E & H). exists m. auto. }
      destruct (String.eqb (AmigaTerminal.current_dir s) "DH0:" && is_windows h);
        [|unfold bind at 1; cbn [ret]; cbv beta iota; exact Fb].
      cbv zeta.
      match goal with
      | |- context [os_path_exists h ?p && os_path_isdir h ?p] =>
          destruct (os_path_exists h p && os_path_isdir h p);
            [|unfold bind at 1; cbn [ret]; cbv beta iota; exact Fb];
            destruct (os_listdir h p) as [items|e|e];
            try (unfold bind at 1; cbn [ret]; cbv beta iota; exact Fb)
      end.
      unfold bind at 1. cbn [ret]. cbv beta iota.
      eexists. split; [reflexivity|]. intros _.
      apply Forall_flat_map. intros item.
      destruct (PyStr.startswith path_prefix item) eqn:Hi; [|constructor].
      destruct (os_path_isdir h _).
      * constructor; [|constructor]. now apply prefix_app_l.
      * constructor; [exact Hi|constructor].
Qed.

End WebCompletion.

(** ** Listings only print *)

Section OnlyPrints.

Import WSAConsoleTerminal.

Lemma prints_ret {A} (a : A) : prints (ret a).
Proof. intros s. exists a, []. now rewrite emit_nil. Qed.

Lemma prints_get : prints (@get State).
Proof. intros s. exists s, []. now rewrite emit_nil. Qed.

Lemma prints_print text : prints (print text).
Proof. intros s. exists tt, [text]. reflexivity. Qed.

Lemma prints_bind {A B} (m : M State A) (k : A -> M State B) :
  prints m -> (forall a, prints (k a)) -> prints (bind m k).
Proof.
  intros Hm Hk s. destruct (Hm s) as (a & l1 & E1).
  destruct (Hk a (emit l1 s)) as (b & l2 & E2).
  exists b, (l1 ++ l2)%list. unfold bind. rewrite E1, E2. now rewrite emit_emit.
Qed.

(** The continuation may look at the state it starts in. *)
Lemma prints_bind_get {B} (k : State -> M State B) :
  (forall s, exists b lines, k s s = (Ok b, emit lines s)) -> prints (bind get k).
Proof. intros Hk s. unfold bind, get. apply Hk. Qed.

Lemma may_raise_prints {A} (m : M State A) : prints m -> may_raise m.
Proof. intros H s. destruct (H s) as (a & l & E). exists (Ok a), l. exact E. Qed.

Lemma may_raise_raise {A} e : may_raise (@raise State A e).
Proof. intros s. exists (Exn e), []. now rewrite emit_nil. Qed.

Lemma may_raise_lift {A} (o : outcome A) : may_raise (lift_outcome o).
Proof.
  destruct o; [apply may_raise_prints, prints_ret|apply may_raise_raise].
Qed.

Lemma may_raise_bind {A B} (m : M State A) (k : A -> M State B) :
  may_raise m -> (forall a, may_raise (k a)) -> may_raise (bind m k).
Proof.
  intros Hm Hk s. destruct (Hm s) as ([a|e] & l1 & E1).
  - destruct (Hk a (emit l1 s)) as (r & l2 & E2).
    exists r, (l1 ++ l2)%list. unfold bind. rewrite E1, E2. now rewrite emit_emit.
  - exists (Exn e), l1. unfold bind. now rewrite E1.
Qed.

Lemma prints_try_catch {A} (m : M State A) (k : string -> M State A) :
  may_raise m -> (forall e, prints (k e)) -> prints (try_catch m k).
Proof.
  intros Hm Hk s. destruct (Hm s) as ([a|e] & l1 & E1).
  - exists a, l1. unfold try_catch. now rewrite E1.
  - destruct (Hk e (emit l1 s)) as (b & l2 & E2).
    exists b, (l1 ++ l2)%list. unfold try_catch. rewrite E1, E2. now rewrite emit_emit.
Qed.

Lemma prints_for_each {A} (l : list A) (body : A -> M State unit) :
  (forall x, prints (body x)) -> prints (for_each l body).
Proof.
  intros H. induction l as [|x l IH]; cbn [for_each]; [apply prints_ret|].
  apply prints_bind; auto.
Qed.

Lemma prints_for_fold {A B} (l : list A) (body : B -> A -> M State B) :
  (forall acc x, prints (body acc x)) -> forall acc, prints (for_fold l acc body).
Proof.
  intros H. induction l as [|x l IH]; intros acc; cbn [for_fold]; [apply prints_ret|].
  apply prints_bind; auto.
Qed.

Lemma may_raise_sum_file_sizes h fs_path files :
  may_raise (sum_file_sizes h fs_path files).
Proof.
  induction files as [|f rest IH]; cbn [sum_file_sizes];
    [apply may_raise_prints, prints_ret|].
  apply may_raise_bind.
  - destruct (os_path_isfile h _);
      [apply may_raise_lift|apply may_raise_prints, prints_ret].
  - intros n. apply may_raise_bind; [exact IH|].
    intros m. apply may_raise_prints, prints_ret.
Qed.

Lemma prints_getitem_mem {V} (dict : Dict.t V) k :
  Dict.mem k dict = true -> prints (@getitem State V dict k).
Proof.
  intros H. destruct (dict_mem_get _ _ H) as [v G].
  unfold getitem. rewrite G. apply prints_ret.
Qed.

End OnlyPrints.

Create HintDb prints.
#[local] Hint Resolve prints_ret prints_get prints_print prints_for_each
  prints_for_fold may_raise_prints may_raise_lift may_raise_raise
  may_raise_sum_file_sizes : prints.

Ltac prints :=
  repeat first
    [ match goal with |- forall _, _ => intro end
    | progress cbv beta zeta
    | solve [auto 2 with prints nocore]
    | match goal with
      | |- prints (bind get _) => apply prints_bind_get; intros ?s
      | |- prints (bind _ _) => apply prints_bind
      | |- prints (WSAConsoleTerminal.for_each _ _) => apply prints_for_each
      | |- prints (WSAConsoleTerminal.for_fold _ _ _) => apply prints_for_fold
      | |- prints (try_catch _ _) => apply prints_try_catch
      | |- may_raise (bind _ _) => apply may_raise_bind
      | |- may_raise (WSAConsoleTerminal.for_each _ _) => apply may_raise_prints
      | |- may_raise (WSAConsoleTerminal.for_fold _ _ _) => apply may_raise_prints
      | |- prints (if ?c then _ else _) => destruct c
      | |- may_raise (if ?c then _ else _) => destruct c
      | |- prints (match ?x with _ => _ end) => destruct x
      | |- may_raise (match ?x with _ => _ end) => destruct x
      end ].

Section Listings.

Import WSAConsoleTerminal.

Variable h : Host.

Lemma prints_print_host_dirs fs_path dirs : prints (print_host_dirs h fs_path dirs).
Proof. unfold print_host_dirs. prints. Qed.

Lemma may_raise_real_listing path fs_path : may_raise (real_listing h path fs_path).
Proof.
  unfold real_listing.
  destruct (os_path_exists h fs_path && os_path_isdir h fs_path); [|prints].
  apply may_raise_bind; [prints|]. intros _.
  destruct (os_listdir h fs_path); [|prints|prints].
  cbv zeta. apply may_raise_bind; [apply may_raise_prints, prints_print_host_dirs|].
  intros _. apply may_raise_bind; [prints|]. intros _.
  apply may_raise_bind; [apply may_raise_sum_file_sizes|]. prints.
Qed.

Lemma prints_print_virtual_files path fs : prints (print_virtual_files h path fs).
Proof.
  unfold print_virtual_files. apply prints_for_fold.
  intros [file_count total_bytes] [file_path file_content]. prints.
Qed.

Lemma prints_print_virtual_dirs dirs : prints (print_virtual_dirs h dirs).
Proof. unfold print_virtual_dirs. prints. Qed.

Lemma prints_placeholder_listing path : prints (placeholder_listing h path).
Proof.
  unfold placeholder_listing. apply prints_bind; [apply prints_get|]. intros s.
  apply prints_bind; [prints|]. intros _. cbv zeta.
  apply prints_bind; [apply prints_print_virtual_dirs|]. intros _.
  apply prints_bind; [apply prints_print_virtual_files|]. prints.
Qed.

Lemma prints_command_listing path own : prints (command_listing h path own).
Proof.
  unfold command_listing. apply prints_bind; [apply prints_get|]. intros s.
  apply prints_bind; [prints|]. intros _. cbv zeta.
  apply prints_bind.
  { apply prints_for_fold. intros [file_count total_bytes] cmd_name.
    apply prints_bind.
    - destruct (Dict.mem _ (files s)) eqn:Hm; [|prints].
      apply prints_bind; [now apply prints_getitem_mem|]. prints.
    - prints. }
  intros counts. apply prints_bind; [|prints].
  apply prints_for_fold. intros [file_count total_bytes] [file_path file_content].
  prints.
Qed.

Lemma prints_sys_subdir_listing path : prints (sys_subdir_listing h path).
Proof.
  unfold sys_subdir_listing. apply prints_bind; [apply prints_get|]. intros s.
  apply prints_bind; [prints|]. intros _.
  apply prints_bind; [apply prints_print_virtual_files|]. prints.
Qed.

Lemma prints_virtual_listing path : prints (virtual_listing h path).
Proof.
  unfold virtual_listing. apply prints_bind; [apply prints_get|]. intros s.
  apply prints_bind; [prints|]. intros _. cbv zeta.
  apply prints_bind; [apply prints_print_virtual_dirs|]. intros _.
  apply prints_bind; [apply prints_print_virtual_files|]. prints.
Qed.

Lemma list_shared_folder_files_prints path device s :
  Dict.mem device (mounted_shared_folders s) = true ->
  exists a lines, _list_shared_folder_files h path device s = (Ok a, emit lines s).
Proof.
  intros Hm. destruct (dict_mem_get _ _ Hm) as [info G].
  unfold _list_shared_folder_files.
  unfold bind at 1. cbn [get]. cbv beta iota.
  unfold bind at 1. unfold getitem. rewrite G. cbn [ret]. cbv beta iota zeta.
  revert s Hm G.
  match goal with
  | |- forall s, _ -> _ -> exists a lines, ?m s = _ =>
      intros s _ _; assert (P : prints m); [|exact (P s)]
  end.
  destruct (negb (os_path_exists h _) || negb (os_path_isdir h _)); [prints|].
  apply prints_try_catch; [|prints].
  apply may_raise_bind; [prints|]. intros _.
  apply may_raise_bind; [prints|]. intros _.
  destruct (os_listdir h _); [|prints|prints].
  apply may_raise_bind; [apply may_raise_prints, prints_print_host_dirs|]. intros _.
  apply may_raise_bind; [|prints].
  apply may_raise_prints, prints_for_fold. intros total_bytes file_name.
  cbv zeta. destruct (os_path_getsize h _); prints.
Qed.

(** X19: [DIR] of the console never raises and does nothing but print:
    whatever the path, the host and the terminal, [_list_files] returns
    and leaves the terminal as it was but for the lines added to the
    output.  A host that refuses to list a directory or to tell the size
    of a file ends in a printed line or in the placeholder listing. *)
Theorem listing_only_prints path s :
  exists lines, _list_files h path s = (Ok tt, emit lines s).
Proof.
  assert (Unit : forall (m : M State unit) s0,
            (exists a lines, m s0 = (Ok a, emit lines s0)) ->
            exists lines, m s0 = (Ok tt, emit lines s0)).
  { intros m s0 (a & lines & E). destruct a. eauto. }
  apply Unit.
  unfold _list_files. unfold bind at 1. cbn [get]. cbv beta iota.
  assert (R : exists p,
            (match path with
             | None => ret (current_dir s)
             | Some p => _resolve_path p
             end) s = (Ok p, s)).
  { destruct path as [p|]; [|eexists; reflexivity].
    unfold _resolve_path. unfold bind at 1. cbn [get]. cbv beta iota.
    destruct (negb (PyStr.truthy p)); [eexists; reflexivity|].
    destruct (PyStr.contains ":" p).
    - match goal with
      | |- context [find ?f logical_assignments] =>
          destruct (find f logical_assignments) as [[logical actual]|]
      end; [|eexists; reflexivity].
      break_if; eexists; reflexivity.
    - repeat break_if; eexists; reflexivity. }
  destruct R as [p Hp]. unfold bind at 1. rewrite Hp. cbv beta iota.
  unfold bind at 1. rewrite console_device_of_spec. cbv beta iota.
  destruct (Dict.mem _ (mounted_shared_folders s)) eqn:Hm;
    [now apply list_shared_folder_files_prints|].
  revert s Hp Hm.
  match goal with
  | |- forall s, _ -> _ -> exists a lines, ?m s = _ => intros s _ _
  end.
  destruct (PyStr.startswith "DH0:" (PyStr.upper p)).
  { destruct (is_wsl h || is_windows h); [|apply prints_placeholder_listing].
    apply prints_try_catch.
    - apply may_raise_real_listing.
    - intros e. apply prints_bind; [prints|]. intros _.
      apply prints_placeholder_listing. }
  destruct (String.eqb p "C:"); [apply prints_command_listing|].
  destruct (negb (Dict.mem p (directories s))); [|apply prints_virtual_listing].
  apply prints_bind; [|prints].
  destruct (PyStr.contains ":" p); [|prints].
  destruct (split_once ":" p) as [device_part sub_part]. cbv zeta.
  destruct (String.eqb (device_part ++ ":") "SYS:" && _); [|prints].
  apply prints_bind; [|prints].
  destruct (String.eqb sub_part "C");
    [apply prints_command_listing|apply prints_sys_subdir_listing].
Qed.

End Listings.

(** ** ED *)

Section EditorProofs.

Variable h : Host.
Variable d : Disk.
Variable read_lines : string -> outcome (list string).

Lemma editor_loop_text file_path line keys lines s :
  editor_command line = false ->
  ConsoleCommands.editor_loop h d file_path (ConsoleCommands.Typed line :: keys) lines s
  = ConsoleCommands.editor_loop h d file_path keys (lines ++ [entered line])%list s.
Proof.
  unfold editor_command, entered, mem_str. cbn [existsb].
  intros H. apply orb_false_elim in H. destruct H as [H1 H].
  apply orb_false_elim in H. destruct H as [H2 H].
  apply orb_false_elim in H. destruct H as [H3 _].
  cbn [ConsoleCommands.editor_loop]. cbv zeta.
  rewrite H1, H2, H3.
  now destruct (String.eqb (PyStr.strip (PyStr.upper line)) "").
Qed.

Lemma editor_loop_texts file_path keys : forall typed lines s,
  Forall (fun line => editor_command line = false) typed ->
  ConsoleCommands.editor_loop h d file_path
    (map ConsoleCommands.Typed typed ++ keys)%list lines s
  = ConsoleCommands.editor_loop h d file_path keys
      (lines ++ map entered typed)%list s.
Proof.
  induction typed as [|line typed IH]; intros lines s H.
  - cbn. now rewrite app_nil_r.
  - inversion H as [|? ? H1 H2]; subst. cbn [map app].
    rewrite (editor_loop_text _ _ _ _ _ H1), (IH _ _ H2).
    now rewrite <- app_assoc.
Qed.

Lemma prints_print_numbered lines : forall i,
  prints (ConsoleCommands.print_numbered i lines).
Proof.
  induction lines as [|line rest IH]; intros i; cbn [ConsoleCommands.print_numbered];
    [apply prints_ret|].
  apply prints_bind; [apply prints_print|]. intros _. apply IH.
Qed.

Lemma bind_prints {A B} (m : M WSAConsoleTerminal.State A)
    (k : A -> M WSAConsoleTerminal.State B) s :
  prints m -> exists a out, bind m k s = k a (emit out s).
Proof.
  intros P. destruct (P s) as (a & out & E). exists a, out.
  unfold bind. now rewrite E.
Qed.

(** The editor before its first prompt. *)
Lemma ed_editor_opens file_path content keys s :
  exists out,
    ConsoleCommands._ed_editor h d file_path content keys s
    = ConsoleCommands.editor_loop h d file_path keys content (emit out s).
Proof.
  unfold ConsoleCommands._ed_editor. cbv zeta.
  do 4 (unfold bind at 1; rewrite print_emit; cbv beta iota).
  rewrite !emit_emit.
  match goal with
  | |- exists out, bind ?m ?k ?st = _ =>
      assert (P : prints m);
        [|destruct (bind_prints m k st P) as ([] & out & ->);
          rewrite emit_emit; eexists; reflexivity]
  end.
  destruct content.
  - apply prints_bind; [apply prints_print|intros _; apply prints_print].
  - apply prints_bind; [apply prints_print|intros _].
    apply prints_bind; [apply prints_print_numbered|intros _; apply prints_print].
Qed.

Lemma resolve_file_path_truthy arg file_path s :
  PyStr.truthy arg = true ->
  WSAConsoleTerminal._resolve_file_path arg s = (Ok file_path, s) ->
  PyStr.truthy file_path = true.
Proof.
  intros Ha. unfold WSAConsoleTerminal._resolve_file_path. cbn.
  assert (K : forall a, PyStr.truthy (a ++ arg) = true).
  { intros a. destruct a; [exact Ha|reflexivity]. }
  destruct (PyStr.contains ":" arg); [intros [= <-]; exact Ha|].
  destruct (PyStr.endswith ":" (WSAConsoleTerminal.current_dir s)); intros [= <-].
  - apply K.
  - now destruct (WSAConsoleTerminal.current_dir s).
Qed.

(** [ED] of a path of the virtual file system opens the editor on the
    lines of the file. *)
Lemma do_ed_virtual arg file_path keys s :
  PyStr.truthy arg = true ->
  PyStr.upper arg <> "HELP" ->
  WSAConsoleTerminal._resolve_file_path arg s = (Ok file_path, s) ->
  PyStr.startswith "DH0:" file_path = false ->
  ConsoleCommands.do_ed h d read_lines arg keys s
  = ConsoleCommands._ed_editor h d file_path (lines_of s file_path) keys s.
Proof.
  intros Ha Hh Hr Hd. unfold ConsoleCommands.do_ed. rewrite Ha. cbn [negb].
  destruct (String.eqb (PyStr.upper arg) "HELP") eqn:E;
    [apply String.eqb_eq in E; congruence|].
  unfold bind at 1. rewrite Hr. cbv beta iota.
  rewrite (resolve_file_path_truthy arg file_path s Ha Hr). cbn [negb].
  unfold bind at 1. cbn [get]. cbv beta iota.
  unfold lines_of, Dict.mem, getitem. rewrite Hd. cbn [andb].
  destruct (Dict.get (WSAConsoleTerminal.files s) file_path); reflexivity.
Qed.

Lemma save_file_virtual silent saved file_path lines s :
  PyStr.startswith "DH0:" file_path = false ->
  ConsoleCommands.save_file h d silent saved file_path lines s
  = (Ok tt,
     emit [saved]
       (with_files (Dict.set (WSAConsoleTerminal.files s) file_path
                      (PyStr.join PyStr.nl lines)) s)).
Proof. intros Hd. unfold ConsoleCommands.save_file. rewrite Hd. reflexivity. Qed.

Lemma editor_loop_save file_path line keys lines s :
  PyStr.strip (PyStr.upper line) = "SAVE" ->
  PyStr.startswith "DH0:" file_path = false ->
  ConsoleCommands.editor_loop h d file_path (ConsoleCommands.Typed line :: keys) lines s
  = ConsoleCommands.editor_loop h d file_path keys lines
      (emit ["File saved to virtual filesystem."]
         (with_files (Dict.set (WSAConsoleTerminal.files s) file_path
                        (PyStr.join PyStr.nl lines)) s)).
Proof.
  intros Hc Hd. cbn [ConsoleCommands.editor_loop]. cbv zeta. rewrite Hc.
  cbn [String.eqb Ascii.eqb Bool.eqb andb].
  unfold bind at 1. now rewrite (save_file_virtual _ _ _ _ _ Hd).
Qed.

Lemma editor_loop_quit file_path line keys lines s :
  PyStr.strip (PyStr.upper line) = "QUIT" ->
  ConsoleCommands.editor_loop h d file_path (ConsoleCommands.Typed line :: keys) lines s
  = (Ok (Some tt), emit ["Editor exited without saving."] s).
Proof.
  intros Hc. cbn [ConsoleCommands.editor_loop]. cbv zeta. rewrite Hc. reflexivity.
Qed.

(** X20: the editor saves what was typed.  [ED] of a path outside
    [DH0:], followed by lines of text, then [SAVE], then [QUIT] (the two
    in any letter case), ends normally, and the file then holds the lines
    it had before followed by the lines typed, joined by newlines; a
    blank line typed is an empty line of the file.  With nothing typed
    an existing file keeps its content.  No other file changes, neither
    do the directories or the current directory, and [TYPE] then prints
    the new content. *)
Theorem editor_saves_what_was_typed arg file_path typed save quit s :
  PyStr.truthy arg = true ->
  PyStr.upper arg <> "HELP" ->
  WSAConsoleTerminal._resolve_file_path arg s = (Ok file_path, s) ->
  PyStr.startswith "DH0:" file_path = false ->
  Forall (fun line => editor_command line = false) typed ->
  PyStr.strip (PyStr.upper save) = "SAVE" ->
  PyStr.strip (PyStr.upper quit) = "QUIT" ->
  exists s1,
    ConsoleCommands.do_ed h d read_lines arg
      (map ConsoleCommands.Typed typed
       ++ [ConsoleCommands.Typed save; ConsoleCommands.Typed quit])%list s
    = (Ok (Some tt), s1) /\
    Dict.get (WSAConsoleTerminal.files s1) file_path
    = Some (PyStr.join PyStr.nl (lines_of s file_path ++ map entered typed)%list) /\
    (forall text,
       typed = [] -> Dict.get (WSAConsoleTerminal.files s) file_path = Some text ->
       Dict.get (WSAConsoleTerminal.files s1) file_path = Some text) /\
    (forall p, p <> file_path ->
       Dict.get (WSAConsoleTerminal.files s1) p
       = Dict.get (WSAConsoleTerminal.files s) p) /\
    WSAConsoleTerminal.directories s1 = WSAConsoleTerminal.directories s /\
    WSAConsoleTerminal.current_dir s1 = WSAConsoleTerminal.current_dir s /\
    forall dk,
      ConsoleCommands.do_type h dk arg s1
      = (Ok tt,
         emit [PyStr.join PyStr.nl (lines_of s file_path ++ map entered typed)%list] s1).
Proof.
  intros Ha Hh Hr Hd Ht Hs Hq.
  rewrite (do_ed_virtual arg file_path _ s Ha Hh Hr Hd).
  destruct (ed_editor_opens file_path (lines_of s file_path)
              (map ConsoleCommands.Typed typed
               ++ [ConsoleCommands.Typed save; ConsoleCommands.Typed quit])%list s)
    as [out ->].
  rewrite (editor_loop_texts file_path _ typed _ _ Ht).
  rewrite (editor_loop_save file_path save _ _ _ Hs Hd).
  rewrite (editor_loop_quit file_path quit _ _ _ Hq).
  eexists. split; [reflexivity|]. set (s1 := emit _ _).
  assert (G : Dict.get (WSAConsoleTerminal.files s1) file_path
              = Some (PyStr.join PyStr.nl (lines_of s file_path ++ map entered typed)%list))
    by apply dict_get_set_same.
  split; [exact G|]. split.
  { intros text -> Hg. rewrite G. cbn [map]. rewrite app_nil_r.
    unfold lines_of. rewrite Hg. f_equal. apply (join_split "010"). }
  split.
  { intros p N. cbn. now rewrite dict_get_set_other by congruence. }
  split; [reflexivity|]. split; [reflexivity|].
  intros dk. apply (do_type_virtual h dk arg file_path _ s1 Ha); [|exact G].
  now apply (resolve_file_path_same_dir arg s s1).
Qed.

(** The endings of a session that discard what was typed: [QUIT], and
    Ctrl+C followed by an answer other than [y] or [yes], or by another
    Ctrl+C. *)
Lemma editor_loop_ending file_path ending lines s :
  discards ending ->
  exists out,
    ConsoleCommands.editor_loop h d file_path ending lines s
    = (Ok (Some tt), emit out s).
Proof.
  intros [(quit & -> & Hq)|[(answer & -> & Hn)| ->]].
  - rewrite (editor_loop_quit file_path quit _ _ _ Hq). eauto.
  - cbn [ConsoleCommands.editor_loop]. unfold ConsoleCommands.interrupted.
    unfold bind at 1. rewrite print_emit. cbv beta iota zeta. rewrite Hn.
    eexists [_; _]. cbn. unfold emit. cbn. now rewrite <- !app_assoc.
  - cbn [ConsoleCommands.editor_loop]. unfold ConsoleCommands.interrupted.
    unfold bind at 1. rewrite print_emit. cbv beta iota zeta.
    eexists [_; _]. cbn. unfold emit. cbn. now rewrite <- !app_assoc.
Qed.

Lemma editor_loop_discards file_path ending : forall typed lines s,
  Forall (fun line => PyStr.strip (PyStr.upper line) <> "SAVE"
                      /\ PyStr.strip (PyStr.upper line) <> "QUIT") typed ->
  discards ending ->
  exists out,
    ConsoleCommands.editor_loop h d file_path
      (map ConsoleCommands.Typed typed ++ ending)%list lines s
    = (Ok (Some tt), emit out s).
Proof.
  induction typed as [|line typed IH]; intros lines s H He.
  - cbn [map app]. now apply editor_loop_ending.
  - inversion H as [|? ? [H1 H2] H3]; subst. cbn [map app].
    cbn [ConsoleCommands.editor_loop]. cbv zeta.
    destruct (String.eqb (PyStr.strip (PyStr.upper line)) "LIST").
    + match goal with
      | |- exists out, bind ?m ?k ?st = _ =>
          assert (P : prints m);
            [|destruct (bind_prints m k st P) as ([] & out1 & ->)]
      end.
      { destruct lines; [apply prints_print|].
        apply prints_bind; [apply prints_print|intros _].
        apply prints_bind; [apply prints_print_numbered|intros _; apply prints_print]. }
      destruct (IH lines (emit out1 s) H3 He) as [out2 E]. rewrite E.
      rewrite emit_emit. eauto.
    + destruct (String.eqb (PyStr.strip (PyStr.upper line)) "SAVE") eqn:E1;
        [apply String.eqb_eq in E1; congruence|].
      destruct (String.eqb (PyStr.strip (PyStr.upper line)) "QUIT") eqn:E2;
        [apply String.eqb_eq in E2; congruence|].
      destruct (String.eqb (PyStr.strip (PyStr.upper line)) ""); apply IH; assumption.
Qed.

(** X21: leaving the editor without saving throws away what was typed.
    Whatever the argument of [ED], when none of the lines typed is
    [SAVE] or [QUIT] and the session ends with [QUIT], with Ctrl+C
    followed by an answer other than [y] or [yes], or with Ctrl+C twice,
    [ED] ends normally and has changed nothing but the output. *)
Theorem editor_quit_discards arg typed ending s :
  Forall (fun line => PyStr.strip (PyStr.upper line) <> "SAVE"
                      /\ PyStr.strip (PyStr.upper line) <> "QUIT") typed ->
  discards ending ->
  exists out,
    ConsoleCommands.do_ed h d read_lines arg
      (map ConsoleCommands.Typed typed ++ ending)%list s
    = (Ok (Some tt), emit out s).
Proof.
  intros Ht Hq. unfold ConsoleCommands.do_ed.
  destruct (PyStr.truthy arg); cbn [negb].
  2:{ eexists [_; _; _]. cbn. unfold emit. cbn. now rewrite <- !app_assoc. }
  destruct (String.eqb (PyStr.upper arg) "HELP").
  { eexists [_]. reflexivity. }
  destruct (resolve_file_path_ok arg s) as [p Hp].
  unfold bind at 1. rewrite Hp. cbv beta iota.
  destruct (PyStr.truthy p); cbn [negb].
  2:{ eexists [_]. reflexivity. }
  unfold bind at 1. cbn [get]. cbv beta iota.
  assert (C : exists content,
            (if Dict.mem p (WSAConsoleTerminal.files s)
             then text <- getitem (WSAConsoleTerminal.files s) p ;;
                  ret (PyStr.split "010" text)
             else if PyStr.startswith "DH0:" p && is_windows h
                  then try_catch
                         (match ConsoleCommands._get_fs_path h p with
                          | Some fs_path =>
                              if PyStr.truthy fs_path && os_path_exists h fs_path
                              then WSAConsoleTerminal.lift_outcome (read_lines fs_path)
                              else ret []
                          | None => ret []
                          end)
                         (fun _ => ret [])
                  else ret []) s = (Ok content, s)).
  { unfold Dict.mem, getitem.
    destruct (Dict.get (WSAConsoleTerminal.files s) p); [eexists; reflexivity|].
    destruct (PyStr.startswith "DH0:" p && is_windows h); [|eexists; reflexivity].
    unfold try_catch.
    destruct (ConsoleCommands._get_fs_path h p) as [fs_path|]; [|eexists; reflexivity].
    destruct (PyStr.truthy fs_path && os_path_exists h fs_path); [|eexists; reflexivity].
    destruct (read_lines fs_path); eexists; reflexivity. }
  destruct C as [content Hc]. unfold bind at 1. rewrite Hc. cbv beta iota.
  destruct (ed_editor_opens p content
              (map ConsoleCommands.Typed typed ++ ending)%list s)
    as [out1 ->].
  destruct (editor_loop_discards p ending typed content (emit out1 s) Ht Hq) as [out2 ->].
  rewrite emit_emit. eauto.
Qed.

End EditorProofs.

(** ** The configuration files of the emulators *)

Section ParserProofs.

Import EmulatorSharedFolder.

Variable h : Host.
Variable read_config_lines : string -> reading.

(** A property of the entries of a dictionary that a parser keeps: each
    line adds one entry at most, and such an entry has the property. *)
Lemma parsed_invariant (P : string -> Folder -> Prop)
    (step : Dict.t Folder -> string -> Dict.t Folder) :
  (forall d raw, step d raw = d \/
                 exists dev f, step d raw = Dict.set d dev f /\ P dev f) ->
  forall lines d,
    NoDup (Dict.keys d) ->
    (forall dev f, Dict.get d dev = Some f -> P dev f) ->
    NoDup (Dict.keys (fold_left step lines d)) /\
    (forall dev f, Dict.get (fold_left step lines d) dev = Some f -> P dev f).
Proof.
  intros Hstep. induction lines as [|raw lines IH]; intros d N I; [auto|].
  cbn [fold_left]. apply IH.
  - destruct (Hstep d raw) as [->|(dev & f & -> & _)]; [exact N|].
    now apply dict_nodup_set.
  - intros dev f G. destruct (Hstep d raw) as [E|(dev' & f' & E & Hp)];
      rewrite E in G; [now apply I|].
    destruct (string_dec dev' dev) as [->|Ne].
    + rewrite dict_get_set_same in G. now injection G as <-.
    + rewrite dict_get_set_other in G by exact Ne. now apply I.
Qed.

Lemma parse_winuae_line_step d raw :
  parse_winuae_line h d raw = d \/
  exists dev f,
    parse_winuae_line h d raw = Dict.set d dev f /\
    (PyStr.endswith ":" dev = true /\ os_path_exists h (path f) = true).
Proof.
  unfold parse_winuae_line. cbv zeta.
  destruct (PyStr.startswith "filesystem2=" (PyStr.strip raw)); [|now left].
  destruct (nth_error _ 1) as [fields|]; [|now left].
  destruct (3 <=? List.length (PyStr.split "," fields))%nat; [|now left].
  destruct (PyStr.split "," fields) as [|access_mode [|device_info rest]];
    [now left|now left|].
  destruct (PyStr.contains ":" device_info); [|now left].
  destruct (3 <=? List.length (splitn ":" 2 device_info))%nat; [|now left].
  destruct (splitn ":" 2 device_info) as [|d0 [|label1 [|path1 more]]];
    try (now left).
  destruct (os_path_exists h path1) eqn:E; [|now left].
  right. eexists _, _. split; [reflexivity|]. split; [apply endswith_app|exact E].
Qed.

Lemma parse_fsuae_line_step d raw :
  parse_fsuae_line h d raw = d \/
  exists dev f,
    parse_fsuae_line h d raw = Dict.set d dev f /\
    (exists drive_num,
       dev = "DH" ++ drive_num ++ ":" /\
       label f = "Drive" ++ drive_num /\
       access f = "rw" /\
       os_path_isdir h (path f) = true).
Proof.
  unfold parse_fsuae_line. cbv zeta.
  destruct (PyStr.startswith "hard_drive_" (PyStr.strip raw)
            && PyStr.contains "=" (PyStr.strip raw)); [|now left].
  destruct (splitn "=" 1 (PyStr.strip raw)) as [|key [|value [|x more]]];
    try (now left).
  destruct (PyStr.contains "_" (PyStr.strip key)); [|now left].
  destruct (PyStr.endswith "_label" (PyStr.strip key)); [now left|].
  destruct (os_path_isdir h (PyStr.strip value)) eqn:E; [|now left].
  right. eexists _, _. split; [reflexivity|]. eexists. repeat split. exact E.
Qed.

(** X22: what the parsers of the configuration files return is a
    dictionary of folders that are on the host.  Every device recorded
    from a [.uae] file ends with a colon and its path exists; every
    device recorded from a [.fs-uae] file is [DH<n>:] with the label
    [Drive<n>], read-write, and its path is a directory; and no device
    is recorded twice.  This holds whether or not reading the file
    failed.  When reading fails with message [e], at the start or
    part-way, the parser prints the warning with [e] and returns the
    dictionary of the lines it got before the failure: the empty one when
    it got none.  When reading does not fail it prints nothing. *)
Theorem parsed_folders_are_on_the_host config_file :
  let r := read_config_lines config_file in
  (NoDup (Dict.keys (snd (_parse_winuae_config h read_config_lines config_file))) /\
   forall dev f,
     Dict.get (snd (_parse_winuae_config h read_config_lines config_file)) dev = Some f ->
     PyStr.endswith ":" dev = true /\ os_path_exists h (path f) = true) /\
  (NoDup (Dict.keys (snd (_parse_fsuae_config h read_config_lines config_file))) /\
   forall dev f,
     Dict.get (snd (_parse_fsuae_config h read_config_lines config_file)) dev = Some f ->
     exists drive_num,
       dev = "DH" ++ drive_num ++ ":" /\
       label f = "Drive" ++ drive_num /\
       access f = "rw" /\
       os_path_isdir h (path f) = true) /\
  (forall e, failed r = Some e ->
     _parse_winuae_config h read_config_lines config_file
     = (["Warning: Could not parse WinUAE config " ++ config_file ++ ": " ++ e],
        fold_left (parse_winuae_line h) (yielded r) []) /\
     _parse_fsuae_config h read_config_lines config_file
     = (["Warning: Could not parse FS-UAE config " ++ config_file ++ ": " ++ e],
        fold_left (parse_fsuae_line h) (yielded r) [])) /\
  (failed r = None ->
     _parse_winuae_config h read_config_lines config_file
     = ([], fold_left (parse_winuae_line h) (yielded r) []) /\
     _parse_fsuae_config h read_config_lines config_file
     = ([], fold_left (parse_fsuae_line h) (yielded r) [])) /\
  (yielded r = [] ->
     snd (_parse_winuae_config h read_config_lines config_file) = [] /\
     snd (_parse_fsuae_config h read_config_lines config_file) = []).
Proof.
  intros r. unfold _parse_winuae_config, _parse_fsuae_config. fold r. cbn [snd].
  split; [|split; [|split; [|split]]].
  - apply (parsed_invariant _ _ parse_winuae_line_step); [constructor|discriminate].
  - apply (parsed_invariant _ _ parse_fsuae_line_step); [constructor|discriminate].
  - intros e He. rewrite He. split; reflexivity.
  - intros He. rewrite He. split; reflexivity.
  - intros Hy. rewrite Hy. split; reflexivity.
Qed.

Lemma split_once_first c a b :
  PyStr.contains (String c EmptyString) a = false ->
  WSAConsoleTerminal.split_once c (a ++ String c b) = (a, b).
Proof.
  induction a as [|x a IH]; intros H; cbn [append WSAConsoleTerminal.split_once].
  - now rewrite Ascii.eqb_refl.
  - apply contains_char_cons in H. destruct H as [N H].
    destruct (Ascii.eqb x c) eqn:E; [apply Ascii.eqb_eq in E; congruence|].
    now rewrite (IH H).
Qed.

Lemma splitn_first c n a b :
  PyStr.contains (String c EmptyString) a = false ->
  splitn c (S n) (a ++ String c b) = a :: splitn c n b.
Proof.
  intros H. cbn [splitn]. rewrite contains_char_app. now rewrite (split_once_first c a b H).
Qed.

Lemma splitn_zero c s : splitn c 0 s = [s].
Proof. reflexivity. Qed.

(** X23: a well-formed [filesystem2=] line is parsed into its fields.
    When the last line the parser got from a [.uae] file is, blanks
    around it aside,
    [filesystem2=<access>,<device>:<label>:<path>,<rest>] with no comma
    in the four fields, no colon in the device and the label, and a path
    that exists, the parser records under [<device>:] that label, that
    path (colons and all) and that access mode, whatever the lines
    before, and prints nothing when reading the file did not fail. *)
Theorem winuae_line_is_parsed config_file before raw
    access_mode device label1 path1 rest :
  yielded (read_config_lines config_file) = (before ++ [raw])%list ->
  PyStr.strip raw
  = "filesystem2=" ++ access_mode ++ "," ++ device ++ ":" ++ label1 ++ ":" ++ path1
    ++ "," ++ rest ->
  PyStr.contains "," access_mode = false ->
  PyStr.contains "," device = false ->
  PyStr.contains "," label1 = false ->
  PyStr.contains "," path1 = false ->
  PyStr.contains ":" device = false ->
  PyStr.contains ":" label1 = false ->
  os_path_exists h path1 = true ->
  (failed (read_config_lines config_file) = None ->
   _parse_winuae_config h read_config_lines config_file
   = ([], snd (_parse_winuae_config h read_config_lines config_file))) /\
  Dict.get (snd (_parse_winuae_config h read_config_lines config_file)) (device ++ ":")
  = Some {| label := label1; path := path1; access := access_mode |}.
Proof.
  intros Hr Hs Ca Cd Cl Cp Dd Dl He.
  unfold _parse_winuae_config. cbv zeta. rewrite Hr. cbn [snd].
  split; [intros Hf; now rewrite Hf|].
  rewrite fold_left_app. cbn [fold_left].
  set (d := fold_left (parse_winuae_line h) before []).
  unfold parse_winuae_line. cbv zeta. rewrite Hs.
  unfold PyStr.startswith. rewrite prefix_app.
  change ("filesystem2=" ++ access_mode ++ "," ++ device ++ ":" ++ label1 ++ ":"
          ++ path1 ++ "," ++ rest)
    with ("filesystem2" ++ String "=" (access_mode ++ "," ++ device ++ ":" ++ label1
                                        ++ ":" ++ path1 ++ "," ++ rest)).
  rewrite (splitn_first "=" 0 "filesystem2" _ eq_refl), splitn_zero.
  cbn [nth_error].
  change (access_mode ++ "," ++ device ++ ":" ++ label1 ++ ":" ++ path1 ++ "," ++ rest)
    with (access_mode ++ String "," (device ++ ":" ++ label1 ++ ":" ++ path1
                                      ++ "," ++ rest)).
  rewrite (split_first "," access_mode _ Ca).
  assert (Ci : PyStr.contains "," (device ++ ":" ++ label1 ++ ":" ++ path1) = false).
  { rewrite !contains_char_app_split, Cd, Cl, Cp. reflexivity. }
  replace (device ++ ":" ++ label1 ++ ":" ++ path1 ++ "," ++ rest)
    with ((device ++ ":" ++ label1 ++ ":" ++ path1) ++ String "," rest)
    by (now rewrite !string_app_assoc).
  rewrite (split_first "," _ _ Ci).
  destruct (split_by_nonempty (Ascii.eqb ",") rest) as (r0 & rs & Er).
  unfold PyStr.split. rewrite Er. cbn [List.length Nat.leb].
  change (device ++ ":" ++ label1 ++ ":" ++ path1)
    with (device ++ String ":" (label1 ++ String ":" path1)).
  rewrite contains_char_app.
  rewrite (splitn_first ":" 1 device _ Dd), (splitn_first ":" 0 label1 _ Dl), splitn_zero.
  cbn [List.length Nat.leb]. rewrite He.
  apply dict_get_set_same.
Qed.

End ParserProofs.

(** * Change-directory, case by case

    What the two change-directory methods answer for a path, by the kind
    of the path: absolute or relative, in the virtual file system, in the
    overlay, on a mounted device, or up and down again ([../name]). *)

Lemma overlay_path_is_absolute path :
  PyStr.startswith "DH0:" (PyStr.upper path) = true ->
  PyStr.contains ":" path = true /\ path <> "" /\ path <> ".." /\
  PyStr.startswith "../" path = false.
Proof.
  intros H. split; [|split; [|split]].
  - rewrite <- contains_colon_upper.
    destruct (prefix_split _ _ H) as [rest ->].
    exact (contains_char_app ":" "DH0" rest).
  - intros ->. discriminate.
  - intros ->. discriminate.
  - destruct (PyStr.startswith "../" path) eqn:E; [|reflexivity].
    destruct (prefix_split _ _ E) as [rest ->]. discriminate.
Qed.

Lemma colon_path_is_not_up path :
  PyStr.contains ":" path = true -> path <> "" /\ path <> "..".
Proof. intros H. split; intros ->; discriminate. Qed.

Lemma web_probe_overlay_spec h new_path s :
  AmigaTerminal.probe_overlay h new_path s
  = match web_overlay_target h new_path with
    | Some d => (Ok (Some ""), snd (AmigaTerminal.enter d s))
    | None => (Ok None, s)
    end.
Proof.
  unfold AmigaTerminal.probe_overlay, web_overlay_target. cbv zeta.
  destruct (os_path_exists h _ && os_path_isdir h _); [reflexivity|].
  destruct (negb (PyStr.endswith "/" new_path)); cbn [andb]; [|reflexivity].
  destruct (os_path_exists h _ && os_path_isdir h _); reflexivity.
Qed.

Lemma web_cd_absolute h path s :
  PyStr.contains ":" path = true ->
  String.eqb (PyStr.upper path) "DH0:" = false ->
  AmigaTerminal.change_directory h path s
  = if PyStr.startswith "DH0:" (PyStr.upper path) && is_windows h then
      match web_overlay_target h path with
      | Some d => AmigaTerminal.enter d s
      | None => (Ok (AmigaTerminal.not_found path), s)
      end
    else if Dict.mem path (AmigaTerminal.directories s)
    then AmigaTerminal.enter path s
    else (Ok (AmigaTerminal.not_found path), s).
Proof.
  intros Hc Hn. destruct (colon_path_is_not_up _ Hc) as (Ne & Nu).
  unfold AmigaTerminal.change_directory. rewrite Hn.
  destruct path as [|c path]; [congruence|]. cbn [PyStr.truthy PyStr.is_empty negb].
  destruct (String.eqb (String c path) "..") eqn:E;
    [apply String.eqb_eq in E; congruence|].
  rewrite Hc.
  destruct (PyStr.startswith "DH0:" (PyStr.upper (String c path)) && is_windows h).
  - unfold bind at 1. unfold try_catch. rewrite web_probe_overlay_spec.
    destruct (web_overlay_target h (String c path)); reflexivity.
  - unfold bind at 1. cbn [get]. cbv beta iota.
    destruct (Dict.mem (String c path) (AmigaTerminal.directories s)); reflexivity.
Qed.

Lemma web_cd_relative h name s :
  PyStr.contains ":" name = false -> name <> "" -> name <> ".." ->
  let cur := AmigaTerminal.current_dir s in
  AmigaTerminal.change_directory h name s
  = if PyStr.startswith "DH0:" cur && is_windows h then
      match web_overlay_target h (web_overlay_child cur name) with
      | Some d => AmigaTerminal.enter d s
      | None => (Ok (AmigaTerminal.not_found name), s)
      end
    else if Dict.mem (child_path cur name) (AmigaTerminal.directories s)
            || listed_in (AmigaTerminal.directories s) cur name
    then AmigaTerminal.enter (child_path cur name) s
    else (Ok (AmigaTerminal.not_found name), s).
Proof.
  intros Hc Ne Nu cur.
  unfold AmigaTerminal.change_directory.
  rewrite (upper_without_colon_not_DH0 _ Hc).
  destruct name as [|c name]; [congruence|]. cbn [PyStr.truthy PyStr.is_empty negb].
  destruct (String.eqb (String c name) "..") eqn:E;
    [apply String.eqb_eq in E; congruence|].
  rewrite Hc. unfold bind at 1. cbn [get]. cbv beta iota. fold cur.
  destruct (PyStr.startswith "DH0:" cur && is_windows h).
  - unfold bind at 1. unfold try_catch. cbv zeta. rewrite web_probe_overlay_spec.
    unfold web_overlay_child.
    destruct (web_overlay_target h _); reflexivity.
  - cbv zeta. unfold child_path, listed_in.
    destruct (Dict.mem (if String.eqb cur "SYS:" then "SYS:" ++ String c name
                        else cur ++ "/" ++ String c name)
                (AmigaTerminal.directories s)); [reflexivity|].
    cbn [orb]. unfold Dict.mem, getitem.
    destruct (Dict.get (AmigaTerminal.directories s) cur) as [children|];
      cbn; [|reflexivity].
    now destruct (mem_str (String c name) children).
Qed.

Lemma console_probe_overlay_has h new_path s :
  WSAConsoleTerminal.probe_overlay h new_path s
  = if console_overlay_has h new_path
    then (Ok (Some ""), snd (WSAConsoleTerminal.enter new_path s))
    else (Ok None, s).
Proof.
  unfold WSAConsoleTerminal.probe_overlay, console_overlay_has, try_catch.
  destruct (WSAConsoleTerminal.is_wsl h || is_windows h); cbn [andb]; [|reflexivity].
  cbv zeta.
  destruct (os_path_exists h _ && os_path_isdir h _); reflexivity.
Qed.

Lemma console_cd_absolute h path s :
  PyStr.contains ":" path = true ->
  Dict.mem (EmulatorSharedFolder.device_name (first_segment path))
           (WSAConsoleTerminal.mounted_shared_folders s) = false ->
  String.eqb (PyStr.upper path) "DH0:" = false ->
  PyStr.startswith "../" path = false ->
  WSAConsoleTerminal._change_directory h path s
  = if PyStr.startswith "DH0:" (PyStr.upper path) then
      if console_overlay_has h path then WSAConsoleTerminal.enter path s
      else (Ok (WSAConsoleTerminal.not_found path), s)
    else if Dict.mem path (WSAConsoleTerminal.directories s)
    then WSAConsoleTerminal.enter path s
    else (Ok (WSAConsoleTerminal.not_found path), s).
Proof.
  intros Hc Hm Hn Hs. destruct (colon_path_is_not_up _ Hc) as (Ne & Nu).
  unfold WSAConsoleTerminal._change_directory.
  unfold bind at 1. cbn [get]. cbv beta iota.
  unfold bind at 1. rewrite console_device_of_spec. cbv beta iota. rewrite Hm, Hn.
  destruct (String.eqb path "..") eqn:E; [apply String.eqb_eq in E; congruence|].
  rewrite Hs. cbn [orb]. rewrite Hc.
  destruct (PyStr.startswith "DH0:" (PyStr.upper path)).
  - unfold bind at 1. rewrite console_probe_overlay_has.
    destruct (console_overlay_has h path); reflexivity.
  - destruct (Dict.mem path (WSAConsoleTerminal.directories s)); reflexivity.
Qed.

Lemma console_cd_relative_overlay h name s :
  PyStr.contains ":" name = false ->
  name <> ".." -> PyStr.startswith "../" name = false ->
  Dict.mem (EmulatorSharedFolder.device_name (first_segment name))
           (WSAConsoleTerminal.mounted_shared_folders s) = false ->
  PyStr.startswith "DH0:" (PyStr.upper (WSAConsoleTerminal.current_dir s)) = true ->
  let cur := WSAConsoleTerminal.current_dir s in
  WSAConsoleTerminal._change_directory h name s
  = if console_overlay_has h (console_overlay_child cur name)
    then WSAConsoleTerminal.enter (console_overlay_child cur name) s
    else (Ok (WSAConsoleTerminal.not_found name), s).
Proof.
  intros Hc Hdd Hds Hm Hw cur.
  unfold WSAConsoleTerminal._change_directory.
  unfold bind at 1. cbn [get]. cbv beta iota.
  unfold bind at 1. rewrite console_device_of_spec. cbv beta iota. rewrite Hm.
  rewrite (upper_without_colon_not_DH0 _ Hc).
  destruct (String.eqb name "..") eqn:E; [apply String.eqb_eq in E; congruence|].
  rewrite Hds. cbn [orb]. rewrite Hc, Hw. fold cur.
  unfold bind at 1. rewrite console_probe_overlay_has. unfold console_overlay_child.
  destruct (console_overlay_has h _); reflexivity.
Qed.

(** A path on a mounted device: the device itself is entered; below it
    the host decides. *)
Lemma console_cd_mounted h path info s :
  let device := EmulatorSharedFolder.device_name (first_segment path) in
  Dict.get (WSAConsoleTerminal.mounted_shared_folders s) device = Some info ->
  let sub_path := PyStr.drop (String.length device) path in
  let sub_path := if PyStr.startswith "/" sub_path then PyStr.drop 1 sub_path
                  else sub_path in
  let fs_path :=
    os_path_normpath h
      (os_path_join h (WSAConsoleTerminal.path info)
         (replace_char "/" (os_sep h) sub_path)) in
  WSAConsoleTerminal._change_directory h path s
  = if String.eqb path device then WSAConsoleTerminal.enter device s
    else if os_path_exists h fs_path && os_path_isdir h fs_path
    then WSAConsoleTerminal.enter path s
    else (Ok (WSAConsoleTerminal.not_found path), s).
Proof.
  intros device G sub_path sub_path' fs_path.
  unfold WSAConsoleTerminal._change_directory.
  unfold bind at 1. cbn [get]. cbv beta iota.
  unfold bind at 1. rewrite console_device_of_spec. cbv beta iota. fold device.
  unfold Dict.mem. rewrite G.
  unfold WSAConsoleTerminal._change_shared_folder_directory.
  unfold bind at 1. cbn [get]. cbv beta iota.
  unfold getitem. rewrite G.
  unfold bind at 1. cbn [ret]. cbv beta iota zeta.
  destruct (String.eqb path device); [reflexivity|].
  fold sub_path. fold sub_path'. fold fs_path.
  destruct (os_path_exists h fs_path); destruct (os_path_isdir h fs_path); reflexivity.
Qed.

(** Up and down again: [../target]. *)
Lemma console_cd_up_target h target s :
  target <> "" ->
  Dict.mem "..:" (WSAConsoleTerminal.mounted_shared_folders s) = false ->
  WSAConsoleTerminal.current_dir s <> "SYS:" ->
  exists parent_dir,
    WSAConsoleTerminal.parent_of (WSAConsoleTerminal.current_dir s) s
    = (Ok parent_dir, s) /\
    let new_path := if PyStr.endswith ":" parent_dir
                    then parent_dir ++ target
                    else parent_dir ++ "/" ++ target in
    WSAConsoleTerminal._change_directory h ("../" ++ target) s
    = if Dict.mem new_path (WSAConsoleTerminal.directories s)
      then WSAConsoleTerminal.enter new_path s
      else (Ok (WSAConsoleTerminal.not_found target), s).
Proof.
  intros Ht Hm Hc.
  destruct (console_parent_of_ok (WSAConsoleTerminal.current_dir s) s) as [p Hp].
  exists p. split; [exact Hp|]. cbv zeta.
  unfold WSAConsoleTerminal._change_directory.
  unfold bind at 1. cbn [get]. cbv beta iota.
  unfold bind at 1. rewrite console_device_of_spec. cbv beta iota.
  assert (F : first_segment ("../" ++ target) = "..").
  { unfold first_segment.
    change ("../" ++ target) with (".." ++ String "/" target).
    now rewrite (split_app_sep "/" ".." target). }
  rewrite F. change (EmulatorSharedFolder.device_name "..") with "..:". rewrite Hm.
  change (PyStr.upper ("../" ++ target))
    with (String "." (String "." (String "/" (PyStr.upper target)))).
  cbn [String.eqb Ascii.eqb Bool.eqb]. cbv beta iota.
  assert (P : PyStr.startswith "../" ("../" ++ target) = true) by apply prefix_app.
  rewrite P, orb_true_r.
  unfold WSAConsoleTerminal.change_directory_up.
  unfold bind at 1. cbn [get]. cbv beta iota.
  destruct (String.eqb (WSAConsoleTerminal.current_dir s) "SYS:") eqn:E;
    [apply String.eqb_eq in E; congruence|].
  rewrite P. unfold bind at 1. rewrite Hp. cbv beta iota.
  change (PyStr.drop 3 ("../" ++ target)) with target.
  destruct target as [|c target]; [congruence|].
  cbn [PyStr.truthy PyStr.is_empty negb].
  destruct (Dict.mem _ (WSAConsoleTerminal.directories s)); reflexivity.
Qed.

(** What the interpreters make of the answer: a [cd] command line of the
    web terminal returns it, [do_cd] of the console prints it. *)
Lemma execute_cd_returns_the_answer h line p0 rest s out s' :
  PyStr.split_ws (PyStr.strip line) = p0 :: rest ->
  PyStr.lower p0 = "cd" ->
  AmigaTerminal.change_directory h (PyStr.join " " rest)
    (snd (AmigaTerminal.history_append line s)) = (Ok out, s') ->
  AmigaTerminal.execute_command h line s = (Ok (AmigaTerminal.Text out), s').
Proof.
  intros Hp Hc H.
  rewrite (execute_command_ordinary h line p0 rest s Hp) by (now rewrite Hc).
  rewrite Hc. change (AmigaTerminal.dispatch h "cd" rest)
    with (AmigaTerminal.text_of (AmigaTerminal.change_directory h (PyStr.join " " rest))).
  unfold AmigaTerminal.text_of, bind. now rewrite H.
Qed.

Lemma do_cd_prints_the_answer h arg s out s' :
  arg <> "" -> out <> "" ->
  WSAConsoleTerminal._change_directory h arg s = (Ok out, s') ->
  WSAConsoleTerminal.do_cd h arg s = (Ok tt, emit [out] s').
Proof.
  intros Ha Ho H. unfold WSAConsoleTerminal.do_cd.
  destruct arg as [|c arg]; [congruence|]. cbn [PyStr.truthy PyStr.is_empty negb].
  unfold bind. rewrite H. destruct out; [congruence|]. reflexivity.
Qed.

(** C3: change-directory never raises; whenever it answers with a text
    other than the empty one the terminal, and with it the current
    directory, is exactly as before the call, and the text is one of the
    descriptive messages.  And it does answer with the text
    [Directory <path> not found.] whenever the device is unknown or the
    path does not exist, in both front ends: for a path with a device
    that is no directory of the virtual file system; for a name that is
    neither a directory below the current one nor listed among its
    children; for a path of the overlay, absolute or relative, where the
    host has no such directory; in the console also for a path on a
    mounted device that is no directory of the host folder, and for
    [../<path>] when the parent has no such directory.  Seen from the
    interpreters: a [cd] command line of the web terminal returns the
    answer of change-directory, and [do_cd] of the console prints it;
    neither raises. *)
Theorem change_directory_failure_is_reported
    (h : Host) (path : string)
    (ws : AmigaTerminal.State) (cs : WSAConsoleTerminal.State) :
  let web_cur := AmigaTerminal.current_dir ws in
  let web_dirs := AmigaTerminal.directories ws in
  let cur := WSAConsoleTerminal.current_dir cs in
  let dirs := WSAConsoleTerminal.directories cs in
  let mounted := WSAConsoleTerminal.mounted_shared_folders cs in
  let device := EmulatorSharedFolder.device_name (first_segment path) in
  (exists out ws',
     AmigaTerminal.change_directory h path ws = (Ok out, ws') /\
     (out = "" \/
      (ws' = ws /\
       AmigaTerminal.current_dir ws' = AmigaTerminal.current_dir ws /\
       web_cd_message path out))) /\
  (exists out cs',
     WSAConsoleTerminal._change_directory h path cs = (Ok out, cs') /\
     (out = "" \/
      (cs' = cs /\
       WSAConsoleTerminal.current_dir cs' = WSAConsoleTerminal.current_dir cs /\
       console_cd_message path out))) /\
  (forall line p0 rest,
     PyStr.split_ws (PyStr.strip line) = p0 :: rest ->
     PyStr.lower p0 = "cd" ->
     PyStr.join " " rest = path ->
     (exists out ws',
        AmigaTerminal.execute_command h line ws = (Ok (AmigaTerminal.Text out), ws') /\
        (out = "" \/
         (AmigaTerminal.current_dir ws' = AmigaTerminal.current_dir ws /\
          web_cd_message path out))) /\
     (forall out ws',
        AmigaTerminal.change_directory h path
          (snd (AmigaTerminal.history_append line ws)) = (Ok out, ws') ->
        AmigaTerminal.execute_command h line ws
        = (Ok (AmigaTerminal.Text out), ws'))) /\
  (path <> "" ->
   (exists cs',
      WSAConsoleTerminal.do_cd h path cs = (Ok tt, cs') /\
      (WSAConsoleTerminal._change_directory h path cs = (Ok "", cs') \/
       (WSAConsoleTerminal.current_dir cs' = WSAConsoleTerminal.current_dir cs /\
        exists msg, console_cd_message path msg /\ cs' = emit [msg] cs))) /\
   (WSAConsoleTerminal._change_directory h path cs
    = (Ok (WSAConsoleTerminal.not_found path), cs) ->
    WSAConsoleTerminal.do_cd h path cs
    = (Ok tt, emit ["Directory " ++ path ++ " not found."] cs))) /\
  ((PyStr.contains ":" path = true ->
    String.eqb (PyStr.upper path) "DH0:" = false ->
    PyStr.startswith "DH0:" (PyStr.upper path) && is_windows h = false ->
    Dict.mem path web_dirs = false ->
    AmigaTerminal.change_directory h path ws
    = (Ok ("Directory " ++ path ++ " not found." ++ PyStr.nl), ws)) /\
   (PyStr.contains ":" path = false -> path <> "" -> path <> ".." ->
    PyStr.startswith "DH0:" web_cur && is_windows h = false ->
    Dict.mem (child_path web_cur path) web_dirs = false ->
    listed_in web_dirs web_cur path = false ->
    AmigaTerminal.change_directory h path ws
    = (Ok ("Directory " ++ path ++ " not found." ++ PyStr.nl), ws)) /\
   (String.eqb (PyStr.upper path) "DH0:" = false ->
    PyStr.startswith "DH0:" (PyStr.upper path) && is_windows h = true ->
    web_overlay_target h path = None ->
    AmigaTerminal.change_directory h path ws
    = (Ok ("Directory " ++ path ++ " not found." ++ PyStr.nl), ws)) /\
   (PyStr.contains ":" path = false -> path <> "" -> path <> ".." ->
    PyStr.startswith "DH0:" web_cur && is_windows h = true ->
    web_overlay_target h (web_overlay_child web_cur path) = None ->
    AmigaTerminal.change_directory h path ws
    = (Ok ("Directory " ++ path ++ " not found." ++ PyStr.nl), ws))) /\
  ((PyStr.contains ":" path = true ->
    Dict.mem device mounted = false ->
    String.eqb (PyStr.upper path) "DH0:" = false ->
    PyStr.startswith "../" path = false ->
    PyStr.startswith "DH0:" (PyStr.upper path) = false ->
    Dict.mem path dirs = false ->
    WSAConsoleTerminal._change_directory h path cs
    = (Ok ("Directory " ++ path ++ " not found."), cs)) /\
   (PyStr.contains ":" path = false ->
    path <> ".." -> PyStr.startswith "../" path = false ->
    Dict.mem device mounted = false ->
    PyStr.startswith "DH0:" (PyStr.upper cur) = false ->
    Dict.mem (child_path cur path) dirs = false ->
    listed_in dirs cur path = false ->
    WSAConsoleTerminal._change_directory h path cs
    = (Ok ("Directory " ++ path ++ " not found."), cs)) /\
   (Dict.mem device mounted = false ->
    String.eqb (PyStr.upper path) "DH0:" = false ->
    PyStr.startswith "DH0:" (PyStr.upper path) = true ->
    console_overlay_has h path = false ->
    WSAConsoleTerminal._change_directory h path cs
    = (Ok ("Directory " ++ path ++ " not found."), cs)) /\
   (PyStr.contains ":" path = false ->
    path <> ".." -> PyStr.startswith "../" path = false ->
    Dict.mem device mounted = false ->
    PyStr.startswith "DH0:" (PyStr.upper cur) = true ->
    console_overlay_has h (console_overlay_child cur path) = false ->
    WSAConsoleTerminal._change_directory h path cs
    = (Ok ("Directory " ++ path ++ " not found."), cs)) /\
   (forall info,
      Dict.get mounted device = Some info ->
      path <> device ->
      (let sub_path := PyStr.drop (String.length device) path in
       let sub_path := if PyStr.startswith "/" sub_path then PyStr.drop 1 sub_path
                       else sub_path in
       let fs_path :=
         os_path_normpath h
           (os_path_join h (WSAConsoleTerminal.path info)
              (replace_char "/" (os_sep h) sub_path)) in
       os_path_exists h fs_path && os_path_isdir h fs_path = false) ->
      WSAConsoleTerminal._change_directory h path cs
      = (Ok ("Directory " ++ path ++ " not found."), cs)) /\
   (path <> "" ->
    Dict.mem "..:" mounted = false ->
    cur <> "SYS:" ->
    forall parent_dir,
      WSAConsoleTerminal.parent_of cur cs = (Ok parent_dir, cs) ->
      Dict.mem (if PyStr.endswith ":" parent_dir
                then parent_dir ++ path
                else parent_dir ++ "/" ++ path) dirs = false ->
      WSAConsoleTerminal._change_directory h ("../" ++ path) cs
      = (Ok ("Directory " ++ path ++ " not found."), cs))).
Proof.
  intros web_cur web_dirs cur dirs mounted device.
  split; [|split; [|split; [|split; [|split]]]].
  - destruct (web_cd_outcome_holds h path ws) as [[s' H]|(msg & H & _ & Hm)];
      rewrite H.
    + exists "", s'. split; [reflexivity|now left].
    + exists msg, ws. split; [reflexivity|]. right. repeat split; assumption.
  - destruct (console_cd_outcome_holds h path cs) as [[s' H]|(msg & H & _ & Hm)];
      rewrite H.
    + exists "", s'. split; [reflexivity|now left].
    + exists msg, cs. split; [reflexivity|]. right. repeat split; assumption.
  - intros line p0 rest Hp Hc Hj. subst path. split.
    + now apply execute_cd_failure_is_reported with (p0 := p0).
    + intros out ws' H. now apply execute_cd_returns_the_answer with (p0 := p0) (rest := rest).
  - intros Hn. split.
    + now apply do_cd_failure_is_reported.
    + intros H. apply do_cd_prints_the_answer; [exact Hn|discriminate|exact H].
  - split; [|split; [|split]].
    + intros Hc Hn Ho Hm. rewrite (web_cd_absolute h path ws Hc Hn), Ho.
      fold web_dirs. now rewrite Hm.
    + intros Hc Ne Nu Ho Hm Hl. rewrite (web_cd_relative h path ws Hc Ne Nu).
      fold web_cur web_dirs. now rewrite Ho, Hm, Hl.
    + intros Hn Ho Ht.
      apply andb_prop in Ho as Ho'. destruct Ho' as (Hs & _).
      destruct (overlay_path_is_absolute _ Hs) as (Hc & _).
      rewrite (web_cd_absolute h path ws Hc Hn), Ho. now rewrite Ht.
    + intros Hc Ne Nu Ho Ht. rewrite (web_cd_relative h path ws Hc Ne Nu).
      fold web_cur. now rewrite Ho, Ht.
  - split; [|split; [|split; [|split; [|split]]]].
    + intros Hc Hm Hn Hs Ho Hd. rewrite (console_cd_absolute h path cs Hc Hm Hn Hs), Ho.
      fold dirs. now rewrite Hd.
    + intros Hc Nu Hs Hm Ho Hd Hl.
      rewrite (console_cd_relative h path cs Hc Nu Hs Hm Ho).
      cbv zeta. fold cur dirs. unfold listed_in in Hl. now rewrite Hd, Hl.
    + intros Hm Hn Ho Hh.
      destruct (overlay_path_is_absolute _ Ho) as (Hc & _ & _ & Hs).
      rewrite (console_cd_absolute h path cs Hc Hm Hn Hs), Ho. now rewrite Hh.
    + intros Hc Nu Hs Hm Ho Hh.
      rewrite (console_cd_relative_overlay h path cs Hc Nu Hs Hm Ho).
      cbv zeta. fold cur. now rewrite Hh.
    + intros info G Nd Hf. unfold device in *. cbv zeta in Hf.
      rewrite (console_cd_mounted h path info cs G). cbv zeta. rewrite Hf.
      destruct (String.eqb path _) eqn:E; [apply String.eqb_eq in E; congruence|].
      reflexivity.
    + intros Ne Hm Hc parent_dir Hp Hd.
      destruct (console_cd_up_target h path cs Ne Hm Hc) as (p & Hp' & H).
      fold cur in Hp'. rewrite Hp in Hp'. injection Hp' as <-.
      cbv zeta in H. rewrite H. fold dirs. now rewrite Hd.
Qed.

Lemma change_directory_failure_is_reported_witness :
  (PyStr.split_ws (PyStr.strip "CD Nowhere") = ["CD"; "Nowhere"] /\
   PyStr.lower "CD" = "cd" /\
   PyStr.join " " ["Nowhere"] = "Nowhere" /\
   "Nowhere" <> "" /\ "Nowhere" <> ".." /\
   PyStr.contains ":" "Nowhere" = false /\
   PyStr.startswith "../" "Nowhere" = false /\
   Dict.mem (child_path "SYS:" "Nowhere") (AmigaTerminal.directories web_fresh) = false /\
   listed_in (AmigaTerminal.directories web_fresh) "SYS:" "Nowhere" = false /\
   Dict.mem (child_path "SYS:" "Nowhere") (WSAConsoleTerminal.directories console_fresh)
   = false /\
   listed_in (WSAConsoleTerminal.directories console_fresh) "SYS:" "Nowhere" = false /\
   Dict.mem "FOO:" (AmigaTerminal.directories web_fresh) = false /\
   Dict.mem "FOO:" (WSAConsoleTerminal.directories console_fresh) = false /\
   web_overlay_target windows_host "DH0:bar" = None /\
   console_overlay_has windows_host "DH0:bar" = false) /\
  AmigaTerminal.change_directory posix_host "Nowhere" web_fresh
  = (Ok ("Directory Nowhere not found." ++ PyStr.nl), web_fresh) /\
  AmigaTerminal.execute_command posix_host "CD Nowhere" web_fresh
  = (Ok (AmigaTerminal.Text ("Directory Nowhere not found." ++ PyStr.nl)),
     snd (AmigaTerminal.history_append "CD Nowhere" web_fresh)) /\
  WSAConsoleTerminal._change_directory posix_host "Nowhere" console_fresh
  = (Ok "Directory Nowhere not found.", console_fresh) /\
  WSAConsoleTerminal.do_cd posix_host "Nowhere" console_fresh
  = (Ok tt, emit ["Directory Nowhere not found."] console_fresh) /\
  AmigaTerminal.change_directory posix_host "FOO:" web_fresh
  = (Ok ("Directory FOO: not found." ++ PyStr.nl), web_fresh) /\
  WSAConsoleTerminal._change_directory posix_host "FOO:" console_fresh
  = (Ok "Directory FOO: not found.", console_fresh) /\
  AmigaTerminal.change_directory windows_host "DH0:bar" AmigaTerminal.initial_fields
  = (Ok ("Directory DH0:bar not found." ++ PyStr.nl), AmigaTerminal.initial_fields) /\
  WSAConsoleTerminal._change_directory windows_host "DH0:bar"
    WSAConsoleTerminal.initial_fields
  = (Ok "Directory DH0:bar not found.", WSAConsoleTerminal.initial_fields).
Proof.
  assert (N1 : "Nowhere" <> "") by discriminate.
  assert (N2 : "Nowhere" <> "..") by discriminate.
  split; [repeat split; try reflexivity; assumption|].
  pose proof (change_directory_failure_is_reported posix_host "Nowhere"
                web_fresh console_fresh) as T.
  cbv zeta in T.
  destruct T as (_ & _ & Hi & Hd & (_ & W2 & _) & (_ & K2 & _)).
  pose proof (change_directory_failure_is_reported posix_host "Nowhere"
                (snd (AmigaTerminal.history_append "CD Nowhere" web_fresh))
                console_fresh) as T.
  cbv zeta in T.
  destruct T as (_ & _ & _ & _ & (_ & W2' & _) & _).
  pose proof (change_directory_failure_is_reported posix_host "FOO:"
                web_fresh console_fresh) as T.
  cbv zeta in T.
  destruct T as (_ & _ & _ & _ & (W1 & _) & (K1 & _)).
  pose proof (change_directory_failure_is_reported windows_host "DH0:bar"
                AmigaTerminal.initial_fields WSAConsoleTerminal.initial_fields) as T.
  cbv zeta in T.
  destruct T as (_ & _ & _ & _ & (_ & _ & W3 & _) & (_ & _ & K3 & _)).
  split; [exact (W2 eq_refl N1 N2 eq_refl eq_refl eq_refl)|].
  split.
  { apply (proj2 (Hi "CD Nowhere" "CD" ["Nowhere"] eq_refl eq_refl eq_refl)).
    exact (W2' eq_refl N1 N2 eq_refl eq_refl eq_refl). }
  split; [exact (K2 eq_refl N2 eq_refl eq_refl eq_refl eq_refl eq_refl)|].
  split.
  { apply (proj2 (Hd N1)).
    exact (K2 eq_refl N2 eq_refl eq_refl eq_refl eq_refl eq_refl). }
  split; [exact (W1 eq_refl eq_refl eq_refl eq_refl)|].
  split; [exact (K1 eq_refl eq_refl eq_refl eq_refl eq_refl eq_refl)|].
  split; [exact (W3 eq_refl eq_refl eq_refl)|].
  exact (K3 eq_refl eq_refl eq_refl eq_refl).
Defined.

(** * The startup script runners *)

(** C4: for every script text, both script runners do what the
    specification says, line by line, and never raise.  Each returns
    normally, and its result is the effect of the script: after the
    [Executing <name>...] header, a line that is empty after stripping or
    begins with [;] is skipped; any other line is executed, and when
    executing it raises an exception with message [e] the runner emits
    exactly [Error executing startup command '<line>': e] (added to the
    output with a newline in the web terminal, printed in the console) and
    goes on with the next line, from the state the failed line left.
    This holds for every host and state and, in the console, for every
    table of [do_*] methods. *)
Theorem startup_script_isolates_failures
    (h : Host)
    (other_do : string -> option (string -> M WSAConsoleTerminal.State unit))
    (name content : string)
    (ws : AmigaTerminal.State) (cs : WSAConsoleTerminal.State) :
  AmigaTerminal._run_startup_script h name content ws
  = (Ok (fst (web_script_effect h name content ws)),
     snd (web_script_effect h name content ws)) /\
  WSAConsoleTerminal._run_startup_script h other_do name content cs
  = (Ok tt, console_script_effect h other_do name content cs).
Proof.
  split.
  - apply web_run_startup_script_effect.
  - apply console_run_startup_script_effect.
Qed.

Example web_runner_goes_on_after_a_failure :
  AmigaTerminal._run_startup_script windows_host "S"
    ("; setup" ++ PyStr.nl ++ "info" ++ PyStr.nl ++ PyStr.nl ++ "echo ok")
    AmigaTerminal.initial_fields
  = (Ok ("Executing S..." ++ PyStr.nl ++
         "Error executing startup command 'info': psutil: access denied" ++ PyStr.nl ++
         "ok" ++ PyStr.nl),
     AmigaTerminal.initial_fields).
Proof. reflexivity. Qed.

(** * The overlay probes *)



(** * Logical assignments *)

(** C7 (the code departs from the claim): evaluated on a fresh console
    session, the resolver does replace the assignment [S:] by its target
    [SYS:S], the bare line [S:] becomes [cd SYS:S], [dir S:] lists
    [SYS:S], and [cd SYS:S] enters that directory; but the argument of
    [cd] is not resolved: the line [cd S:] reaches [do_cd] as it was
    typed, and [cd S:] looks [S:] itself up, answers
    [Directory S: not found.] and leaves the session where it was.  The
    file commands do not resolve their argument either: the file
    [SYS:S/Startup-Sequence] exists, and [type S:Startup-Sequence] reports
    it as not found. *)
Theorem alias_argument_is_not_substituted :
  WSAConsoleTerminal._resolve_path "S:" console_fresh = (Ok "SYS:S", console_fresh) /\
  WSAConsoleTerminal.precmd "S:" console_fresh = (Ok "cd SYS:S", console_fresh) /\
  WSAConsoleTerminal.do_dir posix_host "S:" console_fresh
  = WSAConsoleTerminal._list_files posix_host (Some "SYS:S") console_fresh /\
  WSAConsoleTerminal._change_directory posix_host "SYS:S" console_fresh
  = WSAConsoleTerminal.enter "SYS:S" console_fresh /\
  WSAConsoleTerminal.precmd "cd S:" console_fresh = (Ok "cd S:", console_fresh) /\
  WSAConsoleTerminal._change_directory posix_host "S:" console_fresh
  = (Ok "Directory S: not found.", console_fresh) /\
  WSAConsoleTerminal.do_cd posix_host "S:" console_fresh
  = (Ok tt, emit ["Directory S: not found."] console_fresh) /\
  WSAConsoleTerminal.current_dir
    (snd (WSAConsoleTerminal.do_cd posix_host "S:" console_fresh)) = "SYS:" /\
  WSAConsoleTerminal._resolve_path "S:Startup-Sequence" console_fresh
  = (Ok "SYS:S/Startup-Sequence", console_fresh) /\
  Dict.mem "SYS:S/Startup-Sequence" (WSAConsoleTerminal.files console_fresh) = true /\
  WSAConsoleTerminal._resolve_file_path "S:Startup-Sequence" console_fresh
  = (Ok "S:Startup-Sequence", console_fresh) /\
  ConsoleCommands.do_type posix_host (closed_disk "n") "S:Startup-Sequence" console_fresh
  = (Ok tt, emit ["TYPE: File 'S:Startup-Sequence' not found"] console_fresh).
Proof. vm_compute. repeat split. Qed.

Lemma alias_path_is_plain logical actual p :
  In (logical, actual) WSAConsoleTerminal.logical_assignments ->
  PyStr.startswith logical (PyStr.upper p) = true ->
  PyStr.contains ":" p = true /\
  String.eqb (PyStr.upper p) "DH0:" = false /\
  PyStr.startswith "DH0:" (PyStr.upper p) = false /\
  PyStr.startswith "../" p = false.
Proof.
  intros Hin Hp. destruct (alias_truthy _ _ Hin) as (_ & Hc & _ & _).
  split; [|split; [|split]].
  - rewrite <- contains_colon_upper.
    destruct (prefix_split _ _ Hp) as [rest ->]. now apply contains_prefix_app.
  - destruct (prefix_split _ _ Hp) as [rest ->]. simpl in Hin.
    repeat (destruct Hin as [Hin|Hin]; [inversion Hin; subst; clear Hin|]);
      try contradiction; reflexivity.
  - destruct (prefix_split _ _ Hp) as [rest ->]. simpl in Hin.
    repeat (destruct Hin as [Hin|Hin]; [inversion Hin; subst; clear Hin|]);
      try contradiction; reflexivity.
  - destruct (PyStr.startswith "../" p) eqn:E; [|reflexivity].
    destruct (prefix_split _ _ E) as [rest ->]. simpl in Hin.
    repeat (destruct Hin as [Hin|Hin]; [inversion Hin; subst; clear Hin|]);
      try contradiction; discriminate.
Qed.

(** X24: the resolver replaces a logical assignment, the commands [cd]
    and the file commands do not.  A path whose device prefix is a
    logical assignment, compared case-insensitively, resolves to the
    target of the assignment, followed by a slash and the remainder when
    there is one.  The resolved path starts with the target, its device
    is no logical assignment, and resolving it again changes nothing.
    The argument of [dir] is resolved this way before the listing looks
    the device up, and a line that is just the assignment becomes [cd] to
    its target before dispatch.  The path of a file command is left as it
    is, and change-directory looks the path itself up among the
    directories, whatever the target of the assignment. *)
Theorem alias_prefix_is_substituted
    (h : Host) (p logical actual : string) (s : WSAConsoleTerminal.State) :
  In (logical, actual) WSAConsoleTerminal.logical_assignments ->
  PyStr.startswith logical (PyStr.upper p) = true ->
  let remainder := PyStr.drop (String.length logical) p in
  let resolved := if PyStr.truthy remainder
                  then actual ++ "/" ++ remainder else actual in
  WSAConsoleTerminal._resolve_path p s = (Ok resolved, s) /\
  PyStr.startswith actual resolved = true /\
  alias_prefixed resolved = false /\
  WSAConsoleTerminal._resolve_path resolved s = (Ok resolved, s) /\
  (forall arg, PyStr.strip arg = p ->
     WSAConsoleTerminal.do_dir h arg s
     = WSAConsoleTerminal._list_files h (Some resolved) s) /\
  (forall line, PyStr.upper line = logical ->
     WSAConsoleTerminal.precmd line s = (Ok ("cd " ++ actual), s)) /\
  alias_prefixed actual = false /\
  WSAConsoleTerminal._resolve_file_path p s = (Ok p, s) /\
  (Dict.mem (EmulatorSharedFolder.device_name (first_segment p))
            (WSAConsoleTerminal.mounted_shared_folders s) = false ->
   WSAConsoleTerminal._change_directory h p s
   = if Dict.mem p (WSAConsoleTerminal.directories s)
     then WSAConsoleTerminal.enter p s
     else (Ok ("Directory " ++ p ++ " not found."), s)).
Proof.
  intros Hin Hp remainder resolved.
  assert (R : exists x, resolved = actual ++ x).
  { subst resolved. destruct (PyStr.truthy remainder).
    - eexists; reflexivity.
    - exists "". now rewrite string_app_empty. }
  destruct R as [x Rx].
  destruct (target_not_alias logical actual x Hin) as (Ha & Hc & Hs).
  rewrite <- Rx in Ha, Hc, Hs.
  assert (E : WSAConsoleTerminal._resolve_path p s = (Ok resolved, s))
    by exact (resolve_path_alias p logical actual s Hin Hp).
  destruct (alias_path_is_plain _ _ _ Hin Hp) as (Pc & Pn & Pd & Pu).
  split; [exact E|]. split; [exact Hs|]. split; [exact Ha|].
  split; [now apply resolve_path_without_alias|].
  split.
  { intros arg Harg. unfold WSAConsoleTerminal.do_dir. rewrite Harg.
    assert (Tp : PyStr.truthy p = true).
    { destruct (alias_truthy _ _ Hin) as (Ht & _).
      rewrite <- upper_nonempty. eapply prefix_truthy; eassumption. }
    rewrite Tp. unfold bind at 1. rewrite E. reflexivity. }
  split; [intros line Hl; now apply precmd_alias with (logical := logical)|].
  split.
  { destruct (target_not_alias logical actual "" Hin) as (Ha' & _).
    now rewrite string_app_empty in Ha'. }
  split.
  { unfold WSAConsoleTerminal._resolve_file_path. now rewrite Pc. }
  intros Hm. rewrite (console_cd_absolute h p s Pc Hm Pn Pu), Pd. reflexivity.
Qed.

Lemma alias_prefix_is_substituted_witness :
  (In ("S:", "SYS:S") WSAConsoleTerminal.logical_assignments /\
   PyStr.startswith "S:" (PyStr.upper "s:Startup-Sequence") = true /\
   Dict.mem (EmulatorSharedFolder.device_name (first_segment "s:Startup-Sequence"))
            (WSAConsoleTerminal.mounted_shared_folders console_fresh) = false) /\
  WSAConsoleTerminal._resolve_path "s:Startup-Sequence" console_fresh
  = (Ok "SYS:S/Startup-Sequence", console_fresh) /\
  WSAConsoleTerminal.precmd "s:" console_fresh = (Ok "cd SYS:S", console_fresh) /\
  WSAConsoleTerminal._resolve_file_path "s:Startup-Sequence" console_fresh
  = (Ok "s:Startup-Sequence", console_fresh) /\
  WSAConsoleTerminal._change_directory posix_host "s:Startup-Sequence" console_fresh
  = (Ok "Directory s:Startup-Sequence not found.", console_fresh).
Proof.
  assert (Hin : In ("S:", "SYS:S") WSAConsoleTerminal.logical_assignments)
    by (simpl; left; reflexivity).
  split; [split; [exact Hin|split; reflexivity]|].
  destruct (alias_prefix_is_substituted posix_host "s:Startup-Sequence" "S:" "SYS:S"
              console_fresh Hin eq_refl) as (H1 & _ & _ & _ & _ & H2 & _ & H3 & H4).
  split; [exact H1|]. split; [apply H2; reflexivity|]. split; [exact H3|].
  rewrite (H4 eq_refl). reflexivity.
Defined.

(** ** Instances *)

Lemma cd_parent_pops_last_segment_witness :
  (PyStr.contains ":" "SYS" = false /\ PyStr.contains ":" "Prefs" = false /\
   PyStr.contains ":" "Env" = false /\ PyStr.contains "/" "Env" = false /\
   Dict.mem "..:" (WSAConsoleTerminal.mounted_shared_folders
                     (console_at "SYS:Prefs/Env" console_fresh)) = false /\
   WSAConsoleTerminal.current_dir (console_at "SYS:Prefs/Env" console_fresh)
   = "SYS" ++ ":" ++ "Prefs" ++ "/" ++ "Env") /\
  WSAConsoleTerminal.current_dir
    (snd (WSAConsoleTerminal._change_directory posix_host ".."
            (console_at "SYS:Prefs/Env" console_fresh))) = "SYS:Prefs".
Proof.
  split; [repeat split; reflexivity|].
  destruct (cd_parent_pops_last_segment posix_host "SYS" "Prefs" "Env"
              (web_at "SYS:Prefs/Env" web_fresh)
              (console_at "SYS:Prefs/Env" console_fresh)
              eq_refl eq_refl eq_refl eq_refl eq_refl) as (_ & H & _).
  rewrite (H eq_refl). reflexivity.
Defined.

Lemma cd_child_then_parent_returns_witness :
  (PyStr.contains ":" "RAM" = false /\ PyStr.contains ":" "" = false /\
   PyStr.contains ":" "T" = false /\ PyStr.contains "/" "T" = false /\
   "T" <> "" /\ "T" <> ".." /\
   AmigaTerminal.current_dir (web_at "RAM:" web_fresh) = "RAM" ++ ":" ++ "" /\
   PyStr.startswith "DH0:" ("RAM" ++ ":" ++ "") && is_windows posix_host = false /\
   fst (AmigaTerminal.change_directory posix_host "T" (web_at "RAM:" web_fresh))
   = Ok "") /\
  AmigaTerminal.current_dir
    (snd (AmigaTerminal.change_directory posix_host "T" (web_at "RAM:" web_fresh)))
  = "RAM:/T" /\
  AmigaTerminal.current_dir
    (snd (AmigaTerminal.change_directory posix_host ".."
            (snd (AmigaTerminal.change_directory posix_host "T"
                    (web_at "RAM:" web_fresh)))))
  = "RAM:".
Proof.
  assert (N1 : "T" <> "") by discriminate.
  assert (N2 : "T" <> "..") by discriminate.
  split; [repeat split; try reflexivity; assumption|].
  destruct (cd_child_then_parent_returns posix_host "RAM" "" "T"
              (web_at "RAM:" web_fresh)
              (snd (AmigaTerminal.change_directory posix_host "T"
                      (web_at "RAM:" web_fresh)))
              console_fresh console_fresh
              eq_refl eq_refl eq_refl eq_refl N1 N2) as (H & _).
  destruct (H eq_refl eq_refl eq_refl) as (H1 & H2).
  rewrite H1, H2. split; reflexivity.
Defined.

Lemma prompt_follows_current_directory_witness :
  prompt_follows web_fresh /\
  prompt_follows (session posix_host ["cd C"; "dir"; "cd .."; "ram:"] web_fresh).
Proof.
  split; [reflexivity|].
  apply (proj1 (prompt_follows_current_directory posix_host)). reflexivity.
Defined.

Lemma comment_only_script_is_a_no_op_witness :
  Forall (fun raw => PyStr.strip raw = "" \/
                     PyStr.startswith ";" (PyStr.strip raw) = true)
         (PyStr.split "010" "; setup") /\
  AmigaTerminal._run_startup_script posix_host "S:User-Startup" "; setup" web_fresh
  = (Ok ("Executing S:User-Startup..." ++ PyStr.nl), web_fresh).
Proof.
  assert (H : Forall (fun raw => PyStr.strip raw = "" \/
                                 PyStr.startswith ";" (PyStr.strip raw) = true)
                (PyStr.split "010" "; setup")).
  { constructor; [right; reflexivity|constructor]. }
  split; [exact H|].
  exact (proj1 (comment_only_script_is_a_no_op posix_host (fun _ => None)
                  "S:User-Startup" "; setup" web_fresh console_fresh H)).
Defined.

Lemma echo_in_scripts_and_at_the_prompt_witness :
  (PyStr.split "010" ("; hello" ++ PyStr.nl ++ "Echo a  b" ++ PyStr.nl ++ "echo c")
   = (["; hello"] ++ "Echo a  b" :: ["echo c"])%list /\
   PyStr.startswith "echo " (PyStr.lower (PyStr.strip "Echo a  b")) = true) /\
  AmigaTerminal._run_startup_script posix_host "S"
    ("; hello" ++ PyStr.nl ++ "Echo a  b" ++ PyStr.nl ++ "echo c") web_fresh
  = (Ok ("Executing S..." ++ PyStr.nl ++ "a  b" ++ PyStr.nl ++ "c" ++ PyStr.nl),
     web_fresh) /\
  WSAConsoleTerminal._run_startup_script posix_host (fun _ => None) "S"
    ("; hello" ++ PyStr.nl ++ "Echo a  b" ++ PyStr.nl ++ "echo c") console_fresh
  = (Ok tt, emit ["Executing S..."; "a  b"; "c"] console_fresh) /\
  fst (AmigaTerminal.execute_command posix_host "Echo a  b" web_fresh)
  = Ok (AmigaTerminal.Text ("a b" ++ PyStr.nl)).
Proof.
  destruct (echo_in_scripts_and_at_the_prompt posix_host (fun _ => None) "S"
              ("; hello" ++ PyStr.nl ++ "Echo a  b" ++ PyStr.nl ++ "echo c")
              ["; hello"] "Echo a  b" ["echo c"] web_fresh console_fresh)
    as (H1 & H2).
  split; [split; reflexivity|].
  destruct (H1 eq_refl eq_refl) as (Hw & Hc).
  split; [rewrite Hw; reflexivity|].
  split; [rewrite Hc; reflexivity|].
  rewrite (H2 "Echo" ["a"; "b"] eq_refl eq_refl). reflexivity.
Defined.

Lemma unmounted_folder_is_gone_witness :
  NoDup (Dict.keys (WSAConsoleTerminal.mounted_shared_folders console_mounted)) /\
  exists m',
    EmulatorSharedFolder.unmount_shared_folder "shared"
      (WSAConsoleTerminal.mounted_shared_folders console_mounted)
    = (Ok (true, "SHARED: unmounted"), m') /\
    EmulatorSharedFolder.get_shared_folder_path "SHARED:" m' = (Ok None, m').
Proof.
  assert (N : NoDup (Dict.keys (WSAConsoleTerminal.mounted_shared_folders
                                  console_mounted))).
  { vm_compute. constructor; [simpl; tauto|constructor]. }
  split; [exact N|].
  destruct (unmounted_folder_is_gone "shared" _ N)
    as (ok & msg & m' & E & Hok & _ & _ & Hgone & _).
  exists m'. split; [|exact (Hgone "SHARED:" eq_refl)].
  rewrite E. vm_compute in E. injection E as <- <- _. reflexivity.
Defined.


Lemma copy_then_type_witness :
  (PyStr.split_ws "C:Info RAM:Copy" = ["C:Info"; "RAM:Copy"] /\
   Dict.get (WSAConsoleTerminal.files console_fresh) "C:Info"
   = Some "System information utility" /\
   PyStr.startswith "DH0:" "RAM:Copy" = false) /\
  exists s1,
    ConsoleCommands.do_copy posix_host (closed_disk "n") "C:Info RAM:Copy"
      console_fresh = (Ok tt, s1) /\
    ConsoleCommands.do_type posix_host (closed_disk "n") "RAM:Copy" s1
    = (Ok tt, emit ["System information utility"] s1).
Proof.
  split; [repeat split; reflexivity|].
  destruct (copy_then_type posix_host (closed_disk "n") "C:Info RAM:Copy"
              "C:Info" "RAM:Copy" [] "C:Info" "RAM:Copy"
              "System information utility" console_fresh
              eq_refl eq_refl eq_refl eq_refl eq_refl)
    as (s1 & E & _ & T & _).
  exists s1. split; [exact E|exact T].
Defined.

Lemma delete_asks_first_witness :
  (Dict.mem "C:Info" (WSAConsoleTerminal.files console_fresh) = true /\
   NoDup (Dict.keys (WSAConsoleTerminal.files console_fresh)) /\
   input (closed_disk " Yes ") ("Delete '" ++ "C:Info" ++ "' (y/N)? ") = Answer " Yes ") /\
  exists s1,
    ConsoleCommands.do_delete posix_host (closed_disk " Yes ") "C:Info" console_fresh
    = (Ok tt, s1) /\
    Dict.mem "C:Info" (WSAConsoleTerminal.files s1) = false.
Proof.
  assert (A : "C:Info" <> "") by discriminate.
  assert (N : NoDup (Dict.keys (WSAConsoleTerminal.files console_fresh))).
  { rewrite <- (eq_refl : nodup string_dec
                            (Dict.keys (WSAConsoleTerminal.files console_fresh))
                          = Dict.keys (WSAConsoleTerminal.files console_fresh)).
    apply NoDup_nodup. }
  split; [split; [reflexivity|split; [exact N|reflexivity]]|].
  destruct (delete_asks_first posix_host (closed_disk " Yes ") "C:Info" "C:Info" " Yes "
              console_fresh A eq_refl eq_refl N eq_refl)
    as (s1 & E & _ & _ & _ & H).
  exists s1. split; [exact E|].
  change (mem_str (PyStr.lower (PyStr.strip " Yes ")) ["y"; "yes"]) with true in H.
  apply H.
Defined.

Lemma mount_then_cd_witness :
  (PyStr.split_ws "shared FROM WinUAE A1200.uae"
   = ["shared"; "FROM"; "WinUAE"; "A1200.uae"] /\
   PyStr.contains "/" "shared" = false /\
   fst (EmulatorSharedFolder.mount_shared_folder sample_configs [] "shared" "WinUAE"
          (ConsoleCommands.strip_char (ascii_of_nat 34) (PyStr.join " " ["A1200.uae"]))
          (WSAConsoleTerminal.mounted_shared_folders console_fresh))
   = Ok (true, "SHARED: mounted from WinUAE config 'A1200.uae' (Work)")) /\
  WSAConsoleTerminal.current_dir
    (snd (WSAConsoleTerminal._change_directory posix_host "SHARED:" console_mounted))
  = "SHARED:".
Proof.
  assert (N1 : PyStr.upper "shared" <> "LIST") by discriminate.
  assert (N2 : PyStr.upper "shared" <> "UNMOUNT") by discriminate.
  split; [repeat split; reflexivity|].
  destruct (mount_then_cd posix_host sample_configs [] "/home/amiga"
              "shared FROM WinUAE A1200.uae" "shared" "FROM" "WinUAE" "A1200.uae" []
              "SHARED: mounted from WinUAE config 'A1200.uae' (Work)"
              console_fresh eq_refl eq_refl N1 N2 eq_refl eq_refl)
    as (s1 & warning & E & _ & _ & _ & H & _).
  assert (Hs : s1 = console_mounted).
  { unfold console_mounted. now rewrite E. }
  rewrite <- Hs. exact H.
Defined.

Lemma unmount_then_cd_witness :
  (PyStr.split_ws "unmount shared" = ["unmount"; "shared"] /\
   Dict.mem (EmulatorSharedFolder.device_name "shared")
            (WSAConsoleTerminal.mounted_shared_folders console_mounted) = true /\
   NoDup (Dict.keys (WSAConsoleTerminal.mounted_shared_folders console_mounted)) /\
   NoDup (Dict.keys (WSAConsoleTerminal.directories console_mounted))) /\
  exists s1,
    ConsoleCommands.do_mount posix_host sample_configs [] "/home/amiga"
      "unmount shared" console_mounted = (Ok tt, s1) /\
    WSAConsoleTerminal._change_directory posix_host "SHARED:" s1
    = (Ok "Directory SHARED: not found.", s1).
Proof.
  assert (Nm : NoDup (Dict.keys (WSAConsoleTerminal.mounted_shared_folders
                                   console_mounted))).
  { vm_compute. constructor; [simpl; tauto|constructor]. }
  assert (Nd : NoDup (Dict.keys (WSAConsoleTerminal.directories console_mounted))).
  { rewrite <- (eq_refl : nodup string_dec
                            (Dict.keys (WSAConsoleTerminal.directories console_mounted))
                          = Dict.keys (WSAConsoleTerminal.directories console_mounted)).
    apply NoDup_nodup. }
  split; [split; [reflexivity|split; [reflexivity|split; [exact Nm|exact Nd]]]|].
  destruct (unmount_then_cd posix_host sample_configs [] "/home/amiga"
              "unmount shared" "unmount" "shared" [] console_mounted
              eq_refl eq_refl eq_refl eq_refl eq_refl Nm Nd)
    as (s1 & E & _ & _ & _ & H).
  exists s1. split; [exact E|exact H].
Defined.

Lemma editor_saves_what_was_typed_witness :
  (WSAConsoleTerminal._resolve_file_path "RAM:Notes" console_fresh
   = (Ok "RAM:Notes", console_fresh) /\
   Forall (fun line => editor_command line = false) ["hello"; "  "; "world"] /\
   PyStr.strip (PyStr.upper "save") = "SAVE" /\
   PyStr.strip (PyStr.upper " Quit ") = "QUIT") /\
  exists s1,
    ConsoleCommands.do_ed posix_host (closed_disk "n") (fun p => Exn p) "RAM:Notes"
      [ConsoleCommands.Typed "hello"; ConsoleCommands.Typed "  ";
       ConsoleCommands.Typed "world"; ConsoleCommands.Typed "save";
       ConsoleCommands.Typed " Quit "] console_fresh
    = (Ok (Some tt), s1) /\
    Dict.get (WSAConsoleTerminal.files s1) "RAM:Notes"
    = Some ("hello" ++ PyStr.nl ++ PyStr.nl ++ "world").
Proof.
  assert (N : PyStr.upper "RAM:Notes" <> "HELP") by discriminate.
  assert (F : Forall (fun line => editor_command line = false) ["hello"; "  "; "world"]).
  { repeat constructor. }
  split; [split; [reflexivity|split; [exact F|split; reflexivity]]|].
  destruct (editor_saves_what_was_typed posix_host (closed_disk "n") (fun p => Exn p)
              "RAM:Notes" "RAM:Notes" ["hello"; "  "; "world"] "save" " Quit "
              console_fresh eq_refl N eq_refl eq_refl F eq_refl eq_refl)
    as (s1 & E & G & _).
  exists s1. split; [exact E|]. rewrite G. reflexivity.
Defined.

Lemma editor_quit_discards_witness :
  (Forall (fun line => PyStr.strip (PyStr.upper line) <> "SAVE"
                       /\ PyStr.strip (PyStr.upper line) <> "QUIT") ["hello"; "list"] /\
   discards [ConsoleCommands.CtrlC; ConsoleCommands.Typed "n"]) /\
  WSAConsoleTerminal.files
    (snd (ConsoleCommands.do_ed posix_host (closed_disk "n") (fun p => Exn p)
            "RAM:Notes"
            [ConsoleCommands.Typed "hello"; ConsoleCommands.Typed "list";
             ConsoleCommands.CtrlC; ConsoleCommands.Typed "n"] console_fresh))
  = WSAConsoleTerminal.files console_fresh.
Proof.
  assert (F : Forall (fun line => PyStr.strip (PyStr.upper line) <> "SAVE"
                                  /\ PyStr.strip (PyStr.upper line) <> "QUIT")
                ["hello"; "list"]).
  { repeat constructor; discriminate. }
  assert (D : discards [ConsoleCommands.CtrlC; ConsoleCommands.Typed "n"]).
  { right. left. exists "n". split; reflexivity. }
  split; [split; [exact F|exact D]|].
  destruct (editor_quit_discards posix_host (closed_disk "n") (fun p => Exn p)
              "RAM:Notes" ["hello"; "list"]
              [ConsoleCommands.CtrlC; ConsoleCommands.Typed "n"] console_fresh F D)
    as [out E].
  cbn [map app] in E. rewrite E. reflexivity.
Defined.

Lemma winuae_line_is_parsed_witness :
  (PyStr.strip ("  filesystem2=rw,DH1:Work:C:\foo\,0" ++ PyStr.nl)
   = "filesystem2=" ++ "rw" ++ "," ++ "DH1" ++ ":" ++ "Work" ++ ":" ++ "C:\foo\"
     ++ "," ++ "0" /\
   os_path_exists windows_host "C:\foo\" = true) /\
  EmulatorSharedFolder._parse_winuae_config windows_host
    (fun _ => {| EmulatorSharedFolder.yielded :=
                   ["; shared folders" ++ PyStr.nl;
                    "  filesystem2=rw,DH1:Work:C:\foo\,0" ++ PyStr.nl];
                 EmulatorSharedFolder.failed := None |})
    "A1200.uae"
  = ([], [("DH1:", {| EmulatorSharedFolder.label := "Work";
                      EmulatorSharedFolder.path := "C:\foo\";
                      EmulatorSharedFolder.access := "rw" |})]) /\
  Dict.get
    (snd (EmulatorSharedFolder._parse_winuae_config windows_host
            (fun _ => {| EmulatorSharedFolder.yielded :=
                           ["; shared folders" ++ PyStr.nl;
                            "  filesystem2=rw,DH1:Work:C:\foo\,0" ++ PyStr.nl];
                         EmulatorSharedFolder.failed := None |})
            "A1200.uae"))
    "DH1:"
  = Some {| EmulatorSharedFolder.label := "Work";
            EmulatorSharedFolder.path := "C:\foo\";
            EmulatorSharedFolder.access := "rw" |}.
Proof.
  split; [split; reflexivity|].
  destruct (winuae_line_is_parsed windows_host
              (fun _ => {| EmulatorSharedFolder.yielded :=
                             ["; shared folders" ++ PyStr.nl;
                              "  filesystem2=rw,DH1:Work:C:\foo\,0" ++ PyStr.nl];
                           EmulatorSharedFolder.failed := None |})
              "A1200.uae" ["; shared folders" ++ PyStr.nl]
              ("  filesystem2=rw,DH1:Work:C:\foo\,0" ++ PyStr.nl)
              "rw" "DH1" "Work" "C:\foo\" "0"
              eq_refl eq_refl eq_refl eq_refl eq_refl eq_refl eq_refl eq_refl
              eq_refl) as (H1 & H2).
  split; [|exact H2].
  rewrite (H1 eq_refl). reflexivity.
Defined.

Lemma parsed_folders_are_on_the_host_witness :
  (EmulatorSharedFolder.failed
     {| EmulatorSharedFolder.yielded :=
          ["filesystem2=rw,DH1:Work:C:\foo\,0" ++ PyStr.nl];
        EmulatorSharedFolder.failed := Some "disk error" |} = Some "disk error" /\
   EmulatorSharedFolder.yielded
     {| EmulatorSharedFolder.yielded := [];
        EmulatorSharedFolder.failed := Some "No such file" |} = []) /\
  EmulatorSharedFolder._parse_winuae_config windows_host
    (fun _ => {| EmulatorSharedFolder.yielded :=
                   ["filesystem2=rw,DH1:Work:C:\foo\,0" ++ PyStr.nl];
                 EmulatorSharedFolder.failed := Some "disk error" |})
    "A1200.uae"
  = (["Warning: Could not parse WinUAE config A1200.uae: disk error"],
     [("DH1:", {| EmulatorSharedFolder.label := "Work";
                  EmulatorSharedFolder.path := "C:\foo\";
                  EmulatorSharedFolder.access := "rw" |})]) /\
  EmulatorSharedFolder._parse_winuae_config windows_host
    (fun _ => {| EmulatorSharedFolder.yielded := [];
                 EmulatorSharedFolder.failed := Some "No such file" |}) "A1200.uae"
  = (["Warning: Could not parse WinUAE config A1200.uae: No such file"], []).
Proof.
  split; [split; reflexivity|]. split.
  - destruct (parsed_folders_are_on_the_host windows_host
                (fun _ => {| EmulatorSharedFolder.yielded :=
                               ["filesystem2=rw,DH1:Work:C:\foo\,0" ++ PyStr.nl];
                             EmulatorSharedFolder.failed := Some "disk error" |})
                "A1200.uae") as (_ & _ & H & _).
    rewrite (proj1 (H "disk error" eq_refl)). reflexivity.
  - destruct (parsed_folders_are_on_the_host windows_host
                (fun _ => {| EmulatorSharedFolder.yielded := [];
                             EmulatorSharedFolder.failed := Some "No such file" |})
                "A1200.uae") as (_ & _ & H & _ & _).
    rewrite (proj1 (H "No such file" eq_refl)). reflexivity.
Defined.

Lemma execute_isolates_failures_witness :
  (PyStr.truthy "RAM:boot" = true /\
   WSAConsoleTerminal._resolve_file_path "RAM:boot"
     (with_files [("RAM:boot", "info" ++ PyStr.nl ++ "echo ok")] console_fresh)
   = (Ok "RAM:boot",
      with_files [("RAM:boot", "info" ++ PyStr.nl ++ "echo ok")] console_fresh) /\
   Dict.get [("RAM:boot", "info" ++ PyStr.nl ++ "echo ok")] "RAM:boot"
   = Some ("info" ++ PyStr.nl ++ "echo ok")) /\
  ConsoleCommands.do_execute posix_host failing_do "RAM:boot"
    (with_files [("RAM:boot", "info" ++ PyStr.nl ++ "echo ok")] console_fresh)
  = (Ok tt,
     emit ["Executing RAM:boot...";
           "Error executing startup command 'info': no terminal";
           "ok"]
       (with_files [("RAM:boot", "info" ++ PyStr.nl ++ "echo ok")] console_fresh)).
Proof.
  split; [repeat split|].
  destruct (execute_isolates_failures posix_host failing_do "RAM:boot"
              (with_files [("RAM:boot", "info" ++ PyStr.nl ++ "echo ok")] console_fresh))
    as (_ & H & _).
  rewrite (proj2 (H "RAM:boot" ("info" ++ PyStr.nl ++ "echo ok")
                    eq_refl eq_refl eq_refl)).
  reflexivity.
Defined.

